(** * CIBIL report extractor: delinquency tokens, reasoning, default months

    A shallow embedding of [cibil/services/extractor.py], and of the reading
    of the report date in [cibil/services/processor.py].

    Text.  A Python [str] is a sequence of Unicode code points; it is modelled
    as [list N].  The character classes of [re] and of the [str] methods are
    given exactly on the ASCII range; beyond it the whitespace table is the one
    of CPython, and every other code point counts as caseless, non-digit and
    non-alphanumeric.  A statement that would not survive the classes of the
    interpreter beyond ASCII is made for ASCII text.

    Numbers.  Python [int] is [Z] (or [nat] where the code counts).  Python
    [float] is an IEEE 754 binary64 value, modelled with the Gallina
    operations of [SpecFloat]. *)

From Stdlib Require Import List ZArith NArith Lia Bool Ascii.
From Stdlib Require String.
Import String.StringSyntax.
Delimit Scope string_scope with string.
From Stdlib Require Import DecimalString Sorted Permutation.
From Stdlib Require Import SpecFloat QArith.
Import ListNotations.

Local Open Scope N_scope.
Local Open Scope list_scope.

(* ================================================================== *)
(** * Python strings *)
(* ================================================================== *)

Module Py.

Definition char := N.
Definition str := list char.

(** A literal of the source, as code points (ASCII literals only). *)
Definition lit (s : String.string) : str :=
  map N_of_ascii (String.list_ascii_of_string s).
Arguments lit s%_string.

Definition RUPEE : char := 8377.       (* U+20B9 *)
Definition ARROW : char := 8594.       (* U+2192 *)
Definition REGISTERED : char := 174.   (* U+00AE *)
Definition NL : char := 10.

Definition between (lo hi c : char) : bool := (lo <=? c) && (c <=? hi).

Definition is_digit (c : char) : bool := between 48 57 c.
Definition is_upper (c : char) : bool := between 65 90 c.
Definition is_lower (c : char) : bool := between 97 122 c.
Definition is_alpha (c : char) : bool := is_upper c || is_lower c.

(** [str.isspace] for one character, which is also [\s] of [re]. *)
Definition is_space (c : char) : bool :=
  between 9 13 c || between 28 32 c || (c =? 133) || (c =? 160)
  || (c =? 5760) || between 8192 8202 c || (c =? 8232) || (c =? 8233)
  || (c =? 8239) || (c =? 8287) || (c =? 12288).

(** [\w] of [re]. *)
Definition is_word (c : char) : bool := is_alpha c || is_digit c || (c =? 95).

Definition to_upper (c : char) : char := if is_lower c then c - 32 else c.
Definition to_lower (c : char) : char := if is_upper c then c + 32 else c.

Definition upper (s : str) : str := map to_upper s.
Definition lower (s : str) : str := map to_lower s.

Fixpoint eqb (a b : str) : bool :=
  match a, b with
  | [], [] => true
  | x :: a', y :: b' => (x =? y) && eqb a' b'
  | _, _ => false
  end.

(** [x in (a, b, ...)] for strings. *)
Definition mem (x : str) (l : list str) : bool := existsb (eqb x) l.

(** Truthiness of a string. *)
Definition truthy (s : str) : bool :=
  match s with [] => false | _ => true end.

Fixpoint lstrip (s : str) : str :=
  match s with
  | c :: t => if is_space c then lstrip t else s
  | [] => []
  end.

Definition rstrip (s : str) : str := rev (lstrip (rev s)).
Definition strip (s : str) : str := rstrip (lstrip s).

(** [str.isdigit]. *)
Definition isdigit (s : str) : bool := truthy s && forallb is_digit s.

(** [sep.join(parts)]. *)
Fixpoint join (sep : str) (parts : list str) : str :=
  match parts with
  | [] => []
  | [p] => p
  | p :: rest => p ++ sep ++ join sep rest
  end.

(** [s.split(c)] for a one-character separator: the current field [cur] is
    accumulated in reverse. *)
Fixpoint split_aux (c : char) (cur : str) (s : str) : list str :=
  match s with
  | [] => [rev cur]
  | x :: t => if x =? c then rev cur :: split_aux c [] t
              else split_aux c (x :: cur) t
  end.

Definition split (c : char) (s : str) : list str := split_aux c [] s.

(** [needle in hay] for strings. *)
Fixpoint prefixb (p s : str) : bool :=
  match p, s with
  | [], _ => true
  | x :: p', y :: s' => (x =? y) && prefixb p' s'
  | _ :: _, [] => false
  end.

Fixpoint contains (needle hay : str) : bool :=
  prefixb needle hay ||
  match hay with
  | [] => false
  | _ :: t => contains needle t
  end.

(** Lexicographic order on code points: [<] and [<=] of [str]. *)
Fixpoint compare (a b : str) : comparison :=
  match a, b with
  | [], [] => Eq
  | [], _ :: _ => Lt
  | _ :: _, [] => Gt
  | x :: a', y :: b' =>
      match N.compare x y with
      | Eq => compare a' b'
      | o => o
      end
  end.

Definition leb (a b : str) : bool :=
  match compare a b with Gt => false | _ => true end.

Definition ltb (a b : str) : bool :=
  match compare a b with Lt => true | _ => false end.

(** [str(n)] for a non-negative integer. *)
Definition of_nat (n : nat) : str := lit (NilZero.string_of_uint (Nat.to_uint n)).
Definition of_Z (z : Z) : str := lit (NilZero.string_of_int (Z.to_int z)).

(** [int(s)], base 10: surrounding whitespace, an optional sign, digits with
    single underscores between them.  [None] is [ValueError].  The
    separators U+001C to U+001F, which [str.strip] removes, are not
    whitespace for [int]. *)
Definition digit_val (c : char) : Z := Z.of_N (c - 48).

Definition is_int_space (c : char) : bool := is_space c && negb (between 28 31 c).

Fixpoint int_lstrip (s : str) : str :=
  match s with
  | c :: t => if is_int_space c then int_lstrip t else s
  | [] => []
  end.

Definition int_strip (s : str) : str := rev (int_lstrip (rev (int_lstrip s))).

Fixpoint int_digits (acc : Z) (after_underscore : bool) (s : str) : option Z :=
  match s with
  | [] => if after_underscore then None else Some acc
  | c :: t =>
      if is_digit c then int_digits (10 * acc + digit_val c) false t
      else if (c =? 95) && negb after_underscore then int_digits acc true t
      else None
  end.

Definition int_unsigned (s : str) : option Z :=
  match s with
  | c :: t => if is_digit c then int_digits (digit_val c) false t else None
  | [] => None
  end.

Definition int (s : str) : option Z :=
  match int_strip s with
  | 43 :: t => int_unsigned t
  | 45 :: t => option_map Z.opp (int_unsigned t)
  | s' => int_unsigned s'
  end.

(** [sorted(l)] on strings: stable insertion. *)
Fixpoint insert (x : str) (l : list str) : list str :=
  match l with
  | [] => [x]
  | y :: t => if leb x y then x :: l else y :: insert x t
  end.

Definition sorted (l : list str) : list str := fold_right insert [] l.

End Py.

Abbreviation str := Py.str.
Abbreviation char := Py.char.

(* ================================================================== *)
(** * Regular expressions of [re], by backtracking *)
(* ================================================================== *)

Module Re.

(** The fragment of [re] syntax that the patterns of the extractor use.
    Repetition is only ever applied to a character class in them. *)
Inductive re : Type :=
| Eps
| Chr (p : char -> bool)          (* one character of a class *)
| Seq (r1 r2 : re)
| Alt (r1 r2 : re)                (* ordered alternation *)
| StarG (p : char -> bool)        (* [p*], greedy *)
| StarL (p : char -> bool)        (* [p*?], lazy *)
| WordB                           (* [\b] *)
| Eol                             (* [$] without MULTILINE *)
| Grp (i : nat) (r : re).         (* capturing group number [i] *)

(** A position in the subject: the character before it, the text after it,
    and the groups captured so far (latest first). *)
Record mstate : Type := MState {
  m_prev : option char;
  m_rest : str;
  m_caps : list (nat * str)
}.

Definition word_opt (c : option char) : bool :=
  match c with Some x => Py.is_word x | None => false end.

Definition at_boundary (st : mstate) : bool :=
  xorb (word_opt (m_prev st)) (word_opt (hd_error (m_rest st))).

Definition at_eol (st : mstate) : bool :=
  match m_rest st with
  | [] => true
  | [c] => c =? Py.NL
  | _ => false
  end.

Definition orelse {A} (a : option A) (b : option A) : option A :=
  match a with Some x => Some x | None => b end.

Fixpoint star_greedy (p : char -> bool) (k : mstate -> option mstate)
    (prev : option char) (rest : str) (caps : list (nat * str)) : option mstate :=
  match rest with
  | c :: t =>
      if p c then orelse (star_greedy p k (Some c) t caps) (k (MState prev rest caps))
      else k (MState prev rest caps)
  | [] => k (MState prev [] caps)
  end.

Fixpoint star_lazy (p : char -> bool) (k : mstate -> option mstate)
    (prev : option char) (rest : str) (caps : list (nat * str)) : option mstate :=
  orelse (k (MState prev rest caps))
    match rest with
    | c :: t => if p c then star_lazy p k (Some c) t caps else None
    | [] => None
    end.

(** The text consumed between two positions of one subject. *)
Definition consumed (st st' : mstate) : str :=
  firstn (length (m_rest st) - length (m_rest st')) (m_rest st).

(** [rmatch r k st]: match [r] at [st], then the rest of the pattern [k];
    the first success in backtracking order. *)
Fixpoint rmatch (r : re) (k : mstate -> option mstate) (st : mstate) : option mstate :=
  match r with
  | Eps => k st
  | Chr p =>
      match m_rest st with
      | c :: t => if p c then k (MState (Some c) t (m_caps st)) else None
      | [] => None
      end
  | Seq r1 r2 => rmatch r1 (rmatch r2 k) st
  | Alt r1 r2 => orelse (rmatch r1 k st) (rmatch r2 k st)
  | StarG p => star_greedy p k (m_prev st) (m_rest st) (m_caps st)
  | StarL p => star_lazy p k (m_prev st) (m_rest st) (m_caps st)
  | WordB => if at_boundary st then k st else None
  | Eol => if at_eol st then k st else None
  | Grp i r' =>
      rmatch r' (fun st' =>
        k (MState (m_prev st') (m_rest st') ((i, consumed st st') :: m_caps st'))) st
  end.

(** A match object: the whole match and its groups. *)
Record rmatch_obj : Type := Match {
  mt_text : str;
  mt_caps : list (nat * str)
}.

Fixpoint cap_lookup (i : nat) (caps : list (nat * str)) : option str :=
  match caps with
  | [] => None
  | (j, w) :: t => if Nat.eqb i j then Some w else cap_lookup i t
  end.

(** [m.group(i)]: [None] when the group took no part in the match. *)
Definition group (i : nat) (m : rmatch_obj) : option str := cap_lookup i (mt_caps m).

(** A match starting exactly at a position. *)
Definition match_at (r : re) (prev : option char) (s : str) : option rmatch_obj :=
  let st := MState prev s [] in
  match rmatch r Some st with
  | Some st' => Some (Match (consumed st st') (m_caps st'))
  | None => None
  end.

(** [pattern.match(s)]. *)
Definition match_ (r : re) (s : str) : option rmatch_obj := match_at r None s.

(** [pattern.search(s)]: the leftmost position with a match. *)
Fixpoint search_from (r : re) (prev : option char) (s : str) : option rmatch_obj :=
  match match_at r prev s with
  | Some m => Some m
  | None =>
      match s with
      | [] => None
      | c :: t => search_from r (Some c) t
      end
  end.

Definition search (r : re) (s : str) : option rmatch_obj := search_from r None s.

(** [pattern.finditer(s)]: successive non-overlapping matches, left to right.
    [skip] counts the characters of the last match still to step over. *)
Fixpoint scan (r : re) (prev : option char) (s : str) (skip : nat) : list rmatch_obj :=
  match skip, s with
  | S k, c :: t => scan r (Some c) t k
  | S _, [] => []
  | O, _ =>
      match match_at r prev s with
      | Some m =>
          m :: match s with
               | [] => []
               | c :: t => scan r (Some c) t (pred (length (mt_text m)))
               end
      | None =>
          match s with
          | [] => []
          | c :: t => scan r (Some c) t 0
          end
      end
  end.

Definition finditer (r : re) (s : str) : list rmatch_obj := scan r None s 0.

(** [pattern.findall(s)] for a pattern without groups, and for a pattern
    with one group. *)
Definition findall0 (r : re) (s : str) : list str := map mt_text (finditer r s).

Definition findall1 (r : re) (s : str) : list str :=
  map (fun m => match group 1 m with Some w => w | None => [] end) (finditer r s).

(** ** Pattern combinators *)

Definition any_char : char -> bool := fun _ => true.
Definition dot_char : char -> bool := fun c => negb (c =? Py.NL).
Definition one (x : char) : char -> bool := fun c => c =? x.
Definition one_i (x : char) : char -> bool := fun c => Py.to_lower c =? Py.to_lower x.
Definition cls_or (p q : char -> bool) : char -> bool := fun c => p c || q c.
Definition cls_not (p : char -> bool) : char -> bool := fun c => negb (p c).

Definition seqs (rs : list re) : re := fold_right Seq Eps rs.
Definition alts (r : re) (rs : list re) : re := fold_left Alt rs r.
Definition lit_cs (s : str) : re := seqs (map (fun x => Chr (one x)) s).
Definition lit_ci (s : str) : re := seqs (map (fun x => Chr (one_i x)) s).
Definition plus_g (p : char -> bool) : re := Seq (Chr p) (StarG p).
Definition plus_l (p : char -> bool) : re := Seq (Chr p) (StarL p).
Definition opt_g (r : re) : re := Alt r Eps.
Definition digits_n (n : nat) : re := seqs (repeat (Chr Py.is_digit) n).

End Re.

(* ================================================================== *)
(** * Results of calls that may raise *)
(* ================================================================== *)

Inductive exn : Type :=
| ValueError (msg : str)
| IndexError
| TypeError
| FileNotFoundError (msg : str).

Inductive result (A : Type) : Type :=
| Ok (a : A)
| Raise (e : exn).
Arguments Ok {A} a.
Arguments Raise {A} e.

Definition bind {A B} (m : result A) (f : A -> result B) : result B :=
  match m with
  | Ok a => f a
  | Raise e => Raise e
  end.

Notation "x <- m ;; k" := (bind m (fun x => k))
  (at level 61, m at next level, right associativity).

(* ================================================================== *)
(** * Global patterns and the normalizers of [CIBILExtractor] *)
(* ================================================================== *)

Import Re.

(** [DPD_TOKEN_RE = re.compile(r'\b(?:000|XXX|STD|-|\d{3})\b', re.I)] *)
Definition DPD_TOKEN_RE : re :=
  Seq WordB
    (Seq (Alt (lit_ci (Py.lit "000"))
         (Alt (lit_ci (Py.lit "XXX"))
         (Alt (lit_ci (Py.lit "STD"))
         (Alt (lit_ci (Py.lit "-"))
              (digits_n 3)))))
         WordB).

(** [DPD_TOKEN_RE.findall] *)
Definition dpd_tokens (s : str) : list str := findall0 DPD_TOKEN_RE s.

(** [CLEAN_STATES = {"000", "XXX", "-", "STD"}] *)
Definition CLEAN_STATES : list str :=
  [Py.lit "000"; Py.lit "XXX"; Py.lit "-"; Py.lit "STD"].

(** [re.sub(r'[₹,\s]', '', s)] *)
Definition amount_noise : char -> bool :=
  cls_or (one Py.RUPEE) (cls_or (one 44) Py.is_space).

Definition sub_amount_noise (s : str) : str := filter (cls_not amount_noise) s.

(** [CIBILExtractor._clean_amount]; [None] is Python's [None]. *)
Definition _clean_amount (raw : option str) : str :=
  match raw with
  | None => Py.lit "0"
  | Some raw =>
      if negb (Py.truthy raw) then Py.lit "0"
      else
        let cleaned := sub_amount_noise (Py.strip raw) in
        if Py.isdigit cleaned then cleaned else Py.lit "0"
  end.

(** [CIBILExtractor._dpd_to_number] *)
Definition _dpd_to_number (status : str) : Z :=
  let status := Py.strip (Py.upper status) in
  if Py.mem status [Py.lit "STD"; Py.lit "000"; Py.lit "XXX"; Py.lit "-"] then 0%Z
  else
    match Py.int status with
    | Some n => n
    | None => 0%Z            (* except ValueError *)
    end.

(* ================================================================== *)
(** * What a pattern can match *)
(* ================================================================== *)

Module ReSem.
Import Re.

(** The character before the position reached after reading [w]. *)
Definition prev_after (prev : option char) (w : str) : option char :=
  last (map Some w) prev.

(** [matches r st w st']: from [st] the pattern [r] can read [w] and reach
    [st'].  The backtracking matcher only ever returns such matches. *)
Inductive matches : re -> mstate -> str -> mstate -> Prop :=
| M_Eps st : matches Eps st [] st
| M_Chr p st c t :
    m_rest st = c :: t -> p c = true ->
    matches (Chr p) st [c] (MState (Some c) t (m_caps st))
| M_Seq r1 r2 st w1 mid w2 out :
    matches r1 st w1 mid -> matches r2 mid w2 out ->
    matches (Seq r1 r2) st (w1 ++ w2) out
| M_AltL r1 r2 st w out : matches r1 st w out -> matches (Alt r1 r2) st w out
| M_AltR r1 r2 st w out : matches r2 st w out -> matches (Alt r1 r2) st w out
| M_StarG p st w t :
    m_rest st = w ++ t -> forallb p w = true ->
    matches (StarG p) st w (MState (prev_after (m_prev st) w) t (m_caps st))
| M_StarL p st w t :
    m_rest st = w ++ t -> forallb p w = true ->
    matches (StarL p) st w (MState (prev_after (m_prev st) w) t (m_caps st))
| M_WordB st : at_boundary st = true -> matches WordB st [] st
| M_Eol st : at_eol st = true -> matches Eol st [] st
| M_Grp i r st w out :
    matches r st w out ->
    matches (Grp i r) st w (MState (m_prev out) (m_rest out) ((i, w) :: m_caps out)).

End ReSem.

(* ================================================================== *)
(** * Python dictionaries (insertion ordered) *)
(* ================================================================== *)

Module Dict.

Definition dict (V : Type) : Type := list (str * V).

Fixpoint get {V} (d : dict V) (k : str) : option V :=
  match d with
  | [] => None
  | (k', v) :: t => if Py.eqb k k' then Some v else get t k
  end.

(** [d[k] = v]: an existing key keeps its place. *)
Fixpoint set {V} (d : dict V) (k : str) (v : V) : dict V :=
  match d with
  | [] => [(k, v)]
  | (k', v') :: t => if Py.eqb k k' then (k', v) :: t else (k', v') :: set t k v
  end.

Definition keys {V} (d : dict V) : list str := map fst d.
Definition values {V} (d : dict V) : list V := map snd d.
Definition has_key {V} (d : dict V) (k : str) : bool :=
  match get d k with Some _ => true | None => false end.

(** A dictionary holds each key once. *)
Definition wf {V} (d : dict V) : Prop := NoDup (keys d).

End Dict.

Abbreviation dict := Dict.dict.

(* ================================================================== *)
(** * Python floats *)
(* ================================================================== *)

Module PyFloat.

Definition prec : Z := 53.
Definition emax : Z := 1024.

Definition float : Type := spec_float.

(** [float(n)] for an integer, rounded to nearest-even. *)
Definition of_int (n : Z) : float := binary_normalize prec emax n 0 false.

(** [a / b] on integers with [b <> 0] (every division of the extractor is
    guarded by a non-empty list); exact operands below [2^53]. *)
Definition truediv (a b : Z) : float := SFdiv prec emax (of_int a) (of_int b).

(** The integer nearest to [num / den] for [den > 0], ties to even. *)
Definition round_half_even (num den : Z) : Z :=
  let q := (num / den)%Z in
  let r := (num mod den)%Z in
  match (2 * r ?= den)%Z with
  | Lt => q
  | Gt => (q + 1)%Z
  | Eq => if Z.even q then q else (q + 1)%Z
  end.

(** [10 * x] rounded to an integer, from the exact binary value of [x]. *)
Definition tenths (x : float) : option Z :=
  match x with
  | S754_zero _ => Some 0%Z
  | S754_finite s m e =>
      let v := if s then Z.neg m else Z.pos m in
      Some (if (0 <=? e)%Z then (10 * v * 2 ^ e)%Z
            else round_half_even (10 * v) (2 ^ (- e)))
  | _ => None
  end.

(** [round(x, 1)]: the decimal with one fractional digit nearest to the exact
    value of [x] (ties to even), converted back to a float; exact while
    [|x| < 2^49]. *)
Definition round1 (x : float) : float :=
  match x with
  | S754_finite _ _ _ =>
      match tenths x with
      | Some t => truediv t 10
      | None => x
      end
  | _ => x
  end.

(** The exact rational value of a finite float. *)
Definition to_Q (x : float) : Q :=
  match x with
  | S754_finite s m e =>
      let v := if s then Z.neg m else Z.pos m in
      if (0 <=? e)%Z then inject_Z (v * 2 ^ e) else Qmake v (Z.to_pos (2 ^ (- e)))
  | _ => 0%Q
  end.

(** The float written [d.f] in the source or in the specification, given as
    the number of tenths: [of_tenths 30] is [3.0]. *)
Definition of_tenths (t : Z) : float := truediv t 10.

End PyFloat.

Abbreviation float := PyFloat.float.

(* ================================================================== *)
(** * Deterioration reasoning *)
(* ================================================================== *)

(** [t in CLEAN_STATES] *)
Definition is_clean (t : str) : bool := Py.mem t CLEAN_STATES.

Definition dirty_examples : list str := [Py.lit "015"; Py.lit "032"; Py.lit "046"].

Definition quoted (s : str) : str := Py.lit "'" ++ s ++ Py.lit "'".

(** RULE 2, the loop [for i in range(len(dpd_values) - 1)]: the first adjacent
    pair whose two classifications differ. *)
Fixpoint first_transition (dpd_values : list str) : option (str * str) :=
  match dpd_values with
  | prev :: (curr :: _) as rest =>
      if negb (Bool.eqb (is_clean prev) (is_clean curr)) then Some (prev, curr)
      else first_transition rest
  | _ => None
  end.

(** RULE 3, the loop over [dirty_examples]. *)
Fixpoint first_explicit (examples : list str) (dpd_values : list str) : option str :=
  match examples with
  | [] => None
  | dirty :: rest =>
      if Py.mem dirty dpd_values then Some dirty else first_explicit rest dpd_values
  end.

(** One iteration of the loop over the years: [Some r] is [return r], [None]
    goes on to the next year. *)
Definition reasoning_of_year (year dpd_string : str) : option str :=
  if negb (Py.truthy dpd_string) then None
  else
    let dpd_values := map Py.upper (dpd_tokens dpd_string) in
    match dpd_values with
    | [] => None
    | _ =>
        let has_clean := existsb is_clean dpd_values in
        if negb has_clean && (0 <? length dpd_values)%nat then
          Some (Py.lit "COMPLETELY_DIRTY: " ++ Py.of_nat (length dpd_values)
                ++ Py.lit " dirty tokens in " ++ year)
        else
          match first_transition dpd_values with
          | Some (prev, curr) =>
              let direction :=
                if negb (is_clean curr) then Py.lit "CLEAN_TO_DIRTY"
                else Py.lit "DIRTY_TO_CLEAN" in
              Some (direction ++ Py.lit ": " ++ quoted prev ++ [Py.ARROW]
                    ++ quoted curr ++ Py.lit " in " ++ year)
          | None =>
              match first_explicit dirty_examples dpd_values with
              | Some dirty =>
                  Some (Py.lit "EXPLICIT_DIRTY: " ++ quoted dirty
                        ++ Py.lit " in " ++ year)
              | None => None
              end
          end
    end.

(** The loop [for year in sorted(dpd_history.keys())]. *)
Fixpoint reasoning_loop (dpd_history : dict str) (years : list str) : str :=
  match years with
  | [] => []
  | year :: rest =>
      match Dict.get dpd_history year with
      | Some dpd_string =>
          match reasoning_of_year year dpd_string with
          | Some r => r
          | None => reasoning_loop dpd_history rest
          end
      | None => reasoning_loop dpd_history rest   (* no such year: not reached *)
      end
  end.

(** [_get_deterioration_reasoning] *)
Definition _get_deterioration_reasoning (dpd_history : dict str) : str :=
  reasoning_loop dpd_history (Py.sorted (Dict.keys dpd_history)).

(** ** The three rules as the specification words them *)

Inductive finding : Type :=
| CompletelyDirty (count : nat)
| Transition (clean_to_dirty : bool) (prev curr : str)
| ExplicitDirty (code : str).

Definition render (f : finding) (year : str) : str :=
  match f with
  | CompletelyDirty n =>
      Py.lit "COMPLETELY_DIRTY: " ++ Py.of_nat n ++ Py.lit " dirty tokens in " ++ year
  | Transition to_dirty prev curr =>
      (if to_dirty then Py.lit "CLEAN_TO_DIRTY" else Py.lit "DIRTY_TO_CLEAN")
      ++ Py.lit ": " ++ quoted prev ++ [Py.ARROW] ++ quoted curr
      ++ Py.lit " in " ++ year
  | ExplicitDirty code =>
      Py.lit "EXPLICIT_DIRTY: " ++ quoted code ++ Py.lit " in " ++ year
  end.

(** What the analyses find in the text of a year: [DPD_TOKEN_RE.findall], in
    upper case. *)
Definition year_tokens (dpd_string : str) : list str :=
  map Py.upper (dpd_tokens dpd_string).

(** Position [i] starts an adjacent pair of different classification. *)
Definition transition_at (tokens : list str) (i : nat) (prev curr : str) : Prop :=
  nth_error tokens i = Some prev /\ nth_error tokens (S i) = Some curr /\
  is_clean prev <> is_clean curr.

(** [rule_fires tokens f]: [f] is what the first applicable rule yields. *)
Inductive rule_fires (tokens : list str) : finding -> Prop :=
| Rule1 :
    tokens <> [] -> Forall (fun t => is_clean t = false) tokens ->
    rule_fires tokens (CompletelyDirty (length tokens))
| Rule2 i prev curr :
    Exists (fun t => is_clean t = true) tokens ->
    transition_at tokens i prev curr ->
    (forall j p c, (j < i)%nat -> ~ transition_at tokens j p c) ->
    rule_fires tokens (Transition (negb (is_clean curr)) prev curr)
| Rule3 code :
    Exists (fun t => is_clean t = true) tokens ->
    (forall j p c, ~ transition_at tokens j p c) ->
    In code dirty_examples -> In code tokens ->
    rule_fires tokens (ExplicitDirty code).

(** No rule applies to the token sequence. *)
Definition no_rule (tokens : list str) : Prop :=
  (tokens = [] \/ Exists (fun t => is_clean t = true) tokens) /\
  (forall j p c, ~ transition_at tokens j p c) /\
  (forall code, In code dirty_examples -> ~ In code tokens).

(* ================================================================== *)
(** * Default months *)
(* ================================================================== *)

(** The loop [for idx, token in enumerate(tokens, start=1)]. *)
Fixpoint default_month_loop (idx : nat) (tokens : list str) : option nat :=
  match tokens with
  | [] => None
  | token :: rest =>
      if negb (is_clean token) then Some idx
      else default_month_loop (S idx) rest
  end.

(** [_default_month_for_year] *)
Definition _default_month_for_year (dpd_string : str) : option nat :=
  let tokens := map Py.upper (dpd_tokens dpd_string) in
  default_month_loop 1 tokens.

(** [_default_month_for_specific_year] *)
Definition _default_month_for_specific_year (dpd_history : dict str) (year : str)
  : option nat :=
  match Dict.get dpd_history year with
  | None => None
  | Some dpd_string =>
      if negb (Py.truthy dpd_string) then None
      else _default_month_for_year dpd_string
  end.

Definition sum_nat (l : list nat) : nat := fold_left Nat.add l 0%nat.

(** [round(sum(xs) / len(xs), 1)] on a non-empty list of integers. *)
Definition rounded_mean (xs : list nat) : float :=
  PyFloat.round1 (PyFloat.truediv (Z.of_nat (sum_nat xs)) (Z.of_nat (length xs))).

(** [_calculate_default_month_number] *)
Definition _calculate_default_month_number (dpd_history : dict str) : option float :=
  let yearly_defaults :=
    fold_left (fun acc dpd_string =>
                 match _default_month_for_year dpd_string with
                 | Some month => acc ++ [month]
                 | None => acc
                 end) (Dict.values dpd_history) [] in
  match yearly_defaults with
  | [] => None
  | _ => Some (rounded_mean yearly_defaults)
  end.

(* ================================================================== *)
(** * Accounts and enquiries *)
(* ================================================================== *)

(** An account dictionary as the segmenters build it; [None] is an absent
    key or Python's [None]. *)
Record account : Type := Account {
  account_index : option nat;
  original_html_index : option str;
  date_opened : option str;
  date_closed : option str;
  date_reported : option str;
  status : option str;
  account_type : option str;
  member_name : option str;
  sanctioned_amount : option str;
  current_balance : option str;
  overdue_amount : option str;
  dpd_history : dict str;
  deterioration_reasoning : str
}.

(** An account of the unified structure.  Its [dpd_summary] averages are
    read by none of the properties below and are left out. *)
Record unified_account : Type := Unified {
  u_account_index : option nat;
  u_original_html_index : option str;
  u_deterioration_reasoning : str;
  u_date_opened : option str;
  u_date_closed : option str;
  u_date_reported : option str;
  u_status : option str;
  u_account_type : option str;
  u_member_name : option str;
  u_sanctioned_amount : str;
  u_current_balance : str;
  u_overdue_amount : option str;
  u_default_month_number : option float;
  u_dpd_history : dict str
}.

Record enquiry : Type := Enquiry {
  date : str;
  parsed_date : option str;
  member : option str;
  purpose : option str;
  amount : option str
}.

(* ================================================================== *)
(** * Document-level default month *)
(* ================================================================== *)

(** [_calculate_dynamic_final_default_month]; [now_year] is
    [datetime.now().year], read in the calendar year of the call. *)
Definition _calculate_dynamic_final_default_month
    (now_year : Z) (accounts : list unified_account) : option float :=
  let current_year := Py.of_Z now_year in
  let previous_year := Py.of_Z (now_year - 1) in
  let '(current_year_values, fallback_values) :=
    fold_left
      (fun '(cur_vals, prev_vals) acc =>
         let dpd_history := u_dpd_history acc in
         let cur_vals' :=
           match _default_month_for_specific_year dpd_history current_year with
           | Some cur => cur_vals ++ [cur]
           | None => cur_vals
           end in
         let prev_vals' :=
           match _default_month_for_specific_year dpd_history previous_year with
           | Some prev => prev_vals ++ [prev]
           | None => prev_vals
           end in
         (cur_vals', prev_vals'))
      accounts ([], []) in
  if (5 <=? length current_year_values)%nat then
    Some (rounded_mean current_year_values)
  else
    let combined := current_year_values ++ fallback_values in
    match combined with
    | [] => None
    | _ => Some (rounded_mean combined)
    end.

(* ================================================================== *)
(** * Latest-month enquiry filter *)
(* ================================================================== *)

(** [month_data[year_month].append(enquiry)] on a [defaultdict(list)]. *)
Definition month_append (month_data : dict (list enquiry)) (year_month : str)
    (e : enquiry) : dict (list enquiry) :=
  match Dict.get month_data year_month with
  | Some group => Dict.set month_data year_month (group ++ [e])
  | None => Dict.set month_data year_month [e]
  end.

(** The key of an enquiry: [parsed_date[:7]] when the date is truthy. *)
Definition year_month (e : enquiry) : option str :=
  match parsed_date e with
  | Some d => if Py.truthy d then Some (firstn 7 d) else None
  | None => None
  end.

Definition group_by_month (all_enquiries : list enquiry) : dict (list enquiry) :=
  fold_left
    (fun month_data e =>
       match year_month e with
       | Some ym => month_append month_data ym e
       | None => month_data
       end)
    all_enquiries [].

(** [max] of a non-empty sequence of strings: the first maximal one. *)
Definition max_str (first : str) (others : list str) : str :=
  fold_left (fun best x => if Py.ltb best x then x else best) others first.

(** [_filter_latest_month_enquiries] *)
Definition _filter_latest_month_enquiries (all_enquiries : list enquiry)
  : list enquiry :=
  match all_enquiries with
  | [] => []
  | _ =>
      let month_data := group_by_month all_enquiries in
      match Dict.keys month_data with
      | [] => []
      | k :: ks =>
          let latest_month := max_str k ks in
          match Dict.get month_data latest_month with
          | Some group => group
          | None => []
          end
      end
  end.

(** The month the filter selects, when there is one. *)
Definition selected_month (all_enquiries : list enquiry) : option str :=
  match Dict.keys (group_by_month all_enquiries) with
  | [] => None
  | k :: ks => Some (max_str k ks)
  end.

(* ================================================================== *)
(** * DPD history of one account, page-text format *)
(* ================================================================== *)

(** [re.findall(r'\b(\d{2}-\d{2})\b', dpd_block)] *)
Definition MONTH_STAMP_RE : re :=
  Seq WordB
    (Seq (Grp 1 (Seq (digits_n 2) (Seq (Chr (one 45)) (digits_n 2))))
         WordB).

Definition month_stamps (s : str) : list str := findall1 MONTH_STAMP_RE s.

(** [yearly_dpd[year].append(token)], creating the list on first use. *)
Definition year_append (yearly_dpd : dict (list str)) (year token : str)
  : dict (list str) :=
  match Dict.get yearly_dpd year with
  | Some l => Dict.set yearly_dpd year (l ++ [token])
  | None => Dict.set yearly_dpd year [token]
  end.

(** The loop [for idx, month in enumerate(months[:len(tokens)])]. *)
Fixpoint pair_loop (months : list str) (idx : nat) (tokens : list str)
    (yearly_dpd : dict (list str)) : result (dict (list str)) :=
  match months with
  | [] => Ok yearly_dpd
  | month :: rest =>
      if (idx <? length tokens)%nat then
        match Py.split 45 month with
        | [mm; yy] =>
            let year := Py.lit "20" ++ yy in
            match nth_error tokens idx with
            | Some token => pair_loop rest (S idx) tokens (year_append yearly_dpd year token)
            | None => Raise IndexError
            end
        | _ => Raise (ValueError (Py.lit "unpack"))
        end
      else pair_loop rest (S idx) tokens yearly_dpd
  end.

(** [_extract_dpd_history_pdf] *)
Definition _extract_dpd_history_pdf (dpd_block : str) : result (dict str) :=
  let tokens := dpd_tokens dpd_block in
  let months := month_stamps dpd_block in
  match tokens with
  | [] => Ok []
  | _ =>
      yearly_dpd <- pair_loop (firstn (length tokens) months) 0 tokens [] ;;
      let dpd_history := map (fun '(year, dpds) => (year, Py.join (Py.lit " ") dpds)) yearly_dpd in
      match dpd_history with
      | [] => Ok [(Py.lit "UNKNOWN", Py.join (Py.lit " ") tokens)]
      | _ => Ok dpd_history
      end
  end.

(* ================================================================== *)
(** * Account segmentation, page-text format *)
(* ================================================================== *)

Definition colon_or_space : char -> bool := cls_or (one 58) Py.is_space.
Definition not_newline : char -> bool := cls_not (one Py.NL).
Definition digit_or_comma : char -> bool := cls_or Py.is_digit (one 44).

(** [\d{2}-\d{2}-\d{4}] *)
Definition DATE_DMY : re :=
  seqs [digits_n 2; Chr (one 45); digits_n 2; Chr (one 45); digits_n 4].

(** [patterns['dpd_header']]: [DAYS\s+PAST\s+DUE/ASSET\s+CLASSIFICATION], re.I *)
Definition DPD_HEADER_RE : re :=
  seqs [lit_ci (Py.lit "DAYS"); plus_g Py.is_space; lit_ci (Py.lit "PAST");
        plus_g Py.is_space; lit_ci (Py.lit "DUE/ASSET"); plus_g Py.is_space;
        lit_ci (Py.lit "CLASSIFICATION")].

(** [re.search(pattern, block, re.I)] followed by [match.group(1)]. *)
Definition search_group1 (r : re) (block : str) : option str :=
  match search r block with
  | Some m => group 1 m
  | None => None
  end.

(** [LABEL[:\s]*(value)] and [LABEL[:\s]*₹?([\d,]+)] *)
Definition labelled (label : str) (value : re) : re :=
  seqs [lit_ci label; StarG colon_or_space; Grp 1 value].

Definition labelled_amount (label : str) : re :=
  seqs [lit_ci label; StarG colon_or_space; opt_g (Chr (one Py.RUPEE));
        Grp 1 (plus_g digit_or_comma)].

(** [_extract_pdf_account_metadata]: the fields found in the block; the index,
    history and reasoning are filled in by the caller. *)
Definition _extract_pdf_account_metadata (block : str) : account :=
  let text_field r := option_map Py.strip (search_group1 r block) in
  let amount_field r :=
    match search_group1 r block with
    | Some g => Some (_clean_amount (Some g))
    | None => None
    end in
  {| account_index := None;
     original_html_index := None;
     date_opened := text_field (labelled (Py.lit "OPENED") DATE_DMY);
     date_closed := text_field (labelled (Py.lit "CLOSED") DATE_DMY);
     date_reported := text_field (labelled (Py.lit "REPORTED AND CERTIFIED") DATE_DMY);
     status := None;
     account_type := text_field (labelled (Py.lit "TYPE") (plus_g not_newline));
     member_name := text_field (labelled (Py.lit "MEMBER NAME") (plus_g not_newline));
     sanctioned_amount := amount_field (labelled_amount (Py.lit "SANCTIONED"));
     current_balance := amount_field (labelled_amount (Py.lit "CURRENT BALANCE"));
     overdue_amount := amount_field (labelled_amount (Py.lit "OVERDUE"));
     dpd_history := [];
     deterioration_reasoning := [] |}.

(** [[line.strip() for line in text.split('\n') if line.strip()]] *)
Definition stripped_lines (text : str) : list str :=
  filter Py.truthy (map Py.strip (Py.split Py.NL text)).

Definition is_dpd_header (line : str) : bool :=
  match search DPD_HEADER_RE line with Some _ => true | None => false end.

(** The line on which the next account begins. *)
Definition starts_next_account (line : str) : bool :=
  Py.contains (Py.lit "ACCOUNT") line && Py.contains (Py.lit "DATES") line
  && Py.contains (Py.lit "AMOUNTS") line && Py.contains (Py.lit "STATUS") line.

(** The inner loop [while j < len(lines)]: the lines after the header that
    belong to its grid. *)
Fixpoint dpd_part_lines (after_header : list str) : list str :=
  match after_header with
  | [] => []
  | l :: t =>
      if starts_next_account l then []
      else if is_dpd_header l then []
      else l :: dpd_part_lines t
  end.

(** [l[a:b]] for non-negative bounds. *)
Definition slice {A} (l : list A) (a b : nat) : list A := firstn (b - a) (skipn a l).

Definition max_accounts : nat := 200.

(** The account built at the header on line [i]. *)
Definition pdf_account_at (lines : list str) (i : nat) (header : str)
    (after_header : list str) (account_idx : nat) : result account :=
  let meta_start := Nat.max 0 (i - 25) in
  let meta_end := Nat.min (length lines) (i + 60) in
  let account_meta_block := Py.join [Py.NL] (slice lines meta_start meta_end) in
  let account := _extract_pdf_account_metadata account_meta_block in
  let dpd_parts := header :: dpd_part_lines after_header in
  let dpd_block := Py.join (Py.lit " ") dpd_parts in
  history <- _extract_dpd_history_pdf dpd_block ;;
  let reasoning := _get_deterioration_reasoning history in
  Ok {| account_index := Some account_idx;
        original_html_index := None;
        date_opened := date_opened account;
        date_closed := date_closed account;
        date_reported := date_reported account;
        status := None;
        account_type := account_type account;
        member_name := member_name account;
        sanctioned_amount := sanctioned_amount account;
        current_balance := current_balance account;
        overdue_amount := overdue_amount account;
        dpd_history := history;
        deterioration_reasoning := reasoning |}.

(** The loop [while i < len(lines)] of [extract_deteriorating_accounts_pdf].
    [rest] is [lines[i:]]; [skip] counts the lines the inner loop has already
    consumed (the assignment [i = j]). *)
Fixpoint deteriorating_loop (lines rest : list str) (i skip account_idx : nat)
  : result (list account) :=
  match rest with
  | [] => Ok []
  | line :: rest' =>
      match skip with
      | S k => deteriorating_loop lines rest' (S i) k account_idx
      | O =>
          if is_dpd_header line then
            if (max_accounts <? account_idx)%nat then Ok []          (* break *)
            else
              account <- pdf_account_at lines i line rest' account_idx ;;
              later <- deteriorating_loop lines rest' (S i)
                         (length (dpd_part_lines rest')) (S account_idx) ;;
              Ok (if Py.truthy (deterioration_reasoning account)
                  then account :: later else later)
          else deteriorating_loop lines rest' (S i) 0 account_idx
      end
  end.

(** [PDFAdvancedExtractor.extract_deteriorating_accounts_pdf] *)
Definition extract_deteriorating_accounts_pdf (text : str) : result (list account) :=
  let lines := stripped_lines text in
  deteriorating_loop lines lines 0 0 1.

(** Every account the loop builds, kept or not: one per grid header, up to
    the cap. *)
Fixpoint segmented_loop (lines rest : list str) (i skip account_idx : nat)
  : result (list account) :=
  match rest with
  | [] => Ok []
  | line :: rest' =>
      match skip with
      | S k => segmented_loop lines rest' (S i) k account_idx
      | O =>
          if is_dpd_header line then
            if (max_accounts <? account_idx)%nat then Ok []
            else
              account <- pdf_account_at lines i line rest' account_idx ;;
              later <- segmented_loop lines rest' (S i)
                         (length (dpd_part_lines rest')) (S account_idx) ;;
              Ok (account :: later)
          else segmented_loop lines rest' (S i) 0 account_idx
      end
  end.

Definition segmented_accounts_pdf (text : str) : result (list account) :=
  let lines := stripped_lines text in
  segmented_loop lines lines 0 0 1.

(* ================================================================== *)
(** * Account segmentation, markup format *)
(* ================================================================== *)

(** [year_pattern = re.compile(r'^\s*(\d{4})\s*$', re.I)], used with [match] *)
Definition YEAR_LINE_RE : re :=
  seqs [StarG Py.is_space; Grp 1 (digits_n 4); StarG Py.is_space; Eol].

(** The loop of [_extract_dpd_history_improved] over the stripped lines;
    [rest] is [lines[i:]], so [lines[i+1 : min(i+13, len(lines))]] is the
    first twelve lines after the current one. *)
Fixpoint dpd_history_loop (rest : list str) (history : dict str) : dict str :=
  match rest with
  | [] => history
  | line :: rest' =>
      match match_ YEAR_LINE_RE line with
      | Some m =>
          match group 1 m with
          | Some year =>
              let tokens := flat_map dpd_tokens (firstn 12 rest') in
              match tokens with
              | [] => dpd_history_loop rest' history
              | _ => dpd_history_loop rest'
                       (Dict.set history year (Py.join (Py.lit " ") tokens))
              end
          | None => dpd_history_loop rest' history
          end
      | None => dpd_history_loop rest' history
      end
  end.

(** [_extract_dpd_history_improved] *)
Definition _extract_dpd_history_improved (block : str) : dict str :=
  dpd_history_loop (stripped_lines block) [].

Definition not_newline_or (x : char) : char -> bool :=
  cls_not (cls_or (one Py.NL) (one x)).

(** The eight field patterns of [_extract_accounts_from_html]. *)
Definition HTML_DATE_OPENED : re :=
  seqs [lit_ci (Py.lit "DATE Opened"); StarG colon_or_space;
        Grp 1 (plus_l (not_newline_or 124))].
Definition HTML_DATE_CLOSED : re :=
  seqs [lit_ci (Py.lit "DATE CLOSED"); StarG colon_or_space;
        Grp 1 (plus_l (not_newline_or 124))].
Definition HTML_DATE_REPORTED : re :=
  seqs [lit_ci (Py.lit "DATE REPORTED"); StarG (not_newline_or 58);
        StarG colon_or_space; Grp 1 (plus_l (not_newline_or 124))].
Definition HTML_STATUS : re :=
  seqs [WordB;
        Grp 1 (Alt (lit_ci (Py.lit "inactive"))
              (Alt (lit_ci (Py.lit "active"))
              (Alt (lit_ci (Py.lit "STD"))
              (Alt (lit_ci (Py.lit "NA"))
                   (lit_ci (Py.lit "STANDARD"))))));
        WordB].
Definition html_labelled (label : str) : re :=
  seqs [lit_ci label; StarG Py.is_space; Chr (one 58); StarG Py.is_space;
        Grp 1 (plus_l (not_newline_or 58))].
Definition html_labelled_amount (label : str) : re :=
  seqs [lit_ci label; StarG Py.is_space; Chr (one 58); StarG Py.is_space;
        opt_g (Chr (one Py.RUPEE)); StarG Py.is_space;
        Grp 1 (plus_l (not_newline_or 58))].

(** [val if val and val not in (':', '') else None] *)
Definition html_text_value (val : str) : option str :=
  if Py.truthy val && negb (Py.mem val [Py.lit ":"; []]) then Some val else None.

(** [x or "0"] *)
Definition or_zero (x : str) : str := if Py.truthy x then x else Py.lit "0".

(** The account built from one surviving block; [i] is its position in the
    list of blocks. *)
Definition html_account_of_block (i : nat) (block : str) : account :=
  let text_field r :=
    match search_group1 r block with
    | Some g => html_text_value (Py.strip g)
    | None => None
    end in
  let amount_field r :=
    match search_group1 r block with
    | Some g => Some (or_zero (_clean_amount (Some (Py.strip g))))
    | None => Some (Py.lit "0")
    end in
  let history := _extract_dpd_history_improved block in
  {| account_index := None;
     original_html_index := Some (Py.of_nat (i + 1));
     date_opened := text_field HTML_DATE_OPENED;
     date_closed := text_field HTML_DATE_CLOSED;
     date_reported := text_field HTML_DATE_REPORTED;
     status := text_field HTML_STATUS;
     account_type := text_field (html_labelled (Py.lit "ACCOUNT TYPE"));
     member_name := text_field (html_labelled (Py.lit "MEMBER NAME"));
     sanctioned_amount := amount_field (html_labelled_amount (Py.lit "sanctioned amouNT"));
     current_balance := amount_field (html_labelled_amount (Py.lit "current balance"));
     overdue_amount := None;
     dpd_history := history;
     deterioration_reasoning := _get_deterioration_reasoning history |}.

(** The loop [for i, block in enumerate(account_blocks)]. *)
Fixpoint html_accounts_loop (account_blocks : list str) (i : nat) : list account :=
  match account_blocks with
  | [] => []
  | block :: rest =>
      let block := Py.strip block in
      if negb (Py.truthy block) || (length block <? 50)%nat then
        html_accounts_loop rest (S i)                       (* continue *)
      else html_account_of_block i block :: html_accounts_loop rest (S i)
  end.

(** [_extract_accounts_from_html], from the blocks that [re.split] cut out of
    the account section of the document text. *)
Definition _extract_accounts_from_html (account_blocks : list str) : list account :=
  html_accounts_loop account_blocks 0.

Definition NA : str := Py.lit "N/A".

(** [x or default] on an optional string. *)
Definition or_default (x : option str) (default : str) : str :=
  match x with
  | Some s => if Py.truthy s then s else default
  | None => default
  end.

Definition float_zero : float := S754_zero false.

(** [x or 0.0] on an optional float. *)
Definition or_float_zero (x : option float) : float :=
  match x with
  | Some (S754_zero _) => float_zero
  | Some f => f
  | None => float_zero
  end.

(** The loop [for idx, account in enumerate(accounts, 1)] of
    [HTMLExtractor._convert_html_accounts_to_unified]. *)
Fixpoint convert_html_loop (accounts : list account) (idx : nat) : list unified_account :=
  match accounts with
  | [] => []
  | acc :: rest =>
      {| u_account_index := Some idx;
         u_original_html_index := Some (or_default (original_html_index acc) NA);
         u_deterioration_reasoning := deterioration_reasoning acc;
         u_date_opened := Some (or_default (date_opened acc) NA);
         u_date_closed := Some (or_default (date_closed acc) NA);
         u_date_reported := Some (or_default (date_reported acc) NA);
         u_status := Some (or_default (status acc) NA);
         u_account_type := Some (or_default (account_type acc) NA);
         u_member_name := Some (or_default (member_name acc) NA);
         u_sanctioned_amount :=
           match sanctioned_amount acc with Some s => s | None => Py.lit "0" end;
         u_current_balance :=
           match current_balance acc with Some s => s | None => Py.lit "0" end;
         u_overdue_amount := None;
         u_default_month_number :=
           Some (or_float_zero (_calculate_default_month_number (dpd_history acc)));
         u_dpd_history := dpd_history acc |}
      :: convert_html_loop rest (S idx)
  end.

Definition _convert_html_accounts_to_unified (accounts : list account)
  : list unified_account :=
  convert_html_loop accounts 1.

(** [acc.get("default_month_number")] on a segmented account: the segmenter
    sets no such key. *)
Definition segmented_default_month_number (acc : account) : option float := None.

(** The accounts of [HTMLExtractor.extract]: the list handed to
    [_build_unified_structure], which returns it as [accounts_list]. *)
Definition html_accounts_list (account_blocks : list str) : list unified_account :=
  let accounts := _extract_accounts_from_html account_blocks in
  let unified_accounts := _convert_html_accounts_to_unified accounts in
  let accounts :=
    filter (fun acc =>
              match segmented_default_month_number acc with
              | Some _ => true
              | None => false
              end) accounts in
  unified_accounts.

(** The blocks that survive the length filter, with their positions. *)
Fixpoint surviving_blocks (account_blocks : list str) (i : nat) : list (nat * str) :=
  match account_blocks with
  | [] => []
  | block :: rest =>
      if (50 <=? length (Py.strip block))%nat
      then (i, Py.strip block) :: surviving_blocks rest (S i)
      else surviving_blocks rest (S i)
  end.

(* ================================================================== *)
(** * Credit score *)
(* ================================================================== *)

(** [PDFAdvancedExtractor.score_patterns], all compiled with [re.I | re.S] *)
Definition score_patterns : list re :=
  [ (* (\d{3})\s*1\.\s*PRESENCE\s+OF\s+DELINQUENCY.*?CREDITVISION *)
    seqs [Grp 1 (digits_n 3); StarG Py.is_space; Chr (one 49); Chr (one 46);
          StarG Py.is_space; lit_ci (Py.lit "PRESENCE"); plus_g Py.is_space;
          lit_ci (Py.lit "OF"); plus_g Py.is_space; lit_ci (Py.lit "DELINQUENCY");
          StarL any_char; lit_ci (Py.lit "CREDITVISION")];
    (* SCORE\s+NAME\s+SCORE.*?(\d{3}) *)
    seqs [lit_ci (Py.lit "SCORE"); plus_g Py.is_space; lit_ci (Py.lit "NAME");
          plus_g Py.is_space; lit_ci (Py.lit "SCORE"); StarL any_char;
          Grp 1 (digits_n 3)];
    (* SCORING FACTORS\s*\n\s*(\d{3}) *)
    seqs [lit_ci (Py.lit "SCORING FACTORS"); StarG Py.is_space; Chr (one Py.NL);
          StarG Py.is_space; Grp 1 (digits_n 3)];
    (* CREDITVISION.*?(\d{3})\s*\d *)
    seqs [lit_ci (Py.lit "CREDITVISION"); StarL any_char; Grp 1 (digits_n 3);
          StarG Py.is_space; Chr Py.is_digit] ].

(** The loop [for pattern in self.score_patterns].  [int(None)], which the
    [except] clause does not catch, is [TypeError]. *)
Fixpoint extract_score_loop (patterns : list re) (text : str) : result (option Z) :=
  match patterns with
  | [] => Ok None
  | pattern :: rest =>
      match search pattern text with
      | Some m =>
          match group 1 m with
          | None => Raise TypeError
          | Some g =>
              match Py.int g with
              | Some score =>
                  if ((300 <=? score) && (score <=? 900))%Z then Ok (Some score)
                  else extract_score_loop rest text
              | None => extract_score_loop rest text      (* except ValueError: continue *)
              end
          end
      | None => extract_score_loop rest text
      end
  end.

(** [PDFAdvancedExtractor.extract_score] *)
Definition extract_score (text : str) : result (option Z) :=
  extract_score_loop score_patterns text.

(** [-?\d{1,3}] *)
Definition SIGNED_UP_TO_3 : re :=
  seqs [opt_g (Chr (one 45)); Chr Py.is_digit;
        opt_g (Seq (Chr Py.is_digit) (opt_g (Chr Py.is_digit)))].

(** [_patterns['score']]:
    [CREDITVISION[®\s]*SCORE[:\s]*(-?\d{1,3})|SCORE[:\s]*(-?\d{1,3})], re.I *)
Definition SCORE_RE : re :=
  Alt (seqs [lit_ci (Py.lit "CREDITVISION");
             StarG (cls_or (one Py.REGISTERED) Py.is_space);
             lit_ci (Py.lit "SCORE"); StarG colon_or_space; Grp 1 SIGNED_UP_TO_3])
      (seqs [lit_ci (Py.lit "SCORE"); StarG colon_or_space; Grp 2 SIGNED_UP_TO_3]).

(** [_patterns['fallback_score']]: [(?:CREDIT|SCORE).*?(\d{3})\b], re.I | re.S *)
Definition FALLBACK_SCORE_RE : re :=
  seqs [Alt (lit_ci (Py.lit "CREDIT")) (lit_ci (Py.lit "SCORE")); StarL any_char;
        Grp 1 (digits_n 3); WordB].

(** The loop [for group in match.groups()] of [_first_match], over the
    [n] groups of the pattern. *)
Fixpoint first_truthy_group (m : rmatch_obj) (i n : nat) : option str :=
  match n with
  | O => None
  | S n' =>
      match group i m with
      | Some g => if Py.truthy g then Some (Py.strip g) else first_truthy_group m (S i) n'
      | None => first_truthy_group m (S i) n'
      end
  end.

(** [CIBILExtractor._first_match] for a pattern with [ngroups] groups. *)
Definition _first_match (text : str) (pattern : re) (ngroups : nat) : option str :=
  match search pattern text with
  | Some m => first_truthy_group m 1 ngroups
  | None => None
  end.

(** The ["score"] entry of [HTMLExtractor._extract_basic_info]. *)
Definition html_score (text : str) : option str :=
  match _first_match text SCORE_RE 2 with
  | Some s => if Py.truthy s then Some s else _first_match text FALLBACK_SCORE_RE 1
  | None => _first_match text FALLBACK_SCORE_RE 1
  end.

(* ================================================================== *)
(** * Dispatch on the file extension *)
(* ================================================================== *)

Inductive format : Type := PDF | HTML.

(** What the extractor does to the outside world, in order: it asks whether
    the path exists, and it runs a format extractor, which opens, reads and
    parses the file. *)
Inductive event : Type :=
| AskExists (path : str)
| RunExtractor (f : format) (path : str).

Section Dispatch.

(** The unified structure a format extractor returns. *)
Variable report : Type.
(** [Path(file_path).exists()] *)
Variable path_exists : str -> bool.
(** [Path(file_path).suffix] *)
Variable path_suffix : str -> str.
(** [PDFExtractor().extract] and [HTMLExtractor().extract] *)
Variable run_extractor : format -> str -> result report.

(** [self._extractors] *)
Definition _extractors : dict format :=
  [(Py.lit ".pdf", PDF); (Py.lit ".html", HTML); (Py.lit ".htm", HTML)].

(** [CIBILDataExtractor.extract]: the result and the events, in order. *)
Definition extract (file_path : str) : result report * list event :=
  if negb (path_exists file_path) then
    (Raise (FileNotFoundError (Py.lit "File not found: " ++ file_path)),
     [AskExists file_path])
  else
    let ext := Py.lower (path_suffix file_path) in
    match Dict.get _extractors ext with
    | None =>
        (Raise (ValueError (Py.lit "Unsupported format: " ++ ext)),
         [AskExists file_path])
    | Some f =>
        (run_extractor f file_path,
         [AskExists file_path; RunExtractor f file_path])
    end.

End Dispatch.

(** [PurePosixPath(p).suffix] as CPython 3.11 computes it: the last component
    that is neither empty nor [.], then its part from the last dot on when
    that dot is neither first nor last. *)
Definition path_name (p : str) : str :=
  last (filter (fun c => Py.truthy c && negb (Py.eqb c (Py.lit ".")))
               (Py.split 47 p)) [].

Fixpoint rfind_dot (name : str) (i : nat) (found : option nat) : option nat :=
  match name with
  | [] => found
  | c :: t => rfind_dot t (S i) (if c =? 46 then Some i else found)
  end.

Definition posix_suffix (p : str) : str :=
  let name := path_name p in
  match rfind_dot name 0 None with
  | Some i => if (0 <? i)%nat && (i <? length name - 1)%nat then skipn i name else []
  | None => []
  end.

(* ================================================================== *)
(** * The token vocabulary of the specification *)
(* ================================================================== *)

(** The clean sentinels. *)
Definition clean_sentinels : list str :=
  [Py.lit "000"; Py.lit "XXX"; Py.lit "STD"; Py.lit "-"].

(** A three-digit string. *)
Definition is_three_digits (t : str) : bool :=
  (length t =? 3)%nat && forallb Py.is_digit t.

(** A valid delinquency token: [000 | XXX | STD | - | <any 3 digits>]. *)
Definition is_valid_token (t : str) : bool :=
  Py.mem t clean_sentinels || is_three_digits t.

(** A token sequence of the vocabulary, in either letter case. *)
Definition token_sequence (tokens : list str) : Prop :=
  Forall (fun t => is_valid_token (Py.upper t) = true) tokens.

(** The text of a year in a history: both builders join the tokens of the
    year by single spaces. *)
Definition token_text (tokens : list str) : str := Py.join (Py.lit " ") tokens.

(** The tokens of a sequence other than the dashes, in upper case. *)
Definition tokens_but_dashes (tokens : list str) : list str :=
  map Py.upper (filter (fun t => negb (Py.eqb t (Py.lit "-"))) tokens).

(** A history given by the token sequence of each year, as it is stored. *)
Definition stored_history (years : dict (list str)) : dict str :=
  map (fun p => (fst p, token_text (snd p))) years.

(** Ascending order of a list of strings. *)
Definition ascending : list str -> Prop :=
  StronglySorted (fun a b => Py.leb a b = true).

(* ================================================================== *)
(** * Default months as the specification words them *)
(* ================================================================== *)

Definition option_list {A} (o : option A) : list A :=
  match o with Some a => [a] | None => [] end.

(** [m] is the 1-based position of the first non-clean token. *)
Definition first_dirty_position (tokens : list str) (m : nat) : Prop :=
  (1 <= m)%nat /\
  (exists t, nth_error tokens (m - 1) = Some t /\ is_clean t = false) /\
  (forall j t, (j < m - 1)%nat -> nth_error tokens j = Some t -> is_clean t = true).

(** The per-year default months of an account, over the years that have
    one. *)
Definition yearly_default_months (dpd_history : dict str) : list nat :=
  flat_map (fun dpd_string => option_list (_default_month_for_year dpd_string))
           (Dict.values dpd_history).

(** The default months that the accounts have for one year. *)
Definition year_values (year : str) (accounts : list unified_account) : list nat :=
  flat_map (fun acc =>
              option_list (_default_month_for_specific_year (u_dpd_history acc) year))
           accounts.

(** The exact arithmetic mean of a list of integers. *)
Definition exact_mean (xs : list nat) : Q :=
  Qmake (Z.of_nat (sum_nat xs)) (Pos.of_nat (length xs)).

(** A unified account that carries the given history and nothing else. *)
Definition unified_with_history (h : dict str) : unified_account :=
  {| u_account_index := None;
     u_original_html_index := None;
     u_deterioration_reasoning := [];
     u_date_opened := None;
     u_date_closed := None;
     u_date_reported := None;
     u_status := None;
     u_account_type := None;
     u_member_name := None;
     u_sanctioned_amount := Py.lit "0";
     u_current_balance := Py.lit "0";
     u_overdue_amount := None;
     u_default_month_number := _calculate_default_month_number h;
     u_dpd_history := h |}.

(* ================================================================== *)
(** * Months of enquiries as the specification words them *)
(* ================================================================== *)

(** The enquiry has a parsed date in the month with key [k]. *)
Definition in_month (k : str) (e : enquiry) : bool :=
  match year_month e with
  | Some k' => Py.eqb k' k
  | None => false
  end.

(** [k] is the key [YYYY-MM] of year [y] and month [m]. *)
Definition iso_month (k : str) (y m : Z) : Prop :=
  exists a1 a2 a3 a4 b1 b2,
    k = [a1; a2; a3; a4; 45; b1; b2] /\
    forallb Py.is_digit [a1; a2; a3; a4; b1; b2] = true /\
    y = (1000 * Py.digit_val a1 + 100 * Py.digit_val a2
         + 10 * Py.digit_val a3 + Py.digit_val a4)%Z /\
    m = (10 * Py.digit_val b1 + Py.digit_val b2)%Z.

(** Month [m1] of year [y1] is not after month [m2] of year [y2]. *)
Definition not_after (y1 m1 y2 m2 : Z) : Prop :=
  (y1 < y2)%Z \/ (y1 = y2 /\ (m1 <= m2)%Z).

(* ================================================================== *)
(** * Positional pairing as the specification words it *)
(* ================================================================== *)

(** The year a month stamp [MM-YY] encodes. *)
Definition stamp_year (month : str) : str := Py.lit "20" ++ skipn 3 month.

(** The tokens paired by position with a stamp of the given year: token [i]
    goes with month [i], for as long as both exist. *)
Definition tokens_of_year (months tokens : list str) (year : str) : list str :=
  map snd (filter (fun p => Py.eqb (stamp_year (fst p)) year) (combine months tokens)).

(** A month stamp: two digits, a dash, two digits. *)
Definition is_month_stamp (m : str) : Prop :=
  exists d1 d2 d3 d4,
    m = [d1; d2; 45; d3; d4] /\
    forallb Py.is_digit [d1; d2; d3; d4] = true.

(* ================================================================== *)
(** * Amount cleaning as the specification words it *)
(* ================================================================== *)

(** A thousands separator, the currency glyph, or whitespace. *)
Definition is_amount_noise (c : char) : bool :=
  (c =? 44) || (c =? Py.RUPEE) || Py.is_space c.

(** What is left of a raw amount once those characters are stripped. *)
Definition amount_remainder (raw : str) : str :=
  filter (fun c => negb (is_amount_noise c)) raw.

(* ================================================================== *)
(** * Score candidates as the specification words them *)
(* ================================================================== *)

(** The pattern has no capturing group. *)
Fixpoint no_groups (r : re) : bool :=
  match r with
  | Seq r1 r2 | Alt r1 r2 => no_groups r1 && no_groups r2
  | Grp _ _ => false
  | _ => true
  end.

(** The candidate of one pattern: the integer value of group 1 of its first
    match, when there is a match and the text converts. *)
Definition score_candidate (pattern : re) (text : str) : option Z :=
  match search pattern text with
  | Some m =>
      match group 1 m with
      | Some g => Py.int g
      | None => None
      end
  | None => None
  end.

(** The candidates of the score patterns, in the order of the patterns. *)
Definition score_candidates (text : str) : list Z :=
  flat_map (fun pattern => option_list (score_candidate pattern text)) score_patterns.

Definition plausible_score (s : Z) : bool := ((300 <=? s) && (s <=? 900))%Z.

(* ================================================================== *)
(** * Retention as the specification words it *)
(* ================================================================== *)

(** The unified account [u] is the account of the surviving block [b] at
    position [i]: it carries the block's index, history and reasoning. *)
Definition account_of_block (ib : nat * str) (u : unified_account) : Prop :=
  u_original_html_index u = Some (Py.of_nat (fst ib + 1)) /\
  u_dpd_history u = _extract_dpd_history_improved (snd ib) /\
  u_deterioration_reasoning u = _get_deterioration_reasoning (u_dpd_history u).

(** Two documents for the retention examples: a page text with a clean grid
    followed by a deteriorating one, and a markup block whose year is clean. *)
Definition example_page_text : str :=
  Py.join [Py.NL]
    [Py.lit "MEMBER NAME: ABC BANK";
     Py.lit "DAYS PAST DUE/ASSET CLASSIFICATION (UP TO 36 MONTHS)";
     Py.lit "000 000 000";
     Py.lit "03-24 02-24 01-24";
     Py.lit "ACCOUNT DATES AMOUNTS STATUS";
     Py.lit "DAYS PAST DUE/ASSET CLASSIFICATION";
     Py.lit "000 030 000";
     Py.lit "03-24 02-24 01-24"].

Definition example_markup_block : str :=
  Py.join [Py.NL]
    [Py.lit "MEMBER NAME: ABC BANK LIMITED ACCOUNT NUMBER 12345678";
     Py.lit "2024"; Py.lit "000"; Py.lit "STD"].

(** Enquiries for the examples: one with a parsed date, one without. *)
Definition enquiry_on (iso_date who : String.string) : enquiry :=
  {| date := Py.lit iso_date; parsed_date := Some (Py.lit iso_date);
     member := Some (Py.lit who); purpose := None; amount := Some (Py.lit "0") |}.
Arguments enquiry_on (iso_date who)%_string.

Definition undated_enquiry : enquiry :=
  {| date := Py.lit "31-02-2024"; parsed_date := None; member := None;
     purpose := None; amount := Some (Py.lit "0") |}.

(* ================================================================== *)
(** * Entries of a history *)
(* ================================================================== *)

(** What every entry of a history built from a markup block satisfies: the
    year is four digits, and the text is a non-empty list of tokens joined by
    spaces. *)
Definition html_entry_ok (year dpds : str) : Prop :=
  (length year = 4%nat /\ forallb Py.is_digit year = true) /\
  Py.truthy dpds = true /\
  exists tokens, dpds = Py.join (Py.lit " ") tokens /\
                 Forall (fun t => is_valid_token (Py.upper t) = true) tokens.

(** What every entry of a history built from a page-text block satisfies:
    the year is [20YY] or the sentinel, and the text is a non-empty list of
    tokens of the block joined by spaces. *)
Definition pdf_entry_ok (tokens : list str) (year dpds : str) : Prop :=
  (year = Py.lit "UNKNOWN" \/
   exists c d, year = Py.lit "20" ++ [c; d] /\
               Py.is_digit c = true /\ Py.is_digit d = true) /\
  Py.truthy dpds = true /\
  exists paired, dpds = Py.join (Py.lit " ") paired /\
                 Forall (fun t => In t tokens) paired.

(* ================================================================== *)
(** * Yearly averages and the unified structure *)
(* ================================================================== *)

(** [round(sum(xs) / len(xs), 1)] on a non-empty list of integers. *)
Definition rounded_mean_Z (xs : list Z) : float :=
  PyFloat.round1 (PyFloat.truediv (fold_left Z.add xs 0%Z) (Z.of_nat (length xs))).

(** [[_dpd_to_number(t) for t in tokens if t.upper() not in CLEAN]] *)
Definition numeric_dpd (dpd_string : str) : list Z :=
  map _dpd_to_number
      (filter (fun t => negb (is_clean (Py.upper t))) (dpd_tokens dpd_string)).

(** The loop [for year, dpd_string in dpd_history.items()] of the two
    converters: the pairs of [year] and [average_dpd]. *)
Definition yearly_averages (dpd_history : dict str) : list (str * float) :=
  fold_left
    (fun acc '(year, dpd_string) =>
       match numeric_dpd dpd_string with
       | [] => acc
       | nums => acc ++ [(year, rounded_mean_Z nums)]
       end)
    dpd_history [].

(** The loop of [PDFExtractor._convert_pdf_accounts_to_unified]; the unified
    account of this format has no [original_html_index] and no [status]. *)
Fixpoint convert_pdf_loop (accounts : list account) (idx : nat) : list unified_account :=
  match accounts with
  | [] => []
  | acc :: rest =>
      {| u_account_index := account_index acc;
         u_original_html_index := None;
         u_deterioration_reasoning := deterioration_reasoning acc;
         u_date_opened := date_opened acc;
         u_date_closed := date_closed acc;
         u_date_reported := date_reported acc;
         u_status := None;
         u_account_type := account_type acc;
         u_member_name := member_name acc;
         u_sanctioned_amount :=
           match sanctioned_amount acc with Some s => s | None => Py.lit "0" end;
         u_current_balance :=
           match current_balance acc with Some s => s | None => Py.lit "0" end;
         u_overdue_amount :=
           Some (match overdue_amount acc with Some s => s | None => Py.lit "0" end);
         u_default_month_number := _calculate_default_month_number (dpd_history acc);
         u_dpd_history := dpd_history acc |}
      :: convert_pdf_loop rest (S idx)
  end.

Definition _convert_pdf_accounts_to_unified (accounts : list account)
  : list unified_account :=
  convert_pdf_loop accounts 1.

(** The accounts of [PDFExtractor.extract], from the page text. *)
Definition pdf_accounts_list (text : str) : result (list unified_account) :=
  deteriorating_accounts <- extract_deteriorating_accounts_pdf text ;;
  Ok (_convert_pdf_accounts_to_unified deteriorating_accounts).

(** [_build_unified_structure]: the list [default_month_numbers] and the
    entry [final_default_month_average]. *)
Definition default_month_numbers (accounts : list unified_account) : list float :=
  fold_left (fun acc a =>
               match u_default_month_number a with
               | Some default_month => acc ++ [default_month]
               | None => acc
               end) accounts [].

Definition final_default_month_avg (now_year : Z) (accounts : list unified_account)
  : option float :=
  match default_month_numbers accounts with
  | [] => None
  | _ => _calculate_dynamic_final_default_month now_year accounts
  end.

(* ================================================================== *)
(** * Dates: [datetime.strptime] and [strftime] *)
(* ================================================================== *)

(** The directives of [_strptime.TimeRE] that the formats of [_parse_date]
    use.  The named groups are numbered: d is 1, m is 2, Y is 3, H is 4,
    M is 5 and S is 6. *)

(** [(?P<d>3[0-1]|[1-2]\d|0[1-9]|[1-9]| [1-9])] *)
Definition STRP_d : re :=
  Grp 1 (Alt (Seq (Chr (one 51)) (Chr (Py.between 48 49)))
        (Alt (Seq (Chr (Py.between 49 50)) (Chr Py.is_digit))
        (Alt (Seq (Chr (one 48)) (Chr (Py.between 49 57)))
        (Alt (Chr (Py.between 49 57))
             (Seq (Chr (one 32)) (Chr (Py.between 49 57))))))).

(** [(?P<m>1[0-2]|0[1-9]|[1-9])] *)
Definition STRP_m : re :=
  Grp 2 (Alt (Seq (Chr (one 49)) (Chr (Py.between 48 50)))
        (Alt (Seq (Chr (one 48)) (Chr (Py.between 49 57)))
             (Chr (Py.between 49 57)))).

(** [(?P<Y>\d\d\d\d)] *)
Definition STRP_Y : re := Grp 3 (digits_n 4).

(** [(?P<H>2[0-3]|[0-1]\d|\d)] *)
Definition STRP_H : re :=
  Grp 4 (Alt (Seq (Chr (one 50)) (Chr (Py.between 48 51)))
        (Alt (Seq (Chr (Py.between 48 49)) (Chr Py.is_digit))
             (Chr Py.is_digit))).

(** [(?P<M>[0-5]\d|\d)] *)
Definition STRP_M : re :=
  Grp 5 (Alt (Seq (Chr (Py.between 48 53)) (Chr Py.is_digit)) (Chr Py.is_digit)).

(** [(?P<S>6[0-1]|[0-5]\d|\d)] *)
Definition STRP_S : re :=
  Grp 6 (Alt (Seq (Chr (one 54)) (Chr (Py.between 48 49)))
        (Alt (Seq (Chr (Py.between 48 53)) (Chr Py.is_digit))
             (Chr Py.is_digit))).

(** [date_formats], each as [TimeRE.pattern] translates it: a directive
    becomes its group, a run of whitespace becomes [\s+]. *)
Definition date_formats : list re :=
  [ (* %d-%m-%Y *)
    seqs [STRP_d; Chr (one 45); STRP_m; Chr (one 45); STRP_Y];
    (* %d/%m/%Y *)
    seqs [STRP_d; Chr (one 47); STRP_m; Chr (one 47); STRP_Y];
    (* %d/%m/%Y, %H:%M *)
    seqs [STRP_d; Chr (one 47); STRP_m; Chr (one 47); STRP_Y; Chr (one 44);
          plus_g Py.is_space; STRP_H; Chr (one 58); STRP_M];
    (* %d-%m-%Y %H:%M:%S *)
    seqs [STRP_d; Chr (one 45); STRP_m; Chr (one 45); STRP_Y;
          plus_g Py.is_space; STRP_H; Chr (one 58); STRP_M; Chr (one 58); STRP_S] ].

Record datetime : Type := Datetime {
  dt_year : Z;
  dt_month : Z;
  dt_day : Z;
  dt_hour : Z;
  dt_minute : Z;
  dt_second : Z
}.

Definition is_leap (year : Z) : bool :=
  (((year mod 4 =? 0) && negb (year mod 100 =? 0)) || (year mod 400 =? 0))%Z.

Definition days_in_month (year month : Z) : Z :=
  match month with
  | 2 => if is_leap year then 29 else 28
  | 4 | 6 | 9 | 11 => 30
  | _ => 31
  end%Z.

(** The fields that the constructor [datetime(...)] accepts. *)
Definition valid_datetime (dt : datetime) : bool :=
  ((1 <=? dt_year dt) && (dt_year dt <=? 9999)
   && (1 <=? dt_month dt) && (dt_month dt <=? 12)
   && (1 <=? dt_day dt) && (dt_day dt <=? days_in_month (dt_year dt) (dt_month dt))
   && (0 <=? dt_hour dt) && (dt_hour dt <=? 23)
   && (0 <=? dt_minute dt) && (dt_minute dt <=? 59)
   && (0 <=? dt_second dt) && (dt_second dt <=? 59))%Z.

(** [int(found_dict[key])] for a group of the pattern; a directive that the
    format does not have leaves the default. *)
Definition strp_field (i : nat) (found : rmatch_obj) (default : Z) : option Z :=
  match group i found with
  | Some g => Py.int g
  | None => Some default
  end.

(** [datetime.strptime(data_string, format)] for a format with the
    directives d, m and Y; [None] is [ValueError]: the text does not match,
    unconverted data remains, or the fields are no date. *)
Definition strptime (data_string : str) (format : re) : option datetime :=
  match match_ format data_string with
  | None => None
  | Some found =>
      if negb (length data_string =? length (mt_text found))%nat then None
      else
        match strp_field 3 found 1900, strp_field 2 found 1, strp_field 1 found 1,
              strp_field 4 found 0, strp_field 5 found 0, strp_field 6 found 0 with
        | Some year, Some month, Some day, Some hour, Some minute, Some second =>
            let dt := Datetime year month day hour minute second in
            if valid_datetime dt then Some dt else None
        | _, _, _, _, _, _ => None
        end
  end.

(** [%m] and [%d] of [strftime]: two digits. *)
Definition pad2 (n : Z) : str := if (n <? 10)%Z then 48 :: Py.of_Z n else Py.of_Z n.

Section DateText.

(** [%Y] of [strftime]: the year as the C library of the platform prints
    it.  From the year 1000 on that is the decimal numeral; below, the
    padding differs between platforms. *)
Variable year_text : Z -> str.

(** [dt.strftime("%Y-%m-%d")] *)
Definition strftime_Ymd (dt : datetime) : str :=
  year_text (dt_year dt) ++ [45] ++ pad2 (dt_month dt) ++ [45] ++ pad2 (dt_day dt).

(** [dt.strftime("%d-%m-%Y")] *)
Definition strftime_dmY (dt : datetime) : str :=
  pad2 (dt_day dt) ++ [45] ++ pad2 (dt_month dt) ++ [45] ++ year_text (dt_year dt).

(** The loop [for fmt in date_formats] of [_parse_date]. *)
Fixpoint parse_date_loop (formats : list re) (raw : str) : option str :=
  match formats with
  | [] => None
  | fmt :: rest =>
      match strptime raw fmt with
      | Some dt => Some (strftime_Ymd dt)
      | None => parse_date_loop rest raw          (* except ValueError: continue *)
      end
  end.

(** [CIBILExtractor._parse_date] *)
Definition _parse_date (raw : option str) : option str :=
  match raw with
  | None => None
  | Some raw =>
      if negb (Py.truthy raw) || negb (Py.truthy (Py.strip raw)) then None
      else parse_date_loop date_formats (Py.strip raw)
  end.

End DateText.

(** [%Y] on Linux: no padding. *)
Definition year_text_glibc (year : Z) : str := Py.of_Z year.
(** The spellings of a date and time that the four formats read: the day
    and the month in two digits, the year in four, and the clock in two
    digits each. *)
Definition date_text (sep : char) (dt : datetime) : str :=
  pad2 (dt_day dt) ++ sep :: pad2 (dt_month dt) ++ sep :: Py.of_Z (dt_year dt).

Definition clock_text (dt : datetime) : str :=
  pad2 (dt_hour dt) ++ 58 :: pad2 (dt_minute dt).

Definition clock_text_seconds (dt : datetime) : str :=
  pad2 (dt_hour dt) ++ 58 :: pad2 (dt_minute dt) ++ 58 :: pad2 (dt_second dt).

(* ================================================================== *)
(** * Enquiries, markup format *)
(* ================================================================== *)

(** [CONSUMER ENQUIRY DETAILS\s*Enquiries], re.I *)
Definition ENQUIRY_HEADING_RE : re :=
  seqs [lit_ci (Py.lit "CONSUMER ENQUIRY DETAILS"); StarG Py.is_space;
        lit_ci (Py.lit "Enquiries")].

(** [(\d{1,2}[/-]\d{1,2}[/-]\d{4})] *)
Definition slash_or_dash : char -> bool := cls_or (one 47) (one 45).

Definition ENQUIRY_DATE_RE : re :=
  Grp 1 (seqs [Chr Py.is_digit; opt_g (Chr Py.is_digit); Chr slash_or_dash;
               Chr Py.is_digit; opt_g (Chr Py.is_digit); Chr slash_or_dash;
               digits_n 4]).

(** [[\d,]+] *)
Definition AMOUNT_RUN_RE : re := plus_g digit_or_comma.

(** [text[match.end():]] for the first match of the pattern, if any. *)
Fixpoint text_after (r : re) (prev : option char) (s : str) : option str :=
  match rmatch r Some (MState prev s []) with
  | Some st' => Some (m_rest st')
  | None =>
      match s with
      | [] => None
      | c :: t => text_after r (Some c) t
      end
  end.

(** The test on the first line: [any(h in lines[0].upper() for h in [...])]. *)
Definition skip_header (lines : list str) : list str :=
  match lines with
  | [] => []
  | first :: rest =>
      if existsb (fun h => Py.contains h (Py.upper first))
                 [Py.lit "MEMBER NAme"; Py.lit "ENQUIRY date"]
      then rest else lines
  end.

(** [lines[i]]; an index out of range raises. *)
Definition line_at (lines : list str) (i : nat) : result str :=
  match nth_error lines i with
  | Some line => Ok line
  | None => Raise IndexError
  end.

(** The loop [while member_idx >= 0 and not lines[member_idx].strip()];
    [n] is [member_idx + 1]. *)
Fixpoint find_member (lines : list str) (n : nat) : result (option str) :=
  match n with
  | O => Ok None
  | S member_idx =>
      line <- line_at lines member_idx ;;
      if negb (Py.truthy (Py.strip line)) then find_member lines member_idx
      else Ok (Some (Py.strip line))
  end.

(** The loop [for j in range(i + 2, min(i + 4, len(lines)))]. *)
Fixpoint amount_loop (lines : list str) (js : list nat) : result str :=
  match js with
  | [] => Ok (Py.lit "0")
  | j :: rest =>
      amount_line <- line_at lines j ;;
      match search AMOUNT_RUN_RE amount_line with
      | Some amount_match => Ok (_clean_amount (Some (mt_text amount_match)))
      | None => amount_loop lines rest
      end
  end.

(** One iteration of [while i < len(lines) - 2]: the enquiry of line [i],
    if the line holds a date that parses. *)
Definition html_enquiry_at (year_text : Z -> str) (lines : list str) (i : nat)
  : result (option enquiry) :=
  current_line <- line_at lines i ;;
  match search_group1 ENQUIRY_DATE_RE current_line with
  | None => Ok None
  | Some date_raw =>
      match _parse_date year_text (Some date_raw) with
      | None => Ok None
      | Some parsed =>
          if negb (Py.truthy parsed) then Ok None
          else
            member <- find_member lines i ;;
            purpose <- (if (i + 1 <? length lines)%nat
                        then line <- line_at lines (i + 1) ;; Ok (Some (Py.strip line))
                        else Ok None) ;;
            amount <- amount_loop lines
                        (seq (i + 2) (Nat.min (i + 4) (length lines) - (i + 2))) ;;
            Ok (Some {| date := date_raw; parsed_date := Some parsed;
                        member := member; purpose := purpose;
                        amount := Some amount |})
      end
  end.

(** The loop over [i], which goes through [0 .. len(lines) - 3]. *)
Fixpoint html_enquiries_loop (year_text : Z -> str) (lines : list str) (indices : list nat)
  : result (list enquiry) :=
  match indices with
  | [] => Ok []
  | i :: rest =>
      found <- html_enquiry_at year_text lines i ;;
      later <- html_enquiries_loop year_text lines rest ;;
      Ok (option_list found ++ later)
  end.

(** [_extract_enquiries_from_html], from the text of the document. *)
Definition _extract_enquiries_from_html (year_text : Z -> str) (full_text : str)
  : result (list enquiry) :=
  match text_after ENQUIRY_HEADING_RE None full_text with
  | None => Ok []
  | Some remaining_text =>
      let lines := skip_header (stripped_lines remaining_text) in
      all_enquiries <- html_enquiries_loop year_text lines (seq 0 (length lines - 2)) ;;
      Ok (_filter_latest_month_enquiries all_enquiries)
  end.
(* ================================================================== *)
(** * Enquiries, page-text format *)
(* ================================================================== *)

(** [patterns['enquiry_date']], re.I | re.S: [ENQUIRIES:\s*], then group 1
    around [.*], then [$]. *)
Definition ENQUIRY_SECTION_RE : re :=
  seqs [lit_ci (Py.lit "ENQUIRIES:"); StarG Py.is_space; Grp 1 (StarG any_char); Eol].

(** [\b(\d{2}-\d{2}-\d{4})\b] *)
Definition ENQUIRY_DMY_RE : re := Seq WordB (Seq (Grp 1 DATE_DMY) WordB).

(** The body of the loop [for d in enquiry_dates]: [datetime(year, month,
    day)] of the three numbers, or nothing when [ValueError] is raised. *)
Definition enquiry_datetime (d : str) : option datetime :=
  match Py.split 45 d with
  | [day; month; year] =>
      match Py.int day, Py.int month, Py.int year with
      | Some day, Some month, Some year =>
          let dt := Datetime year month day 0 0 0 in
          if valid_datetime dt then Some dt else None
      | _, _, _ => None
      end
  | _ => None
  end.

(** The order of [datetime] values. *)
Definition datetime_key (dt : datetime) : list Z :=
  [dt_year dt; dt_month dt; dt_day dt; dt_hour dt; dt_minute dt; dt_second dt].

Fixpoint key_ltb (a b : list Z) : bool :=
  match a, b with
  | x :: a', y :: b' => (x <? y)%Z || ((x =? y)%Z && key_ltb a' b')
  | [], _ :: _ => true
  | _, _ => false
  end.

Definition datetime_ltb (a b : datetime) : bool :=
  key_ltb (datetime_key a) (datetime_key b).

(** [max] of a non-empty sequence of [datetime]: the first maximal one. *)
Definition max_datetime (first : datetime) (others : list datetime) : datetime :=
  fold_left (fun best x => if datetime_ltb best x then x else best) others first.

(** The dates of the enquiry section that are dates of the calendar. *)
Definition pdf_enquiry_dates (text : str) : list datetime :=
  match search_group1 ENQUIRY_SECTION_RE text with
  | None => []
  | Some enquiry_section =>
      fold_left (fun parsed_dates d =>
                   match enquiry_datetime d with
                   | Some dt => parsed_dates ++ [dt]
                   | None => parsed_dates
                   end)
                (findall1 ENQUIRY_DMY_RE enquiry_section) []
  end.

(** The enquiry that [extract_enquiries_from_pdf] makes of a date. *)
Definition pdf_enquiry (year_text : Z -> str) (d : datetime) : enquiry :=
  {| date := strftime_dmY year_text d;
     parsed_date := Some (strftime_Ymd year_text d);
     member := None; purpose := None; amount := None |}.

(** [PDFAdvancedExtractor.extract_enquiries_from_pdf] *)
Definition extract_enquiries_from_pdf (year_text : Z -> str) (text : str)
  : list enquiry :=
  match pdf_enquiry_dates text with
  | [] => []
  | first :: others =>
      let latest := max_datetime first others in
      let latest_month := dt_month latest in
      let latest_year := dt_year latest in
      map (pdf_enquiry year_text)
          (filter (fun d => (dt_month d =? latest_month)%Z
                            && (dt_year d =? latest_year)%Z)
                  (first :: others))
  end.

(* ================================================================== *)
(** * Overdue summary, page-text format *)
(* ================================================================== *)

(** [int(s)] as CPython 3.11 limits it: a text with more than 4300 digits
    raises [ValueError] too. *)
Definition int_max_str_digits : nat := 4300.

Definition int_str (s : str) : option Z :=
  if (int_max_str_digits <? length (filter Py.is_digit s))%nat then None
  else Py.int s.

Definition int_value (s : str) : result Z :=
  match int_str s with
  | Some n => Ok n
  | None => Raise (ValueError (Py.lit "invalid literal for int() with base 10"))
  end.

(** [patterns['overdue_count']]: [OVERDUE[:\s]*(\d+)], re.I *)
Definition OVERDUE_COUNT_RE : re :=
  seqs [lit_ci (Py.lit "OVERDUE"); StarG colon_or_space; Grp 1 (plus_g Py.is_digit)].

(** [patterns['overdue_amount']]: [OVERDUE[:\s]*([\d,]+)], re.I *)
Definition OVERDUE_AMOUNT_RE : re :=
  seqs [lit_ci (Py.lit "OVERDUE"); StarG colon_or_space; Grp 1 (plus_g digit_or_comma)].

(** [patterns['current_amount']]: [CURRENT[:\s]*([\d,]+)], re.I | re.DOTALL *)
Definition CURRENT_AMOUNT_RE : re :=
  seqs [lit_ci (Py.lit "CURRENT"); StarG colon_or_space; Grp 1 (plus_g digit_or_comma)].

(** [s.replace(',', '')] *)
Definition remove_commas (s : str) : str := filter (fun c => negb (c =? 44)) s.

Record overdue_summary : Type := OverdueSummary {
  total_overdue_accounts : option Z;
  total_overdue_amount : option Z;
  total_current_amount : option Z
}.

(** The loop [for match in current_matches], over the texts of group 1. *)
Fixpoint current_loop (groups : list str) : result (option Z) :=
  match groups with
  | [] => Ok None
  | g :: rest =>
      let val := remove_commas g in
      if Py.isdigit val then n <- int_value val ;; Ok (Some n)     (* break *)
      else current_loop rest
  end.

(** [PDFAdvancedExtractor.extract_overdue_summary] *)
Definition extract_overdue_summary (text : str) : result overdue_summary :=
  count <- match search_group1 OVERDUE_COUNT_RE text with
           | Some g => n <- int_value g ;; Ok (Some n)
           | None => Ok None
           end ;;
  overdue_amount <- match findall1 OVERDUE_AMOUNT_RE text with
                    | _ :: g :: _ => n <- int_value (remove_commas g) ;; Ok (Some n)
                    | _ => Ok None
                    end ;;
  current_amount <- current_loop (findall1 CURRENT_AMOUNT_RE text) ;;
  Ok (OverdueSummary count overdue_amount current_amount).

(** The texts that [extract_overdue_summary] hands to [int]. *)
Definition overdue_numbers (text : str) : list str :=
  option_list (search_group1 OVERDUE_COUNT_RE text)
  ++ option_list (nth_error (findall1 OVERDUE_AMOUNT_RE text) 1)
  ++ findall1 CURRENT_AMOUNT_RE text.
(* ================================================================== *)
(** * Overdue summary, markup format *)
(* ================================================================== *)

(** [CONSUMER\s+ACCOUNT\s+SUMMARY], then group 1 around [.*?], then one of
    [CONSUMER\s+ACCOUNT\s+DETAILS], [CONSUMER\s+ENQUIRY\s+DETAILS],
    [CONSUMER\s+DETAILS] and [$]; re.I | re.DOTALL *)
Definition SUMMARY_SECTION_RE : re :=
  seqs [lit_ci (Py.lit "CONSUMER"); plus_g Py.is_space; lit_ci (Py.lit "ACCOUNT");
        plus_g Py.is_space; lit_ci (Py.lit "SUMMARY"); Grp 1 (StarL any_char);
        Alt (seqs [lit_ci (Py.lit "CONSUMER"); plus_g Py.is_space;
                   lit_ci (Py.lit "ACCOUNT"); plus_g Py.is_space;
                   lit_ci (Py.lit "DETAILS")])
       (Alt (seqs [lit_ci (Py.lit "CONSUMER"); plus_g Py.is_space;
                   lit_ci (Py.lit "ENQUIRY"); plus_g Py.is_space;
                   lit_ci (Py.lit "DETAILS")])
       (Alt (seqs [lit_ci (Py.lit "CONSUMER"); plus_g Py.is_space;
                   lit_ci (Py.lit "DETAILS")])
            Eol))].

(** [re.sub(r'\s+', ' ', s)]: every run of whitespace becomes one space. *)
Fixpoint collapse_aux (in_run : bool) (s : str) : str :=
  match s with
  | [] => []
  | c :: t =>
      if Py.is_space c then
        if in_run then collapse_aux true t else 32 :: collapse_aux true t
      else c :: collapse_aux false t
  end.

Definition collapse_ws (s : str) : str := collapse_aux false s.

(** [\bOverdue\s*:\s*(\d+)\b], re.I *)
Definition HTML_OVERDUE_COUNT_RE : re :=
  seqs [WordB; lit_ci (Py.lit "Overdue"); StarG Py.is_space; Chr (one 58);
        StarG Py.is_space; Grp 1 (plus_g Py.is_digit); WordB].

(** [\bCurrent\s*:\s*₹?\s*([\d,]+)\b], re.I *)
Definition HTML_CURRENT_RE : re :=
  seqs [WordB; lit_ci (Py.lit "Current"); StarG Py.is_space; Chr (one 58);
        StarG Py.is_space; opt_g (Chr (one Py.RUPEE)); StarG Py.is_space;
        Grp 1 (plus_g digit_or_comma); WordB].

(** [\bOverdue\s*:\s*₹\s*([\d,]+)\b], re.I *)
Definition HTML_OVERDUE_RUPEE_RE : re :=
  seqs [WordB; lit_ci (Py.lit "Overdue"); StarG Py.is_space; Chr (one 58);
        StarG Py.is_space; Chr (one Py.RUPEE); StarG Py.is_space;
        Grp 1 (plus_g digit_or_comma); WordB].

(** [Overdue\s*[:\s]*₹?\s*([\d,]+)], re.I *)
Definition HTML_OVERDUE_ANY_RE : re :=
  seqs [lit_ci (Py.lit "Overdue"); StarG Py.is_space; StarG colon_or_space;
        opt_g (Chr (one Py.RUPEE)); StarG Py.is_space;
        Grp 1 (plus_g digit_or_comma)].

(** [cleaned = _clean_amount(m.group(1))], then
    [int(cleaned) if cleaned.isdigit() else None]. *)
Definition cleaned_amount (g : str) : result (option Z) :=
  let cleaned := _clean_amount (Some g) in
  if Py.isdigit cleaned then n <- int_value cleaned ;; Ok (Some n) else Ok None.

(** The group of the overdue amount: the pattern with the currency sign,
    or else the loose one. *)
Definition html_overdue_group (normalized : str) : option str :=
  match search HTML_OVERDUE_RUPEE_RE normalized with
  | Some m => group 1 m
  | None => search_group1 HTML_OVERDUE_ANY_RE normalized
  end.

(** [_extract_overdue_summary_from_html_text] *)
Definition _extract_overdue_summary_from_html_text (full_text : str)
  : result overdue_summary :=
  if negb (Py.truthy full_text) then Ok (OverdueSummary None None None)
  else
    let section :=
      match search SUMMARY_SECTION_RE full_text with
      | Some section_match =>
          match group 1 section_match with Some g => g | None => [] end
      | None => full_text
      end in
    let normalized := Py.strip (collapse_ws section) in
    let overdue_count :=
      match search_group1 HTML_OVERDUE_COUNT_RE normalized with
      | Some g => int_str g             (* except ValueError: None *)
      | None => None
      end in
    current_amount <- match search_group1 HTML_CURRENT_RE normalized with
                      | Some g => cleaned_amount g
                      | None => Ok None
                      end ;;
    overdue_amount <- match html_overdue_group normalized with
                      | Some g => cleaned_amount g
                      | None => Ok None
                      end ;;
    Ok (OverdueSummary overdue_count overdue_amount current_amount).

(** The texts that the function hands to [int] outside a [try]. *)
Definition html_overdue_numbers (full_text : str) : list str :=
  let section :=
    match search SUMMARY_SECTION_RE full_text with
    | Some section_match =>
        match group 1 section_match with Some g => g | None => [] end
    | None => full_text
    end in
  let normalized := Py.strip (collapse_ws section) in
  option_list (search_group1 HTML_CURRENT_RE normalized)
  ++ option_list (html_overdue_group normalized).

(* ================================================================== *)
(** * The account blocks of a markup document *)
(* ================================================================== *)

(** [CONSUMER ACCOUNT DETAILS], re.I *)
Definition ACCOUNT_DETAILS_RE : re := lit_ci (Py.lit "CONSUMER ACCOUNT DETAILS").

(** [full_text[match.start():]] for the first match of the pattern, if
    any. *)
Fixpoint text_from (r : re) (prev : option char) (s : str) : option str :=
  match match_at r prev s with
  | Some _ => Some s
  | None =>
      match s with
      | [] => None
      | c :: t => text_from r (Some c) t
      end
  end.

(** The text in which the accounts are looked for. *)
Definition accounts_text (full_text : str) : str :=
  match text_from ACCOUNT_DETAILS_RE None full_text with
  | Some from_heading => from_heading
  | None => full_text
  end.

(** The delimiters of [re.split]: the empty text before a date
    [(?=\d{2}-\d{2}-\d{4})], or one of three labels; re.I. *)
Definition DELIMITER_LABELS_RE : re :=
  Alt (lit_ci (Py.lit "MEMBER NAME"))
      (Alt (lit_ci (Py.lit "ACCOUNT TYPE")) (lit_ci (Py.lit "DATE OPENED"))).

Definition date_ahead (prev : option char) (s : str) : bool :=
  match match_at DATE_DMY prev s with Some _ => true | None => false end.

(** The text after a label that starts at this position. *)
Definition label_at (prev : option char) (s : str) : option str :=
  match rmatch DELIMITER_LABELS_RE Some (MState prev s []) with
  | Some st' => Some (m_rest st')
  | None => None
  end.

(** A delimiter that starts at this position: the text after it.  Where the
    last delimiter was empty and ended here, an empty one is refused. *)
Definition delimiter_at (must_advance : bool) (prev : option char) (s : str)
  : option str :=
  if date_ahead prev s then
    if must_advance then label_at prev s else Some s
  else label_at prev s.

(** [re.split(pattern, s)], position by position.  [skip] counts the
    characters of the last delimiter still to step over; [piece] is the text
    since the last delimiter, in reverse. *)
Fixpoint split_scan (s : str) (prev : option char) (skip : nat) (piece : str)
  : list str :=
  match skip, s with
  | S k, c :: t => split_scan t (Some c) k piece
  | S _, [] => [rev piece]
  | O, _ =>
      match delimiter_at false prev s with
      | Some after =>
          rev piece ::
          match length s - length after, s with
          | S k, c :: t => split_scan t (Some c) k []
          | _, _ =>
              (* an empty delimiter: the search goes on from here, and an
                 empty delimiter here is refused *)
              match delimiter_at true prev s with
              | Some after' =>
                  [] ::
                  match s with
                  | c :: t => split_scan t (Some c) (length t - length after') []
                  | [] => [[]]
                  end
              | None =>
                  match s with
                  | c :: t => split_scan t (Some c) 0 [c]
                  | [] => [[]]
                  end
              end
          end
      | None =>
          match s with
          | c :: t => split_scan t (Some c) 0 (c :: piece)
          | [] => [rev piece]
          end
      end
  end%nat.

(** The blocks of [_extract_accounts_from_html]. *)
Definition html_account_blocks (full_text : str) : list str :=
  split_scan (accounts_text full_text) None 0 [].

(** The text starts with the label, letters compared without case. *)
Fixpoint starts_ci (label s : str) : bool :=
  match label with
  | [] => true
  | x :: label' =>
      match s with
      | [] => false
      | c :: s' => one_i x c && starts_ci label' s'
      end
  end.

Definition delimiter_labels : list str :=
  [Py.lit "MEMBER NAME"; Py.lit "ACCOUNT TYPE"; Py.lit "DATE OPENED"].

(** One of the three labels starts here. *)
Definition label_starts (s : str) : bool :=
  existsb (fun label => starts_ci label s) delimiter_labels.

(** One of the three labels occurs in the text. *)
Fixpoint label_occurs (s : str) : bool :=
  label_starts s ||
  match s with
  | [] => false
  | _ :: t => label_occurs t
  end.

(* ================================================================== *)
(** * The report date, from the document to the record *)
(* ================================================================== *)

(** Two digits, a slash, two digits, a slash, four digits. *)
Definition DATE_DMY_SLASH : re :=
  seqs [digits_n 2; Chr (one 47); digits_n 2; Chr (one 47); digits_n 4].

(** [_patterns['report_date']], re.I, three alternatives with one group
    each: DATE and a date with dashes; REPORT DATE & TIME, a colon and a date
    with slashes; a date with slashes, a comma and a clock. *)
Definition REPORT_DATE_RE : re :=
  Alt (seqs [lit_ci (Py.lit "DATE"); StarG colon_or_space; Grp 1 DATE_DMY])
 (Alt (seqs [lit_ci (Py.lit "REPORT"); plus_g Py.is_space; lit_ci (Py.lit "DATE");
             StarG Py.is_space; opt_g (Chr (one 38)); StarG Py.is_space;
             lit_ci (Py.lit "TIME"); StarG Py.is_space; Chr (one 58);
             StarG Py.is_space; Grp 2 DATE_DMY_SLASH])
      (Grp 3 (seqs [DATE_DMY_SLASH; Chr (one 44); StarG Py.is_space;
                    digits_n 2; Chr (one 58); digits_n 2]))).

(** The ["report_date"] entry of [_extract_basic_info], in both formats. *)
Definition report_date (text : str) : option str := _first_match text REPORT_DATE_RE 3.

(** [DATE_FORMATS] of [CIBILProcessor._parse_report_date], each as
    [TimeRE.pattern] translates it. *)
Definition DATE_FORMATS : list re :=
  [ (* %d/%m/%Y, %H:%M *)
    seqs [STRP_d; Chr (one 47); STRP_m; Chr (one 47); STRP_Y; Chr (one 44);
          plus_g Py.is_space; STRP_H; Chr (one 58); STRP_M];
    (* %d/%m/%Y *)
    seqs [STRP_d; Chr (one 47); STRP_m; Chr (one 47); STRP_Y];
    (* %d-%m-%Y *)
    seqs [STRP_d; Chr (one 45); STRP_m; Chr (one 45); STRP_Y];
    (* %Y-%m-%d *)
    seqs [STRP_Y; Chr (one 45); STRP_m; Chr (one 45); STRP_d];
    (* %Y/%m/%d *)
    seqs [STRP_Y; Chr (one 47); STRP_m; Chr (one 47); STRP_d];
    (* %d.%m.%Y *)
    seqs [STRP_d; Chr (one 46); STRP_m; Chr (one 46); STRP_Y] ].

(** [DATE_PATTERNS]: day, month and year, and year, month and day, with
    slashes or dashes; the day and the month of one or two digits. *)
Definition DATE_PATTERNS : list re :=
  [ Grp 1 (seqs [Chr Py.is_digit; opt_g (Chr Py.is_digit); Chr slash_or_dash;
                 Chr Py.is_digit; opt_g (Chr Py.is_digit); Chr slash_or_dash;
                 digits_n 4]);
    Grp 1 (seqs [digits_n 4; Chr slash_or_dash;
                 Chr Py.is_digit; opt_g (Chr Py.is_digit); Chr slash_or_dash;
                 Chr Py.is_digit; opt_g (Chr Py.is_digit)]) ].

(** [s.replace("-", "/")] *)
Definition replace_dash (s : str) : str :=
  map (fun c => if c =? 45 then 47 else c) s.

(** [dt.replace(hour=0, minute=0, second=0, microsecond=0)] *)
Definition at_midnight (dt : datetime) : datetime :=
  Datetime (dt_year dt) (dt_month dt) (dt_day dt) 0 0 0.

(** The loop [for fmt in DATE_FORMATS]. *)
Fixpoint report_formats_loop (formats : list re) (cleaned : str) : option datetime :=
  match formats with
  | [] => None
  | fmt :: rest =>
      match strptime cleaned fmt with
      | Some dt => Some dt
      | None => report_formats_loop rest cleaned      (* except ValueError: continue *)
      end
  end.

(** The loop [for pattern in DATE_PATTERNS]; group 1 spans the pattern, so
    that it is set in every match. *)
Fixpoint report_patterns_loop (patterns : list re) (cleaned : str) : option datetime :=
  match patterns with
  | [] => None
  | pattern :: rest =>
      match search pattern cleaned with
      | Some m =>
          match group 1 m with
          | Some g =>
              let date_part := replace_dash g in
              match strptime date_part
                      (seqs [STRP_d; Chr (one 47); STRP_m; Chr (one 47); STRP_Y]) with
              | Some dt => Some dt
              | None => report_patterns_loop rest cleaned   (* except ValueError: continue *)
              end
          | None => report_patterns_loop rest cleaned
          end
      | None => report_patterns_loop rest cleaned
      end
  end.

Section ReportDate.

Variable year_text : Z -> str.

(** [dt.strftime("%Y-%m-%d 00:00:00"), dt], with [dt] at midnight. *)
Definition report_stamp (dt : datetime) : str * datetime :=
  let dt := at_midnight dt in
  (strftime_Ymd year_text dt ++ Py.lit " 00:00:00", dt).

(** [CIBILProcessor._parse_report_date]; [now] is what [datetime.now()]
    returns. *)
Definition _parse_report_date (now : datetime) (report_date_str : option str)
  : str * datetime :=
  match report_date_str with
  | None => report_stamp now
  | Some s =>
      if negb (Py.truthy s) || negb (Py.truthy (Py.strip s)) then report_stamp now
      else
        let cleaned := Py.strip s in
        match report_formats_loop DATE_FORMATS cleaned with
        | Some dt => report_stamp dt
        | None =>
            match report_patterns_loop DATE_PATTERNS cleaned with
            | Some dt => report_stamp dt
            | None => report_stamp now
            end
        end
  end.

End ReportDate.

(** The numbers of the groups of a pattern. *)
Fixpoint group_ids (r : re) : list nat :=
  match r with
  | Seq r1 r2 | Alt r1 r2 => group_ids r1 ++ group_ids r2
  | Grp i r' => i :: group_ids r'
  | _ => []
  end.

(* ================================================================== *)
(** * Part II: properties *)
(* ================================================================== *)

Module ReFacts.
Import Re ReSem.

Lemma matches_rest r st w out :
  matches r st w out -> m_rest st = w ++ m_rest out.
Proof.
  induction 1; simpl; auto.
  - rewrite IHmatches1, IHmatches2. now rewrite app_assoc.
Qed.

Lemma consumed_app st out w :
  m_rest st = w ++ m_rest out -> consumed st out = w.
Proof.
  intros E. unfold consumed. rewrite E, length_app.
  replace (length w + length (m_rest out) - length (m_rest out))%nat
    with (length w + 0)%nat by lia.
  now rewrite firstn_app_2, firstn_O, app_nil_r.
Qed.

Lemma last_default_irrelevant {A} (l : list A) (d d' : A) :
  l <> [] -> last l d = last l d'.
Proof.
  induction l as [|a [|b l'] IH]; intros N; [congruence|reflexivity|].
  change (last (b :: l') d = last (b :: l') d'). apply IH. discriminate.
Qed.

Lemma prev_after_cons prev c w :
  prev_after prev (c :: w) = prev_after (Some c) w.
Proof.
  unfold prev_after. destruct w as [|x w']; [reflexivity|].
  change (last (map Some (x :: w')) prev = last (map Some (x :: w')) (Some c)).
  apply last_default_irrelevant. discriminate.
Qed.

Lemma star_greedy_sound p k prev rest caps out :
  star_greedy p k prev rest caps = Some out ->
  exists w t, rest = w ++ t /\ forallb p w = true /\
              k (MState (prev_after prev w) t caps) = Some out.
Proof.
  revert prev. induction rest as [|c t IH]; intros prev H; simpl in H.
  - exists [], []. auto.
  - destruct (p c) eqn:Pc.
    + destruct (star_greedy p k (Some c) t caps) eqn:G; simpl in H.
      * injection H as ->. destruct (IH _ G) as (w & t' & -> & Fw & Kw).
        exists (c :: w), t'. simpl. rewrite Pc, Fw. repeat split; auto.
        now rewrite prev_after_cons.
      * exists [], (c :: t). auto.
    + exists [], (c :: t). auto.
Qed.

Lemma star_lazy_sound p k prev rest caps out :
  star_lazy p k prev rest caps = Some out ->
  exists w t, rest = w ++ t /\ forallb p w = true /\
              k (MState (prev_after prev w) t caps) = Some out.
Proof.
  revert prev. induction rest as [|c t IH]; intros prev H; simpl in H.
  - destruct (k (MState prev [] caps)) eqn:K; simpl in H; [|discriminate].
    injection H as ->. exists [], []. auto.
  - destruct (k (MState prev (c :: t) caps)) eqn:K; simpl in H.
    + injection H as ->. exists [], (c :: t). auto.
    + destruct (p c) eqn:Pc; [|discriminate].
      destruct (IH _ H) as (w & t' & -> & Fw & Kw).
      exists (c :: w), t'. simpl. rewrite Pc, Fw. repeat split; auto.
      now rewrite prev_after_cons.
Qed.

(** The matcher is sound for [matches]. *)
Lemma rmatch_sound r : forall k st out,
  rmatch r k st = Some out ->
  exists w mid, matches r st w mid /\ k mid = Some out.
Proof.
  induction r as [|p|r1 IH1 r2 IH2|r1 IH1 r2 IH2|p|p| | |i r IH];
    intros k st out H; simpl in H.
  - exists [], st. split; [constructor|assumption].
  - destruct (m_rest st) as [|c t] eqn:E; [discriminate|].
    destruct (p c) eqn:Pc; [|discriminate].
    exists [c], (MState (Some c) t (m_caps st)). split; [now constructor|assumption].
  - destruct (IH1 _ _ _ H) as (w1 & mid & M1 & H2).
    destruct (IH2 _ _ _ H2) as (w2 & mid2 & M2 & H3).
    exists (w1 ++ w2), mid2. split; [econstructor; eauto|assumption].
  - destruct (rmatch r1 k st) eqn:E1; simpl in H.
    + injection H as ->. destruct (IH1 _ _ _ E1) as (w & mid & M & K).
      exists w, mid. split; [now apply M_AltL|assumption].
    + destruct (IH2 _ _ _ H) as (w & mid & M & K).
      exists w, mid. split; [now apply M_AltR|assumption].
  - destruct (star_greedy_sound _ _ _ _ _ _ H) as (w & t & E & F & K).
    exists w, (MState (prev_after (m_prev st) w) t (m_caps st)).
    split; [now constructor|assumption].
  - destruct (star_lazy_sound _ _ _ _ _ _ H) as (w & t & E & F & K).
    exists w, (MState (prev_after (m_prev st) w) t (m_caps st)).
    split; [now constructor|assumption].
  - destruct (at_boundary st) eqn:B; [|discriminate].
    exists [], st. split; [now constructor|assumption].
  - destruct (at_eol st) eqn:B; [|discriminate].
    exists [], st. split; [now constructor|assumption].
  - destruct (IH _ _ _ H) as (w & mid & M & K).
    rewrite (consumed_app _ _ _ (matches_rest _ _ _ _ M)) in K.
    eexists w, _. split; [apply M_Grp; eassumption|assumption].
Qed.

Lemma match_at_sound r prev s m :
  match_at r prev s = Some m ->
  exists out, matches r (MState prev s []) (mt_text m) out /\ mt_caps m = m_caps out.
Proof.
  unfold match_at. intros H.
  destruct (rmatch r Some (MState prev s [])) as [st'|] eqn:E; [|discriminate].
  injection H as <-. simpl.
  destruct (rmatch_sound _ _ _ _ E) as (w & mid & M & K). injection K as ->.
  exists st'. rewrite (consumed_app _ _ _ (matches_rest _ _ _ _ M)). auto.
Qed.

(** Every match that [finditer] reports is a match of the pattern at some
    position of the subject. *)
Lemma scan_sound r : forall s prev skip m,
  In m (scan r prev s skip) ->
  exists prev' s' out,
    matches r (MState prev' s' []) (mt_text m) out /\ mt_caps m = m_caps out.
Proof.
  induction s as [|c t IH]; intros prev skip m H.
  - destruct skip; simpl in H; [|contradiction].
    destruct (match_at r prev []) eqn:E; simpl in H; [|contradiction].
    destruct H as [<-|[]]. destruct (match_at_sound _ _ _ _ E) as (out & ? & ?); eauto.
  - destruct skip; simpl in H.
    + destruct (match_at r prev (c :: t)) eqn:E.
      * destruct H as [<-|H]; [|eauto].
        destruct (match_at_sound _ _ _ _ E) as (out & ? & ?); eauto.
      * eauto.
    + eauto.
Qed.

Lemma search_from_sound r : forall s prev m,
  search_from r prev s = Some m ->
  exists prev' s' out,
    matches r (MState prev' s' []) (mt_text m) out /\ mt_caps m = m_caps out.
Proof.
  induction s as [|c t IH]; intros prev m H; simpl in H.
  - destruct (match_at r prev []) eqn:E; [|discriminate].
    injection H as ->. destruct (match_at_sound _ _ _ _ E) as (out & ? & ?); eauto.
  - destruct (match_at r prev (c :: t)) eqn:E.
    + injection H as ->. destruct (match_at_sound _ _ _ _ E) as (out & ? & ?); eauto.
    + eauto.
Qed.

End ReFacts.

(* ------------------------------------------------------------------ *)
(** ** Strings *)
(* ------------------------------------------------------------------ *)

Module PyFacts.

Lemma eqb_eq (a b : str) : Py.eqb a b = true <-> a = b.
Proof.
  revert b. induction a as [|x a IH]; destruct b as [|y b]; simpl;
    try (split; [discriminate|congruence]); [tauto|].
  rewrite andb_true_iff, N.eqb_eq, IH. split; [intros [-> ->]|intros [= -> ->]]; auto.
Qed.

Lemma eqb_refl (a : str) : Py.eqb a a = true.
Proof. now apply eqb_eq. Qed.

Lemma eqb_neq (a b : str) : Py.eqb a b = false <-> a <> b.
Proof.
  split.
  - intros H E. apply eqb_eq in E. congruence.
  - intros H. destruct (Py.eqb a b) eqn:E; [apply eqb_eq in E; contradiction|reflexivity].
Qed.

Lemma mem_In (x : str) (l : list str) : Py.mem x l = true <-> In x l.
Proof.
  unfold Py.mem. rewrite existsb_exists. split.
  - intros (y & Hy & E). apply eqb_eq in E. now subst.
  - intros H. exists x. split; [assumption|apply eqb_refl].
Qed.

Lemma digit_cases (c : char) :
  Py.is_digit c = true ->
  c = 48 \/ c = 49 \/ c = 50 \/ c = 51 \/ c = 52 \/ c = 53 \/ c = 54 \/ c = 55
  \/ c = 56 \/ c = 57.
Proof.
  unfold Py.is_digit, Py.between. rewrite andb_true_iff, !N.leb_le. lia.
Qed.

Lemma digit_not_space (c : char) : Py.is_digit c = true -> Py.is_space c = false.
Proof.
  intros H. destruct (digit_cases c H) as [->|[->|[->|[->|[->|[->|[->|[->|[->| ->]]]]]]]]];
    reflexivity.
Qed.

Lemma three_digits_inv (t : str) :
  (length t =? 3)%nat && forallb Py.is_digit t = true ->
  exists a b c, t = [a; b; c] /\ Py.is_digit a = true /\ Py.is_digit b = true
                /\ Py.is_digit c = true.
Proof.
  rewrite andb_true_iff, Nat.eqb_eq. intros [L F].
  destruct t as [|a [|b [|c [|d t]]]]; try discriminate.
  simpl in F. rewrite !andb_true_iff in F. exists a, b, c. tauto.
Qed.

End PyFacts.

(* ------------------------------------------------------------------ *)
(** ** C1: clean and dirty tokens *)
(* ------------------------------------------------------------------ *)

Ltac settle_token :=
  vm_compute; repeat split; intros;
  try discriminate; try tauto;
  try (eexists; repeat split; reflexivity).

Ltac each_digit H :=
  destruct (PyFacts.digit_cases _ H)
    as [->|[->|[->|[->|[->|[->|[->|[->|[->| ->]]]]]]]]].

(** C1.  For every valid delinquency token (one of 000, XXX, STD, - or a
    three-digit string), the classification by [CLEAN_STATES] (applied, as
    everywhere in the extractor, to the upper-cased token) says clean exactly
    when the token is one of the four sentinels; [_dpd_to_number] maps a clean
    token to 0; and every other valid token is a three-digit string, is
    dirty, and is mapped by [_dpd_to_number] to its integer value, which is
    positive. *)
Theorem token_classification (t : str) (V : is_valid_token t = true) :
  (is_clean (Py.upper t) = true <-> In t clean_sentinels) /\
  (In t clean_sentinels -> _dpd_to_number t = 0%Z) /\
  (~ In t clean_sentinels ->
     is_three_digits t = true /\ is_clean (Py.upper t) = false /\
     exists n, Py.int t = Some n /\ _dpd_to_number t = n /\ (0 < n)%Z).
Proof.
  rewrite <- !PyFacts.mem_In.
  unfold is_valid_token in V. apply orb_true_iff in V. destruct V as [V|V].
  - apply PyFacts.mem_In in V. simpl in V.
    destruct V as [<-|[<-|[<-|[<-|[]]]]]; settle_token.
  - destruct (PyFacts.three_digits_inv _ V) as (a & b & c & -> & Ha & Hb & Hc).
    clear V. each_digit Ha; each_digit Hb; each_digit Hc; settle_token.
Qed.

Lemma token_classification_witness :
  is_valid_token (Py.lit "015") = true /\
  ~ In (Py.lit "015") clean_sentinels /\
  is_clean (Py.upper (Py.lit "015")) = false /\
  _dpd_to_number (Py.lit "015") = 15%Z /\
  _dpd_to_number (Py.lit "XXX") = 0%Z.
Proof.
  assert (V : is_valid_token (Py.lit "015") = true) by reflexivity.
  assert (D : ~ In (Py.lit "015") clean_sentinels).
  { rewrite <- PyFacts.mem_In. vm_compute. discriminate. }
  destruct (token_classification (Py.lit "015") V) as (_ & _ & H3).
  destruct (H3 D) as (_ & Hd & n & Hn & Hv & _).
  repeat split; try assumption; reflexivity.
Defined.

(* ------------------------------------------------------------------ *)
(** ** What the delinquency-token pattern matches *)
(* ------------------------------------------------------------------ *)

Module TokenFacts.
Import Re ReSem ReFacts.

Lemma one_i_upper x c : one_i x c = true -> Py.to_upper c = Py.to_upper x.
Proof.
  unfold one_i, Py.to_lower, Py.to_upper, Py.is_upper, Py.is_lower, Py.between.
  rewrite N.eqb_eq.
  repeat match goal with
         | |- context [?a <=? ?b] => destruct (N.leb_spec a b)
         end; simpl; lia.
Qed.

Ltac inv_matches :=
  repeat match goal with
         | H : matches (Seq _ _) _ _ _ |- _ => inversion H; subst; clear H
         | H : matches (Alt _ _) _ _ _ |- _ => inversion H; subst; clear H
         | H : matches (Chr _) _ _ _ |- _ => inversion H; subst; clear H
         | H : matches Eps _ _ _ |- _ => inversion H; subst; clear H
         | H : matches WordB _ _ _ |- _ => inversion H; subst; clear H
         | H : matches Eol _ _ _ |- _ => inversion H; subst; clear H
         | H : matches (Grp _ _) _ _ _ |- _ => inversion H; subst; clear H
         end.

Ltac upper_literals :=
  repeat match goal with
         | H : one_i _ _ = true |- _ => rewrite (one_i_upper _ _ H); clear H
         end.

(** Whatever the pattern matches is, in upper case, a word of the
    vocabulary. *)
Lemma dpd_match_valid st w out :
  matches DPD_TOKEN_RE st w out -> is_valid_token (Py.upper w) = true.
Proof.
  unfold DPD_TOKEN_RE, lit_ci, digits_n, seqs. simpl. intros H.
  inv_matches; simpl; upper_literals; try reflexivity.
  each_digit H5; each_digit H6; each_digit H8; reflexivity.
Qed.

Lemma dpd_tokens_valid (s t : str) :
  In t (dpd_tokens s) -> is_valid_token (Py.upper t) = true.
Proof.
  unfold dpd_tokens, findall0, finditer. rewrite in_map_iff.
  intros (m & <- & Hm).
  destruct (scan_sound _ _ _ _ _ Hm) as (prev & s' & out & M & _).
  eapply dpd_match_valid; eassumption.
Qed.

(** Upper-casing a word of the vocabulary changes nothing. *)
Lemma valid_upper_fixed (t : str) :
  is_valid_token t = true -> Py.upper t = t.
Proof.
  unfold is_valid_token. rewrite orb_true_iff. intros [V|V].
  - apply PyFacts.mem_In in V. simpl in V.
    destruct V as [<-|[<-|[<-|[<-|[]]]]]; reflexivity.
  - destruct (PyFacts.three_digits_inv _ V) as (a & b & c & -> & Ha & Hb & Hc).
    each_digit Ha; each_digit Hb; each_digit Hc; reflexivity.
Qed.

End TokenFacts.

Module RetokenFacts.
Import Re ReSem ReFacts PyFacts.

Lemma to_upper_inv (a x : char) :
  Py.to_upper a = x -> a = x \/ (a = x + 32 /\ 65 <= x <= 90).
Proof.
  unfold Py.to_upper, Py.is_lower, Py.between.
  destruct ((97 <=? a) && (a <=? 122)) eqn:E; [|tauto].
  apply andb_true_iff in E. destruct E as [L U].
  apply N.leb_le in L. apply N.leb_le in U.
  intros <-. right. lia.
Qed.

Lemma upper_digit (a : char) : Py.is_digit (Py.to_upper a) = true -> Py.is_digit a = true.
Proof.
  unfold Py.to_upper, Py.is_lower, Py.is_digit, Py.between.
  destruct ((97 <=? a) && (a <=? 122)) eqn:E; [|tauto].
  apply andb_true_iff in E. destruct E as [L U].
  apply N.leb_le in L. apply N.leb_le in U.
  intros H. apply andb_true_iff in H. destruct H as [_ H]. apply N.leb_le in H. lia.
Qed.

Lemma token_found (a b c : char) (prev : option char) (rest : str) :
  is_valid_token (Py.upper [a; b; c]) = true ->
  prev = None \/ prev = Some 32 -> rest = [] \/ (exists t, rest = 32 :: t) ->
  rmatch DPD_TOKEN_RE Some (MState prev (a :: b :: c :: rest) [])
  = Some (MState (Some c) rest []).
Proof.
  intros V P R.
  unfold is_valid_token in V. apply orb_true_iff in V. destruct V as [V|V].
  - apply mem_In in V. cbn in V.
    destruct V as [V|[V|[V|[V|[]]]]]; try discriminate V;
      injection V as Ha Hb Hc;
      symmetry in Ha, Hb, Hc; apply to_upper_inv in Ha, Hb, Hc;
      destruct Ha as [-> | [-> Ba]], Hb as [-> | [-> Bb]], Hc as [-> | [-> Bc]];
      try (exfalso; lia);
      destruct P as [-> | ->], R as [-> | [t ->]]; reflexivity.
  - unfold is_three_digits in V. cbn in V.
    apply andb_true_iff in V. destruct V as [Ha V].
    apply andb_true_iff in V. destruct V as [Hb V].
    apply andb_true_iff in V. destruct V as [Hc _].
    apply upper_digit in Ha, Hb, Hc.
    destruct P as [-> | ->], R as [-> | [t ->]];
    each_digit Ha; each_digit Hb; each_digit Hc; reflexivity.
Qed.

Lemma token_match (a b c : char) (prev : option char) (rest : str) :
  is_valid_token (Py.upper [a; b; c]) = true ->
  prev = None \/ prev = Some 32 -> rest = [] \/ (exists t, rest = 32 :: t) ->
  match_at DPD_TOKEN_RE prev (a :: b :: c :: rest) = Some (Match [a; b; c] []).
Proof.
  intros V P R. unfold match_at. rewrite (token_found a b c prev rest V P R).
  rewrite (consumed_app _ _ [a; b; c]); reflexivity.
Qed.

Lemma no_match_at_end (prev : option char) : match_at DPD_TOKEN_RE prev [] = None.
Proof. unfold match_at. cbn. destruct (at_boundary _); reflexivity. Qed.

Lemma no_match_at_space (prev : option char) (t : str) :
  match_at DPD_TOKEN_RE prev (32 :: t) = None.
Proof. unfold match_at. cbn. destruct (at_boundary _); reflexivity. Qed.

Lemma no_match_at_dash (prev : option char) (rest : str) :
  prev = None \/ prev = Some 32 ->
  match_at DPD_TOKEN_RE prev (45 :: rest) = None.
Proof. intros [-> | ->]; reflexivity. Qed.

Lemma valid_token_shape (t : str) :
  is_valid_token (Py.upper t) = true ->
  t = [45] \/ exists a b c, t = [a; b; c].
Proof.
  intros V. unfold is_valid_token in V. apply orb_true_iff in V. destruct V as [V|V].
  - apply mem_In in V. cbn in V.
    destruct V as [V|[V|[V|[V|[]]]]];
      destruct t as [|a [|b [|c [|d t]]]]; try discriminate V.
    1-3: right; exists a, b, c; reflexivity.
    injection V as V. symmetry in V. apply to_upper_inv in V.
    destruct V as [-> | [_ V]]; [left; reflexivity | exfalso; lia].
  - unfold is_three_digits in V. apply andb_true_iff in V. destruct V as [L _].
    apply Nat.eqb_eq in L. unfold Py.upper in L. rewrite length_map in L.
    destruct t as [|a [|b [|c [|d t]]]]; try discriminate L.
    right. exists a, b, c. reflexivity.
Qed.

(** Rewriting with a fact about [match_at], up to the names of the types. *)
Ltac rewrite_at H :=
  match type of H with
  | ?l = _ =>
      match goal with
      | |- context [match_at ?r ?p ?s] => change (match_at r p s) with l
      end; rewrite H
  end.

(** What follows a token of a joined string. *)
Lemma join_cons (t : str) (ts : list str) :
  Py.join (Py.lit " ") (t :: ts)
  = t ++ match ts with [] => [] | _ => 32 :: Py.join (Py.lit " ") ts end.
Proof. destruct ts; cbn [Py.join]; [rewrite app_nil_r|]; reflexivity. Qed.

Lemma scan_joined (ts : list str) : forall prev,
  prev = None \/ prev = Some 32 ->
  Forall (fun t => is_valid_token (Py.upper t) = true) ts ->
  scan DPD_TOKEN_RE prev (Py.join (Py.lit " ") ts) 0
  = map (fun t => Match t []) (filter (fun t => negb (Py.eqb t (Py.lit "-"))) ts).
Proof.
  induction ts as [|t ts IH]; intros prev P V.
  - cbn. rewrite no_match_at_end. reflexivity.
  - inversion V as [|? ? Vt Vts]; subst.
    rewrite join_cons.
    match goal with |- context [t ++ ?r] => remember r as rest eqn:Erest end.
    assert (F : rest = [] \/ exists u, rest = 32 :: u).
    { subst rest. destruct ts; [left; reflexivity | right; eexists; reflexivity]. }
    assert (R : forall prev', scan DPD_TOKEN_RE prev' rest 0
                = map (fun t => Match t [])
                      (filter (fun t => negb (Py.eqb t (Py.lit "-"))) ts)).
    { intros prev'. subst rest. destruct ts as [|u us].
      - cbn. rewrite no_match_at_end. reflexivity.
      - cbn [scan]. rewrite no_match_at_space. apply IH; [right; reflexivity|exact Vts]. }
    destruct (valid_token_shape t Vt) as [-> | (a & b & c & ->)].
    + cbn [app scan]. rewrite_at (no_match_at_dash prev rest P).
      rewrite R. reflexivity.
    + cbn [app scan]. rewrite_at (token_match a b c prev rest Vt P F).
      cbn [mt_text length pred scan]. rewrite R.
      cbn [filter Py.eqb Py.lit map String.list_ascii_of_string].
      rewrite andb_false_r. reflexivity.
Qed.

Lemma retokenize (ts : list str) :
  Forall (fun t => is_valid_token (Py.upper t) = true) ts ->
  dpd_tokens (Py.join (Py.lit " ") ts)
  = filter (fun t => negb (Py.eqb t (Py.lit "-"))) ts.
Proof.
  intros V. unfold dpd_tokens, findall0, finditer.
  etransitivity;
    [apply f_equal; exact (scan_joined ts None (or_introl eq_refl) V)|].
  rewrite map_map. cbn [mt_text]. apply map_id.
Qed.

Lemma found_tokens_valid (lines : list str) :
  Forall (fun t => is_valid_token (Py.upper t) = true) (flat_map dpd_tokens lines).
Proof.
  apply Forall_forall. intros t I. apply in_flat_map in I.
  destruct I as (s & _ & I). exact (TokenFacts.dpd_tokens_valid s t I).
Qed.

End RetokenFacts.

(* ------------------------------------------------------------------ *)
(** ** Sorting and dictionaries *)
(* ------------------------------------------------------------------ *)

Module SortFacts.

Lemma compare_antisym (a b : str) : Py.compare b a = CompOpp (Py.compare a b).
Proof.
  revert b. induction a as [|x a IH]; destruct b as [|y b]; simpl; auto.
  rewrite (N.compare_antisym x y). destruct (x ?= y); simpl; auto.
Qed.

Lemma compare_eq (a b : str) : Py.compare a b = Eq <-> a = b.
Proof.
  revert b. induction a as [|x a IH]; destruct b as [|y b]; simpl;
    try (split; [discriminate|congruence]); [tauto|].
  destruct (x ?= y) eqn:E.
  - apply N.compare_eq_iff in E. subst. rewrite IH.
    split; [intros ->|intros [= ->]]; auto.
  - split; [discriminate|]. intros [= -> ->]. rewrite N.compare_refl in E. discriminate.
  - split; [discriminate|]. intros [= -> ->]. rewrite N.compare_refl in E. discriminate.
Qed.

Lemma compare_trans_lt (a b c : str) :
  Py.compare a b = Lt -> Py.compare b c = Lt -> Py.compare a c = Lt.
Proof.
  revert b c. induction a as [|x a IH]; destruct b as [|y b]; destruct c as [|z c];
    simpl; try congruence.
  destruct (x ?= y) eqn:Exy; try discriminate.
  - apply N.compare_eq_iff in Exy. subst y.
    destruct (x ?= z); try congruence. eauto.
  - intros _. destruct (y ?= z) eqn:Eyz; try discriminate.
    + apply N.compare_eq_iff in Eyz. subst z. now rewrite Exy.
    + intros _. rewrite N.compare_lt_iff in *.
      assert (L : x < z) by lia. apply N.compare_lt_iff in L. now rewrite L.
Qed.

Lemma leb_total (a b : str) : Py.leb a b = false -> Py.leb b a = true.
Proof.
  unfold Py.leb. rewrite (compare_antisym a b). destruct (Py.compare a b); simpl; congruence.
Qed.

Lemma leb_refl (a : str) : Py.leb a a = true.
Proof.
  unfold Py.leb. now rewrite (proj2 (compare_eq a a) eq_refl).
Qed.

Lemma leb_trans (a b c : str) :
  Py.leb a b = true -> Py.leb b c = true -> Py.leb a c = true.
Proof.
  unfold Py.leb. intros H1 H2.
  destruct (Py.compare a b) eqn:E1; try discriminate;
    destruct (Py.compare b c) eqn:E2; try discriminate.
  - apply compare_eq in E1, E2. subst. now rewrite (proj2 (compare_eq c c) eq_refl).
  - apply compare_eq in E1. subst. now rewrite E2.
  - apply compare_eq in E2. subst. now rewrite E1.
  - now rewrite (compare_trans_lt _ _ _ E1 E2).
Qed.

Lemma ltb_leb (a b : str) : Py.ltb a b = negb (Py.leb b a).
Proof.
  unfold Py.ltb, Py.leb. rewrite (compare_antisym a b).
  destruct (Py.compare a b); reflexivity.
Qed.

Lemma insert_perm (x : str) (l : list str) : Permutation (Py.insert x l) (x :: l).
Proof.
  induction l as [|y l IH]; simpl; [reflexivity|].
  destruct (Py.leb x y); [reflexivity|].
  rewrite IH. apply perm_swap.
Qed.

Lemma sorted_perm (l : list str) : Permutation (Py.sorted l) l.
Proof.
  induction l as [|x l IH]; simpl; [reflexivity|].
  unfold Py.sorted in *. simpl. rewrite insert_perm. now constructor.
Qed.

Lemma insert_ascending (x : str) (l : list str) :
  ascending l -> ascending (Py.insert x l).
Proof.
  unfold ascending. induction 1 as [|y l S IH F]; simpl.
  - repeat constructor.
  - destruct (Py.leb x y) eqn:E.
    + constructor; [now constructor|]. constructor; [assumption|].
      rewrite Forall_forall in *. intros z Hz. eapply leb_trans; eauto.
    + constructor; [assumption|].
      rewrite Forall_forall in *. intros z Hz.
      apply (Permutation_in _ (insert_perm x l)) in Hz. destruct Hz as [<-|Hz].
      * now apply leb_total.
      * auto.
Qed.

Lemma sorted_ascending (l : list str) : ascending (Py.sorted l).
Proof.
  induction l as [|x l IH]; simpl; [constructor|].
  now apply insert_ascending.
Qed.

End SortFacts.

Module DictFacts.

Lemma get_In {V} (d : dict V) (k : str) (v : V) :
  Dict.get d k = Some v -> In (k, v) d.
Proof.
  induction d as [|[k' v'] d IH]; simpl; [discriminate|].
  destruct (Py.eqb k k') eqn:E.
  - apply PyFacts.eqb_eq in E. intros [= ->]. subst. now left.
  - auto.
Qed.

Lemma key_get {V} (d : dict V) (k : str) :
  In k (Dict.keys d) -> exists v, Dict.get d k = Some v.
Proof.
  induction d as [|[k' v'] d IH]; simpl; [contradiction|].
  destruct (Py.eqb k k') eqn:E; [eauto|].
  intros [H|H]; [|auto]. subst. rewrite PyFacts.eqb_refl in E. discriminate.
Qed.

Lemma get_key {V} (d : dict V) (k : str) (v : V) :
  Dict.get d k = Some v -> In k (Dict.keys d).
Proof.
  intros H. apply get_In in H. unfold Dict.keys.
  change k with (fst (k, v)). now apply in_map.
Qed.

Lemma In_get {V} (d : dict V) (k : str) (v : V) :
  Dict.wf d -> In (k, v) d -> Dict.get d k = Some v.
Proof.
  unfold Dict.wf, Dict.keys.
  induction d as [|[k' v'] d IH]; simpl; [contradiction|].
  intros W H. inversion W as [|? ? N W']; subst.
  destruct H as [[= -> ->]|H].
  - now rewrite PyFacts.eqb_refl.
  - destruct (Py.eqb k k') eqn:E; [|auto].
    apply PyFacts.eqb_eq in E. subst. exfalso. apply N.
    change k' with (fst (k', v)). now apply in_map.
Qed.

End DictFacts.

(* ------------------------------------------------------------------ *)
(** ** C2: the three rules of the deterioration reasoning *)
(* ------------------------------------------------------------------ *)

Module ReasoningFacts.

Lemma no_clean_Forall (tokens : list str) :
  existsb is_clean tokens = false <-> Forall (fun t => is_clean t = false) tokens.
Proof.
  induction tokens as [|t l IH]; simpl.
  - split; [constructor|reflexivity].
  - rewrite orb_false_iff, IH. split.
    + intros [? ?]. now constructor.
    + intros H. inversion H. auto.
Qed.

Lemma some_clean_Exists (tokens : list str) :
  existsb is_clean tokens = true <-> Exists (fun t => is_clean t = true) tokens.
Proof.
  rewrite existsb_exists, Exists_exists. reflexivity.
Qed.

Lemma transition_at_tail (t : str) (l : list str) (j : nat) (p c : str) :
  transition_at (t :: l) (S j) p c <-> transition_at l j p c.
Proof. unfold transition_at. simpl. reflexivity. Qed.

Lemma eqb_neq_iff (a b : bool) : negb (Bool.eqb a b) = true <-> a <> b.
Proof. destruct a, b; simpl; split; congruence. Qed.

(** The loop of rule 2 finds the first transition. *)
Lemma first_transition_some (tokens : list str) (p c : str) :
  first_transition tokens = Some (p, c) <->
  exists i, transition_at tokens i p c /\
            forall j p' c', (j < i)%nat -> ~ transition_at tokens j p' c'.
Proof.
  revert p c. induction tokens as [|a l IH]; intros p c.
  - simpl. split; [discriminate|].
    intros (i & (H & _) & _). destruct i; discriminate.
  - destruct l as [|b l'].
    + simpl. split; [discriminate|].
      intros (i & (_ & H & _) & _). destruct i; simpl in H; [discriminate|].
      destruct i; discriminate.
    + change (first_transition (a :: b :: l'))
        with (if negb (Bool.eqb (is_clean a) (is_clean b)) then Some (a, b)
              else first_transition (b :: l')).
      destruct (negb (Bool.eqb (is_clean a) (is_clean b))) eqn:E.
      * apply eqb_neq_iff in E. split.
        -- intros [= <- <-]. exists 0%nat. split; [repeat split; auto|]. intros; lia.
        -- intros (i & T & Least). destruct i as [|i].
           ++ destruct T as (H0 & H1 & _). simpl in H0, H1. congruence.
           ++ exfalso. apply (Least 0%nat a b); [lia|]. repeat split; auto.
      * assert (NE : ~ is_clean a <> is_clean b).
        { intros N. apply eqb_neq_iff in N. congruence. }
        rewrite IH. split.
        -- intros (i & T & Least). exists (S i). split; [now apply (proj2 (transition_at_tail _ _ _ _ _))|].
           intros j p' c' Lt T'. destruct j as [|j].
           ++ destruct T' as (H0 & H1 & N). simpl in H0, H1.
              injection H0 as <-. injection H1 as <-. contradiction.
           ++ apply (proj1 (transition_at_tail _ _ _ _ _)) in T'. apply (Least j p' c'); [lia|assumption].
        -- intros (i & T & Least). destruct i as [|i].
           ++ destruct T as (H0 & H1 & N). simpl in H0, H1.
              injection H0 as <-. injection H1 as <-. contradiction.
           ++ exists i. split; [now apply (proj1 (transition_at_tail _ _ _ _ _)) in T|].
              intros j p' c' Lt T'. apply (Least (S j) p' c'); [lia|].
              now apply (proj2 (transition_at_tail _ _ _ _ _)).
Qed.

Lemma first_transition_none (tokens : list str) :
  first_transition tokens = None <->
  forall j p c, ~ transition_at tokens j p c.
Proof.
  split.
  - intros N j p c T.
    assert (E : exists i p c, transition_at tokens i p c) by eauto.
    clear T. destruct E as (i & E).
    induction i as [i IHi] using lt_wf_ind.
    destruct E as (p' & c' & T).
    destruct (first_transition tokens) as [[p0 c0]|] eqn:F; [discriminate|].
    assert (D : (exists k, (k < i)%nat /\ exists p c, transition_at tokens k p c)
                \/ forall k p c, (k < i)%nat -> ~ transition_at tokens k p c).
    { clear -tokens. induction i as [|i IH].
      - right. intros; lia.
      - destruct IH as [(k & L & E)|A].
        + left. exists k. split; [lia|assumption].
        + destruct (nth_error tokens i) as [p|] eqn:Ei;
            [destruct (nth_error tokens (S i)) as [c|] eqn:Esi|].
          * destruct (Bool.bool_dec (is_clean p) (is_clean c)) as [Eq|Ne].
            -- right. intros k p0 c0 L (H0 & H1 & N).
               destruct (Nat.eq_dec k i) as [->|Nk].
               ++ congruence.
               ++ apply (A k p0 c0); [lia|repeat split; auto].
            -- left. exists i. split; [lia|]. exists p, c. repeat split; auto.
          * right. intros k p0 c0 L (H0 & H1 & N).
            destruct (Nat.eq_dec k i) as [->|Nk]; [congruence|].
            apply (A k p0 c0); [lia|repeat split; auto].
          * right. intros k p0 c0 L (H0 & H1 & N).
            destruct (Nat.eq_dec k i) as [->|Nk]; [congruence|].
            apply (A k p0 c0); [lia|repeat split; auto]. }
    destruct D as [(k & L & E)|A].
    + exact (IHi k L E).
    + assert (S : first_transition tokens = Some (p', c')).
      { apply first_transition_some. exists i. split; assumption. }
      congruence.
  - intros A. destruct (first_transition tokens) as [[p c]|] eqn:F; [|reflexivity].
    apply first_transition_some in F. destruct F as (i & T & _).
    exfalso. exact (A i p c T).
Qed.

(** Without a transition, one clean token makes every token clean. *)
Lemma no_transition_all_clean (tokens : list str) :
  Exists (fun t => is_clean t = true) tokens ->
  (forall j p c, ~ transition_at tokens j p c) ->
  Forall (fun t => is_clean t = true) tokens.
Proof.
  induction tokens as [|a l IH]; intros E A; [constructor|].
  destruct l as [|b l'].
  - inversion E as [? ? H|? ? H]; subst; [repeat constructor; assumption|inversion H].
  - assert (Eab : is_clean a = is_clean b).
    { destruct (Bool.bool_dec (is_clean a) (is_clean b)) as [?|N]; [assumption|].
      exfalso. apply (A 0%nat a b). repeat split; auto. }
    assert (A' : forall j p c, ~ transition_at (b :: l') j p c).
    { intros j p c T. apply (A (S j) p c). now apply (proj2 (transition_at_tail _ _ _ _ _)). }
    assert (E' : Exists (fun t => is_clean t = true) (b :: l')).
    { inversion E as [? ? H|? ? H]; subst; [|assumption].
      constructor. congruence. }
    specialize (IH E' A'). constructor; [|assumption].
    inversion IH; subst. congruence.
Qed.

Lemma example_codes_dirty (code : str) : In code dirty_examples -> is_clean code = false.
Proof.
  simpl. intros [<-|[<-|[<-|[]]]]; reflexivity.
Qed.

Lemma first_explicit_none (examples tokens : list str) :
  (forall code, In code examples -> ~ In code tokens) ->
  first_explicit examples tokens = None.
Proof.
  induction examples as [|e l IH]; intros A; simpl; [reflexivity|].
  destruct (Py.mem e tokens) eqn:M.
  - apply PyFacts.mem_In in M. exfalso. apply (A e); simpl; auto.
  - apply IH. intros code H. apply A. simpl. auto.
Qed.

(** Rule 3 can never be the one that fires. *)
Lemma rule3_unreachable (tokens : list str) (code : str) :
  ~ rule_fires tokens (ExplicitDirty code).
Proof.
  intros R. inversion R as [| |? E A Hc Ht]; subst.
  pose proof (no_transition_all_clean _ E A) as C.
  rewrite Forall_forall in C. specialize (C _ Ht).
  rewrite (example_codes_dirty _ Hc) in C. discriminate.
Qed.

Lemma tokens_of_empty : dpd_tokens [] = [].
Proof. reflexivity. Qed.

(** One year of the loop returns what the first applicable rule yields. *)
Lemma reasoning_of_year_fires (year dpd : str) (f : finding) :
  rule_fires (year_tokens dpd) f ->
  reasoning_of_year year dpd = Some (render f year).
Proof.
  intros R. unfold reasoning_of_year.
  fold (year_tokens dpd).
  assert (NE : year_tokens dpd <> []).
  { inversion R as [N _|? ? ? E _ _|? E _ _ _]; subst; try assumption;
      intros Z; rewrite Z in E; inversion E. }
  destruct dpd as [|d0 dpd']; [exfalso; apply NE; reflexivity|].
  simpl Py.truthy. simpl negb. cbv iota.
  destruct (year_tokens (d0 :: dpd')) as [|t0 ts] eqn:ET; [congruence|].
  inversion R as [N F|i p c E T Least|code E A Hc Ht]; subst.
  - apply no_clean_Forall in F. rewrite F. reflexivity.
  - apply some_clean_Exists in E. rewrite E. simpl negb. simpl andb.
    assert (FT : first_transition (t0 :: ts) = Some (p, c)).
    { apply first_transition_some. eauto. }
    rewrite FT. simpl. destruct (is_clean c); reflexivity.
  - exfalso. eapply rule3_unreachable. exact R.
Qed.

Lemma reasoning_of_year_none (year dpd : str) :
  no_rule (year_tokens dpd) -> reasoning_of_year year dpd = None.
Proof.
  intros (E & A & X). unfold reasoning_of_year. fold (year_tokens dpd).
  destruct (Py.truthy dpd); [|reflexivity]. simpl negb. cbv iota.
  destruct (year_tokens dpd) as [|t0 ts] eqn:ET; [reflexivity|].
  destruct E as [E|E]; [discriminate|].
  apply some_clean_Exists in E. rewrite E. simpl negb. simpl andb. cbv iota.
  apply first_transition_none in A. rewrite A.
  now rewrite (first_explicit_none _ _ X).
Qed.

(** Each token sequence is in exactly one of the two situations. *)
Lemma rules_total (tokens : list str) :
  (exists f, rule_fires tokens f) \/ no_rule tokens.
Proof.
  destruct (existsb is_clean tokens) eqn:C.
  - apply some_clean_Exists in C.
    destruct (first_transition tokens) as [[p c]|] eqn:F.
    + apply (proj1 (first_transition_some _ _ _)) in F. destruct F as (i & T & Least).
      left. eexists. eapply Rule2; eauto.
    + pose proof (proj1 (first_transition_none _) F) as A. right. repeat split; auto.
      intros code Hc Ht.
      pose proof (no_transition_all_clean _ C A) as AC.
      rewrite Forall_forall in AC. specialize (AC _ Ht).
      rewrite (example_codes_dirty _ Hc) in AC. discriminate.
  - apply no_clean_Forall in C. destruct tokens as [|t0 ts].
    + right. repeat split.
      * now left.
      * intros j p c (H & _). destruct j; discriminate.
      * intros code _ [].
    + left. eexists. apply Rule1; [discriminate|assumption].
Qed.

Lemma rules_exclusive (tokens : list str) (f : finding) :
  rule_fires tokens f -> ~ no_rule tokens.
Proof.
  intros R (E & A & X). inversion R as [N F|i p c E' T Least|code E' A' Hc Ht]; subst.
  - destruct E as [E|E]; [contradiction|].
    rewrite Exists_exists in E. destruct E as (t & Ht & Ct).
    rewrite Forall_forall in F. rewrite (F _ Ht) in Ct. discriminate.
  - exact (A _ _ _ T).
  - exact (X _ Hc Ht).
Qed.

Lemma loop_skips (h : dict str) (before rest : list str) :
  (forall y, In y before -> exists d, Dict.get h y = Some d /\ no_rule (year_tokens d)) ->
  reasoning_loop h (before ++ rest) = reasoning_loop h rest.
Proof.
  induction before as [|y l IH]; intros A; simpl; [reflexivity|].
  destruct (A y (or_introl eq_refl)) as (d & G & N).
  rewrite G, (reasoning_of_year_none _ _ N). apply IH.
  intros z Hz. apply A. now right.
Qed.

End ReasoningFacts.

Module TokenTextFacts.
Import PyFacts DictFacts ReasoningFacts.

(** In the text of a token sequence the analyses find the tokens other
    than the dashes. *)
Lemma seen_tokens (tokens : list str) :
  token_sequence tokens -> year_tokens (token_text tokens) = tokens_but_dashes tokens.
Proof.
  intros V. unfold year_tokens, token_text, tokens_but_dashes.
  rewrite (RetokenFacts.retokenize tokens V). reflexivity.
Qed.

Lemma stored_keys (years : dict (list str)) :
  Dict.keys (stored_history years) = Dict.keys years.
Proof.
  unfold stored_history, Dict.keys. rewrite map_map. reflexivity.
Qed.

Lemma stored_get (years : dict (list str)) (y : str) :
  Dict.get (stored_history years) y
  = match Dict.get years y with
    | Some tokens => Some (token_text tokens)
    | None => None
    end.
Proof.
  induction years as [|[k ts] years IH]; [reflexivity|].
  cbn [stored_history map Dict.get fst snd]. destruct (Py.eqb y k); [reflexivity|exact IH].
Qed.

Lemma get_sequence (years : dict (list str)) (y : str) (tokens : list str) :
  Forall (fun p => token_sequence (snd p)) years ->
  Dict.get years y = Some tokens -> token_sequence tokens.
Proof.
  intros V G. apply get_In in G. rewrite Forall_forall in V. exact (V _ G).
Qed.

(** The loop passes the years whose tokens other than the dashes trigger
    no rule. *)
Lemma stored_loop_skips (years : dict (list str)) (before rest : list str) :
  Forall (fun p => token_sequence (snd p)) years ->
  (forall y, In y before -> In y (Dict.keys years)) ->
  (forall y ts, In y before -> Dict.get years y = Some ts ->
                no_rule (tokens_but_dashes ts)) ->
  reasoning_loop (stored_history years) (before ++ rest)
  = reasoning_loop (stored_history years) rest.
Proof.
  intros V K N. apply loop_skips. intros y I.
  destruct (key_get _ _ (K y I)) as (ts & G).
  exists (token_text ts). rewrite stored_get, G. split; [reflexivity|].
  rewrite (seen_tokens ts (get_sequence _ _ _ V G)). exact (N y ts I G).
Qed.

End TokenTextFacts.

(** C2 (as amended).  A history holds, for each year, the year's tokens
    joined by single spaces, and [_get_deterioration_reasoning] matches the
    token pattern on that text again: what it finds are the year's tokens
    other than the dashes, for a dash standing alone is not matched.  It
    visits the years in ascending sorted order and returns what the first
    applicable rule yields for the first year in which a rule applies to
    these tokens: rule 1 (at least one token, none clean) gives the
    completely-dirty reasoning with the token count; otherwise rule 2 gives
    the transition reasoning of the first adjacent pair of different
    classification, with its direction and its two tokens.  Rule 3 looks for
    the first of the fixed codes among the tokens, but it is never the rule
    that applies.  When no year triggers a rule the result is the empty
    string.  Every token sequence is in one of the two situations.  A single
    year with tokens 015 032 is completely dirty (2 tokens); with 000 015 it
    is a clean-to-dirty transition from 000 to 015; with - 015 it is
    completely dirty (1 token).  With the years 2023 (a transition), 2021
    (clean) and 2022 (completely dirty) inserted in that order, the reasoning
    is that of 2022. *)
Theorem deterioration_reasoning_rules (years_tokens : dict (list str))
    (V : Forall (fun p => token_sequence (snd p)) years_tokens) :
  let h := stored_history years_tokens in
  let years := Py.sorted (Dict.keys h) in
  (ascending years /\ Permutation years (Dict.keys years_tokens)) /\
  (forall tokens, token_sequence tokens ->
     year_tokens (token_text tokens) = tokens_but_dashes tokens) /\
  (forall before year after tokens f,
     years = before ++ year :: after ->
     (forall y ts, In y before -> Dict.get years_tokens y = Some ts ->
                   no_rule (tokens_but_dashes ts)) ->
     Dict.get years_tokens year = Some tokens ->
     rule_fires (tokens_but_dashes tokens) f ->
     _get_deterioration_reasoning h = render f year) /\
  ((forall y ts, Dict.get years_tokens y = Some ts -> no_rule (tokens_but_dashes ts)) ->
   _get_deterioration_reasoning h = []) /\
  (forall tokens, (exists f, rule_fires tokens f) \/ no_rule tokens) /\
  (forall tokens,
     first_explicit dirty_examples tokens
     = find (fun code => Py.mem code tokens) dirty_examples) /\
  (forall tokens f,
     rule_fires tokens f ->
     match f with
     | CompletelyDirty _ | Transition _ _ _ => True
     | ExplicitDirty _ => False
     end) /\
  (forall year,
     _get_deterioration_reasoning
       (stored_history [(year, [Py.lit "015"; Py.lit "032"])])
     = render (CompletelyDirty 2) year) /\
  (forall year,
     _get_deterioration_reasoning
       (stored_history [(year, [Py.lit "000"; Py.lit "015"])])
     = render (Transition true (Py.lit "000") (Py.lit "015")) year) /\
  (forall year,
     _get_deterioration_reasoning
       (stored_history [(year, [Py.lit "-"; Py.lit "015"])])
     = render (CompletelyDirty 1) year) /\
  _get_deterioration_reasoning
    (stored_history
       [(Py.lit "2023", [Py.lit "000"; Py.lit "015"]);
        (Py.lit "2021", [Py.lit "000"; Py.lit "XXX"]);
        (Py.lit "2022", [Py.lit "015"; Py.lit "032"])])
  = Py.lit "COMPLETELY_DIRTY: 2 dirty tokens in 2022".
Proof.
  intros h years.
  assert (P : Permutation years (Dict.keys years_tokens)).
  { subst years h. rewrite TokenTextFacts.stored_keys. apply SortFacts.sorted_perm. }
  split; [split; [apply SortFacts.sorted_ascending|exact P]|].
  split; [exact TokenTextFacts.seen_tokens|].
  split; [|split; [|split; [exact ReasoningFacts.rules_total|split; [reflexivity|split]]]].
  - intros before year after tokens f E Skip G R.
    unfold _get_deterioration_reasoning. fold h. fold years. rewrite E.
    subst h. rewrite TokenTextFacts.stored_loop_skips; [|exact V| |exact Skip].
    + cbn [reasoning_loop]. rewrite TokenTextFacts.stored_get, G.
      rewrite <- (TokenTextFacts.seen_tokens tokens) in R
        by exact (TokenTextFacts.get_sequence _ _ _ V G).
      rewrite (ReasoningFacts.reasoning_of_year_fires _ _ _ R). reflexivity.
    + intros y I. apply (Permutation_in _ P). rewrite E. apply in_or_app. left. exact I.
  - intros N. unfold _get_deterioration_reasoning. fold h. fold years.
    rewrite <- (app_nil_r years). subst h.
    rewrite TokenTextFacts.stored_loop_skips; [reflexivity|exact V| |].
    + intros y I. exact (Permutation_in _ P I).
    + intros y ts _ G. exact (N y ts G).
  - intros tokens f R. destruct f; [exact I|exact I|].
    exact (ReasoningFacts.rule3_unreachable _ _ R).
  - split; [|split; [|split]].
    + intros year. unfold _get_deterioration_reasoning. simpl.
      rewrite PyFacts.eqb_refl. reflexivity.
    + intros year. unfold _get_deterioration_reasoning. simpl.
      rewrite PyFacts.eqb_refl. reflexivity.
    + intros year. unfold _get_deterioration_reasoning. simpl.
      rewrite PyFacts.eqb_refl. reflexivity.
    + reflexivity.
Qed.

Lemma deterioration_reasoning_rules_witness :
  let years_tokens :=
    [(Py.lit "2023", [Py.lit "000"; Py.lit "015"]);
     (Py.lit "2021", [Py.lit "000"; Py.lit "xxx"; Py.lit "-"]);
     (Py.lit "2022", [Py.lit "-"; Py.lit "015"])] in
  Forall (fun p => token_sequence (snd p)) years_tokens /\
  _get_deterioration_reasoning (stored_history years_tokens)
  = render (CompletelyDirty 1) (Py.lit "2022").
Proof.
  assert (V : Forall (fun p => token_sequence (snd p))
                [(Py.lit "2023", [Py.lit "000"; Py.lit "015"]);
                 (Py.lit "2021", [Py.lit "000"; Py.lit "xxx"; Py.lit "-"]);
                 (Py.lit "2022", [Py.lit "-"; Py.lit "015"])]).
  { repeat constructor. }
  split; [exact V|].
  refine (proj1 (proj2 (proj2 (deterioration_reasoning_rules _ V)))
            [Py.lit "2021"] (Py.lit "2022") [Py.lit "2023"]
            [Py.lit "-"; Py.lit "015"] (CompletelyDirty 1) eq_refl _ eq_refl _).
  - intros y ts [<-|[]] G. vm_compute in G. injection G as <-.
    split; [right; repeat constructor|]. split.
    + intros j p c (A & B & C). destruct j as [|[|j]]; vm_compute in A, B;
        try discriminate. injection A as <-. injection B as <-. apply C. reflexivity.
    + intros code [<-|[<-|[<-|[]]]] [E|[E|[]]]; discriminate E.
  - apply (Rule1 [Py.lit "015"]); [discriminate|repeat constructor].
Defined.

(** C2, the claim as stated fails: the page-text builder stores the year
    2023 with the tokens - and 015 (the dash is the one of the stamp 01-23).
    The year's token sequence has a clean token, the dash, and its one
    adjacent pair goes from clean to dirty, so that the rules as stated give
    a transition; the function finds 015 alone and returns the
    completely-dirty reasoning. *)
Lemma deterioration_dash_not_seen :
  let tokens := [Py.lit "-"; Py.lit "015"] in
  _extract_dpd_history_pdf (Py.lit "01-23 015 02-23")
  = Ok [(Py.lit "2023", token_text tokens)] /\
  rule_fires (map Py.upper tokens) (Transition true (Py.lit "-") (Py.lit "015")) /\
  _get_deterioration_reasoning [(Py.lit "2023", token_text tokens)]
  = render (CompletelyDirty 1) (Py.lit "2023") /\
  Py.eqb (render (CompletelyDirty 1) (Py.lit "2023"))
         (render (Transition true (Py.lit "-") (Py.lit "015")) (Py.lit "2023")) = false.
Proof.
  cbv zeta. split; [vm_compute; reflexivity|]. split; [|split; vm_compute; reflexivity].
  apply (Rule2 _ 0 (Py.lit "-") (Py.lit "015")).
  - left. reflexivity.
  - split; [reflexivity|]. split; [reflexivity|]. vm_compute. discriminate.
  - intros j p c L. inversion L.
Qed.

(* ------------------------------------------------------------------ *)
(** ** C3: default months of a year and of an account *)
(* ------------------------------------------------------------------ *)

Module DefaultMonthFacts.

Lemma loop_some (tokens : list str) : forall idx m,
  default_month_loop idx tokens = Some m <->
  (idx <= m)%nat /\
  (exists t, nth_error tokens (m - idx) = Some t /\ is_clean t = false) /\
  (forall j t, (j < m - idx)%nat -> nth_error tokens j = Some t -> is_clean t = true).
Proof.
  induction tokens as [|a l IH]; intros idx m; simpl.
  - split; [discriminate|]. intros (_ & (t & H & _) & _).
    destruct (m - idx)%nat; discriminate.
  - destruct (is_clean a) eqn:Ca; simpl.
    + rewrite IH. split.
      * intros (L & (t & Ht & Ct) & Before). split; [lia|]. split.
        -- exists t. replace (m - idx)%nat with (S (m - S idx)) by lia. auto.
        -- intros j t' Lj Hj. destruct j as [|j]; simpl in Hj.
           ++ congruence.
           ++ apply (Before j t'); [lia|assumption].
      * intros (L & (t & Ht & Ct) & Before).
        destruct (m - idx)%nat as [|k] eqn:E.
        -- simpl in Ht. congruence.
        -- simpl in Ht. split; [lia|]. split.
           ++ exists t. replace (m - S idx)%nat with k by lia. auto.
           ++ intros j t' Lj Hj. apply (Before (S j) t'); [lia|assumption].
    + split.
      * intros [= <-]. split; [lia|]. rewrite Nat.sub_diag. split.
        -- exists a. auto.
        -- intros; lia.
      * intros (L & (t & Ht & Ct) & Before).
        destruct (m - idx)%nat as [|k] eqn:E.
        -- f_equal. lia.
        -- specialize (Before 0%nat a ltac:(lia) eq_refl). congruence.
Qed.

Lemma loop_none (tokens : list str) : forall idx,
  default_month_loop idx tokens = None <->
  Forall (fun t => is_clean t = true) tokens.
Proof.
  induction tokens as [|a l IH]; intros idx; simpl.
  - split; [constructor|reflexivity].
  - destruct (is_clean a) eqn:Ca; simpl.
    + rewrite IH. split; [now constructor|]. intros H. now inversion H.
    + split; [discriminate|]. intros H. inversion H. congruence.
Qed.

Lemma collect_fold {A B} (f : A -> option B) (l : list A) : forall acc,
  fold_left (fun acc a => match f a with Some b => acc ++ [b] | None => acc end) l acc
  = acc ++ flat_map (fun a => option_list (f a)) l.
Proof.
  induction l as [|a l IH]; intros acc; simpl.
  - now rewrite app_nil_r.
  - rewrite IH. destruct (f a); simpl; [now rewrite <- app_assoc|reflexivity].
Qed.

Lemma yearly_defaults_nil (h : dict str) :
  yearly_default_months h = [] <->
  forall year dpd_string, In (year, dpd_string) h ->
                          _default_month_for_year dpd_string = None.
Proof.
  unfold yearly_default_months, Dict.values.
  induction h as [|[y s] h IH]; simpl.
  - split; [intros _ ? ? []|reflexivity].
  - split.
    + intros E. apply app_eq_nil in E. destruct E as [E1 E2].
      intros year d [[= <- <-]|H].
      * destruct (_default_month_for_year s); [discriminate|reflexivity].
      * apply (proj1 IH E2 year d H).
    + intros A. rewrite (A y s (or_introl eq_refl)). simpl.
      apply IH. intros year d H. apply (A year d). now right.
Qed.

(** Rounding to the nearest integer is at most one half away. *)
Lemma round_half_even_nearest (num den : Z) :
  (0 < den)%Z ->
  (Z.abs (2 * num - 2 * den * PyFloat.round_half_even num den) <= den)%Z.
Proof.
  intros D. unfold PyFloat.round_half_even.
  pose proof (Z.div_mod num den ltac:(lia)) as E.
  pose proof (Z.mod_pos_bound num den D) as B.
  remember (num / den)%Z as q eqn:Hq. remember (num mod den)%Z as r eqn:Hr.
  clear Hq Hr. cbv zeta.
  assert (E0 : (2 * num - 2 * den * q = 2 * r)%Z) by (subst num; ring).
  assert (E1 : (2 * num - 2 * den * (q + 1) = 2 * r - 2 * den)%Z) by (subst num; ring).
  destruct (Z.compare_spec (2 * r) den) as [C|C|C].
  - destruct (Z.even q); [rewrite E0|rewrite E1]; lia.
  - rewrite E0. lia.
  - rewrite E1. lia.
Qed.

End DefaultMonthFacts.

(** C3 (as amended).  [_default_month_for_year] matches the token pattern
    on the text of the year again, so that it sees the year's tokens other
    than the dashes: the default month of a year is the 1-based position of
    the first non-clean token among these, and null exactly when all of them
    are clean (in particular when there is none).  The default-month-number
    of an account is null when no year yields a default month, and otherwise
    the mean of the default months of the years that yield one, ROUNDED TO
    ONE DECIMAL PLACE: [round(sum / len, 1)], where the rounding takes the
    integer nearest to ten times the quotient.  For
    {"2023": "000 000 015 XXX"} the default month of 2023 is 3 and the
    account's number is 3.0; for the tokens 000 - 015 XXX the default month
    is 2. *)
Theorem default_month_rounded_mean (h : dict str) :
  (forall tokens, token_sequence tokens ->
     year_tokens (token_text tokens) = tokens_but_dashes tokens) /\
  (forall tokens m, token_sequence tokens ->
     (_default_month_for_year (token_text tokens) = Some m <->
      first_dirty_position (tokens_but_dashes tokens) m)) /\
  (forall tokens, token_sequence tokens ->
     (_default_month_for_year (token_text tokens) = None <->
      Forall (fun t => is_clean t = true) (tokens_but_dashes tokens))) /\
  _calculate_default_month_number h =
    match yearly_default_months h with
    | [] => None
    | ds => Some (PyFloat.round1
                    (PyFloat.truediv (Z.of_nat (sum_nat ds)) (Z.of_nat (length ds))))
    end /\
  (_calculate_default_month_number h = None <->
   forall year dpd_string, In (year, dpd_string) h ->
                           _default_month_for_year dpd_string = None) /\
  (forall num den, (0 < den)%Z ->
     (Z.abs (2 * num - 2 * den * PyFloat.round_half_even num den) <= den)%Z) /\
  _default_month_for_year (Py.lit "000 000 015 XXX") = Some 3%nat /\
  _calculate_default_month_number [(Py.lit "2023", Py.lit "000 000 015 XXX")]
    = Some (PyFloat.of_tenths 30) /\
  PyFloat.of_tenths 30 = PyFloat.of_int 3 /\
  _default_month_for_year (Py.lit "000 - 015 XXX") = Some 2%nat.
Proof.
  assert (E : _calculate_default_month_number h =
              match yearly_default_months h with
              | [] => None
              | ds => Some (rounded_mean ds)
              end).
  { unfold _calculate_default_month_number.
    rewrite DefaultMonthFacts.collect_fold. simpl.
    fold (yearly_default_months h).
    destruct (yearly_default_months h); reflexivity. }
  split; [exact TokenTextFacts.seen_tokens|].
  split; [|split; [|split; [|split; [|split; [|split; [|split; [|split]]]]]]].
  - intros tokens m V. unfold _default_month_for_year, first_dirty_position.
    fold (year_tokens (token_text tokens)).
    rewrite (TokenTextFacts.seen_tokens tokens V). apply DefaultMonthFacts.loop_some.
  - intros tokens V. unfold _default_month_for_year.
    fold (year_tokens (token_text tokens)).
    rewrite (TokenTextFacts.seen_tokens tokens V). apply DefaultMonthFacts.loop_none.
  - exact E.
  - rewrite E, <- DefaultMonthFacts.yearly_defaults_nil.
    destruct (yearly_default_months h); split; congruence.
  - apply DefaultMonthFacts.round_half_even_nearest.
  - reflexivity.
  - reflexivity.
  - reflexivity.
  - reflexivity.
Qed.

(** C3, the claim as stated fails, twice.  An account whose three years
    have the default months 1, 2 and 2 gets 1.7, which is above the
    arithmetic mean 5/3, both as the float 5/3 and as the exact rational.
    And in the year with the tokens 000, -, 015 and XXX the first token that
    is not clean is the third, while the function, which does not see the
    dash, returns 2. *)
Lemma default_month_not_as_claimed :
  let h := [(Py.lit "2021", Py.lit "015");
            (Py.lit "2022", Py.lit "000 015");
            (Py.lit "2023", Py.lit "000 015")] in
  let tokens := [Py.lit "000"; Py.lit "-"; Py.lit "015"; Py.lit "XXX"] in
  (yearly_default_months h = [1; 2; 2]%nat /\
   _calculate_default_month_number h = Some (PyFloat.of_tenths 17) /\
   SFltb (PyFloat.truediv 5 3) (PyFloat.of_tenths 17) = true /\
   Qlt (exact_mean [1; 2; 2]%nat) (PyFloat.to_Q (PyFloat.of_tenths 17))) /\
  (token_text tokens = Py.lit "000 - 015 XXX" /\
   first_dirty_position (map Py.upper tokens) 3 /\
   _default_month_for_year (token_text tokens) = Some 2%nat).
Proof.
  cbv zeta. split; [repeat split; vm_compute; reflexivity|].
  split; [reflexivity|]. split; [|reflexivity].
  split; [lia|]. split.
  - exists (Py.lit "015"). split; reflexivity.
  - intros j t L N. destruct j as [|[|j]]; [| |cbn in L; lia];
      cbn in N; injection N as <-; reflexivity.
Qed.

(* ------------------------------------------------------------------ *)
(** ** C4: the two tiers of the document-level default month *)
(* ------------------------------------------------------------------ *)

Module FinalMonthFacts.

Lemma collect_pairs (cy py : str) (accounts : list unified_account) : forall c0 p0,
  fold_left
    (fun '(cur_vals, prev_vals) acc =>
       let dpd_history := u_dpd_history acc in
       let cur_vals' :=
         match _default_month_for_specific_year dpd_history cy with
         | Some cur => cur_vals ++ [cur]
         | None => cur_vals
         end in
       let prev_vals' :=
         match _default_month_for_specific_year dpd_history py with
         | Some prev => prev_vals ++ [prev]
         | None => prev_vals
         end in
       (cur_vals', prev_vals'))
    accounts (c0, p0)
  = (c0 ++ year_values cy accounts, p0 ++ year_values py accounts).
Proof.
  induction accounts as [|a l IH]; intros c0 p0; simpl.
  - now rewrite !app_nil_r.
  - rewrite IH. unfold year_values. simpl.
    destruct (_default_month_for_specific_year (u_dpd_history a) cy);
      destruct (_default_month_for_specific_year (u_dpd_history a) py);
      simpl; now rewrite <- ?app_assoc.
Qed.

Lemma unfold_final (now_year : Z) (accounts : list unified_account) :
  _calculate_dynamic_final_default_month now_year accounts =
  let cur := year_values (Py.of_Z now_year) accounts in
  let prev := year_values (Py.of_Z (now_year - 1)) accounts in
  if (5 <=? length cur)%nat then Some (rounded_mean cur)
  else match cur ++ prev with
       | [] => None
       | _ => Some (rounded_mean (cur ++ prev))
       end.
Proof.
  unfold _calculate_dynamic_final_default_month.
  rewrite collect_pairs. reflexivity.
Qed.

End FinalMonthFacts.

(** C4 (as amended).  With [cur] the default months that the accounts have
    for the current calendar year and [prev] those for the previous year:
    when at least 5 accounts have a current-year value the result is the mean
    of exactly the current-year values, ROUNDED TO ONE DECIMAL PLACE;
    otherwise it is the rounded mean of the current-year values combined
    with the previous-year values; and it is null when neither tier has a
    value.  [cur] has one value per account with a defined current-year
    default month.  Six accounts with a current-year value use the first
    tier (their previous-year values do not count); four use the fallback. *)
Theorem final_default_month_two_tiers (now_year : Z) (accounts : list unified_account) :
  let current_year := Py.of_Z now_year in
  let cur := year_values current_year accounts in
  let prev := year_values (Py.of_Z (now_year - 1)) accounts in
  let rounded xs :=
    PyFloat.round1 (PyFloat.truediv (Z.of_nat (sum_nat xs)) (Z.of_nat (length xs))) in
  length cur =
    length (filter (fun acc =>
              match _default_month_for_specific_year (u_dpd_history acc) current_year with
              | Some _ => true
              | None => false
              end) accounts) /\
  ((5 <= length cur)%nat ->
     _calculate_dynamic_final_default_month now_year accounts = Some (rounded cur)) /\
  ((length cur < 5)%nat -> cur ++ prev <> [] ->
     _calculate_dynamic_final_default_month now_year accounts
     = Some (rounded (cur ++ prev))) /\
  ((length cur < 5)%nat -> cur ++ prev = [] ->
     _calculate_dynamic_final_default_month now_year accounts = None) /\
  (let acc := unified_with_history
                [(Py.lit "2026", Py.lit "000 015"); (Py.lit "2025", Py.lit "015")] in
   _calculate_dynamic_final_default_month 2026 (repeat acc 6) = Some (PyFloat.of_tenths 20) /\
   _calculate_dynamic_final_default_month 2026 (repeat acc 4) = Some (PyFloat.of_tenths 15)).
Proof.
  intros current_year cur prev rounded.
  split; [|split; [|split; [|split]]].
  - unfold cur, year_values. clear. induction accounts as [|a l IH]; simpl; [reflexivity|].
    rewrite length_app, IH.
    destruct (_default_month_for_specific_year (u_dpd_history a) current_year); reflexivity.
  - intros L. rewrite FinalMonthFacts.unfold_final. cbv zeta. fold current_year. fold cur.
    apply Nat.leb_le in L. now rewrite L.
  - intros L N. rewrite FinalMonthFacts.unfold_final. cbv zeta.
    fold current_year. fold cur. fold prev.
    apply Nat.leb_gt in L. rewrite L.
    destruct (cur ++ prev); [congruence|reflexivity].
  - intros L N. rewrite FinalMonthFacts.unfold_final. cbv zeta.
    fold current_year. fold cur. fold prev.
    apply Nat.leb_gt in L. rewrite L. now rewrite N.
  - split; vm_compute; reflexivity.
Qed.

(** C4, the claim as stated fails: six accounts whose current-year default
    months are 1, 1, 1, 1, 1 and 2 give 1.2, which is above their mean 7/6,
    both as the float 7/6 and as the exact rational. *)
Lemma final_default_month_not_mean :
  let one := unified_with_history [(Py.lit "2026", Py.lit "015")] in
  let two := unified_with_history [(Py.lit "2026", Py.lit "000 015")] in
  let accounts := [one; one; one; one; one; two] in
  year_values (Py.lit "2026") accounts = [1; 1; 1; 1; 1; 2]%nat /\
  _calculate_dynamic_final_default_month 2026 accounts = Some (PyFloat.of_tenths 12) /\
  SFltb (PyFloat.truediv 7 6) (PyFloat.of_tenths 12) = true /\
  Qlt (exact_mean [1; 1; 1; 1; 1; 2]%nat) (PyFloat.to_Q (PyFloat.of_tenths 12)).
Proof.
  cbv zeta. repeat split; vm_compute; reflexivity.
Qed.

(* ------------------------------------------------------------------ *)
(** ** C5: the latest-month enquiry filter *)
(* ------------------------------------------------------------------ *)

Module EnquiryFacts.

Lemma get_set_same {V} (d : dict V) (k : str) (v : V) :
  Dict.get (Dict.set d k v) k = Some v.
Proof.
  induction d as [|[k' v'] d IH]; simpl.
  - now rewrite PyFacts.eqb_refl.
  - destruct (Py.eqb k k') eqn:E; simpl; rewrite E; auto.
Qed.

Lemma get_set_other {V} (d : dict V) (k k' : str) (v : V) :
  k <> k' -> Dict.get (Dict.set d k v) k' = Dict.get d k'.
Proof.
  intros N. induction d as [|[k0 v0] d IH]; simpl.
  - apply PyFacts.eqb_neq in N.
    destruct (Py.eqb k' k) eqn:E; [|reflexivity].
    apply PyFacts.eqb_eq in E. subst. rewrite PyFacts.eqb_refl in N. discriminate.
  - destruct (Py.eqb k k0) eqn:E; simpl.
    + apply PyFacts.eqb_eq in E. subst k0.
      destruct (Py.eqb k' k) eqn:E'; [|reflexivity].
      apply PyFacts.eqb_eq in E'. congruence.
    + now rewrite IH.
Qed.

Lemma month_append_get (md : dict (list enquiry)) (k k' : str) (e : enquiry) :
  Dict.get (month_append md k e) k' =
  if Py.eqb k k' then
    Some (match Dict.get md k with Some g => g ++ [e] | None => [e] end)
  else Dict.get md k'.
Proof.
  unfold month_append. destruct (Py.eqb k k') eqn:E.
  - apply PyFacts.eqb_eq in E. subst k'.
    destruct (Dict.get md k); apply get_set_same.
  - apply PyFacts.eqb_neq in E.
    destruct (Dict.get md k); now apply get_set_other.
Qed.

(** The groups after the loop: each key holds, in input order, the enquiries
    of its month. *)
Lemma fold_get (l : list enquiry) : forall (md : dict (list enquiry)) (k : str),
  Dict.get
    (fold_left (fun month_data e =>
                  match year_month e with
                  | Some ym => month_append month_data ym e
                  | None => month_data
                  end) l md) k
  = match Dict.get md k, filter (in_month k) l with
    | Some g, more => Some (g ++ more)
    | None, [] => None
    | None, more => Some more
    end.
Proof.
  induction l as [|e l IH]; intros md k; simpl.
  - destruct (Dict.get md k); [now rewrite app_nil_r|reflexivity].
  - rewrite IH.
    destruct (year_month e) as [ym|] eqn:Y.
    + assert (M : in_month k e = Py.eqb ym k) by (unfold in_month; now rewrite Y).
      rewrite M, month_append_get. destruct (Py.eqb ym k) eqn:E.
      * apply PyFacts.eqb_eq in E. subst ym.
        destruct (Dict.get md k); simpl; [now rewrite <- app_assoc|reflexivity].
      * reflexivity.
    + assert (M : in_month k e = false) by (unfold in_month; now rewrite Y).
      now rewrite M.
Qed.

Lemma group_get (l : list enquiry) (k : str) :
  Dict.get (group_by_month l) k =
  match filter (in_month k) l with
  | [] => None
  | more => Some more
  end.
Proof. unfold group_by_month. rewrite fold_get. reflexivity. Qed.

Lemma in_month_filter_nonempty (l : list enquiry) (k : str) :
  filter (in_month k) l <> [] <-> exists e, In e l /\ year_month e = Some k.
Proof.
  split.
  - intros N. destruct (filter (in_month k) l) as [|e f] eqn:F; [congruence|].
    assert (I : In e (filter (in_month k) l)) by (rewrite F; now left).
    apply filter_In in I. destruct I as [I M]. exists e. split; [assumption|].
    unfold in_month in M. destruct (year_month e); [|discriminate].
    apply PyFacts.eqb_eq in M. now subst.
  - intros (e & I & Y) F.
    assert (M : In e (filter (in_month k) l)).
    { apply filter_In. split; [assumption|]. unfold in_month. rewrite Y.
      apply PyFacts.eqb_refl. }
    rewrite F in M. contradiction.
Qed.

(** A key of the grouping is the month of some enquiry, and conversely. *)
Lemma group_key (l : list enquiry) (k : str) :
  In k (Dict.keys (group_by_month l)) <-> exists e, In e l /\ year_month e = Some k.
Proof.
  rewrite <- in_month_filter_nonempty. split.
  - intros K. destruct (DictFacts.key_get _ _ K) as (g & G).
    rewrite group_get in G. destruct (filter (in_month k) l); [discriminate|discriminate].
  - intros N. destruct (filter (in_month k) l) as [|e f] eqn:F; [congruence|].
    apply (DictFacts.get_key _ _ (e :: f)). rewrite group_get, F. reflexivity.
Qed.

Lemma max_str_spec (others : list str) : forall first,
  In (max_str first others) (first :: others) /\
  forall x, In x (first :: others) -> Py.leb x (max_str first others) = true.
Proof.
  induction others as [|y l IH]; intros first; unfold max_str; simpl.
  - split; [now left|]. intros x [<-|[]]. apply SortFacts.leb_refl.
  - fold (max_str (if Py.ltb first y then y else first) l).
    destruct (IH (if Py.ltb first y then y else first)) as [I M].
    split.
    + destruct I as [I|I]; [|now right; right].
      rewrite <- I. destruct (Py.ltb first y); [right; now left|now left].
    + intros x Hx.
      assert (B : Py.leb first (if Py.ltb first y then y else first) = true
                  /\ Py.leb y (if Py.ltb first y then y else first) = true).
      { rewrite SortFacts.ltb_leb. destruct (Py.leb y first) eqn:E; simpl.
        - split; [apply SortFacts.leb_refl|assumption].
        - split; [now apply SortFacts.leb_total|apply SortFacts.leb_refl]. }
      destruct B as [B1 B2].
      destruct Hx as [<-|[<-|Hx]].
      * eapply SortFacts.leb_trans; [exact B1|]. apply M. now left.
      * eapply SortFacts.leb_trans; [exact B2|]. apply M. now left.
      * apply M. now right.
Qed.

Lemma leb_antisym (a b : str) : Py.leb a b = true -> Py.leb b a = true -> a = b.
Proof.
  unfold Py.leb. rewrite (SortFacts.compare_antisym a b).
  destruct (Py.compare a b) eqn:E; simpl; try discriminate.
  intros _ _. now apply SortFacts.compare_eq.
Qed.

(** The selected month is the largest month key of the input. *)
Lemma selected_spec (l : list enquiry) (k : str) :
  selected_month l = Some k <->
  (exists e, In e l /\ year_month e = Some k) /\
  (forall e k', In e l -> year_month e = Some k' -> Py.leb k' k = true).
Proof.
  unfold selected_month.
  destruct (Dict.keys (group_by_month l)) as [|k0 ks] eqn:K.
  - split; [discriminate|]. intros ((e & I & Y) & _).
    assert (In k (Dict.keys (group_by_month l))) by (apply group_key; eauto).
    rewrite K in H. contradiction.
  - destruct (max_str_spec ks k0) as [I M]. rewrite <- K in I, M. split.
    + intros [= <-]. split.
      * now apply group_key.
      * intros e k' Ie Y. apply M. apply group_key. eauto.
    + intros (Ex & Max). f_equal. apply leb_antisym.
      * apply group_key in I. destruct I as (e & Ie & Y). eauto.
      * apply M. now apply group_key.
Qed.

Lemma selected_none (l : list enquiry) :
  selected_month l = None <-> forall e, In e l -> year_month e = None.
Proof.
  unfold selected_month.
  destruct (Dict.keys (group_by_month l)) as [|k0 ks] eqn:K.
  - split; [|reflexivity]. intros _ e I.
    destruct (year_month e) as [k|] eqn:Y; [|reflexivity].
    assert (In k (Dict.keys (group_by_month l))) by (apply group_key; eauto).
    rewrite K in H. contradiction.
  - split; [discriminate|]. intros A.
    assert (I : In k0 (Dict.keys (group_by_month l))) by (rewrite K; now left).
    apply group_key in I. destruct I as (e & Ie & Y). rewrite (A e Ie) in Y. discriminate.
Qed.

Lemma filter_result (l : list enquiry) :
  _filter_latest_month_enquiries l =
  match selected_month l with
  | Some k => filter (in_month k) l
  | None => []
  end.
Proof.
  unfold _filter_latest_month_enquiries, selected_month.
  destruct l as [|e0 l0]; [reflexivity|].
  set (l := e0 :: l0).
  destruct (Dict.keys (group_by_month l)) as [|k0 ks] eqn:K; [reflexivity|].
  rewrite group_get.
  destruct (filter (in_month (max_str k0 ks)) l); reflexivity.
Qed.

Lemma digit_val_bounds c : Py.is_digit c = true -> (0 <= Py.digit_val c <= 9)%Z.
Proof.
  unfold Py.is_digit, Py.between, Py.digit_val.
  rewrite andb_true_iff, !N.leb_le. lia.
Qed.

Lemma digit_val_compare a c :
  Py.is_digit a = true -> Py.is_digit c = true ->
  N.compare a c = Z.compare (Py.digit_val a) (Py.digit_val c).
Proof.
  unfold Py.is_digit, Py.between, Py.digit_val.
  rewrite !andb_true_iff, !N.leb_le. intros A C.
  rewrite N2Z.inj_compare.
  destruct (N.compare_spec a c); destruct (N.compare_spec (a - 48) (c - 48));
    try reflexivity; exfalso; lia.
Qed.

Lemma lex_order_digits (x1 x2 x3 x4 u1 u2 y1 y2 y3 y4 v1 v2 : Z) :
  (0 <= x1 <= 9 -> 0 <= x2 <= 9 -> 0 <= x3 <= 9 -> 0 <= x4 <= 9 ->
   0 <= u1 <= 9 -> 0 <= u2 <= 9 ->
   0 <= y1 <= 9 -> 0 <= y2 <= 9 -> 0 <= y3 <= 9 -> 0 <= y4 <= 9 ->
   0 <= v1 <= 9 -> 0 <= v2 <= 9 ->
   (match
      match (x1 ?= y1) with
      | Eq => match (x2 ?= y2) with
              | Eq => match (x3 ?= y3) with
                      | Eq => match (x4 ?= y4) with
                              | Eq => match (u1 ?= v1) with
                                      | Eq => match (u2 ?= v2) with
                                              | Eq => Eq
                                              | o => o
                                              end
                                      | o => o
                                      end
                              | o => o
                              end
                      | o => o
                      end
              | o => o
              end
      | o => o
      end
    with Gt => false | _ => true end = true
    <->
    (1000 * x1 + 100 * x2 + 10 * x3 + x4 < 1000 * y1 + 100 * y2 + 10 * y3 + y4
     \/ (1000 * x1 + 100 * x2 + 10 * x3 + x4 = 1000 * y1 + 100 * y2 + 10 * y3 + y4
         /\ 10 * u1 + u2 <= 10 * v1 + v2))))%Z.
Proof.
  intros.
  destruct (Z.compare_spec x1 y1);
    [subst|split; [intros _; lia|reflexivity]|split; [discriminate|intros ?; exfalso; lia]].
  destruct (Z.compare_spec x2 y2);
    [subst|split; [intros _; lia|reflexivity]|split; [discriminate|intros ?; exfalso; lia]].
  destruct (Z.compare_spec x3 y3);
    [subst|split; [intros _; lia|reflexivity]|split; [discriminate|intros ?; exfalso; lia]].
  destruct (Z.compare_spec x4 y4);
    [subst|split; [intros _; lia|reflexivity]|split; [discriminate|intros ?; exfalso; lia]].
  destruct (Z.compare_spec u1 v1);
    [subst|split; [intros _; lia|reflexivity]|split; [discriminate|intros ?; exfalso; lia]].
  destruct (Z.compare_spec u2 v2);
    [subst|split; [intros _; lia|reflexivity]|split; [discriminate|intros ?; exfalso; lia]].
  split; [intros _; lia|reflexivity].
Qed.

(** On keys of the form YYYY-MM the string order is the calendar order. *)
Lemma iso_order (k1 k2 : str) (y1 m1 y2 m2 : Z) :
  iso_month k1 y1 m1 -> iso_month k2 y2 m2 ->
  (Py.leb k1 k2 = true <-> not_after y1 m1 y2 m2).
Proof.
  intros (a1 & a2 & a3 & a4 & b1 & b2 & -> & D1 & -> & ->)
         (c1 & c2 & c3 & c4 & d1 & d2 & -> & D2 & -> & ->).
  simpl in D1, D2. rewrite !andb_true_iff in D1, D2.
  destruct D1 as (A1 & A2 & A3 & A4 & B1 & B2 & _).
  destruct D2 as (C1 & C2 & C3 & C4 & E1 & E2 & _).
  unfold not_after, Py.leb. cbn [Py.compare].
  change (45 ?= 45) with Eq. cbv iota.
  rewrite (digit_val_compare a1 c1), (digit_val_compare a2 c2),
          (digit_val_compare a3 c3), (digit_val_compare a4 c4),
          (digit_val_compare b1 d1), (digit_val_compare b2 d2) by assumption.
  apply lex_order_digits; now apply digit_val_bounds.
Qed.

End EnquiryFacts.

(** C5.  [_filter_latest_month_enquiries] groups the enquiries that have a
    parsed date by the key of their year and month, and returns exactly the
    group of the lexicographically largest key that occurs: the selected
    month belongs to some input enquiry, no input enquiry has a larger key,
    the result is the sub-list of the input enquiries of that month (so its
    length is their number), and when the keys have the form YYYY-MM no
    input enquiry is in a later calendar month.  When no enquiry has a parsed
    date the result is empty.  A month is selected as soon as one enquiry has
    a parsed date, and every permutation of the input selects the same one.
    Of six enquiries over three months, one of them undated, the two of
    March 2024 are returned. *)
Theorem latest_month_filter (all_enquiries : list enquiry) :
  ((forall e, In e all_enquiries -> year_month e = None) ->
     selected_month all_enquiries = None /\
     _filter_latest_month_enquiries all_enquiries = []) /\
  ((exists e, In e all_enquiries /\ year_month e <> None) ->
     exists k, selected_month all_enquiries = Some k) /\
  (forall k, selected_month all_enquiries = Some k ->
     (exists e, In e all_enquiries /\ year_month e = Some k) /\
     (forall e k', In e all_enquiries -> year_month e = Some k' -> Py.leb k' k = true) /\
     _filter_latest_month_enquiries all_enquiries = filter (in_month k) all_enquiries /\
     length (_filter_latest_month_enquiries all_enquiries)
       = length (filter (in_month k) all_enquiries) /\
     (forall y m, iso_month k y m ->
        forall e k' y' m', In e all_enquiries -> year_month e = Some k' ->
                           iso_month k' y' m' -> not_after y' m' y m)) /\
  (forall permuted, Permutation all_enquiries permuted ->
     selected_month permuted = selected_month all_enquiries) /\
  _filter_latest_month_enquiries
    [enquiry_on "2024-01-15" "A"; enquiry_on "2024-03-02" "B";
     enquiry_on "2023-12-30" "C"; enquiry_on "2024-03-28" "D";
     enquiry_on "2024-01-03" "E"; undated_enquiry]
  = [enquiry_on "2024-03-02" "B"; enquiry_on "2024-03-28" "D"].
Proof.
  split; [|split; [|split; [|split]]]; [| | | |reflexivity].
  - intros A. apply EnquiryFacts.selected_none in A.
    rewrite EnquiryFacts.filter_result, A. auto.
  - intros (e & I & N). destruct (selected_month all_enquiries) as [k|] eqn:S; [eauto|].
    exfalso. apply N. exact (proj1 (EnquiryFacts.selected_none _) S e I).
  - intros k S. pose proof (proj1 (EnquiryFacts.selected_spec _ _) S) as [Ex Max].
    assert (F : _filter_latest_month_enquiries all_enquiries
                = filter (in_month k) all_enquiries).
    { now rewrite EnquiryFacts.filter_result, S. }
    repeat split; try assumption.
    + now rewrite F.
    + intros y m K e k' y' m' I Y K'.
      apply (EnquiryFacts.iso_order k' k y' m' y m K' K). eauto.
  - intros permuted P.
    destruct (selected_month all_enquiries) as [k|] eqn:S.
    + apply EnquiryFacts.selected_spec. apply EnquiryFacts.selected_spec in S.
      destruct S as ((e & I & Y) & Max). split.
      * exists e. split; [now apply (Permutation_in _ P)|assumption].
      * intros e' k' I' Y'. apply (Max e' k'); [|assumption].
        now apply (Permutation_in _ (Permutation_sym P)).
    + apply EnquiryFacts.selected_none. intros e I.
      apply (proj1 (EnquiryFacts.selected_none _) S).
      now apply (Permutation_in _ (Permutation_sym P)).
Qed.

(* ------------------------------------------------------------------ *)
(** ** C6: positional pairing in the page-text history builder *)
(* ------------------------------------------------------------------ *)

Module PairingFacts.
Import Re ReSem ReFacts TokenFacts.

Lemma month_match_shape st w out :
  matches MONTH_STAMP_RE st w out ->
  is_month_stamp w /\ cap_lookup 1 (m_caps out) = Some w.
Proof.
  unfold MONTH_STAMP_RE, digits_n, seqs. simpl. intros H.
  inv_matches. simpl. split; [|reflexivity].
  unfold one in *.
  repeat match goal with
         | H : (_ =? _) = true |- _ => apply N.eqb_eq in H; subst
         end.
  eexists _, _, _, _. split; [reflexivity|].
  simpl. repeat match goal with H : Py.is_digit _ = true |- _ => rewrite H; clear H end.
  reflexivity.
Qed.

Lemma month_stamps_shape (s m : str) : In m (month_stamps s) -> is_month_stamp m.
Proof.
  unfold month_stamps, findall1, finditer. rewrite in_map_iff.
  intros (mo & <- & Hm).
  destruct (scan_sound _ _ _ _ _ Hm) as (prev & s' & out & M & C).
  destruct (month_match_shape _ _ _ M) as [Sh L].
  unfold group. rewrite C, L. exact Sh.
Qed.

Lemma digit_not_dash (c : char) : Py.is_digit c = true -> (c =? 45) = false.
Proof.
  unfold Py.is_digit, Py.between. rewrite andb_true_iff, !N.leb_le, N.eqb_neq. lia.
Qed.

Lemma stamp_split (m : str) :
  is_month_stamp m ->
  exists mm yy, Py.split 45 m = [mm; yy] /\ stamp_year m = Py.lit "20" ++ yy.
Proof.
  intros (d1 & d2 & d3 & d4 & -> & D).
  simpl in D. rewrite !andb_true_iff in D. destruct D as (D1 & D2 & D3 & D4 & _).
  exists [d1; d2], [d3; d4]. split; [|reflexivity].
  unfold Py.split. cbn [Py.split_aux].
  rewrite (digit_not_dash _ D1), (digit_not_dash _ D2),
          (digit_not_dash _ D3), (digit_not_dash _ D4).
  reflexivity.
Qed.

Lemma stamp_year_not_unknown (m : str) :
  is_month_stamp m -> Py.eqb (stamp_year m) (Py.lit "UNKNOWN") = false.
Proof.
  intros (d1 & d2 & d3 & d4 & -> & _). reflexivity.
Qed.

Lemma year_append_get (d : dict (list str)) (k k' t : str) :
  Dict.get (year_append d k t) k' =
  if Py.eqb k k' then
    Some (match Dict.get d k with Some l => l ++ [t] | None => [t] end)
  else Dict.get d k'.
Proof.
  unfold year_append. destruct (Py.eqb k k') eqn:E.
  - apply PyFacts.eqb_eq in E. subst k'.
    destruct (Dict.get d k); apply EnquiryFacts.get_set_same.
  - apply PyFacts.eqb_neq in E.
    destruct (Dict.get d k); now apply EnquiryFacts.get_set_other.
Qed.

(** The loop appends token [idx + i] to the year of month [i]. *)
Lemma pair_loop_ok (tokens : list str) : forall (months : list str) (idx : nat) (d : dict (list str)),
  Forall is_month_stamp months ->
  (idx + length months <= length tokens)%nat ->
  pair_loop months idx tokens d =
  Ok (fold_left (fun d p => year_append d (stamp_year (fst p)) (snd p))
                (combine months (skipn idx tokens)) d).
Proof.
  induction months as [|m ms IH]; intros idx d F L; simpl.
  - reflexivity.
  - inversion F as [|? ? Fm Fms]; subst. simpl in L.
    assert (Lt : (idx <? length tokens)%nat = true) by (apply Nat.ltb_lt; lia).
    rewrite Lt.
    destruct (stamp_split _ Fm) as (mm & yy & -> & Y).
    destruct (nth_error tokens idx) as [tok|] eqn:N.
    + rewrite IH by (assumption || lia).
      assert (S : skipn idx tokens = tok :: skipn (S idx) tokens).
      { clear -N. revert idx N. induction tokens as [|a l IHl]; intros [|i] N;
          simpl in *; try discriminate.
        - now injection N as ->.
        - now rewrite IHl. }
      rewrite S. simpl. now rewrite Y.
    + apply nth_error_None in N. lia.
Qed.

Lemma fold_year_get (l : list (str * str)) : forall (d : dict (list str)) (k : str),
  Dict.get (fold_left (fun d p => year_append d (stamp_year (fst p)) (snd p)) l d) k
  = match Dict.get d k,
          map snd (filter (fun p => Py.eqb (stamp_year (fst p)) k) l) with
    | Some g, more => Some (g ++ more)
    | None, [] => None
    | None, more => Some more
    end.
Proof.
  induction l as [|[m t] l IH]; intros d k; cbn [fold_left map filter fst snd].
  - destruct (Dict.get d k); [now rewrite app_nil_r|reflexivity].
  - rewrite IH, year_append_get.
    destruct (Py.eqb (stamp_year m) k) eqn:E; cbn [map snd].
    + apply PyFacts.eqb_eq in E. subst k.
      destruct (Dict.get d (stamp_year m)); [now rewrite <- app_assoc|reflexivity].
    + reflexivity.
Qed.

Lemma get_map_join (d : dict (list str)) (k : str) :
  Dict.get (map (fun '(year, dpds) => (year, Py.join (Py.lit " ") dpds)) d) k
  = option_map (Py.join (Py.lit " ")) (Dict.get d k).
Proof.
  induction d as [|[y l] d IH]; simpl; [reflexivity|].
  destruct (Py.eqb k y); [reflexivity|exact IH].
Qed.

Lemma combine_firstn {A B} (l : list A) (l' : list B) :
  combine (firstn (length l') l) l' = combine l l'.
Proof.
  revert l'. induction l as [|a l IH]; intros [|b l']; simpl; auto.
  now rewrite IH.
Qed.

Lemma combine_firstn_r {A B} (l : list A) (l' : list B) :
  combine l (firstn (length l) l') = combine l l'.
Proof.
  revert l'. induction l as [|a l IH]; intros [|b l']; simpl; auto.
  now rewrite IH.
Qed.

Lemma filter_none {A} (f : A -> bool) (l : list A) :
  (forall x, In x l -> f x = false) -> filter f l = [].
Proof.
  induction l as [|a l IH]; intros H; simpl; [reflexivity|].
  rewrite (H a (or_introl eq_refl)). apply IH. intros x I. apply H. now right.
Qed.

(** The history builder returns for every block. *)
Lemma history_total (dpd_block : str) :
  exists h, _extract_dpd_history_pdf dpd_block = Ok h.
Proof.
  unfold _extract_dpd_history_pdf.
  destruct (dpd_tokens dpd_block) as [|t0 ts] eqn:ET; [eexists; reflexivity|].
  rewrite pair_loop_ok.
  - simpl bind. destruct (map _ _); eexists; reflexivity.
  - apply Forall_forall. intros m Hm. apply (month_stamps_shape dpd_block).
    rewrite <- (firstn_skipn (length (t0 :: ts)) (month_stamps dpd_block)).
    apply in_or_app. now left.
  - rewrite length_firstn. lia.
Qed.

End PairingFacts.

(** C6 (as amended).  In [_extract_dpd_history_pdf] the delinquency tokens
    and the month stamps MM-YY are two flat sequences matched in the block,
    and token [i] is attributed to the year 20YY of month stamp [i]: the
    history maps each year to the tokens paired with a stamp of that year, in
    order, joined by spaces, and has no other year.  The sentinel year
    "UNKNOWN" is used ONLY WHEN THERE IS NO MONTH STAMP AT ALL, and then holds
    every token; when there is at least one stamp, the history has no
    "UNKNOWN" year, and the tokens beyond the available stamps are in no
    year (the pairing is that of the tokens cut to the number of stamps).  Without a token the history is empty.  The call never raises. *)
Theorem pdf_history_pairing (dpd_block : str) :
  let tokens := dpd_tokens dpd_block in
  let months := month_stamps dpd_block in
  Forall is_month_stamp months /\
  (tokens = [] -> _extract_dpd_history_pdf dpd_block = Ok []) /\
  (tokens <> [] -> months = [] ->
     _extract_dpd_history_pdf dpd_block
     = Ok [(Py.lit "UNKNOWN", Py.join (Py.lit " ") tokens)]) /\
  (tokens <> [] -> months <> [] ->
     exists h,
       _extract_dpd_history_pdf dpd_block = Ok h /\
       h <> [] /\
       Dict.get h (Py.lit "UNKNOWN") = None /\
       forall year,
         Dict.get h year =
         match tokens_of_year months tokens year with
         | [] => None
         | paired => Some (Py.join (Py.lit " ") paired)
         end) /\
  (forall year,
     tokens_of_year months tokens year
     = tokens_of_year months (firstn (length months) tokens) year).
Proof.
  intros tokens months.
  assert (F : Forall is_month_stamp months).
  { apply Forall_forall. intros m. apply PairingFacts.month_stamps_shape. }
  split; [exact F|]. unfold _extract_dpd_history_pdf. fold tokens. fold months.
  split; [|split; [|split]];
    [| | |intros year; unfold tokens_of_year;
          now rewrite PairingFacts.combine_firstn_r].
  - intros ->. reflexivity.
  - intros N ->. destruct tokens; [congruence|]. reflexivity.
  - intros N M.
    assert (P : pair_loop (firstn (length tokens) months) 0 tokens []
                = Ok (fold_left (fun d p => year_append d (stamp_year (fst p)) (snd p))
                                (combine months tokens) [])).
    { rewrite PairingFacts.pair_loop_ok.
      - now rewrite PairingFacts.combine_firstn.
      - apply Forall_forall. intros m Hm. rewrite Forall_forall in F. apply F.
        rewrite <- (firstn_skipn (length tokens) months). apply in_or_app. now left.
      - rewrite length_firstn. lia. }
    set (yearly := fold_left (fun d p => year_append d (stamp_year (fst p)) (snd p))
                             (combine months tokens) []) in *.
    assert (G : forall year,
              Dict.get (map (fun '(year, dpds) => (year, Py.join (Py.lit " ") dpds)) yearly) year
              = match tokens_of_year months tokens year with
                | [] => None
                | paired => Some (Py.join (Py.lit " ") paired)
                end).
    { intros year. rewrite PairingFacts.get_map_join. unfold yearly.
      rewrite PairingFacts.fold_year_get. unfold tokens_of_year. simpl Dict.get.
      destruct (map snd _); reflexivity. }
    destruct tokens as [|t0 ts] eqn:ET; [congruence|]. rewrite P. simpl bind.
    destruct months as [|m0 ms] eqn:EM; [congruence|].
    destruct (map (fun '(year, dpds) => (year, Py.join (Py.lit " ") dpds)) yearly)
      as [|e0 h0] eqn:EH.
    + exfalso. specialize (G (stamp_year m0)). simpl in G.
      unfold tokens_of_year in G. simpl in G.
      rewrite PyFacts.eqb_refl in G. simpl in G. discriminate.
    + exists (e0 :: h0). split; [reflexivity|]. split; [discriminate|]. split.
      * rewrite G. unfold tokens_of_year.
        rewrite PairingFacts.filter_none; [reflexivity|].
        intros [m t] I. simpl.
        apply in_combine_l in I. rewrite Forall_forall in F.
        exact (PairingFacts.stamp_year_not_unknown _ (F _ I)).
      * exact G.
Qed.

(** C6, the claim as stated fails: a block with six tokens (the dash of each
    stamp is a token too) and two month stamps yields a history with the
    years 2023 and 2022 only; the four tokens beyond the stamps are dropped,
    and there is no "UNKNOWN" year. *)
Lemma pdf_history_excess_tokens_dropped :
  let block := Py.lit "DAYS PAST DUE/ASSET CLASSIFICATION 000 015 030 XXX 01-23 12-22" in
  dpd_tokens block
    = [Py.lit "000"; Py.lit "015"; Py.lit "030"; Py.lit "XXX"; Py.lit "-"; Py.lit "-"] /\
  month_stamps block = [Py.lit "01-23"; Py.lit "12-22"] /\
  _extract_dpd_history_pdf block
    = Ok [(Py.lit "2023", Py.lit "000"); (Py.lit "2022", Py.lit "015")] /\
  Dict.get [(Py.lit "2023", Py.lit "000"); (Py.lit "2022", Py.lit "015")]
           (Py.lit "UNKNOWN") = None.
Proof.
  cbv zeta. repeat split; vm_compute; reflexivity.
Qed.

(* ------------------------------------------------------------------ *)
(** ** C8: cleaning an amount *)
(* ------------------------------------------------------------------ *)

Module AmountFacts.

Lemma noise_agrees (c : char) : Re.cls_not amount_noise c = negb (is_amount_noise c).
Proof.
  unfold Re.cls_not, amount_noise, Re.cls_or, Re.one, is_amount_noise.
  destruct (c =? Py.RUPEE), (c =? 44), (Py.is_space c); reflexivity.
Qed.

Lemma sub_is_remainder (s : str) : sub_amount_noise s = amount_remainder s.
Proof.
  unfold sub_amount_noise, amount_remainder. apply filter_ext. apply noise_agrees.
Qed.

Lemma space_is_noise (c : char) : Py.is_space c = true -> is_amount_noise c = true.
Proof. unfold is_amount_noise. intros ->. now rewrite !orb_true_r. Qed.

Lemma digit_not_noise (c : char) : Py.is_digit c = true -> is_amount_noise c = false.
Proof.
  intros H. each_digit H; reflexivity.
Qed.

Lemma alpha_not_noise (c : char) : Py.is_alpha c = true -> is_amount_noise c = false.
Proof.
  unfold Py.is_alpha, Py.is_upper, Py.is_lower, is_amount_noise, Py.is_space,
    Py.between, Py.RUPEE.
  rewrite !orb_true_iff, !andb_true_iff, !N.leb_le. intros H.
  rewrite !orb_false_iff, !andb_false_iff, !N.leb_gt, !N.eqb_neq. lia.
Qed.

Lemma alpha_not_digit (c : char) : Py.is_alpha c = true -> Py.is_digit c = false.
Proof.
  unfold Py.is_alpha, Py.is_upper, Py.is_lower, Py.is_digit, Py.between.
  rewrite !orb_true_iff, !andb_true_iff, !N.leb_le. intros H.
  rewrite !andb_false_iff, !N.leb_gt. lia.
Qed.

Lemma remainder_lstrip (s : str) : amount_remainder (Py.lstrip s) = amount_remainder s.
Proof.
  unfold amount_remainder. induction s as [|c s IH]; simpl; [reflexivity|].
  destruct (Py.is_space c) eqn:E; [|reflexivity].
  now rewrite (space_is_noise _ E).
Qed.

Lemma remainder_rev (s : str) : amount_remainder (rev s) = rev (amount_remainder s).
Proof.
  unfold amount_remainder. induction s as [|c s IH]; simpl; [reflexivity|].
  rewrite filter_app, IH. simpl.
  destruct (negb (is_amount_noise c)); simpl; [reflexivity|now rewrite app_nil_r].
Qed.

(** Stripping the ends first does not change what the substitution leaves. *)
Lemma remainder_strip (s : str) : amount_remainder (Py.strip s) = amount_remainder s.
Proof.
  unfold Py.strip, Py.rstrip.
  now rewrite remainder_rev, remainder_lstrip, remainder_rev, rev_involutive,
    remainder_lstrip.
Qed.

Lemma remainder_of_digits (s : str) :
  forallb Py.is_digit s = true -> amount_remainder s = s.
Proof.
  unfold amount_remainder. induction s as [|c s IH]; simpl; [reflexivity|].
  rewrite andb_true_iff. intros [D F]. rewrite (digit_not_noise _ D). simpl.
  now rewrite IH.
Qed.

Lemma clean_unfold (s : str) :
  _clean_amount (Some s) =
  if Py.isdigit (amount_remainder s) then amount_remainder s else Py.lit "0".
Proof.
  unfold _clean_amount. destruct s as [|c s']; [reflexivity|].
  simpl Py.truthy. simpl negb. cbv iota.
  now rewrite sub_is_remainder, remainder_strip.
Qed.

Lemma clean_is_digits (raw : option str) : Py.isdigit (_clean_amount raw) = true.
Proof.
  destruct raw as [s|]; [|reflexivity]. rewrite clean_unfold.
  destruct (Py.isdigit (amount_remainder s)) eqn:E; [assumption|reflexivity].
Qed.

Lemma clean_of_digits (s : str) : Py.isdigit s = true -> _clean_amount (Some s) = s.
Proof.
  intros D. rewrite clean_unfold.
  assert (F : forallb Py.is_digit s = true).
  { unfold Py.isdigit in D. now apply andb_true_iff in D. }
  now rewrite (remainder_of_digits _ F), D.
Qed.

Lemma remainder_keeps_letter (s : str) :
  existsb Py.is_alpha s = true -> forallb Py.is_digit (amount_remainder s) = false.
Proof.
  unfold amount_remainder. induction s as [|c s IH]; simpl; [discriminate|].
  destruct (Py.is_alpha c) eqn:A; simpl.
  - intros _. rewrite (alpha_not_noise _ A). simpl. now rewrite (alpha_not_digit _ A).
  - intros E. destruct (negb (is_amount_noise c)); simpl; [|auto].
    rewrite (IH E). apply andb_false_r.
Qed.

End AmountFacts.

(** C8.  [_clean_amount] is idempotent; its result is always a non-empty
    digit string; a digit string is returned unchanged.  Cleaning strips
    the thousands separators, the currency glyph and all whitespace: when
    what is left is purely numeric it is the result, and otherwise the result
    is the canonical zero "0", in particular for every input that contains a
    letter, for the empty string and for [None]. *)
Theorem clean_amount_idempotent (raw : option str) :
  _clean_amount (Some (_clean_amount raw)) = _clean_amount raw /\
  Py.isdigit (_clean_amount raw) = true /\
  (forall s, Py.isdigit s = true -> _clean_amount (Some s) = s) /\
  (forall s, Py.isdigit (amount_remainder s) = true ->
             _clean_amount (Some s) = amount_remainder s) /\
  (forall s, Py.isdigit (amount_remainder s) = false ->
             _clean_amount (Some s) = Py.lit "0") /\
  (forall s, existsb Py.is_alpha s = true -> _clean_amount (Some s) = Py.lit "0") /\
  _clean_amount None = Py.lit "0" /\
  _clean_amount (Some []) = Py.lit "0" /\
  _clean_amount (Some (Py.RUPEE :: Py.lit " 1,00,000 ")) = Py.lit "100000".
Proof.
  repeat split.
  - apply AmountFacts.clean_of_digits, AmountFacts.clean_is_digits.
  - apply AmountFacts.clean_is_digits.
  - apply AmountFacts.clean_of_digits.
  - intros s D. now rewrite AmountFacts.clean_unfold, D.
  - intros s D. now rewrite AmountFacts.clean_unfold, D.
  - intros s L. rewrite AmountFacts.clean_unfold.
    unfold Py.isdigit. rewrite (AmountFacts.remainder_keeps_letter _ L).
    now rewrite andb_false_r.
Qed.

(* ------------------------------------------------------------------ *)
(** ** C9: dispatch on the extension *)
(* ------------------------------------------------------------------ *)

(** C9.  [CIBILDataExtractor.extract] raises the not-found error when the
    path does not exist, whatever its extension; when the path exists and
    its extension in lower case is none of .pdf, .html, .htm it raises the
    unsupported-format error.  In both cases the only thing done is the
    existence test: no format extractor is run, so nothing of the file is
    read or parsed.  When the path exists, the extension .pdf runs the PDF
    extractor and .html or .htm the HTML extractor, and the result is the
    extractor's.  With the suffix of [pathlib]: Report.PDF goes to the PDF
    extractor, page.HtM to the HTML one, notes.txt is unsupported, and a
    missing notes.txt is not found. *)
Theorem extract_dispatch (report : Type) (path_exists : str -> bool)
    (path_suffix : str -> str) (run_extractor : format -> str -> result report)
    (file_path : str) :
  let ext := Py.lower (path_suffix file_path) in
  let run := extract report path_exists path_suffix run_extractor file_path in
  (path_exists file_path = false ->
     run = (Raise (FileNotFoundError (Py.lit "File not found: " ++ file_path)),
            [AskExists file_path])) /\
  (path_exists file_path = true ->
   ~ In ext [Py.lit ".pdf"; Py.lit ".html"; Py.lit ".htm"] ->
     run = (Raise (ValueError (Py.lit "Unsupported format: " ++ ext)),
            [AskExists file_path])) /\
  (path_exists file_path = true -> ext = Py.lit ".pdf" ->
     run = (run_extractor PDF file_path,
            [AskExists file_path; RunExtractor PDF file_path])) /\
  (path_exists file_path = true -> ext = Py.lit ".html" \/ ext = Py.lit ".htm" ->
     run = (run_extractor HTML file_path,
            [AskExists file_path; RunExtractor HTML file_path])) /\
  (let here := fun _ : str => true in
   let nowhere := fun _ : str => false in
   let which := fun (f : format) (_ : str) => Ok f in
   fst (extract format here posix_suffix which (Py.lit "in/Report.PDF")) = Ok PDF /\
   fst (extract format here posix_suffix which (Py.lit "page.HtM")) = Ok HTML /\
   extract format here posix_suffix which (Py.lit "notes.txt")
     = (Raise (ValueError (Py.lit "Unsupported format: .txt")),
        [AskExists (Py.lit "notes.txt")]) /\
   extract format nowhere posix_suffix which (Py.lit "notes.txt")
     = (Raise (FileNotFoundError (Py.lit "File not found: notes.txt")),
        [AskExists (Py.lit "notes.txt")])).
Proof.
  intros ext run. unfold run, extract. fold ext.
  split; [|split; [|split; [|split]]].
  - intros ->. reflexivity.
  - intros -> N. simpl negb. cbv iota.
    destruct (Dict.get _extractors ext) as [f|] eqn:G; [|reflexivity].
    exfalso. apply N. apply DictFacts.get_key in G. exact G.
  - intros -> ->. reflexivity.
  - intros -> [-> | ->]; reflexivity.
  - repeat split.
Qed.

(* ------------------------------------------------------------------ *)
(** ** C10: the score of the page-text format *)
(* ------------------------------------------------------------------ *)

Module ScoreFacts.
Import Re ReSem ReFacts TokenFacts.

(** A pattern without groups leaves the captures as they are. *)
Lemma caps_preserved r st w out :
  matches r st w out -> no_groups r = true -> m_caps out = m_caps st.
Proof.
  induction 1; simpl; intros G; try reflexivity; try discriminate.
  - apply andb_true_iff in G. destruct G as [G1 G2].
    now rewrite IHmatches2, IHmatches1.
  - apply andb_true_iff in G. destruct G as [G1 G2]. auto.
  - apply andb_true_iff in G. destruct G as [G1 G2]. auto.
Qed.

(** Group 1 around three digits, followed by a pattern without groups. *)
Lemma group_then_rest (rest : re) st w out :
  matches (Seq (Grp 1 (digits_n 3)) rest) st w out ->
  no_groups rest = true ->
  exists g, cap_lookup 1 (m_caps out) = Some g /\ is_three_digits g = true.
Proof.
  intros M G. inversion M as [| |? ? ? w1 mid w2 ? M1 M2| | | | | | |]; subst.
  rewrite (caps_preserved _ _ _ _ M2 G).
  unfold digits_n, seqs in M1. simpl in M1. inv_matches. simpl.
  eexists. split; [reflexivity|].
  unfold is_three_digits. simpl.
  repeat match goal with H : Py.is_digit _ = true |- _ => rewrite H; clear H end.
  reflexivity.
Qed.

Lemma seq_tail r1 r2 st w out :
  matches (Seq r1 r2) st w out -> exists st' w', matches r2 st' w' out.
Proof.
  intros M. inversion M; subst. eauto.
Qed.

Ltac drop_prefix M :=
  repeat match type of M with
         | matches (Seq (Grp _ _) _) _ _ _ => fail 1
         | matches (Seq _ _) _ _ _ =>
             let st' := fresh "st" in
             let w' := fresh "w" in
             apply seq_tail in M; destruct M as (st' & w' & M)
         end.

(** In every match of a score pattern, group 1 holds three digits. *)
Lemma score_pattern_group (p : re) st w out :
  In p score_patterns -> matches p st w out ->
  exists g, cap_lookup 1 (m_caps out) = Some g /\ is_three_digits g = true.
Proof.
  unfold score_patterns, seqs. cbn [fold_right].
  intros [<-|[<-|[<-|[<-|[]]]]] M; drop_prefix M;
    (eapply group_then_rest; [exact M|reflexivity]).
Qed.

Lemma score_search_group (p : re) (text : str) (m : rmatch_obj) :
  In p score_patterns -> search p text = Some m ->
  exists g, group 1 m = Some g /\ is_three_digits g = true.
Proof.
  intros I S. unfold search in S.
  destruct (search_from_sound _ _ _ _ S) as (prev & s' & out & M & C).
  unfold group. rewrite C. eapply score_pattern_group; eassumption.
Qed.

Lemma int_three_digits (g : str) :
  is_three_digits g = true -> exists n, Py.int g = Some n /\ (0 <= n <= 999)%Z.
Proof.
  intros D. destruct (PyFacts.three_digits_inv _ D) as (a & b & c & -> & Ha & Hb & Hc).
  each_digit Ha; each_digit Hb; each_digit Hc;
    (eexists; split; [vm_compute; reflexivity|lia]).
Qed.

(** The loop returns the first plausible candidate, and never raises. *)
Lemma loop_is_find (text : str) : forall patterns,
  (forall p, In p patterns -> In p score_patterns) ->
  extract_score_loop patterns text =
  Ok (find plausible_score
        (flat_map (fun p => option_list (score_candidate p text)) patterns)).
Proof.
  induction patterns as [|p ps IH]; intros Sub; simpl; [reflexivity|].
  assert (Sub' : forall q, In q ps -> In q score_patterns) by (intros; apply Sub; now right).
  unfold score_candidate at 1.
  destruct (search p text) as [m|] eqn:S; [|now apply IH].
  destruct (score_search_group p text m (Sub p (or_introl eq_refl)) S) as (g & G & D).
  rewrite G. destruct (int_three_digits _ D) as (n & I & _). rewrite I. simpl.
  fold (plausible_score n). destruct (plausible_score n); [reflexivity|now apply IH].
Qed.

Lemma candidates_three_digits (text : str) (s : Z) :
  In s (score_candidates text) -> (0 <= s <= 999)%Z.
Proof.
  unfold score_candidates. rewrite in_flat_map. intros (p & Ip & Is).
  unfold score_candidate in Is.
  destruct (search p text) as [m|] eqn:S; [|contradiction].
  destruct (score_search_group p text m Ip S) as (g & G & D).
  rewrite G in Is. destruct (int_three_digits _ D) as (n & I & B).
  rewrite I in Is. destruct Is as [<-|[]]. exact B.
Qed.

End ScoreFacts.

(** C10.  For every text [extract_score] returns without raising, and its
    result is the first candidate of the score patterns (in their order)
    that lies in 300..900, or null when there is none: a candidate outside
    the range is skipped and the next pattern is tried.  So the result is
    null or an integer between 300 and 900.  Every candidate is the value of
    three digits.  The markup path has no such bound: its score is the text
    of the first group that matched, for instance 999 or -12. *)
Theorem extract_score_in_range (text : str) :
  extract_score text = Ok (find plausible_score (score_candidates text)) /\
  (exists r, extract_score text = Ok r /\
             (r = None \/ exists s, r = Some s /\ (300 <= s <= 900)%Z)) /\
  (forall s, In s (score_candidates text) -> (0 <= s <= 999)%Z) /\
  extract_score (Py.lit "SCORE NAME SCORE xx 950 CREDITVISION abc 6234 5") = Ok (Some 623%Z) /\
  extract_score (Py.lit "SCORE NAME SCORE xx 950 CREDITVISION abc 1234 5") = Ok None /\
  html_score (Py.lit "CREDITVISION SCORE: 999") = Some (Py.lit "999") /\
  html_score (Py.lit "SCORE: -12") = Some (Py.lit "-12").
Proof.
  assert (E : extract_score text = Ok (find plausible_score (score_candidates text))).
  { unfold extract_score, score_candidates. apply ScoreFacts.loop_is_find. auto. }
  split; [exact E|]. split; [|split; [apply ScoreFacts.candidates_three_digits|]].
  - eexists. split; [exact E|].
    destruct (find plausible_score (score_candidates text)) as [s|] eqn:F; [|now left].
    right. exists s. split; [reflexivity|].
    apply find_some in F. destruct F as [_ P]. unfold plausible_score in P.
    apply andb_true_iff in P. destruct P as [P1 P2].
    apply Z.leb_le in P1, P2. lia.
  - repeat split; vm_compute; reflexivity.
Qed.

(* ------------------------------------------------------------------ *)
(** ** C7: which accounts are retained *)
(* ------------------------------------------------------------------ *)

Module RetentionFacts.

Lemma account_at_total lines i header after idx :
  exists a, pdf_account_at lines i header after idx = Ok a.
Proof.
  unfold pdf_account_at.
  destruct (PairingFacts.history_total
              (Py.join (Py.lit " ") (header :: dpd_part_lines after))) as (h & ->).
  simpl bind. eexists. reflexivity.
Qed.

(** The returned list is the list of all built accounts, filtered. *)
Lemma loops_agree (lines : list str) : forall rest i skip idx,
  exists segmented,
    segmented_loop lines rest i skip idx = Ok segmented /\
    deteriorating_loop lines rest i skip idx
    = Ok (filter (fun a => Py.truthy (deterioration_reasoning a)) segmented).
Proof.
  induction rest as [|line rest IH]; intros i skip idx; simpl.
  - exists []. auto.
  - destruct skip as [|k]; [|apply IH].
    destruct (is_dpd_header line); [|apply IH].
    destruct (max_accounts <? idx)%nat; [exists []; auto|].
    destruct (account_at_total lines i line rest idx) as (a & ->). simpl bind.
    destruct (IH (S i) (length (dpd_part_lines rest)) (S idx)) as (seg & -> & ->).
    simpl bind. exists (a :: seg). split; [reflexivity|]. simpl.
    destruct (Py.truthy (deterioration_reasoning a)); reflexivity.
Qed.

Lemma truthy_nonempty (s : str) : Py.truthy s = true <-> s <> [].
Proof. destruct s; simpl; split; congruence. Qed.

Lemma of_nat_truthy (n : nat) : Py.truthy (Py.of_nat n) = true.
Proof.
  unfold Py.of_nat, Py.lit. destruct (Nat.to_uint n); reflexivity.
Qed.

Lemma convert_shape (accounts : list account) : forall idx,
  Forall2 (fun acc u =>
             u_original_html_index u = Some (or_default (original_html_index acc) NA) /\
             u_dpd_history u = dpd_history acc /\
             u_deterioration_reasoning u = deterioration_reasoning acc)
          accounts (convert_html_loop accounts idx).
Proof.
  induction accounts as [|a l IH]; intros idx; simpl; constructor; auto.
Qed.

Lemma html_loop_shape (blocks : list str) : forall i,
  Forall2 (fun ib acc =>
             original_html_index acc = Some (Py.of_nat (fst ib + 1)) /\
             dpd_history acc = _extract_dpd_history_improved (snd ib) /\
             deterioration_reasoning acc = _get_deterioration_reasoning (dpd_history acc))
          (surviving_blocks blocks i) (html_accounts_loop blocks i).
Proof.
  induction blocks as [|b l IH]; intros i;
    cbn [surviving_blocks html_accounts_loop]; [constructor|].
  destruct (Nat.leb_spec 50 (length (Py.strip b))) as [L|L].
  - assert (T : Py.truthy (Py.strip b) = true).
    { destruct (Py.strip b); [simpl in L; lia|reflexivity]. }
    apply Nat.ltb_ge in L. rewrite T, L. cbn [negb orb].
    constructor; [|apply IH]. cbn [fst snd]. repeat split.
  - apply Nat.ltb_lt in L. rewrite L, orb_true_r. apply IH.
Qed.

Lemma Forall2_compose {A B C} (P : A -> B -> Prop) (Q : B -> C -> Prop)
    (R : A -> C -> Prop) (la : list A) (lb : list B) (lc : list C) :
  (forall a b c, P a b -> Q b c -> R a c) ->
  Forall2 P la lb -> Forall2 Q lb lc -> Forall2 R la lc.
Proof.
  intros H F. revert lc. induction F; intros lc G; inversion G; subst; constructor; eauto.
Qed.

Lemma surviving_count (blocks : list str) (i : nat) :
  length (surviving_blocks blocks i)
  = length (filter (fun b => (50 <=? length (Py.strip b))%nat) blocks).
Proof.
  revert i. induction blocks as [|b l IH]; intros i;
    cbn [surviving_blocks filter]; [reflexivity|].
  destruct (50 <=? length (Py.strip b))%nat; cbn [length]; now rewrite IH.
Qed.

End RetentionFacts.

(** C7.  Page-text path: [extract_deteriorating_accounts_pdf] returns without
    raising, and of the accounts it builds (one per grid header, up to the
    cap of 200) it returns exactly those whose deterioration reasoning is
    non-empty, in order.  Markup path: the unified accounts list has exactly
    one account per block that survives the 50-character filter, in order,
    carrying the block's position, history and reasoning, whatever the
    reasoning is.  In the example page text the clean first account is
    dropped and the second is kept; the example markup block has an empty
    reasoning and is in the list, and a short block is not. *)
Theorem account_retention (text : str) (account_blocks : list str) :
  (exists segmented kept,
     segmented_accounts_pdf text = Ok segmented /\
     extract_deteriorating_accounts_pdf text = Ok kept /\
     kept = filter (fun a => Py.truthy (deterioration_reasoning a)) segmented /\
     forall a, In a segmented -> (In a kept <-> deterioration_reasoning a <> [])) /\
  Forall2 account_of_block (surviving_blocks account_blocks 0)
          (html_accounts_list account_blocks) /\
  length (html_accounts_list account_blocks)
    = length (filter (fun b => (50 <=? length (Py.strip b))%nat) account_blocks) /\
  (exists a1 a2,
     segmented_accounts_pdf example_page_text = Ok [a1; a2] /\
     deterioration_reasoning a1 = [] /\
     extract_deteriorating_accounts_pdf example_page_text = Ok [a2] /\
     deterioration_reasoning a2
       = render (Transition true (Py.lit "000") (Py.lit "030")) (Py.lit "2024")) /\
  (exists u,
     html_accounts_list [Py.lit "short"; example_markup_block] = [u] /\
     u_original_html_index u = Some (Py.lit "2") /\
     u_dpd_history u = [(Py.lit "2024", Py.lit "000 STD")] /\
     u_deterioration_reasoning u = []).
Proof.
  split; [|split; [|split; [|split]]].
  - unfold segmented_accounts_pdf, extract_deteriorating_accounts_pdf.
    destruct (RetentionFacts.loops_agree (stripped_lines text) (stripped_lines text) 0 0 1)
      as (seg & S & K).
    exists seg, (filter (fun a => Py.truthy (deterioration_reasoning a)) seg).
    split; [exact S|]. split; [exact K|]. split; [reflexivity|].
    intros a Ia. rewrite filter_In, RetentionFacts.truthy_nonempty. tauto.
  - unfold html_accounts_list, _convert_html_accounts_to_unified,
      _extract_accounts_from_html.
    eapply RetentionFacts.Forall2_compose;
      [|apply RetentionFacts.html_loop_shape|apply RetentionFacts.convert_shape].
    intros ib acc u (A1 & A2 & A3) (B1 & B2 & B3). unfold account_of_block.
    rewrite B1, B2, B3, A1, A3. unfold or_default.
    rewrite RetentionFacts.of_nat_truthy. auto.
  - assert (F : Forall2 account_of_block (surviving_blocks account_blocks 0)
                        (html_accounts_list account_blocks)).
    { unfold html_accounts_list, _convert_html_accounts_to_unified,
        _extract_accounts_from_html.
      eapply RetentionFacts.Forall2_compose;
        [|apply RetentionFacts.html_loop_shape|apply RetentionFacts.convert_shape].
      intros ib acc u (A1 & A2 & A3) (B1 & B2 & B3). unfold account_of_block.
      rewrite B1, B2, B3, A1, A3. unfold or_default.
      rewrite RetentionFacts.of_nat_truthy. auto. }
    apply Forall2_length in F. rewrite <- F.
    apply RetentionFacts.surviving_count.
  - eexists _, _. repeat split; vm_compute; reflexivity.
  - eexists. repeat split; vm_compute; reflexivity.
Qed.

(* ------------------------------------------------------------------ *)
(** ** Two further properties *)
(* ------------------------------------------------------------------ *)

(** X1.  The explicit-dirty rule of [_get_deterioration_reasoning] is dead
    code: for every history the reasoning is empty, or the completely-dirty
    reasoning of one of its years, or a transition reasoning of one of its
    years. *)
Theorem explicit_dirty_rule_is_dead (h : dict str) :
  _get_deterioration_reasoning h = [] \/
  exists year f,
    In year (Dict.keys h) /\
    _get_deterioration_reasoning h = render f year /\
    match f with
    | CompletelyDirty _ | Transition _ _ _ => True
    | ExplicitDirty _ => False
    end.
Proof.
  unfold _get_deterioration_reasoning.
  assert (K : forall y, In y (Py.sorted (Dict.keys h)) -> In y (Dict.keys h)).
  { intros y. apply Permutation_in, SortFacts.sorted_perm. }
  induction (Py.sorted (Dict.keys h)) as [|y ys IH]; simpl; [now left|].
  assert (K' : forall z, In z ys -> In z (Dict.keys h)) by (intros; apply K; now right).
  destruct (Dict.get h y) as [d|] eqn:G; [|exact (IH K')].
  destruct (ReasoningFacts.rules_total (year_tokens d)) as [(f & R)|N].
  - rewrite (ReasoningFacts.reasoning_of_year_fires y d f R).
    right. exists y, f. split; [apply K; now left|]. split; [reflexivity|].
    destruct f; auto. exact (ReasoningFacts.rule3_unreachable _ _ R).
  - rewrite (ReasoningFacts.reasoning_of_year_none y d N). exact (IH K').
Qed.

(** X2.  The delinquency-token pattern recognizes the vocabulary.  Whatever
    it finds in a text is, in upper case, one of 000, XXX, STD, - or three
    digits.  A word of the vocabulary in either letter case, standing alone,
    is found as the single token of the text, except the dash, which is not
    found.  At a dash the pattern matches exactly when the characters before
    and after it are word characters (for neighbours in ASCII, where the
    word characters are the letters, the digits and the underscore), and
    then it matches the dash alone: the dash of a month stamp such as 01-23
    is a token. *)
Theorem token_pattern_vocabulary :
  (forall s t, In t (dpd_tokens s) -> is_valid_token (Py.upper t) = true) /\
  (forall t, is_valid_token (Py.upper t) = true ->
     dpd_tokens t = if Py.eqb t (Py.lit "-") then [] else [t]) /\
  (forall prev rest,
     (forall c, prev = Some c -> c < 128) ->
     (forall c, hd_error rest = Some c -> c < 128) ->
     Re.match_at DPD_TOKEN_RE prev (45 :: rest)
     = if Re.word_opt prev && Re.word_opt (hd_error rest)
       then Some (Re.Match [45] []) else None) /\
  dpd_tokens (Py.lit "XXX") = [Py.lit "XXX"] /\
  dpd_tokens (Py.lit "std") = [Py.lit "std"] /\
  dpd_tokens (Py.lit "-") = [] /\
  dpd_tokens (Py.lit "000 - 015") = [Py.lit "000"; Py.lit "015"] /\
  dpd_tokens (Py.lit "01-23") = [Py.lit "-"].
Proof.
  split; [exact TokenFacts.dpd_tokens_valid|]. split; [|split; [|repeat split]].
  - intros t V.
    pose proof (RetokenFacts.retokenize [t] (Forall_cons _ V (Forall_nil _))) as R.
    cbn [Py.join filter] in R. rewrite R.
    destruct (Py.eqb t (Py.lit "-")); reflexivity.
  - intros prev rest _ _. unfold Re.match_at.
    assert (R : Re.rmatch DPD_TOKEN_RE Some (Re.MState prev (45 :: rest) [])
                = if Re.word_opt prev && Re.word_opt (hd_error rest)
                  then Some (Re.MState (Some 45) rest []) else None).
    { destruct prev as [p|], rest as [|c rest];
        cbn -[Py.is_word]; unfold Re.at_boundary, Re.word_opt;
        cbn -[Py.is_word]; change (Py.is_word 45) with false;
        repeat match goal with
               | |- context [Py.is_word ?x] => destruct (Py.is_word x)
               end; reflexivity. }
    rewrite R. destruct (Re.word_opt prev && Re.word_opt (hd_error rest)); [|reflexivity].
    rewrite (ReFacts.consumed_app _ _ [45]) by reflexivity. reflexivity.
Qed.

Module DeteriorationFacts.
Import ReasoningFacts DefaultMonthFacts DictFacts.

Lemma render_truthy (f : finding) (year : str) : Py.truthy (render f year) = true.
Proof. destruct f as [n|[] p c|code]; reflexivity. Qed.

Lemma clean_or_dirty (tokens : list str) :
  Forall (fun t => is_clean t = true) tokens \/
  Exists (fun t => is_clean t = false) tokens.
Proof.
  induction tokens as [|t l IH]; [left; constructor|].
  destruct (is_clean t) eqn:E.
  - destruct IH as [IH|IH]; [left; constructor; assumption | right; apply Exists_cons_tl; assumption].
  - right. apply Exists_cons_hd. assumption.
Qed.

Lemma clean_not_dirty (tokens : list str) :
  Forall (fun t => is_clean t = true) tokens ->
  Exists (fun t => is_clean t = false) tokens -> False.
Proof.
  intros F E. apply Exists_exists in E. destruct E as (t & I & D).
  rewrite Forall_forall in F. rewrite (F t I) in D. discriminate.
Qed.

(** A rule applies to a year exactly when the year has a dirty token. *)
Lemma fires_iff_dirty (tokens : list str) :
  (exists f, rule_fires tokens f) <-> Exists (fun t => is_clean t = false) tokens.
Proof.
  split.
  - intros [f R]. destruct (clean_or_dirty tokens) as [C|D]; [exfalso|exact D].
    destruct R as [NE F | i prev curr _ (P & Q & N) _ | code _ _ I J].
    + destruct tokens as [|t l]; [congruence|].
      inversion F; subst. inversion C; subst. congruence.
    + rewrite Forall_forall in C. apply nth_error_In in P, Q.
      rewrite (C _ P), (C _ Q) in N. congruence.
    + rewrite Forall_forall in C. apply example_codes_dirty in I.
      rewrite (C _ J) in I. discriminate.
  - intros D. destruct (rules_total tokens) as [R|(E & T & _)]; [exact R|exfalso].
    destruct E as [->|E]; [inversion D|].
    exact (clean_not_dirty _ (no_transition_all_clean _ E T) D).
Qed.

Lemma no_rule_iff_clean (tokens : list str) :
  no_rule tokens <-> Forall (fun t => is_clean t = true) tokens.
Proof.
  split.
  - intros N. destruct (clean_or_dirty tokens) as [C|D]; [exact C|exfalso].
    apply fires_iff_dirty in D. destruct D as [f R]. exact (rules_exclusive _ _ R N).
  - intros C. destruct (rules_total tokens) as [[f R]|N]; [exfalso|exact N].
    apply (clean_not_dirty _ C). apply fires_iff_dirty. exists f. exact R.
Qed.

Lemma loop_truthy (h : dict str) : forall years,
  Py.truthy (reasoning_loop h years) = true <->
  exists y d, In y years /\ Dict.get h y = Some d /\
              Exists (fun t => is_clean t = false) (year_tokens d).
Proof.
  induction years as [|y rest IH]; cbn [reasoning_loop].
  - split; [discriminate|]. intros (y & d & [] & _).
  - destruct (Dict.get h y) as [d|] eqn:G.
    + destruct (rules_total (year_tokens d)) as [[f R]|N].
      * rewrite (reasoning_of_year_fires y d f R), render_truthy.
        split; [intros _|reflexivity].
        exists y, d. repeat split; [left; reflexivity|exact G|].
        apply fires_iff_dirty. exists f. exact R.
      * rewrite (reasoning_of_year_none y d N), IH.
        split; intros (y' & d' & I & G' & D).
        -- exists y', d'. repeat split; [right; exact I|exact G'|exact D].
        -- destruct I as [<-|I]; [exfalso|exists y', d'; tauto].
           rewrite G in G'. injection G' as <-.
           apply no_rule_iff_clean in N. exact (clean_not_dirty _ N D).
    + rewrite IH. split; intros (y' & d' & I & G' & D).
      * exists y', d'. repeat split; [right; exact I|exact G'|exact D].
      * destruct I as [<-|I]; [congruence|exists y', d'; tauto].
Qed.

Lemma reasoning_truthy (h : dict str) :
  Py.truthy (_get_deterioration_reasoning h) = true <->
  exists y d, Dict.get h y = Some d /\
              Exists (fun t => is_clean t = false) (year_tokens d).
Proof.
  unfold _get_deterioration_reasoning. rewrite loop_truthy.
  split; intros (y & d & H).
  - exists y, d. tauto.
  - destruct H as (G & D). exists y, d. repeat split; [|exact G|exact D].
    apply (Permutation_in _ (Permutation_sym (SortFacts.sorted_perm _))).
    exact (get_key _ _ _ G).
Qed.

Lemma default_number_unfold (h : dict str) :
  _calculate_default_month_number h =
  match yearly_default_months h with
  | [] => None
  | ds => Some (rounded_mean ds)
  end.
Proof.
  unfold _calculate_default_month_number, yearly_default_months.
  rewrite (collect_fold _default_month_for_year). cbn [app].
  destruct (flat_map _ _); reflexivity.
Qed.

Lemma default_number_defined (h : dict str) :
  (exists x, _calculate_default_month_number h = Some x) <->
  exists y d, In (y, d) h /\ Exists (fun t => is_clean t = false) (year_tokens d).
Proof.
  rewrite default_number_unfold. split.
  - intros [x E].
    destruct (yearly_default_months h) as [|m ms] eqn:Y; [discriminate|].
    assert (I : In m (yearly_default_months h)) by (rewrite Y; left; reflexivity).
    unfold yearly_default_months, Dict.values in I.
    apply in_flat_map in I. destruct I as (d & I & J).
    apply in_map_iff in I. destruct I as ([y d'] & <- & I). cbn [snd] in J.
    exists y, d'. split; [exact I|].
    destruct (clean_or_dirty (year_tokens d')) as [C|D]; [exfalso|exact D].
    apply (loop_none _ 1%nat) in C. unfold _default_month_for_year in J.
    unfold year_tokens in C. rewrite C in J. destruct J.
  - intros (y & d & I & D).
    destruct (yearly_default_months h) as [|m ms] eqn:Y; [exfalso|eexists; reflexivity].
    pose proof (proj1 (yearly_defaults_nil h) Y y d I) as N.
    apply loop_none in N. exact (clean_not_dirty _ N D).
Qed.

End DeteriorationFacts.

(** X3. An account has a deterioration reasoning exactly when it has a
    default month number: for every history that holds each year once,
    [_get_deterioration_reasoning] returns a non-empty text if and only if
    [_calculate_default_month_number] returns a number, and both happen
    exactly when some year of the history has a token that is not clean. *)
Theorem reasoning_iff_default_month (h : dict str) (W : Dict.wf h) :
  (Py.truthy (_get_deterioration_reasoning h) = true <->
   exists x, _calculate_default_month_number h = Some x) /\
  (Py.truthy (_get_deterioration_reasoning h) = true <->
   exists year dpd_string,
     In (year, dpd_string) h /\
     Exists (fun t => is_clean t = false) (year_tokens dpd_string)).
Proof.
  assert (R : Py.truthy (_get_deterioration_reasoning h) = true <->
              exists year dpd_string,
                In (year, dpd_string) h /\
                Exists (fun t => is_clean t = false) (year_tokens dpd_string)).
  { rewrite DeteriorationFacts.reasoning_truthy.
    split; intros (y & d & G & D); exists y, d; split; try exact D.
    - exact (DictFacts.get_In _ _ _ G).
    - exact (DictFacts.In_get _ _ _ W G). }
  split; [|exact R].
  rewrite DeteriorationFacts.default_number_defined. exact R.
Qed.

Lemma reasoning_iff_default_month_witness :
  let h := [(Py.lit "2023", Py.lit "000 015"); (Py.lit "2022", Py.lit "000 XXX")] in
  Dict.wf h /\
  (Py.truthy (_get_deterioration_reasoning h) = true <->
   exists x, _calculate_default_month_number h = Some x).
Proof.
  assert (W : Dict.wf [(Py.lit "2023", Py.lit "000 015"); (Py.lit "2022", Py.lit "000 XXX")]).
  { repeat constructor; cbn; intuition discriminate. }
  split; [exact W|].
  exact (proj1 (reasoning_iff_default_month _ W)).
Defined.

(** X4. Both history builders store a year's tokens joined by single
    spaces, and both analyses tokenize that text again.  Tokenizing the
    joined text gives the tokens back in order, except the dashes, which are
    dropped: a dash is a token only between two word characters.  A second
    round changes nothing more. *)
Theorem history_text_retokenizes (lines : list str) :
  let tokens := flat_map dpd_tokens lines in
  let kept := filter (fun t => negb (Py.eqb t (Py.lit "-"))) tokens in
  dpd_tokens (Py.join (Py.lit " ") tokens) = kept /\
  dpd_tokens (Py.join (Py.lit " ") kept) = kept /\
  year_tokens (Py.join (Py.lit " ") tokens) = map Py.upper kept.
Proof.
  intros tokens kept.
  pose proof (RetokenFacts.found_tokens_valid lines) as V. fold tokens in V.
  assert (E : dpd_tokens (Py.join (Py.lit " ") tokens) = kept)
    by exact (RetokenFacts.retokenize tokens V).
  split; [exact E|]. split.
  - rewrite RetokenFacts.retokenize.
    + subst kept. clear. induction tokens as [|t l IH]; [reflexivity|].
      cbn [filter]. destruct (negb (Py.eqb t (Py.lit "-"))) eqn:D; [|exact IH].
      cbn [filter]. rewrite D, IH. reflexivity.
    + apply Forall_forall. intros t I. subst kept. apply filter_In in I.
      rewrite Forall_forall in V. exact (V t (proj1 I)).
  - unfold year_tokens. rewrite E. reflexivity.
Qed.

Module HistoryFacts.
Import Re ReSem ReFacts TokenFacts PyFacts DictFacts.

Lemma set_keys {V} (d : dict V) (k : str) (v : V) :
  Dict.keys (Dict.set d k v)
  = if Dict.has_key d k then Dict.keys d else Dict.keys d ++ [k].
Proof.
  unfold Dict.has_key. induction d as [|[k' v'] t IH]; [reflexivity|].
  cbn [Dict.set Dict.get]. destruct (Py.eqb k k'); [reflexivity|].
  cbn [Dict.keys map fst] in *. fold (Dict.keys t). fold (Dict.keys (Dict.set t k v)).
  rewrite IH. destruct (Dict.get t k); reflexivity.
Qed.

Lemma set_wf {V} (d : dict V) (k : str) (v : V) : Dict.wf d -> Dict.wf (Dict.set d k v).
Proof.
  unfold Dict.wf. rewrite set_keys. unfold Dict.has_key.
  destruct (Dict.get d k) eqn:G; [tauto|]. intros W.
  apply NoDup_app; [exact W|repeat constructor; intros []|].
  intros a I [<-|[]]. destruct (key_get _ _ I) as [v' G']. congruence.
Qed.

Lemma set_In {V} (d : dict V) (k k' : str) (v v' : V) :
  In (k', v') (Dict.set d k v) -> (k' = k /\ v' = v) \/ In (k', v') d.
Proof.
  induction d as [|[k0 v0] t IH]; cbn [Dict.set].
  - intros [E|[]]. injection E as <- <-. left. tauto.
  - destruct (Py.eqb k k0) eqn:E.
    + apply eqb_eq in E. subst k0. intros [E'|I].
      * injection E' as <- <-. left. tauto.
      * right. right. exact I.
    + intros [E'|I]; [right; left; exact E'|].
      destruct (IH I) as [H|H]; [left; exact H|right; right; exact H].
Qed.

Lemma token_nonempty (t : str) : is_valid_token (Py.upper t) = true -> Py.truthy t = true.
Proof. destruct t; [discriminate|reflexivity]. Qed.

Lemma join_truthy (ts : list str) :
  ts <> [] -> Forall (fun t => Py.truthy t = true) ts ->
  Py.truthy (Py.join (Py.lit " ") ts) = true.
Proof.
  destruct ts as [|t ts]; [congruence|]. intros _ F. inversion F; subst.
  destruct t as [|c t]; [discriminate|]. destruct ts; reflexivity.
Qed.

(** Group 1 of the year-line pattern holds four digits. *)
Lemma year_line_group (line : str) (m : rmatch_obj) (year : str) :
  match_ YEAR_LINE_RE line = Some m -> group 1 m = Some year ->
  length year = 4%nat /\ forallb Py.is_digit year = true.
Proof.
  intros M G. destruct (match_at_sound _ _ _ _ M) as (out & Mt & C).
  unfold group in G. rewrite C in G.
  unfold YEAR_LINE_RE, digits_n, seqs in Mt. cbn [fold_right repeat] in Mt.
  inversion Mt as [| |? ? ? w1 mid w2 ? M1 M2| | | | | | |]; subst. clear Mt M1.
  inversion M2 as [| |? ? ? w3 mid2 w4 ? M3 M4| | | | | | |]; subst. clear M2.
  inversion M4 as [| |? ? ? w5 mid3 w6 ? M5 M6| | | | | | |]; subst. clear M4.
  inversion M5; subst. clear M5.
  inv_matches. cbn in G. injection G as <-.
  split; [reflexivity|]. cbn.
  repeat match goal with H : Py.is_digit _ = true |- _ => rewrite H; clear H end.
  reflexivity.
Qed.

Lemma dpd_history_loop_inv (rest : list str) : forall history,
  Dict.wf history ->
  (forall year dpds, In (year, dpds) history -> html_entry_ok year dpds) ->
  Dict.wf (dpd_history_loop rest history) /\
  forall year dpds, In (year, dpds) (dpd_history_loop rest history) ->
                    html_entry_ok year dpds.
Proof.
  induction rest as [|line rest IH]; intros history W P; cbn [dpd_history_loop];
    [tauto|].
  destruct (match_ YEAR_LINE_RE line) as [m|] eqn:M; [|exact (IH _ W P)].
  destruct (group 1 m) as [year|] eqn:G; [|exact (IH _ W P)].
  destruct (flat_map dpd_tokens (firstn 12 rest)) as [|t0 ts] eqn:T; [exact (IH _ W P)|].
  apply IH; [apply set_wf; exact W|].
  intros y d I. destruct (set_In _ _ _ _ _ I) as [[-> ->]|I']; [|exact (P _ _ I')].
  assert (V : Forall (fun t => is_valid_token (Py.upper t) = true) (t0 :: ts)).
  { rewrite <- T. apply Forall_forall. intros t J. apply in_flat_map in J.
    destruct J as (s & _ & J). exact (dpd_tokens_valid s t J). }
  split; [exact (year_line_group _ _ _ M G)|]. split.
  - apply join_truthy; [discriminate|].
    eapply Forall_impl; [|exact V]. exact token_nonempty.
  - exists (t0 :: ts). split; [reflexivity|exact V].
Qed.


(** The invariant of the grouping loop of the page-text builder: the years
    come from month stamps, and every year holds tokens of the block. *)
Lemma year_append_inv (tokens : list str) (l : list (str * str)) :
  forall d : dict (list str),
  (forall p, In p l -> is_month_stamp (fst p) /\ In (snd p) tokens) ->
  Dict.wf d ->
  (forall k ts, In (k, ts) d ->
     (exists m, is_month_stamp m /\ k = stamp_year m) /\
     ts <> [] /\ Forall (fun t => In t tokens) ts) ->
  let d' := fold_left (fun d p => year_append d (stamp_year (fst p)) (snd p)) l d in
  Dict.wf d' /\
  forall k ts, In (k, ts) d' ->
    (exists m, is_month_stamp m /\ k = stamp_year m) /\
    ts <> [] /\ Forall (fun t => In t tokens) ts.
Proof.
  induction l as [|[m t] l IH]; intros d L W P; cbn [fold_left]; [tauto|].
  destruct (L (m, t) (or_introl eq_refl)) as [Sm It]. cbn [fst snd] in *.
  apply IH.
  - intros p I. apply L. right. exact I.
  - unfold year_append. destruct (Dict.get d (stamp_year m)); apply set_wf; exact W.
  - intros k ts I. unfold year_append in I.
    destruct (Dict.get d (stamp_year m)) as [old|] eqn:G;
      (destruct (set_In _ _ _ _ _ I) as [[-> ->]|I']; [|exact (P _ _ I')]).
    + destruct (P _ _ (get_In _ _ _ G)) as (_ & _ & F).
      split; [exists m; tauto|]. split; [destruct old; discriminate|].
      apply Forall_app. split; [exact F|]. repeat constructor. exact It.
    + split; [exists m; tauto|]. split; [discriminate|].
      repeat constructor. exact It.
Qed.

Lemma stamp_year_shape (m : str) :
  is_month_stamp m ->
  exists c d, stamp_year m = Py.lit "20" ++ [c; d] /\
              Py.is_digit c = true /\ Py.is_digit d = true.
Proof.
  intros (d1 & d2 & d3 & d4 & -> & D). cbn in D.
  apply andb_true_iff in D. destruct D as [_ D].
  apply andb_true_iff in D. destruct D as [_ D].
  apply andb_true_iff in D. destruct D as [D3 D].
  apply andb_true_iff in D. destruct D as [D4 _].
  exists d3, d4. repeat split; assumption.
Qed.

Lemma pdf_history_entries (dpd_block : str) :
  exists h,
    _extract_dpd_history_pdf dpd_block = Ok h /\
    Dict.wf h /\
    forall year dpds, In (year, dpds) h ->
      pdf_entry_ok (dpd_tokens dpd_block) year dpds.
Proof.
  unfold _extract_dpd_history_pdf.
  set (tokens := dpd_tokens dpd_block). set (months := month_stamps dpd_block).
  assert (V : Forall (fun t => Py.truthy t = true) tokens).
  { apply Forall_forall. intros t I. apply token_nonempty.
    exact (dpd_tokens_valid dpd_block t I). }
  assert (J : forall ts, ts <> [] -> Forall (fun t => In t tokens) ts ->
                Py.truthy (Py.join (Py.lit " ") ts) = true).
  { intros ts N F. apply join_truthy; [exact N|].
    eapply Forall_impl; [|exact F]. cbn beta. intros t I.
    rewrite Forall_forall in V. exact (V t I). }
  destruct tokens as [|t0 ts] eqn:ET.
  { exists []. split; [reflexivity|]. split; [constructor|]. intros ? ? []. }
  rewrite <- ET in *.
  assert (F : Forall is_month_stamp (firstn (length tokens) months)).
  { apply Forall_forall. intros m Hm. apply (PairingFacts.month_stamps_shape dpd_block).
    fold months. rewrite <- (firstn_skipn (length tokens) months).
    apply in_or_app. left. exact Hm. }
  rewrite PairingFacts.pair_loop_ok; [|exact F|rewrite length_firstn; lia].
  cbn [bind skipn].
  set (pairs := combine (firstn (length tokens) months) tokens).
  destruct (year_append_inv tokens pairs []) as [W P].
  { intros [m t] I. cbn [fst snd]. split.
    - rewrite Forall_forall in F. exact (F m (in_combine_l _ _ _ _ I)).
    - exact (in_combine_r _ _ _ _ I). }
  { constructor. }
  { intros ? ? []. }
  set (yearly := fold_left (fun d p => year_append d (stamp_year (fst p)) (snd p))
                           pairs []) in *.
  destruct (map (fun '(year, dpds) => (year, Py.join (Py.lit " ") dpds)) yearly)
    as [|e0 h0] eqn:EH.
  - eexists. split; [reflexivity|]. split; [repeat constructor; intros []|].
    intros year dpds [E|[]]. injection E as <- <-.
    split; [left; reflexivity|]. split.
    + apply J; [rewrite ET; discriminate|]. apply Forall_forall. tauto.
    + exists tokens. split; [reflexivity|]. apply Forall_forall. tauto.
  - rewrite <- EH. eexists. split; [reflexivity|]. split.
    + unfold Dict.wf, Dict.keys. rewrite map_map.
      erewrite map_ext; [exact W|]. intros [k l]. reflexivity.
    + intros year dpds I. apply in_map_iff in I.
      destruct I as ([k l] & E & I). injection E as <- <-.
      destruct (P _ _ I) as ((m & Sm & ->) & N & Fl).
      split; [right; exact (stamp_year_shape m Sm)|]. split; [exact (J l N Fl)|].
      exists l. split; [reflexivity|exact Fl].
Qed.

End HistoryFacts.

(** X5. The histories that the two builders return.  From a markup block
    ([_extract_dpd_history_improved]): each year is held once, every year is
    four digits, and every text is a non-empty list of tokens joined by
    spaces.  From a page-text block ([_extract_dpd_history_pdf]): the call
    returns, each year is held once, every year is [20] followed by two
    digits or the sentinel, and every text is a non-empty list of tokens of
    the block joined by spaces.  So the guard against an empty text in the
    two analyses never fires on a history a builder made. *)
Theorem history_entries (block : str) :
  (let h := _extract_dpd_history_improved block in
   Dict.wf h /\
   forall year dpds, In (year, dpds) h -> html_entry_ok year dpds) /\
  (exists h,
     _extract_dpd_history_pdf block = Ok h /\
     Dict.wf h /\
     forall year dpds, In (year, dpds) h ->
                       pdf_entry_ok (dpd_tokens block) year dpds).
Proof.
  split.
  - apply HistoryFacts.dpd_history_loop_inv; [constructor|intros ? ? []].
  - exact (HistoryFacts.pdf_history_entries block).
Qed.

Module LazyGroupFacts.
Import Re ReSem ReFacts PyFacts.

Lemma star_lazy_unfold p k prev rest caps :
  star_lazy p k prev rest caps
  = orelse (k (MState prev rest caps))
      match rest with
      | c :: t => if p c then star_lazy p k (Some c) t caps else None
      | [] => None
      end.
Proof. destruct rest; reflexivity. Qed.

(** A lazy group that ends the pattern stops after its first character. *)
Lemma lazy_tail_group (p : char -> bool) (mid out : mstate) :
  rmatch (Seq (Grp 1 (plus_l p)) Eps) Some mid = Some out ->
  exists c, cap_lookup 1 (m_caps out) = Some [c] /\ p c = true.
Proof.
  cbn [rmatch plus_l]. destruct mid as [prev rest caps]. cbn [m_rest m_caps m_prev].
  destruct rest as [|c t]; [discriminate|].
  destruct (p c) eqn:Pc; [|discriminate].
  rewrite star_lazy_unfold. cbn [orelse m_rest m_prev m_caps].
  intros E. injection E as <-. cbn [m_caps cap_lookup Nat.eqb].
  exists c. split; [|exact Pc].
  rewrite (consumed_app _ _ [c]); reflexivity.
Qed.

Lemma seq_continue r1 r2 k st out :
  rmatch (Seq r1 r2) k st = Some out -> exists mid, rmatch r2 k mid = Some out.
Proof.
  cbn [rmatch]. intros H. destruct (rmatch_sound _ _ _ _ H) as (w & mid & _ & K).
  exists mid. exact K.
Qed.

Ltac walk_spine H :=
  repeat match type of H with
         | rmatch (Seq (Grp _ _) _) _ _ = Some _ => fail 1
         | rmatch (Seq _ _) _ _ = Some _ =>
             let mid := fresh "mid" in
             apply seq_continue in H; destruct H as (mid & H)
         end.

Lemma search_from_match r : forall s prev m,
  search_from r prev s = Some m ->
  exists prev' s' out,
    rmatch r Some (MState prev' s' []) = Some out /\ mt_caps m = m_caps out.
Proof.
  induction s as [|c t IH]; intros prev m; cbn [search_from]; unfold match_at;
    destruct (rmatch r Some _) as [out|] eqn:R; intros E; try discriminate.
  - injection E as <-. eauto.
  - injection E as <-. eauto.
  - exact (IH _ _ E).
Qed.

(** The six field patterns of a markup block that end in a lazy group. *)
Lemma html_field_one_char (r : re) (block g : str) :
  In r [HTML_DATE_OPENED; HTML_DATE_CLOSED; HTML_DATE_REPORTED;
        html_labelled (Py.lit "ACCOUNT TYPE"); html_labelled (Py.lit "MEMBER NAME");
        html_labelled_amount (Py.lit "sanctioned amouNT");
        html_labelled_amount (Py.lit "current balance")] ->
  search_group1 r block = Some g ->
  exists c, g = [c] /\ (c =? Py.NL) = false.
Proof.
  intros I S. unfold search_group1, search in S.
  destruct (search_from r None block) as [m|] eqn:E; [|discriminate].
  destruct (search_from_match _ _ _ _ E) as (prev & s & out & R & C).
  unfold group in S. rewrite C in S.
  cbn [In] in I.
  assert (T : exists x mid, rmatch (Seq (Grp 1 (plus_l (not_newline_or x))) Eps) Some mid
                           = Some out).
  { destruct I as [<-|[<-|[<-|[<-|[<-|[<-|[<-|[]]]]]]]];
      unfold HTML_DATE_OPENED, HTML_DATE_CLOSED, HTML_DATE_REPORTED, html_labelled,
        html_labelled_amount, seqs in R; cbn [fold_right] in R;
      walk_spine R; eauto. }
  destruct T as (x & mid & T).
  destruct (lazy_tail_group _ _ _ T) as (c & L & Pc).
  rewrite L in S. injection S as <-. exists c. split; [reflexivity|].
  unfold not_newline_or, cls_not, cls_or, one in Pc.
  apply negb_true_iff in Pc. apply orb_false_iff in Pc. tauto.
Qed.


Lemma strip_single (c : char) :
  Py.strip [c] = if Py.is_space c then [] else [c].
Proof.
  unfold Py.strip, Py.rstrip. cbn [Py.lstrip].
  destruct (Py.is_space c) eqn:E; cbn [rev app Py.lstrip]; [reflexivity|].
  rewrite E. reflexivity.
Qed.

Lemma text_field_one_char (r : re) (block : str) :
  In r [HTML_DATE_OPENED; HTML_DATE_CLOSED; HTML_DATE_REPORTED;
        html_labelled (Py.lit "ACCOUNT TYPE"); html_labelled (Py.lit "MEMBER NAME")] ->
  let field := match search_group1 r block with
               | Some g => html_text_value (Py.strip g)
               | None => None
               end in
  field = None \/
  exists c, field = Some [c] /\ Py.is_space c = false /\ c <> 58.
Proof.
  intros I field. subst field.
  destruct (search_group1 r block) as [g|] eqn:S; [|left; reflexivity].
  destruct (html_field_one_char r block g) as (c & -> & _); [|exact S|].
  { cbn [In] in *. tauto. }
  rewrite strip_single. destruct (Py.is_space c) eqn:Sp; [left; reflexivity|].
  unfold html_text_value. cbn [Py.truthy Py.mem existsb Py.eqb Py.lit map
                                String.list_ascii_of_string andb orb negb].
  destruct (c =? _) eqn:E; cbn; [left; reflexivity|].
  right. exists c. split; [reflexivity|split; [exact Sp|]].
  apply N.eqb_neq. exact E.
Qed.

Lemma clean_single (s : str) :
  (length s <= 1)%nat ->
  exists d, _clean_amount (Some s) = [d] /\ Py.is_digit d = true.
Proof.
  intros L. rewrite AmountFacts.clean_unfold.
  destruct s as [|c [|c' s]]; [exists 48; split; reflexivity| |cbn in L; lia].
  unfold amount_remainder. cbn [filter].
  destruct (negb (is_amount_noise c)); [|exists 48; split; reflexivity].
  unfold Py.isdigit. cbn [Py.truthy forallb andb].
  destruct (Py.is_digit c) eqn:D; cbn [andb].
  - exists c. split; [reflexivity|exact D].
  - exists 48. split; reflexivity.
Qed.

Lemma amount_field_one_digit (r : re) (block : str) :
  In r [html_labelled_amount (Py.lit "sanctioned amouNT");
        html_labelled_amount (Py.lit "current balance")] ->
  exists d,
    match search_group1 r block with
    | Some g => Some (or_zero (_clean_amount (Some (Py.strip g))))
    | None => Some (Py.lit "0")
    end = Some [d] /\ Py.is_digit d = true.
Proof.
  intros I.
  destruct (search_group1 r block) as [g|] eqn:S; [|exists 48; split; reflexivity].
  destruct (html_field_one_char r block g) as (c & -> & _); [|exact S|].
  { cbn [In] in *. tauto. }
  destruct (clean_single (Py.strip [c])) as (d & E & D).
  { rewrite strip_single. destruct (Py.is_space c); cbn; lia. }
  exists d. rewrite E. split; [reflexivity|exact D].
Qed.

End LazyGroupFacts.

(** X6. In the field patterns of [_extract_accounts_from_html] the value
    group is lazy and ends the pattern, so it stops after one character.
    For every account built from a block: the opening, closing and reporting
    dates, the account type and the member name are each absent or a single
    character, which is neither whitespace nor a colon; the sanctioned amount
    and the current balance are each a single digit. *)
Theorem html_fields_one_character (account_blocks : list str) :
  Forall (fun a =>
            (forall field,
               In field [date_opened a; date_closed a; date_reported a;
                         account_type a; member_name a] ->
               field = None \/
               exists c, field = Some [c] /\ Py.is_space c = false /\ c <> 58) /\
            (forall field,
               In field [sanctioned_amount a; current_balance a] ->
               exists d, field = Some [d] /\ Py.is_digit d = true))
         (_extract_accounts_from_html account_blocks).
Proof.
  unfold _extract_accounts_from_html. generalize 0%nat.
  induction account_blocks as [|block rest IH]; intros i; cbn [html_accounts_loop];
    [constructor|].
  destruct (negb (Py.truthy (Py.strip block)) || _); [apply IH|].
  constructor; [|apply IH].
  unfold html_account_of_block.
  cbn [date_opened date_closed date_reported account_type member_name
       sanctioned_amount current_balance].
  split; intros field I; cbn [In] in I.
  - destruct I as [<-|[<-|[<-|[<-|[<-|[]]]]]];
      apply LazyGroupFacts.text_field_one_char; cbn [In]; tauto.
  - destruct I as [<-|[<-|[]]];
      apply LazyGroupFacts.amount_field_one_digit; cbn [In]; tauto.
Qed.

Module UnifiedFacts.
Import PyFacts DictFacts DefaultMonthFacts DeteriorationFacts.

Lemma numbers_unfold (accounts : list unified_account) :
  default_month_numbers accounts
  = flat_map (fun a => option_list (u_default_month_number a)) accounts.
Proof. unfold default_month_numbers. rewrite (collect_fold u_default_month_number). reflexivity. Qed.

(** A year with a default month makes the account's default month number. *)
Lemma specific_year_defined (h : dict str) (year : str) (m : nat) :
  _default_month_for_specific_year h year = Some m ->
  exists x, _calculate_default_month_number h = Some x.
Proof.
  unfold _default_month_for_specific_year.
  destruct (Dict.get h year) as [d|] eqn:G; [|discriminate].
  destruct (negb (Py.truthy d)); [discriminate|]. intros D.
  apply default_number_defined. exists year, d. split; [exact (get_In _ _ _ G)|].
  destruct (clean_or_dirty (year_tokens d)) as [C|X]; [exfalso|exact X].
  apply (loop_none _ 1%nat) in C. unfold _default_month_for_year in D.
  unfold year_tokens in C. congruence.
Qed.

Lemma year_values_nil (year : str) (accounts : list unified_account) :
  Forall (fun u => _calculate_default_month_number (u_dpd_history u) = None) accounts ->
  year_values year accounts = [].
Proof.
  induction 1 as [|u l N _ IH]; [reflexivity|].
  unfold year_values in *. cbn [flat_map]. rewrite IH, app_nil_r.
  destruct (_default_month_for_specific_year (u_dpd_history u) year) as [m|] eqn:D;
    [|reflexivity].
  destruct (specific_year_defined _ _ _ D) as [x E]. congruence.
Qed.

(** Without any default month number, no account has a default month in any
    year, when the numbers of the accounts come from their histories. *)
Lemma no_number_no_final (now_year : Z) (accounts : list unified_account) :
  Forall (fun u =>
            u_default_month_number u = None ->
            _calculate_default_month_number (u_dpd_history u) = None) accounts ->
  default_month_numbers accounts = [] ->
  _calculate_dynamic_final_default_month now_year accounts = None.
Proof.
  intros C F. rewrite numbers_unfold in F.
  assert (N : Forall (fun u => _calculate_default_month_number (u_dpd_history u) = None)
                     accounts).
  { rewrite Forall_forall in *. intros u I. apply (C u I).
    destruct (u_default_month_number u) as [d|] eqn:E; [exfalso|reflexivity].
    assert (J : In d (flat_map (fun a => option_list (u_default_month_number a)) accounts)).
    { apply in_flat_map. exists u. split; [exact I|]. rewrite E. left. reflexivity. }
    rewrite F in J. destruct J. }
  rewrite FinalMonthFacts.unfold_final. cbv zeta.
  rewrite !(year_values_nil _ _ N). reflexivity.
Qed.

Lemma account_at_shape lines i header after idx a :
  pdf_account_at lines i header after idx = Ok a ->
  account_index a = Some idx /\
  (exists block, _extract_dpd_history_pdf block = Ok (dpd_history a)) /\
  deterioration_reasoning a = _get_deterioration_reasoning (dpd_history a).
Proof.
  unfold pdf_account_at.
  destruct (_extract_dpd_history_pdf _) as [h|e] eqn:H; cbn [bind]; [|discriminate].
  intros E. injection E as <-. cbn. split; [reflexivity|]. split; [|reflexivity].
  eexists. exact H.
Qed.

(** The accounts the page-text loop builds are numbered from [idx] on, and
    none is numbered beyond the cap. *)
Lemma segmented_shape (lines : list str) : forall rest i skip idx l,
  segmented_loop lines rest i skip idx = Ok l ->
  (idx + length l <= Nat.max idx 201)%nat /\
  Forall (fun a =>
            (exists n, account_index a = Some n /\ (idx <= n <= 200)%nat) /\
            (exists block, _extract_dpd_history_pdf block = Ok (dpd_history a)) /\
            deterioration_reasoning a = _get_deterioration_reasoning (dpd_history a)) l.
Proof.
  induction rest as [|line rest IH]; intros i skip idx l; cbn [segmented_loop].
  - intros E. injection E as <-. cbn. split; [lia|constructor].
  - destruct skip as [|k]; [|apply IH].
    destruct (is_dpd_header line); [|apply IH].
    destruct (max_accounts <? idx)%nat eqn:Cap.
    + intros E. injection E as <-. cbn. split; [lia|constructor].
    + apply Nat.ltb_ge in Cap. unfold max_accounts in Cap.
      destruct (pdf_account_at lines i line rest idx) as [a|e] eqn:A; cbn [bind];
        [|discriminate].
      destruct (segmented_loop lines rest (S i) _ (S idx)) as [later|e] eqn:L;
        cbn [bind]; [|discriminate].
      intros E. injection E as <-.
      destruct (IH _ _ _ _ L) as [Len F].
      destruct (account_at_shape _ _ _ _ _ _ A) as (Ix & Hs & R).
      split; [cbn [length]; lia|]. constructor.
      * split; [exists idx; split; [exact Ix|lia]|]. tauto.
      * eapply Forall_impl; [|exact F]. cbn beta.
        intros a' ((n & In' & Bn) & Rest). split; [exists n; split; [exact In'|lia]|exact Rest].
Qed.

Lemma convert_pdf_shape (accounts : list account) : forall idx,
  Forall2 (fun acc u =>
             u_account_index u = account_index acc /\
             u_dpd_history u = dpd_history acc /\
             u_deterioration_reasoning u = deterioration_reasoning acc /\
             u_default_month_number u = _calculate_default_month_number (dpd_history acc))
          accounts (convert_pdf_loop accounts idx).
Proof.
  induction accounts as [|a l IH]; intros idx; cbn [convert_pdf_loop]; constructor.
  - cbn. tauto.
  - apply IH.
Qed.

(** A history that a builder returned holds each year once. *)
Lemma pdf_history_wf (block : str) (h : dict str) :
  _extract_dpd_history_pdf block = Ok h -> Dict.wf h.
Proof.
  intros E. destruct (HistoryFacts.pdf_history_entries block) as (h' & E' & W & _).
  rewrite E in E'. injection E' as <-. exact W.
Qed.

Lemma numeric_nil (dpd_string : str) :
  numeric_dpd dpd_string = [] <-> _default_month_for_year dpd_string = None.
Proof.
  unfold numeric_dpd, _default_month_for_year. rewrite (loop_none _ 1%nat).
  rewrite Forall_forall. split.
  - intros E t I. apply in_map_iff in I. destruct I as (t0 & <- & I).
    destruct (is_clean (Py.upper t0)) eqn:C; [reflexivity|exfalso].
    apply map_eq_nil in E.
    assert (J : In t0 (filter (fun t => negb (is_clean (Py.upper t))) (dpd_tokens dpd_string))).
    { apply filter_In. split; [exact I|]. rewrite C. reflexivity. }
    rewrite E in J. destruct J.
  - intros C. rewrite PairingFacts.filter_none; [reflexivity|].
    intros t I. rewrite (C (Py.upper t)); [reflexivity|]. apply in_map. exact I.
Qed.

Lemma averages_unfold (h : dict str) : forall acc,
  fold_left
    (fun acc '(year, dpd_string) =>
       match numeric_dpd dpd_string with
       | [] => acc
       | nums => acc ++ [(year, rounded_mean_Z nums)]
       end) h acc
  = acc ++ flat_map (fun '(year, dpd_string) =>
                       match numeric_dpd dpd_string with
                       | [] => []
                       | nums => [(year, rounded_mean_Z nums)]
                       end) h.
Proof.
  induction h as [|[y s] h IH]; intros acc; cbn [fold_left flat_map].
  - rewrite app_nil_r. reflexivity.
  - rewrite IH. destruct (numeric_dpd s); [reflexivity|].
    rewrite <- app_assoc. reflexivity.
Qed.

Lemma averages_years (h : dict str) :
  map fst (yearly_averages h)
  = map fst (filter (fun p => match _default_month_for_year (snd p) with
                              | Some _ => true
                              | None => false
                              end) h).
Proof.
  unfold yearly_averages. rewrite averages_unfold. cbn [app].
  induction h as [|[y s] h IH]; [reflexivity|]. cbn [flat_map filter snd].
  rewrite map_app, IH.
  destruct (numeric_dpd s) as [|n ns] eqn:N.
  - apply numeric_nil in N. rewrite N. reflexivity.
  - destruct (_default_month_for_year s) eqn:D; [reflexivity|].
    apply numeric_nil in D. congruence.
Qed.

Lemma averages_nil (h : dict str) :
  yearly_averages h = [] <-> _calculate_default_month_number h = None.
Proof.
  rewrite default_number_unfold.
  assert (Y : yearly_default_months h = [] <-> yearly_averages h = []).
  { rewrite yearly_defaults_nil. split.
    - intros N. apply map_eq_nil with (f := fst). rewrite averages_years.
      rewrite PairingFacts.filter_none; [reflexivity|].
      intros [y s] I. cbn [snd]. rewrite (N y s I). reflexivity.
    - intros E y s I. destruct (_default_month_for_year s) as [m|] eqn:D; [exfalso|reflexivity].
      assert (J : In y (map fst (yearly_averages h))).
      { rewrite averages_years. apply in_map_iff. exists (y, s). split; [reflexivity|].
        apply filter_In. split; [exact I|]. cbn [snd]. rewrite D. reflexivity. }
      rewrite E in J. destruct J. }
  destruct (yearly_default_months h) eqn:E.
  - split; [reflexivity|]. intros _. apply Y. reflexivity.
  - split; [|discriminate]. intros A. apply Y in A. discriminate.
Qed.


Lemma Forall2_In_r {A B} (R : A -> B -> Prop) (l : list A) (l' : list B) :
  Forall2 R l l' -> forall y, In y l' -> exists x, In x l /\ R x y.
Proof.
  induction 1 as [|x y l l' Rxy _ IH]; intros z I; [destruct I|].
  destruct I as [<-|I]; [exists x; split; [left; reflexivity|exact Rxy]|].
  destruct (IH z I) as (x' & I' & R'). exists x'. split; [right; exact I'|exact R'].
Qed.

(** The number of a token that is not clean. *)
Lemma dirty_number (t : str) :
  is_valid_token (Py.upper t) = true -> is_clean (Py.upper t) = false ->
  (1 <= _dpd_to_number t <= 999)%Z.
Proof.
  intros V C. unfold is_valid_token in V. apply orb_true_iff in V. destruct V as [V|V].
  - exfalso. apply mem_In in V. unfold is_clean in C.
    assert (M : Py.mem (Py.upper t) CLEAN_STATES = true).
    { apply mem_In. cbn in V |- *. tauto. }
    congruence.
  - unfold is_three_digits in V. apply andb_true_iff in V. destruct V as [L D].
    apply Nat.eqb_eq in L. unfold Py.upper in L. rewrite length_map in L.
    destruct t as [|a [|b [|c [|d t]]]]; try discriminate L.
    cbn in D.
    apply andb_true_iff in D. destruct D as [Ha D].
    apply andb_true_iff in D. destruct D as [Hb D].
    apply andb_true_iff in D. destruct D as [Hc _].
    apply RetokenFacts.upper_digit in Ha, Hb, Hc.
    each_digit Ha; each_digit Hb; each_digit Hc;
      first [discriminate C | vm_compute; split; discriminate].
Qed.

Lemma numeric_range (dpd_string : str) :
  Forall (fun n => (1 <= n <= 999)%Z) (numeric_dpd dpd_string).
Proof.
  unfold numeric_dpd. apply Forall_forall. intros n I.
  apply in_map_iff in I. destruct I as (t & <- & I).
  apply filter_In in I. destruct I as [I C]. apply negb_true_iff in C.
  exact (dirty_number t (TokenFacts.dpd_tokens_valid _ _ I) C).
Qed.

End UnifiedFacts.

(** X7. The accounts of the page-text format.  [PDFExtractor.extract]
    converts the accounts that [extract_deteriorating_accounts_pdf] kept; the
    call returns, with at most 200 accounts, and every one of them has a
    non-empty reasoning, which is the reasoning of its history, a default
    month number, at least one yearly average, and an index between 1 and
    200.  The final default month average is then computed whatever the
    guard of [_build_unified_structure] finds. *)
Theorem pdf_accounts_deteriorating (text : str) (now_year : Z) :
  exists accounts,
    pdf_accounts_list text = Ok accounts /\
    (length accounts <= 200)%nat /\
    Forall (fun u =>
              Py.truthy (u_deterioration_reasoning u) = true /\
              u_deterioration_reasoning u = _get_deterioration_reasoning (u_dpd_history u) /\
              (exists x, u_default_month_number u = Some x) /\
              yearly_averages (u_dpd_history u) <> [] /\
              (exists n, u_account_index u = Some n /\ (1 <= n <= 200)%nat))
           accounts /\
    final_default_month_avg now_year accounts
    = _calculate_dynamic_final_default_month now_year accounts.
Proof.
  unfold pdf_accounts_list, extract_deteriorating_accounts_pdf.
  set (lines := stripped_lines text).
  destruct (RetentionFacts.loops_agree lines lines 0 0 1) as (segmented & S & K).
  rewrite K. cbn [bind].
  destruct (UnifiedFacts.segmented_shape _ _ _ _ _ _ S) as [Len Sh].
  set (kept := filter (fun a => Py.truthy (deterioration_reasoning a)) segmented).
  pose proof (UnifiedFacts.convert_pdf_shape kept 1) as C.
  fold (_convert_pdf_accounts_to_unified kept) in C.
  set (accounts := _convert_pdf_accounts_to_unified kept) in *.
  assert (A : Forall (fun u =>
              Py.truthy (u_deterioration_reasoning u) = true /\
              u_deterioration_reasoning u = _get_deterioration_reasoning (u_dpd_history u) /\
              (exists x, u_default_month_number u = Some x) /\
              yearly_averages (u_dpd_history u) <> [] /\
              (exists n, u_account_index u = Some n /\ (1 <= n <= 200)%nat)) accounts).
  { apply Forall_forall. intros u Iu.
    destruct (UnifiedFacts.Forall2_In_r _ _ _ C u Iu) as (a & Ia & Ix & Hh & Hr & Hd).
    apply filter_In in Ia. destruct Ia as [Ia T].
    rewrite Forall_forall in Sh.
    destruct (Sh a Ia) as ((n & In' & Bn) & (block & Hb) & R).
    pose proof (UnifiedFacts.pdf_history_wf _ _ Hb) as W.
    assert (D : exists x, _calculate_default_month_number (dpd_history a) = Some x).
    { apply DeteriorationFacts.default_number_defined.
      rewrite R in T. apply DeteriorationFacts.reasoning_truthy in T.
      destruct T as (y & d & G & X). exists y, d.
      split; [exact (DictFacts.get_In _ _ _ G)|exact X]. }
    rewrite Hr, Hh, Hd, Ix. split; [exact T|]. split; [exact R|]. split; [exact D|].
    split; [|exists n; split; [exact In'|lia]].
    intros E. apply UnifiedFacts.averages_nil in E. destruct D as [x D]. congruence. }
  exists accounts. split; [reflexivity|]. split; [|split; [exact A|]].
  - rewrite <- (Forall2_length C). subst kept.
    pose proof (filter_length_le (fun a => Py.truthy (deterioration_reasoning a)) segmented).
    cbn in Len. lia.
  - unfold final_default_month_avg.
    destruct (default_month_numbers accounts) eqn:E; [|reflexivity].
    symmetry. apply UnifiedFacts.no_number_no_final; [|exact E].
    eapply Forall_impl; [|exact A]. cbn beta.
    intros u (_ & _ & (x & D) & _) N. congruence.
Qed.

(** X8. The yearly averages of the two converters.  A year gets an average
    exactly when it has a default month, in the order of the history; so an
    account has no yearly average exactly when it has no default month
    number.  Every average is the rounded mean of a non-empty list of
    numbers between 0 and 999, the numbers of the year's tokens that are not
    clean; in a text of ASCII characters each of these numbers is at least
    1. *)
Theorem yearly_averages_years (h : dict str) :
  map fst (yearly_averages h)
  = map fst (filter (fun p => match _default_month_for_year (snd p) with
                              | Some _ => true
                              | None => false
                              end) h) /\
  (yearly_averages h = [] <-> _calculate_default_month_number h = None) /\
  (forall year avg, In (year, avg) (yearly_averages h) ->
     exists dpd_string,
       In (year, dpd_string) h /\
       numeric_dpd dpd_string <> [] /\
       avg = rounded_mean_Z (numeric_dpd dpd_string)) /\
  (forall dpd_string, Forall (fun n => (0 <= n <= 999)%Z) (numeric_dpd dpd_string)) /\
  (forall dpd_string,
     Forall (fun c => c < 128) dpd_string ->
     Forall (fun n => (1 <= n <= 999)%Z) (numeric_dpd dpd_string)).
Proof.
  split; [exact (UnifiedFacts.averages_years h)|].
  split; [exact (UnifiedFacts.averages_nil h)|].
  split; [|split; [|intros dpd_string _; exact (UnifiedFacts.numeric_range dpd_string)]].
  2: { intros dpd_string. eapply Forall_impl; [|exact (UnifiedFacts.numeric_range dpd_string)].
       cbn beta. intros n B. lia. }
  intros year avg I. unfold yearly_averages in I.
  rewrite UnifiedFacts.averages_unfold in I. cbn [app] in I.
  apply in_flat_map in I. destruct I as ([y s] & I & J).
  destruct (numeric_dpd s) as [|n ns] eqn:N; [destruct J|].
  destruct J as [E|[]]. injection E as <- <-.
  exists s. split; [exact I|]. rewrite N. split; [discriminate|reflexivity].
Qed.

(** X9. The guard [if default_month_numbers] of [_build_unified_structure]
    is redundant: when the default month number of every account is absent
    only if its history has none, the final default month average is what
    [_calculate_dynamic_final_default_month] returns for the accounts. *)
Theorem final_average_guard_redundant (now_year : Z) (accounts : list unified_account)
    (H : Forall (fun u =>
                   u_default_month_number u = None ->
                   _calculate_default_month_number (u_dpd_history u) = None) accounts) :
  final_default_month_avg now_year accounts
  = _calculate_dynamic_final_default_month now_year accounts.
Proof.
  unfold final_default_month_avg.
  destruct (default_month_numbers accounts) as [|d ds] eqn:E; [|reflexivity].
  symmetry. exact (UnifiedFacts.no_number_no_final now_year accounts H E).
Qed.

Lemma final_average_guard_redundant_witness :
  let clean := unified_with_history [(Py.lit "2026", Py.lit "000 XXX")] in
  let dirty := unified_with_history [(Py.lit "2026", Py.lit "000 015")] in
  final_default_month_avg 2026 [clean; clean] = None /\
  _calculate_dynamic_final_default_month 2026 [clean; clean] = None /\
  final_default_month_avg 2026 [clean; dirty]
  = _calculate_dynamic_final_default_month 2026 [clean; dirty].
Proof.
  split; [reflexivity|]. split; [reflexivity|].
  apply (final_average_guard_redundant 2026).
  constructor; [intros E; exact E|].
  constructor; [intros E; exact E|constructor].
Defined.

(** X10. In the markup format every account carries a default month number,
    [0.0] when its history has none; so every account counts in the guard of
    [_build_unified_structure], and the final default month average is what
    [_calculate_dynamic_final_default_month] returns for the accounts. *)
Theorem html_default_month_never_null (account_blocks : list str) (now_year : Z) :
  let accounts := html_accounts_list account_blocks in
  Forall (fun u =>
            u_default_month_number u
            = Some (or_float_zero (_calculate_default_month_number (u_dpd_history u))))
         accounts /\
  length (default_month_numbers accounts) = length accounts /\
  final_default_month_avg now_year accounts
  = _calculate_dynamic_final_default_month now_year accounts.
Proof.
  intros accounts.
  assert (A : Forall (fun u =>
            u_default_month_number u
            = Some (or_float_zero (_calculate_default_month_number (u_dpd_history u))))
         accounts).
  { subst accounts. unfold html_accounts_list, _convert_html_accounts_to_unified.
    generalize 1%nat. generalize (_extract_accounts_from_html account_blocks).
    induction l as [|a l IH]; intros idx; cbn [convert_html_loop]; constructor;
      [reflexivity|apply IH]. }
  split; [exact A|]. split.
  - rewrite UnifiedFacts.numbers_unfold. clear -A.
    induction A as [|u l E _ IH]; [reflexivity|].
    cbn [flat_map]. rewrite E. cbn [option_list app length]. rewrite IH. reflexivity.
  - unfold final_default_month_avg.
    destruct (default_month_numbers accounts) eqn:E; [|reflexivity].
    symmetry. apply UnifiedFacts.no_number_no_final; [|exact E].
    eapply Forall_impl; [|exact A]. cbn beta. intros u E' N. congruence.
Qed.

Module DateFacts.
Import Re ReSem ReFacts PyFacts.

(** The numerals of four digits, by enumeration. *)
Lemma four_digits_table :
  let digits := map N.of_nat (seq 48 10) in
  forallb (fun a => forallb (fun b => forallb (fun c => forallb (fun d =>
     match Py.int [a; b; c; d] with
     | Some v => (v =? 1000 * Py.digit_val a + 100 * Py.digit_val b
                       + 10 * Py.digit_val c + Py.digit_val d)%Z
     | None => false
     end) digits) digits) digits) digits = true.
Proof. vm_compute. reflexivity. Qed.

Lemma digit_listed (c : char) :
  Py.is_digit c = true -> In c (map N.of_nat (seq 48 10)).
Proof. intros D. each_digit D; cbn; tauto. Qed.

Lemma four_digits_int (a b c d : char) :
  forallb Py.is_digit [a; b; c; d] = true ->
  Py.int [a; b; c; d]
  = Some (1000 * Py.digit_val a + 100 * Py.digit_val b
          + 10 * Py.digit_val c + Py.digit_val d)%Z.
Proof.
  cbn [forallb]. rewrite !andb_true_iff. intros (Da & Db & Dc & Dd & _).
  pose proof four_digits_table as T. cbv zeta in T.
  rewrite forallb_forall in T. specialize (T a (digit_listed a Da)).
  rewrite forallb_forall in T. specialize (T b (digit_listed b Db)).
  rewrite forallb_forall in T. specialize (T c (digit_listed c Dc)).
  rewrite forallb_forall in T. specialize (T d (digit_listed d Dd)).
  destruct (Py.int [a; b; c; d]) as [v|]; [|discriminate].
  apply Z.eqb_eq in T. congruence.
Qed.


(** The numerals of the years 1000 to 9999. *)
Lemma year_numeral_table :
  let digits := map N.of_nat (seq 48 10) in
  forallb (fun a => forallb (fun b => forallb (fun c => forallb (fun d =>
     (a =? 48) ||
     Py.eqb (Py.of_Z (1000 * Py.digit_val a + 100 * Py.digit_val b
                      + 10 * Py.digit_val c + Py.digit_val d)) [a; b; c; d])
     digits) digits) digits) digits = true.
Proof. vm_compute. reflexivity. Qed.

Lemma digit_of_value (v : Z) :
  (0 <= v <= 9)%Z ->
  Py.is_digit (Z.to_N (v + 48)) = true /\ Py.digit_val (Z.to_N (v + 48)) = v.
Proof.
  intros B. unfold Py.is_digit, Py.between, Py.digit_val.
  rewrite andb_true_iff, !N.leb_le. lia.
Qed.

Lemma year_numeral (y : Z) :
  (1000 <= y <= 9999)%Z ->
  exists a b c d,
    Py.of_Z y = [a; b; c; d] /\
    forallb Py.is_digit [a; b; c; d] = true /\
    y = (1000 * Py.digit_val a + 100 * Py.digit_val b
         + 10 * Py.digit_val c + Py.digit_val d)%Z.
Proof.
  intros B.
  destruct (digit_of_value (y / 1000)) as [Da Va].
  { pose proof (Z.div_mod y 1000). pose proof (Z.mod_pos_bound y 1000). lia. }
  destruct (digit_of_value ((y / 100) mod 10)) as [Db Vb].
  { pose proof (Z.mod_pos_bound (y / 100) 10). lia. }
  destruct (digit_of_value ((y / 10) mod 10)) as [Dc Vc].
  { pose proof (Z.mod_pos_bound (y / 10) 10). lia. }
  destruct (digit_of_value (y mod 10)) as [Dd Vd].
  { pose proof (Z.mod_pos_bound y 10). lia. }
  set (a := Z.to_N (y / 1000 + 48)) in *.
  set (b := Z.to_N ((y / 100) mod 10 + 48)) in *.
  set (c := Z.to_N ((y / 10) mod 10 + 48)) in *.
  set (d := Z.to_N (y mod 10 + 48)) in *.
  assert (E : y = (1000 * Py.digit_val a + 100 * Py.digit_val b
                   + 10 * Py.digit_val c + Py.digit_val d)%Z).
  { rewrite Va, Vb, Vc, Vd. clear. 
    pose proof (Z.div_mod y 10). pose proof (Z.div_mod (y / 10) 10).
    pose proof (Z.div_mod (y / 100) 10).
    rewrite (Z.div_div y 10 10) in * by lia.
    replace (y / 1000)%Z with (y / 100 / 10)%Z by (rewrite Z.div_div by lia; reflexivity).
    change (10 * 10)%Z with 100%Z in *. lia. }
  exists a, b, c, d. split; [|split; [cbn; rewrite Da, Db, Dc, Dd; reflexivity|exact E]].
  pose proof year_numeral_table as T. cbv zeta in T.
  rewrite forallb_forall in T. specialize (T a (digit_listed a Da)).
  rewrite forallb_forall in T. specialize (T b (digit_listed b Db)).
  rewrite forallb_forall in T. specialize (T c (digit_listed c Dc)).
  rewrite forallb_forall in T. specialize (T d (digit_listed d Dd)).
  rewrite <- E in T. apply orb_true_iff in T. destruct T as [T|T].
  - exfalso. apply N.eqb_eq in T. unfold Py.digit_val in Va. rewrite T in Va.
    cbn in Va. pose proof (Z.div_mod y 1000). pose proof (Z.mod_pos_bound y 1000). lia.
  - apply eqb_eq in T. exact T.
Qed.


Lemma pad2_table :
  forallb (fun n =>
             let v := Z.of_nat n in
             match pad2 v with
             | [a; b] =>
                 Py.is_digit a && Py.is_digit b
                 && (10 * Py.digit_val a + Py.digit_val b =? v)%Z
             | _ => false
             end) (seq 0 100) = true.
Proof. vm_compute. reflexivity. Qed.

Lemma pad2_digits (n : Z) :
  (0 <= n <= 99)%Z ->
  exists a b, pad2 n = [a; b] /\ Py.is_digit a = true /\ Py.is_digit b = true /\
              n = (10 * Py.digit_val a + Py.digit_val b)%Z.
Proof.
  intros B. pose proof pad2_table as T. rewrite forallb_forall in T.
  specialize (T (Z.to_nat n)). rewrite Z2Nat.id in T by lia.
  assert (I : In (Z.to_nat n) (seq 0 100)) by (apply in_seq; lia).
  specialize (T I). cbv zeta in T.
  destruct (pad2 n) as [|a [|b [|c t]]]; try discriminate T.
  apply andb_true_iff in T. destruct T as [T E].
  apply andb_true_iff in T. destruct T as [Da Db].
  apply Z.eqb_eq in E. exists a, b. repeat split; try assumption. symmetry. exact E.
Qed.

Lemma days_in_month_bound (y m : Z) : (28 <= days_in_month y m <= 31)%Z.
Proof.
  unfold days_in_month.
  repeat match goal with
         | |- context [match ?x with _ => _ end] => destruct x
         end; lia.
Qed.

Lemma valid_datetime_bounds (dt : datetime) :
  valid_datetime dt = true ->
  (1 <= dt_year dt <= 9999 /\ 1 <= dt_month dt <= 12 /\
   1 <= dt_day dt <= days_in_month (dt_year dt) (dt_month dt) /\
   0 <= dt_hour dt <= 23 /\ 0 <= dt_minute dt <= 59 /\ 0 <= dt_second dt <= 59)%Z.
Proof.
  unfold valid_datetime. rewrite !andb_true_iff, !Z.leb_le. tauto.
Qed.

Lemma strptime_valid (raw : str) (fmt : re) (dt : datetime) :
  strptime raw fmt = Some dt -> valid_datetime dt = true.
Proof.
  unfold strptime. destruct (match_ fmt raw) as [found|]; [|discriminate].
  destruct (negb _); [discriminate|].
  destruct (strp_field 3 found 1900) as [y|]; [|discriminate].
  destruct (strp_field 2 found 1) as [m|]; [|discriminate].
  destruct (strp_field 1 found 1) as [d|]; [|discriminate].
  destruct (strp_field 4 found 0) as [H|]; [|discriminate].
  destruct (strp_field 5 found 0) as [M|]; [|discriminate].
  destruct (strp_field 6 found 0) as [S|]; [|discriminate].
  destruct (valid_datetime _) eqn:V; [|discriminate].
  intros E. injection E as <-. exact V.
Qed.

Lemma parse_loop_sound (year_text : Z -> str) (raw : str) : forall formats s,
  parse_date_loop year_text formats raw = Some s ->
  exists dt, valid_datetime dt = true /\ s = strftime_Ymd year_text dt.
Proof.
  induction formats as [|fmt rest IH]; intros s; cbn [parse_date_loop]; [discriminate|].
  destruct (strptime raw fmt) as [dt|] eqn:P; [|apply IH].
  intros E. injection E as <-. exists dt. split; [exact (strptime_valid _ _ _ P)|reflexivity].
Qed.

(** The text of a date from the year 1000 on. *)
Lemma iso_text (y m d : Z) :
  (1000 <= y <= 9999)%Z -> (1 <= m <= 12)%Z -> (1 <= d <= 31)%Z ->
  let s := Py.of_Z y ++ [45] ++ pad2 m ++ [45] ++ pad2 d in
  length s = 10%nat /\ iso_month (firstn 7 s) y m.
Proof.
  intros By Bm Bd.
  destruct (year_numeral y By) as (a & b & c & e & -> & Dy & Ey).
  destruct (pad2_digits m) as (m1 & m2 & -> & Dm1 & Dm2 & Em); [lia|].
  destruct (pad2_digits d) as (d1 & d2 & -> & _); [lia|].
  cbn [app length firstn]. split; [reflexivity|].
  exists a, b, c, e, m1, m2. split; [reflexivity|]. split; [|split; assumption].
  cbn [forallb] in *. rewrite Dm1, Dm2.
  apply andb_true_iff in Dy. destruct Dy as [-> Dy].
  apply andb_true_iff in Dy. destruct Dy as [-> Dy].
  apply andb_true_iff in Dy. destruct Dy as [-> Dy].
  apply andb_true_iff in Dy. destruct Dy as [-> _]. reflexivity.
Qed.

End DateFacts.

(** X11. What [_parse_date] returns.  A result is the text
    [%Y-%m-%d] of a date of the calendar: a year from 1 to 9999, a month
    from 1 to 12 and a day that the month has in that year.  From the year
    1000 on, where [%Y] prints the four digits, the text has ten characters
    and its first seven are the key [YYYY-MM] of the year and the month, so
    that the order of the keys of C5 is the order of the calendar. *)
Theorem parse_date_canonical (year_text : Z -> str) (raw : option str) (s : str)
    (HY : forall y, (1000 <= y <= 9999)%Z -> year_text y = Py.of_Z y)
    (P : _parse_date year_text raw = Some s) :
  exists y m d,
    (1 <= y <= 9999)%Z /\ (1 <= m <= 12)%Z /\ (1 <= d <= days_in_month y m)%Z /\
    s = year_text y ++ [45] ++ pad2 m ++ [45] ++ pad2 d /\
    ((1000 <= y)%Z -> length s = 10%nat /\ iso_month (firstn 7 s) y m).
Proof.
  unfold _parse_date in P. destruct raw as [raw|]; [|discriminate].
  destruct (negb (Py.truthy raw) || negb (Py.truthy (Py.strip raw))); [discriminate|].
  destruct (DateFacts.parse_loop_sound _ _ _ _ P) as (dt & V & ->).
  apply DateFacts.valid_datetime_bounds in V.
  destruct V as (By & Bm & Bd & _).
  exists (dt_year dt), (dt_month dt), (dt_day dt).
  split; [exact By|]. split; [exact Bm|]. split; [exact Bd|]. split; [reflexivity|].
  intros L. unfold strftime_Ymd. rewrite HY by lia.
  apply DateFacts.iso_text; [lia|exact Bm|].
  pose proof (DateFacts.days_in_month_bound (dt_year dt) (dt_month dt)). lia.
Qed.

Lemma parse_date_canonical_witness :
  _parse_date year_text_glibc (Some (Py.lit " 24/12/2025, 11:59 ")) = Some (Py.lit "2025-12-24") /\
  exists y m d,
    (1 <= y <= 9999)%Z /\ (1 <= m <= 12)%Z /\ (1 <= d <= days_in_month y m)%Z /\
    Py.lit "2025-12-24" = year_text_glibc y ++ [45] ++ pad2 m ++ [45] ++ pad2 d /\
    ((1000 <= y)%Z ->
     length (Py.lit "2025-12-24") = 10%nat /\
     iso_month (firstn 7 (Py.lit "2025-12-24")) y m).
Proof.
  split; [vm_compute; reflexivity|].
  apply (parse_date_canonical year_text_glibc (Some (Py.lit " 24/12/2025, 11:59 "))).
  - intros y _. reflexivity.
  - vm_compute. reflexivity.
Defined.
Module StrptimeFacts.
Import Re ReSem ReFacts PyFacts DateFacts.

(** Evaluating the two-digit texts of concrete numbers. *)
Ltac norm_pad :=
  repeat match goal with
         | |- context [pad2 ?n] =>
             let v := eval vm_compute in (pad2 n) in change (pad2 n) with v
         | H : context [pad2 ?n] |- _ =>
             let v := eval vm_compute in (pad2 n) in change (pad2 n) with v in H
         end.

(** The integers of an interval, one by one. *)
Ltac enum_pos p depth :=
  match depth with
  | O => idtac
  | S ?d => try (destruct p as [p|p|]; [enum_pos p d|enum_pos p d|])
  end.

Ltac enum_Z n depth :=
  destruct n as [|n|n]; [| enum_pos n depth |]; try lia.

(** A directive reads the two digits of a number of its range, whatever
    follows. *)
Ltac directive_step :=
  let H := fresh "H" in
  intros H; cbn [last] in H; cbn -[consumed orelse];
  rewrite ?(consumed_app _ _ [_; _]) by reflexivity;
  rewrite H; reflexivity.

Lemma day_step (n : Z) k prev rest caps out :
  (1 <= n <= 31)%Z ->
  k (MState (Some (last (pad2 n) 0)) rest ((1%nat, pad2 n) :: caps)) = Some out ->
  rmatch STRP_d k (MState prev (pad2 n ++ rest) caps) = Some out.
Proof.
  intros B. unfold STRP_d. enum_Z n 5%nat; norm_pad; directive_step.
Qed.


Lemma month_step (n : Z) k prev rest caps out :
  (1 <= n <= 12)%Z ->
  k (MState (Some (last (pad2 n) 0)) rest ((2%nat, pad2 n) :: caps)) = Some out ->
  rmatch STRP_m k (MState prev (pad2 n ++ rest) caps) = Some out.
Proof.
  intros B. unfold STRP_m. enum_Z n 4%nat; norm_pad; directive_step.
Qed.

Lemma hour_step (n : Z) k prev rest caps out :
  (0 <= n <= 23)%Z ->
  k (MState (Some (last (pad2 n) 0)) rest ((4%nat, pad2 n) :: caps)) = Some out ->
  rmatch STRP_H k (MState prev (pad2 n ++ rest) caps) = Some out.
Proof.
  intros B. unfold STRP_H. enum_Z n 5%nat; norm_pad; directive_step.
Qed.

Lemma minute_step (n : Z) k prev rest caps out :
  (0 <= n <= 59)%Z ->
  k (MState (Some (last (pad2 n) 0)) rest ((5%nat, pad2 n) :: caps)) = Some out ->
  rmatch STRP_M k (MState prev (pad2 n ++ rest) caps) = Some out.
Proof.
  intros B. unfold STRP_M. enum_Z n 6%nat; norm_pad; directive_step.
Qed.

Lemma second_step (n : Z) k prev rest caps out :
  (0 <= n <= 59)%Z ->
  k (MState (Some (last (pad2 n) 0)) rest ((6%nat, pad2 n) :: caps)) = Some out ->
  rmatch STRP_S k (MState prev (pad2 n ++ rest) caps) = Some out.
Proof.
  intros B. unfold STRP_S. enum_Z n 6%nat; norm_pad; directive_step.
Qed.

Lemma year_step (a b c d : char) k prev rest caps :
  forallb Py.is_digit [a; b; c; d] = true ->
  rmatch STRP_Y k (MState prev (a :: b :: c :: d :: rest) caps)
  = k (MState (Some d) rest ((3%nat, [a; b; c; d]) :: caps)).
Proof.
  cbn [forallb]. rewrite !andb_true_iff. intros (Da & Db & Dc & Dd & _).
  unfold STRP_Y, digits_n, seqs. cbn -[consumed]. rewrite Da, Db, Dc, Dd.
  rewrite (consumed_app _ _ [a; b; c; d]) by reflexivity. reflexivity.
Qed.

Lemma chr_step (x : char) k prev rest caps :
  rmatch (Chr (one x)) k (MState prev (x :: rest) caps) = k (MState (Some x) rest caps).
Proof. cbn. unfold one. rewrite N.eqb_refl. reflexivity. Qed.

Lemma space_step (c : char) k prev rest caps :
  Py.is_space c = false ->
  rmatch (plus_g Py.is_space) k (MState prev (32 :: c :: rest) caps)
  = k (MState (Some 32) (c :: rest) caps).
Proof. intros S. cbn. rewrite S. reflexivity. Qed.

(** The day followed by the separator of another format. *)
Lemma day_then_slash (n : Z) r k rest :
  (1 <= n <= 31)%Z ->
  rmatch (Seq STRP_d (Seq (Chr (one 47)) r)) k (MState None (pad2 n ++ 45 :: rest) [])
  = None.
Proof.
  intros B. unfold STRP_d. enum_Z n 5%nat; norm_pad; reflexivity.
Qed.

Lemma day_then_dash (n : Z) r k rest :
  (1 <= n <= 31)%Z ->
  rmatch (Seq STRP_d (Seq (Chr (one 45)) r)) k (MState None (pad2 n ++ 47 :: rest) [])
  = None.
Proof.
  intros B. unfold STRP_d. enum_Z n 5%nat; norm_pad; reflexivity.
Qed.

Lemma pad2_int_table :
  forallb (fun n => match Py.int (pad2 (Z.of_nat n)) with
                    | Some v => (v =? Z.of_nat n)%Z
                    | None => false
                    end) (seq 0 100) = true.
Proof. vm_compute. reflexivity. Qed.

Lemma pad2_int (n : Z) : (0 <= n <= 99)%Z -> Py.int (pad2 n) = Some n.
Proof.
  intros B. pose proof pad2_int_table as T. rewrite forallb_forall in T.
  specialize (T (Z.to_nat n)). rewrite Z2Nat.id in T by lia.
  assert (I : In (Z.to_nat n) (seq 0 100)) by (apply in_seq; lia).
  specialize (T I). destruct (Py.int (pad2 n)) as [v|]; [|discriminate].
  apply Z.eqb_eq in T. congruence.
Qed.


Lemma seq_step r1 r2 k st : rmatch (Seq r1 r2) k st = rmatch r1 (rmatch r2 k) st.
Proof. reflexivity. Qed.

Lemma strip_fixed (s : str) :
  (exists a t, s = a :: t /\ Py.is_space a = false) ->
  (exists b t, rev s = b :: t /\ Py.is_space b = false) ->
  Py.strip s = s.
Proof.
  intros (a & t & E & Sa) (b & t' & R & Sb).
  assert (L : Py.lstrip s = s) by (subst s; cbn; rewrite Sa; reflexivity).
  unfold Py.strip, Py.rstrip. rewrite L, R. cbn [Py.lstrip]. rewrite Sb, <- R.
  apply rev_involutive.
Qed.

(** When the pattern reads the whole text, [strptime] takes the fields from
    the groups; when it stops before the end, or does not match, [strptime]
    raises. *)
Lemma strptime_full (fmt : re) (text : str) p caps :
  rmatch fmt Some (MState None text []) = Some (MState p [] caps) ->
  strptime text fmt =
  match strp_field 3 (Match text caps) 1900, strp_field 2 (Match text caps) 1,
        strp_field 1 (Match text caps) 1, strp_field 4 (Match text caps) 0,
        strp_field 5 (Match text caps) 0, strp_field 6 (Match text caps) 0 with
  | Some year, Some month, Some day, Some hour, Some minute, Some second =>
      let dt := Datetime year month day hour minute second in
      if valid_datetime dt then Some dt else None
  | _, _, _, _, _, _ => None
  end.
Proof.
  intros R. unfold strptime, match_, match_at. rewrite R.
  rewrite (consumed_app _ _ text) by (cbn; rewrite app_nil_r; reflexivity).
  cbn [mt_text m_caps]. rewrite Nat.eqb_refl. reflexivity.
Qed.

Lemma strptime_partial (fmt : re) (w : str) (c : char) (rest : str) p caps :
  rmatch fmt Some (MState None (w ++ c :: rest) []) = Some (MState p (c :: rest) caps) ->
  strptime (w ++ c :: rest) fmt = None.
Proof.
  intros R. unfold strptime, match_, match_at. rewrite R.
  rewrite (consumed_app _ _ w) by reflexivity. cbn [mt_text].
  replace (length (w ++ c :: rest) =? length w)%nat with false; [reflexivity|].
  symmetry. apply Nat.eqb_neq. rewrite length_app. cbn [length]. lia.
Qed.

Lemma strptime_no_match (fmt : re) (text : str) :
  rmatch fmt Some (MState None text []) = None -> strptime text fmt = None.
Proof. intros R. unfold strptime, match_, match_at. rewrite R. reflexivity. Qed.

(** The two date formats on the spelled date, whatever follows it. *)
Lemma date_part_matches (sep : char) (fmt : re) (tail : list re)
    (d m : Z) (a b c e : char) (k : mstate -> option mstate) (rest : str) out :
  (1 <= d <= 31)%Z -> (1 <= m <= 12)%Z ->
  forallb Py.is_digit [a; b; c; e] = true ->
  fmt = seqs ([STRP_d; Chr (one sep); STRP_m; Chr (one sep); STRP_Y] ++ tail) ->
  rmatch (seqs tail) k
    (MState (Some e) rest [(3%nat, [a; b; c; e]); (2%nat, pad2 m); (1%nat, pad2 d)])
  = Some out ->
  rmatch fmt k
    (MState None (pad2 d ++ sep :: pad2 m ++ sep :: a :: b :: c :: e :: rest) [])
  = Some out.
Proof.
  intros Bd Bm Dy -> K. unfold seqs. cbn [app fold_right].
  rewrite seq_step. apply day_step; [exact Bd|].
  rewrite seq_step, chr_step.
  rewrite seq_step. apply month_step; [exact Bm|].
  rewrite seq_step, chr_step.
  rewrite seq_step, (year_step a b c e) by exact Dy.
  exact K.
Qed.


Lemma space_step_pad (n : Z) k prev rest caps :
  (0 <= n <= 99)%Z ->
  rmatch (plus_g Py.is_space) k (MState prev (32 :: pad2 n ++ rest) caps)
  = k (MState (Some 32) (pad2 n ++ rest) caps).
Proof.
  intros B. destruct (pad2_digits n B) as (x & x' & -> & D & _).
  cbn [app]. apply space_step. exact (digit_not_space x D).
Qed.

Section Spellings.

Variables (y m d H M S : Z) (a b c e : char).
Hypothesis By : (1 <= y <= 9999)%Z.
Hypothesis Bm : (1 <= m <= 12)%Z.
Hypothesis Bd : (1 <= d <= days_in_month y m)%Z.
Hypothesis BH : (0 <= H <= 23)%Z.
Hypothesis BM : (0 <= M <= 59)%Z.
Hypothesis BS : (0 <= S <= 59)%Z.
Hypothesis Dy : forallb Py.is_digit [a; b; c; e] = true.
Hypothesis Vy : Py.int [a; b; c; e] = Some y.

Lemma day_le_31 : (1 <= d <= 31)%Z.
Proof. pose proof (days_in_month_bound y m). lia. Qed.

Lemma valid_at (H' M' S' : Z) :
  (0 <= H' <= 23)%Z -> (0 <= M' <= 59)%Z -> (0 <= S' <= 59)%Z ->
  valid_datetime (Datetime y m d H' M' S') = true.
Proof.
  intros. unfold valid_datetime. cbn.
  rewrite !andb_true_iff, !Z.leb_le. lia.
Qed.

Local Abbreviation spelled sep rest :=
  (pad2 d ++ sep :: pad2 m ++ sep :: a :: b :: c :: e :: rest).

Local Abbreviation date_caps := [(3%nat, [a; b; c; e]); (2%nat, pad2 m); (1%nat, pad2 d)].

(** Format 1 on a date with dashes, alone or followed by something. *)
Lemma dash_date_full :
  strptime (spelled 45 []) (seqs [STRP_d; Chr (one 45); STRP_m; Chr (one 45); STRP_Y])
  = Some (Datetime y m d 0 0 0).
Proof.
  erewrite strptime_full.
  2:{ eapply (date_part_matches 45 _ []); [exact day_le_31|exact Bm|exact Dy|reflexivity|].
      reflexivity. }
  unfold strp_field, group. cbn [mt_caps cap_lookup Nat.eqb].
  rewrite Vy, !pad2_int by (pose proof day_le_31; lia).
  cbv zeta. rewrite valid_at by lia. reflexivity.
Qed.

Lemma slash_date_full :
  strptime (spelled 47 []) (seqs [STRP_d; Chr (one 47); STRP_m; Chr (one 47); STRP_Y])
  = Some (Datetime y m d 0 0 0).
Proof.
  erewrite strptime_full.
  2:{ eapply (date_part_matches 47 _ []); [exact day_le_31|exact Bm|exact Dy|reflexivity|].
      reflexivity. }
  unfold strp_field, group. cbn [mt_caps cap_lookup Nat.eqb].
  rewrite Vy, !pad2_int by (pose proof day_le_31; lia).
  cbv zeta. rewrite valid_at by lia. reflexivity.
Qed.

Lemma date_then_more (sep x : char) (rest : str) :
  strptime (spelled sep (x :: rest))
           (seqs [STRP_d; Chr (one sep); STRP_m; Chr (one sep); STRP_Y]) = None.
Proof.
  change (spelled sep (x :: rest))
    with (pad2 d ++ sep :: pad2 m ++ [sep; a; b; c; e] ++ x :: rest).
  replace (pad2 d ++ sep :: pad2 m ++ [sep; a; b; c; e] ++ x :: rest)
    with ((pad2 d ++ sep :: pad2 m ++ [sep; a; b; c; e]) ++ x :: rest).
  2:{ rewrite <- app_assoc. cbn [app]. rewrite <- app_assoc. reflexivity. }
  eapply strptime_partial.
  rewrite <- app_assoc. cbn [app]. rewrite <- app_assoc. cbn [app].
  eapply (date_part_matches sep _ []); [exact day_le_31|exact Bm|exact Dy|reflexivity|].
  reflexivity.
Qed.

Lemma dash_not_slash (r : re) (rest : str) :
  strptime (spelled 45 rest) (Seq STRP_d (Seq (Chr (one 47)) r)) = None.
Proof.
  apply strptime_no_match. apply day_then_slash. exact day_le_31.
Qed.

Lemma slash_not_dash (r : re) (rest : str) :
  strptime (spelled 47 rest) (Seq STRP_d (Seq (Chr (one 45)) r)) = None.
Proof.
  apply strptime_no_match. apply day_then_dash. exact day_le_31.
Qed.

(** Format 3 on a date with slashes, a comma, a space and the clock. *)
Lemma slash_clock_full :
  strptime (spelled 47 (44 :: 32 :: pad2 H ++ 58 :: pad2 M))
           (seqs [STRP_d; Chr (one 47); STRP_m; Chr (one 47); STRP_Y; Chr (one 44);
                  plus_g Py.is_space; STRP_H; Chr (one 58); STRP_M])
  = Some (Datetime y m d H M 0).
Proof.
  rewrite <- (app_nil_r (pad2 M)).
  erewrite strptime_full.
  2:{ eapply (date_part_matches 47 _ [Chr (one 44); plus_g Py.is_space; STRP_H;
                                      Chr (one 58); STRP_M]);
        [exact day_le_31|exact Bm|exact Dy|reflexivity|].
      unfold seqs. cbn [fold_right].
      rewrite seq_step, chr_step.
      rewrite seq_step, space_step_pad by lia.
      rewrite seq_step. apply hour_step; [exact BH|].
      rewrite seq_step, chr_step.
      rewrite seq_step. apply minute_step; [exact BM|].
      reflexivity. }
  unfold strp_field, group. cbn [mt_caps cap_lookup Nat.eqb].
  rewrite Vy, !pad2_int by (pose proof day_le_31; lia).
  cbv zeta. rewrite valid_at by lia. reflexivity.
Qed.

(** Format 4 on a date with dashes, a space and the clock with seconds. *)
Lemma dash_clock_full :
  strptime (spelled 45 (32 :: pad2 H ++ 58 :: pad2 M ++ 58 :: pad2 S))
           (seqs [STRP_d; Chr (one 45); STRP_m; Chr (one 45); STRP_Y;
                  plus_g Py.is_space; STRP_H; Chr (one 58); STRP_M; Chr (one 58); STRP_S])
  = Some (Datetime y m d H M S).
Proof.
  rewrite <- (app_nil_r (pad2 S)).
  erewrite strptime_full.
  2:{ eapply (date_part_matches 45 _ [plus_g Py.is_space; STRP_H; Chr (one 58); STRP_M;
                                      Chr (one 58); STRP_S]);
        [exact day_le_31|exact Bm|exact Dy|reflexivity|].
      unfold seqs. cbn [fold_right].
      rewrite seq_step, space_step_pad by lia.
      rewrite seq_step. apply hour_step; [exact BH|].
      rewrite seq_step, chr_step.
      rewrite seq_step. apply minute_step; [exact BM|].
      rewrite seq_step, chr_step.
      rewrite seq_step. apply second_step; [exact BS|].
      reflexivity. }
  unfold strp_field, group. cbn [mt_caps cap_lookup Nat.eqb].
  rewrite Vy, !pad2_int by (pose proof day_le_31; lia).
  cbv zeta. rewrite valid_at by lia. reflexivity.
Qed.

(** A spelled date is its own [strip], when nothing or something that ends
    in no whitespace follows it. *)
Lemma spelled_strip (sep : char) (rest : str) :
  rest = [] \/ (exists z t, rev rest = z :: t /\ Py.is_space z = false) ->
  Py.strip (spelled sep rest) = spelled sep rest /\
  Py.truthy (spelled sep rest) = true.
Proof.
  intros R.
  destruct (pad2_digits d) as (d1 & d2 & -> & Dd & _); [pose proof day_le_31; lia|].
  destruct (pad2_digits m) as (m1 & m2 & -> & _); [lia|].
  assert (De : Py.is_digit e = true).
  { cbn [forallb] in Dy. rewrite !andb_true_iff in Dy. tauto. }
  cbn [app]. split; [|reflexivity]. apply strip_fixed.
  - exists d1. eexists. split; [reflexivity|exact (digit_not_space _ Dd)].
  - cbn [rev]. destruct R as [->|(z & t & -> & Sz)].
    + exists e. eexists. split; [reflexivity|exact (digit_not_space _ De)].
    + exists z. eexists. split; [reflexivity|exact Sz].
Qed.

End Spellings.

End StrptimeFacts.

(** Rewriting with an outcome of [strptime], up to the names of the types. *)
Ltac rw_none E :=
  match goal with
  | |- context [strptime ?t ?f] =>
      replace (strptime t f) with (@None datetime) by (symmetry; apply E)
  end.

Ltac rw_strptime E :=
  match type of E with
  | ?l = _ =>
      match goal with
      | |- context [strptime ?t ?f] => change (strptime t f) with l; rewrite E
      end
  end.

(** X12. The four formats of [_parse_date] agree.  For every date and time
    of the calendar from the year 1000 on, the four spellings
    [DD-MM-YYYY], [DD/MM/YYYY], [DD/MM/YYYY, HH:MM] and
    [DD-MM-YYYY HH:MM:SS] are all parsed, and all to the same text
    [%Y-%m-%d] of the date: the clock is dropped. *)
Theorem parse_date_formats_agree (year_text : Z -> str) (dt : datetime)
    (V : valid_datetime dt = true) (L : (1000 <= dt_year dt)%Z) :
  let iso := Some (strftime_Ymd year_text dt) in
  _parse_date year_text (Some (date_text 45 dt)) = iso /\
  _parse_date year_text (Some (date_text 47 dt)) = iso /\
  _parse_date year_text (Some (date_text 47 dt ++ Py.lit ", " ++ clock_text dt)) = iso /\
  _parse_date year_text (Some (date_text 45 dt ++ Py.lit " " ++ clock_text_seconds dt)) = iso.
Proof.
  destruct dt as [y m d H M S].
  pose proof (DateFacts.valid_datetime_bounds _ V) as (By & Bm & Bd & BH & BM & BS).
  cbn [dt_year dt_month dt_day dt_hour dt_minute dt_second] in *.
  destruct (DateFacts.year_numeral y) as (a & b & c & e & Ey & Dy & Vy); [lia|].
  assert (Iy : Py.int [a; b; c; e] = Some y).
  { rewrite (DateFacts.four_digits_int a b c e Dy). congruence. }
  unfold date_text, clock_text, clock_text_seconds, strftime_Ymd.
  cbn [dt_year dt_month dt_day dt_hour dt_minute dt_second]. rewrite Ey.
  change (Py.lit ", ") with [44; 32]. change (Py.lit " ") with [32].
  rewrite <- ?app_assoc. cbn [app]. rewrite <- ?app_assoc. cbn [app].
  assert (LM : exists z t, rev (44 :: 32 :: pad2 H ++ 58 :: pad2 M) = z :: t
                           /\ Py.is_space z = false).
  { destruct (DateFacts.pad2_digits M) as (x & x' & -> & _ & Dx & _); [lia|].
    exists x'. eexists. split; [|exact (PyFacts.digit_not_space _ Dx)].
    cbn [rev]. rewrite rev_app_distr. reflexivity. }
  assert (LS : exists z t, rev (32 :: pad2 H ++ 58 :: pad2 M ++ 58 :: pad2 S) = z :: t
                           /\ Py.is_space z = false).
  { destruct (DateFacts.pad2_digits S) as (x & x' & -> & _ & Dx & _); [lia|].
    exists x'. eexists. split; [|exact (PyFacts.digit_not_space _ Dx)].
    cbn [rev]. rewrite rev_app_distr. cbn [rev]. rewrite rev_app_distr. reflexivity. }
  cbv zeta. unfold _parse_date, date_formats.
  split; [|split; [|split]].
  - destruct (StrptimeFacts.spelled_strip y m d H M S a b c e By Bm Bd BH BM BS Dy 45 [] (or_introl eq_refl))
      as [St Tr].
    unfold Py.str, Py.char in *. rewrite St, Tr.
    cbn [negb orb parse_date_loop].
    rw_strptime (StrptimeFacts.dash_date_full y m d a b c e By Bm Bd Dy Iy). reflexivity.
  - destruct (StrptimeFacts.spelled_strip y m d H M S a b c e By Bm Bd BH BM BS Dy 47 [] (or_introl eq_refl))
      as [St Tr].
    unfold Py.str, Py.char in *. rewrite St, Tr.
    cbn [negb orb parse_date_loop].
    rw_none (StrptimeFacts.slash_not_dash y m d a b c e Bd).
    rw_strptime (StrptimeFacts.slash_date_full y m d a b c e By Bm Bd Dy Iy). reflexivity.
  - destruct (StrptimeFacts.spelled_strip y m d H M S a b c e By Bm Bd BH BM BS Dy 47 _ (or_intror LM))
      as [St Tr].
    unfold Py.str, Py.char in *. rewrite St, Tr.
    cbn [negb orb parse_date_loop].
    rw_none (StrptimeFacts.slash_not_dash y m d a b c e Bd).
    rw_none (StrptimeFacts.date_then_more y m d a b c e Bm Bd Dy).
    rw_strptime (StrptimeFacts.slash_clock_full y m d H M a b c e By Bm Bd BH BM Dy Iy).
    reflexivity.
  - destruct (StrptimeFacts.spelled_strip y m d H M S a b c e By Bm Bd BH BM BS Dy 45 _ (or_intror LS))
      as [St Tr].
    unfold Py.str, Py.char in *. rewrite St, Tr.
    cbn [negb orb parse_date_loop].
    rw_none (StrptimeFacts.date_then_more y m d a b c e Bm Bd Dy).
    rw_none (StrptimeFacts.dash_not_slash y m d a b c e Bd).
    rw_none (StrptimeFacts.dash_not_slash y m d a b c e Bd).
    rw_strptime (StrptimeFacts.dash_clock_full y m d H M S a b c e By Bm Bd BH BM BS Dy Iy).
    reflexivity.
Qed.

Lemma parse_date_formats_agree_witness :
  let dt := Datetime 2024 2 29 23 59 4 in
  _parse_date year_text_glibc (Some (Py.lit "29-02-2024")) = Some (Py.lit "2024-02-29") /\
  _parse_date year_text_glibc (Some (date_text 47 dt ++ Py.lit ", " ++ clock_text dt))
  = Some (strftime_Ymd year_text_glibc dt).
Proof.
  split; [vm_compute; reflexivity|].
  refine (proj1 (proj2 (proj2 (parse_date_formats_agree year_text_glibc
                                 (Datetime 2024 2 29 23 59 4) _ _)))).
  - vm_compute. reflexivity.
  - cbn. lia.
Defined.

Module HtmlEnquiryFacts.
Import PyFacts.

(** An upper-cased text holds no lower-case letter. *)
Lemma upper_no_lower (s : str) (c : char) :
  In c (Py.upper s) -> Py.is_lower c = false.
Proof.
  unfold Py.upper. rewrite in_map_iff. intros (x & <- & _).
  unfold Py.to_upper. destruct (Py.is_lower x) eqn:E; [|exact E].
  unfold Py.is_lower, Py.between in *.
  apply andb_true_iff in E. destruct E as [L U].
  apply N.leb_le in L. apply N.leb_le in U.
  apply andb_false_iff. left. apply N.leb_gt. lia.
Qed.

Lemma prefixb_In (p s : str) (c : char) :
  Py.prefixb p s = true -> In c p -> In c s.
Proof.
  revert s. induction p as [|x p IH]; intros s P I; [destruct I|].
  destruct s as [|y s]; [discriminate|]. cbn in P.
  apply andb_true_iff in P. destruct P as [E P]. apply N.eqb_eq in E. subst y.
  destruct I as [<-|I]; [left; reflexivity|right; exact (IH s P I)].
Qed.

Lemma contains_In (needle hay : str) (c : char) :
  Py.contains needle hay = true -> In c needle -> In c hay.
Proof.
  induction hay as [|y hay IH]; cbn [Py.contains]; intros C I.
  - rewrite orb_false_r in C. exact (prefixb_In _ _ _ C I).
  - apply orb_true_iff in C. destruct C as [C|C].
    + exact (prefixb_In _ _ _ C I).
    + right. exact (IH C I).
Qed.

(** The test that would skip a header line can never hold. *)
Lemma skip_header_id (lines : list str) : skip_header lines = lines.
Proof.
  destruct lines as [|first rest]; [reflexivity|]. unfold skip_header.
  replace (existsb _ _) with false; [reflexivity|].
  symmetry. cbn [existsb]. rewrite orb_false_r. apply orb_false_iff.
  split; apply not_true_is_false; intros C.
  - pose proof (contains_In _ _ 109 C) as I.
    assert (J : In 109 (Py.lit "MEMBER NAme")) by (cbn; tauto).
    pose proof (upper_no_lower _ _ (I J)). discriminate.
  - pose proof (contains_In _ _ 100 C) as I.
    assert (J : In 100 (Py.lit "ENQUIRY date")) by (cbn; tauto).
    pose proof (upper_no_lower _ _ (I J)). discriminate.
Qed.

Lemma line_at_ok (lines : list str) (i : nat) :
  (i < length lines)%nat -> exists line, line_at lines i = Ok line.
Proof.
  intros L. unfold line_at. destruct (nth_error lines i) eqn:E; [eauto|].
  apply nth_error_None in E. lia.
Qed.

Lemma find_member_ok (lines : list str) (n : nat) :
  (n <= length lines)%nat -> exists r, find_member lines n = Ok r.
Proof.
  induction n as [|k IH]; intros L; cbn [find_member]; [eauto|].
  destruct (line_at_ok lines k) as [line ->]; [lia|]. cbn [bind].
  destruct (negb _); [apply IH; lia|eauto].
Qed.

Lemma amount_loop_ok (lines : list str) (js : list nat) :
  Forall (fun j => (j < length lines)%nat) js ->
  exists a, amount_loop lines js = Ok a /\ Py.isdigit a = true.
Proof.
  induction 1 as [|j js L _ IH]; cbn [amount_loop]; [exists (Py.lit "0"); split; reflexivity|].
  destruct (line_at_ok lines j L) as [line ->]. cbn [bind].
  destruct (Re.search AMOUNT_RUN_RE line); [|exact IH].
  eexists. split; [reflexivity|apply AmountFacts.clean_is_digits].
Qed.

Local Abbreviation enquiry_ok year_text e :=
  ((exists p, parsed_date e = Some p /\ Py.truthy p = true /\
              _parse_date year_text (Some (date e)) = Some p) /\
   (exists a, amount e = Some a /\ Py.isdigit a = true) /\
   (exists q, purpose e = Some q)).

Lemma enquiry_at_ok (year_text : Z -> str) (lines : list str) (i : nat) :
  (i + 1 < length lines)%nat ->
  exists r, html_enquiry_at year_text lines i = Ok r /\
            forall e, r = Some e -> enquiry_ok year_text e.
Proof.
  intros L. unfold html_enquiry_at.
  destruct (line_at_ok lines i) as [line ->]; [lia|]. cbn [bind].
  destruct (search_group1 ENQUIRY_DATE_RE line) as [date_raw|];
    [|exists None; split; [reflexivity|discriminate]].
  destruct (_parse_date year_text (Some date_raw)) as [p|] eqn:P;
    [|exists None; split; [reflexivity|discriminate]].
  destruct (Py.truthy p) eqn:T; cbn [negb];
    [|exists None; split; [reflexivity|discriminate]].
  destruct (find_member_ok lines i) as [mem ->]; [lia|]. cbn [bind].
  apply Nat.ltb_lt in L. rewrite L. apply Nat.ltb_lt in L.
  destruct (line_at_ok lines (i + 1) L) as [pl ->]. cbn [bind].
  destruct (amount_loop_ok lines (seq (i + 2) (Nat.min (i + 4) (length lines) - (i + 2))))
    as (a & -> & Da).
  { apply Forall_forall. intros j I. apply in_seq in I. lia. }
  cbn [bind]. eexists. split; [reflexivity|].
  intros e E. injection E as <-. cbn.
  split; [exists p; tauto|]. split; [exists a; tauto|eauto].
Qed.

Lemma enquiries_loop_ok (year_text : Z -> str) (lines : list str) (indices : list nat) :
  Forall (fun i => (i + 1 < length lines)%nat) indices ->
  exists l, html_enquiries_loop year_text lines indices = Ok l /\
            Forall (fun e => enquiry_ok year_text e) l.
Proof.
  induction 1 as [|i rest L _ IH]; cbn [html_enquiries_loop];
    [exists []; split; [reflexivity|constructor]|].
  destruct (enquiry_at_ok year_text lines i L) as (r & -> & P).
  destruct IH as (later & -> & F). cbn [bind].
  eexists. split; [reflexivity|].
  apply Forall_app. split; [|exact F].
  destruct r as [e|]; [|constructor]. constructor; [exact (P e eq_refl)|constructor].
Qed.

(** The enquiries that the filter returns are in one month. *)
Lemma latest_month_one_key (all_enquiries : list enquiry) :
  exists k, Forall (fun e => year_month e = Some k)
                   (_filter_latest_month_enquiries all_enquiries).
Proof.
  rewrite EnquiryFacts.filter_result.
  destruct (selected_month all_enquiries) as [k|]; [|exists []; constructor].
  exists k. apply Forall_forall. intros e I. apply filter_In in I.
  destruct I as [_ I]. unfold in_month in I.
  destruct (year_month e) as [k'|]; [|discriminate].
  apply eqb_eq in I. congruence.
Qed.

Lemma latest_month_sublist (all_enquiries : list enquiry) (e : enquiry) :
  In e (_filter_latest_month_enquiries all_enquiries) -> In e all_enquiries.
Proof.
  rewrite EnquiryFacts.filter_result.
  destruct (selected_month all_enquiries); [|intros []].
  intros I. apply filter_In in I. tauto.
Qed.

End HtmlEnquiryFacts.

(** X13. [_extract_enquiries_from_html] on the text of a document.  The
    call returns: no index is out of range.  Every enquiry returned has a
    parsed date, which is what [_parse_date] makes of its date text, an
    amount that is a non-empty digit string, and a purpose; and the
    enquiries returned are all in one month.  The test that would drop a
    header line compares an upper-cased line with texts that hold lower-case
    letters, so it never holds and no line is dropped. *)
Theorem html_enquiries_sound (year_text : Z -> str) (full_text : str) :
  (exists enquiries,
     _extract_enquiries_from_html year_text full_text = Ok enquiries /\
     Forall (fun e =>
               (exists p, parsed_date e = Some p /\ Py.truthy p = true /\
                          _parse_date year_text (Some (date e)) = Some p) /\
               (exists a, amount e = Some a /\ Py.isdigit a = true) /\
               (exists q, purpose e = Some q)) enquiries /\
     exists k, Forall (fun e => year_month e = Some k) enquiries) /\
  (forall lines, skip_header lines = lines).
Proof.
  split; [|exact HtmlEnquiryFacts.skip_header_id].
  unfold _extract_enquiries_from_html.
  destruct (text_after ENQUIRY_HEADING_RE None full_text) as [remaining|].
  2:{ exists []. split; [reflexivity|]. split; [constructor|]. exists []. constructor. }
  set (lines := skip_header (stripped_lines remaining)).
  destruct (HtmlEnquiryFacts.enquiries_loop_ok year_text lines (seq 0 (length lines - 2)))
    as (all_enquiries & -> & F).
  { apply Forall_forall. intros i I. apply in_seq in I. lia. }
  cbn [bind]. eexists. split; [reflexivity|]. split.
  - apply Forall_forall. intros e I. rewrite Forall_forall in F.
    exact (F e (HtmlEnquiryFacts.latest_month_sublist _ _ I)).
  - exact (HtmlEnquiryFacts.latest_month_one_key all_enquiries).
Qed.
Module PdfEnquiryFacts.
Import PyFacts.

Lemma key_ltb_irrefl (a : list Z) : key_ltb a a = false.
Proof.
  induction a as [|x a IH]; [reflexivity|]. cbn [key_ltb].
  rewrite Z.ltb_irrefl, Z.eqb_refl, IH. reflexivity.
Qed.

Lemma key_ltb_trans (a : list Z) : forall b c,
  length a = length b -> length b = length c ->
  key_ltb a b = true -> key_ltb b c = true -> key_ltb a c = true.
Proof.
  induction a as [|x a IH]; intros [|y b] [|z c] L1 L2; try discriminate; cbn [key_ltb];
    try (intros; discriminate).
  injection L1 as L1. injection L2 as L2.
  rewrite !orb_true_iff, !andb_true_iff, !Z.ltb_lt, !Z.eqb_eq.
  intros [H1|[E1 H1]] [H2|[E2 H2]]; try (left; lia).
  right. split; [lia|]. exact (IH b c L1 L2 H1 H2).
Qed.

Lemma key_ltb_total (a : list Z) : forall b,
  length a = length b ->
  key_ltb a b = false -> key_ltb b a = false -> a = b.
Proof.
  induction a as [|x a IH]; intros [|y b] L; try discriminate; [reflexivity|].
  injection L as L. cbn [key_ltb].
  rewrite !orb_false_iff, !andb_false_iff, !Z.ltb_ge, !Z.eqb_neq.
  intros [H1 K1] [H2 K2].
  assert (x = y) by lia. subst y. f_equal.
  apply (IH b L); [destruct K1 as [K1|K1]|destruct K2 as [K2|K2]]; congruence.
Qed.

(** [a <= b < c] gives [a < c]. *)
Lemma key_le_lt (a b c : list Z) :
  length a = length b -> length b = length c ->
  key_ltb b a = false -> key_ltb b c = true -> key_ltb a c = true.
Proof.
  intros L1 L2 H1 H2. destruct (key_ltb a b) eqn:E.
  - exact (key_ltb_trans a b c L1 L2 E H2).
  - rewrite (key_ltb_total a b L1 E H1). exact H2.
Qed.

Lemma key_ltb_asym (a b : list Z) :
  length a = length b -> key_ltb a b = true -> key_ltb b a = false.
Proof.
  intros L H. destruct (key_ltb b a) eqn:E; [|reflexivity].
  pose proof (key_ltb_trans a b a L (eq_sym L) H E) as C.
  rewrite key_ltb_irrefl in C. discriminate.
Qed.

(** [a < b <= c] gives [a < c]. *)
Lemma key_lt_le (a b c : list Z) :
  length a = length b -> length b = length c ->
  key_ltb a b = true -> key_ltb c b = false -> key_ltb a c = true.
Proof.
  intros L1 L2 H1 H2. destruct (key_ltb b c) eqn:E.
  - exact (key_ltb_trans a b c L1 L2 H1 E).
  - rewrite <- (key_ltb_total b c L2 E H2). exact H1.
Qed.

Lemma datetime_le_trans (a b c : datetime) :
  datetime_ltb b a = false -> datetime_ltb c b = false -> datetime_ltb c a = false.
Proof.
  unfold datetime_ltb. intros H1 H2.
  destruct (key_ltb (datetime_key c) (datetime_key a)) eqn:E; [|reflexivity].
  pose proof (key_lt_le (datetime_key c) (datetime_key a) (datetime_key b)
                eq_refl eq_refl E H1). congruence.
Qed.

Lemma datetime_lt_le (a b : datetime) :
  datetime_ltb a b = true -> datetime_ltb b a = false.
Proof. apply key_ltb_asym. reflexivity. Qed.

(** [max] returns an element that none exceeds. *)
Lemma max_fold (others : list datetime) : forall best,
  let r := fold_left (fun best x => if datetime_ltb best x then x else best) others best in
  (r = best \/ In r others) /\
  datetime_ltb r best = false /\
  forall x, In x others -> datetime_ltb r x = false.
Proof.
  induction others as [|x others IH]; intros best; cbn [fold_left]; cbv zeta.
  - split; [left; reflexivity|]. split; [apply key_ltb_irrefl|intros x []].
  - destruct (datetime_ltb best x) eqn:E.
    + destruct (IH x) as (I & B & M). cbv zeta in *. split; [|split].
      * destruct I as [I|I]; right; [left; symmetry; exact I|right; exact I].
      * exact (datetime_le_trans _ _ _ (datetime_lt_le _ _ E) B).
      * intros z [<-|J]; [exact B|exact (M z J)].
    + destruct (IH best) as (I & B & M). cbv zeta in *. split; [|split].
      * destruct I as [I|I]; [left; exact I|right; right; exact I].
      * exact B.
      * intros z [<-|J]; [exact (datetime_le_trans _ _ _ E B)|exact (M z J)].
Qed.

Lemma max_datetime_spec (first : datetime) (others : list datetime) :
  In (max_datetime first others) (first :: others) /\
  forall x, In x (first :: others) -> datetime_ltb (max_datetime first others) x = false.
Proof.
  unfold max_datetime. destruct (max_fold others first) as (I & B & M). cbv zeta in *.
  split.
  - destruct I as [I|I]; [left; symmetry; exact I|right; exact I].
  - intros x [<-|J]; [exact B|exact (M x J)].
Qed.

Lemma enquiry_datetime_valid (d : str) (dt : datetime) :
  enquiry_datetime d = Some dt ->
  valid_datetime dt = true /\
  dt_hour dt = 0%Z /\ dt_minute dt = 0%Z /\ dt_second dt = 0%Z.
Proof.
  unfold enquiry_datetime.
  destruct (Py.split 45 d) as [|dd [|mm [|yy [|? ?]]]]; try discriminate.
  destruct (Py.int dd) as [day|]; [|discriminate].
  destruct (Py.int mm) as [month|]; [|discriminate].
  destruct (Py.int yy) as [year|]; [|discriminate].
  cbv zeta. destruct (valid_datetime _) eqn:V; [|discriminate].
  intros E. injection E as <-. cbn. tauto.
Qed.

Lemma enquiry_dates_valid (text : str) (dt : datetime) :
  In dt (pdf_enquiry_dates text) ->
  valid_datetime dt = true /\
  dt_hour dt = 0%Z /\ dt_minute dt = 0%Z /\ dt_second dt = 0%Z.
Proof.
  unfold pdf_enquiry_dates.
  destruct (search_group1 ENQUIRY_SECTION_RE text) as [section|]; [|intros []].
  rewrite (DefaultMonthFacts.collect_fold enquiry_datetime). cbn [app].
  intros I. apply in_flat_map in I. destruct I as (d & _ & I).
  destruct (enquiry_datetime d) as [dt'|] eqn:E; [|destruct I].
  destruct I as [<-|[]]. exact (enquiry_datetime_valid d dt' E).
Qed.

(** A date that is not after another is in a month that is not after. *)
Lemma not_later_month (a b : datetime) :
  datetime_ltb b a = false ->
  not_after (dt_year a) (dt_month a) (dt_year b) (dt_month b).
Proof.
  unfold datetime_ltb, datetime_key, not_after. cbn [key_ltb].
  rewrite !orb_false_iff, !andb_false_iff, !Z.ltb_ge, !Z.eqb_neq.
  intros K. lia.
Qed.

Lemma strftime_truthy (year_text : Z -> str) (d : datetime) :
  Py.truthy (strftime_Ymd year_text d) = true.
Proof. unfold strftime_Ymd. destruct (year_text (dt_year d)); reflexivity. Qed.

Lemma pdf_enquiry_key (year_text : Z -> str) (d : datetime) :
  year_month (pdf_enquiry year_text d) = Some (firstn 7 (strftime_Ymd year_text d)).
Proof.
  unfold year_month, pdf_enquiry. cbn [parsed_date].
  rewrite strftime_truthy. reflexivity.
Qed.

Section Canonical.

Variable year_text : Z -> str.
Hypothesis HY : forall y, (1000 <= y <= 9999)%Z -> year_text y = Py.of_Z y.

(** The key of a date from the year 1000 on: the year and the month. *)
Lemma key_form (d : datetime) :
  valid_datetime d = true -> (1000 <= dt_year d)%Z ->
  firstn 7 (strftime_Ymd year_text d) = Py.of_Z (dt_year d) ++ 45 :: pad2 (dt_month d) /\
  iso_month (firstn 7 (strftime_Ymd year_text d)) (dt_year d) (dt_month d).
Proof.
  intros V L. apply DateFacts.valid_datetime_bounds in V.
  destruct V as (By & Bm & Bd & _).
  pose proof (DateFacts.days_in_month_bound (dt_year d) (dt_month d)) as Bx.
  split.
  - unfold strftime_Ymd. rewrite HY by lia.
    destruct (DateFacts.year_numeral (dt_year d)) as (a & b & c & e & -> & _); [lia|].
    destruct (DateFacts.pad2_digits (dt_month d)) as (m1 & m2 & -> & _); [lia|].
    reflexivity.
  - unfold strftime_Ymd. rewrite HY by lia.
    apply DateFacts.iso_text; lia.
Qed.

Lemma iso_month_inj (k : str) (y m y' m' : Z) :
  iso_month k y m -> iso_month k y' m' -> y = y' /\ m = m'.
Proof.
  intros (a1 & a2 & a3 & a4 & b1 & b2 & -> & _ & -> & ->)
         (c1 & c2 & c3 & c4 & d1 & d2 & E & _ & -> & ->).
  injection E as <- <- <- <- <- <-. tauto.
Qed.

(** Two dates have one key exactly when they are in one month of one
    year. *)
Lemma same_key (d latest : datetime) :
  valid_datetime d = true -> (1000 <= dt_year d)%Z ->
  valid_datetime latest = true -> (1000 <= dt_year latest)%Z ->
  in_month (firstn 7 (strftime_Ymd year_text latest)) (pdf_enquiry year_text d)
  = ((dt_month d =? dt_month latest)%Z && (dt_year d =? dt_year latest)%Z).
Proof.
  intros V L V' L'. unfold in_month. rewrite pdf_enquiry_key.
  destruct (key_form d V L) as [F I]. destruct (key_form latest V' L') as [F' I'].
  destruct ((dt_month d =? dt_month latest)%Z && (dt_year d =? dt_year latest)%Z) eqn:E.
  - apply andb_true_iff in E. destruct E as [Em Ey].
    apply Z.eqb_eq in Em. apply Z.eqb_eq in Ey.
    rewrite F, F', Em, Ey. apply eqb_refl.
  - apply eqb_neq. intros K. rewrite K in I.
    destruct (iso_month_inj _ _ _ _ _ I I') as [Ey Em].
    rewrite Ey, Em, !Z.eqb_refl in E. discriminate.
Qed.

End Canonical.

End PdfEnquiryFacts.

(** X14. [extract_enquiries_from_pdf].  The dates it keeps are dates of
    the calendar.  Without any, the result is empty.  Otherwise [max] picks
    a latest date, which none of the dates is after, and the result is the
    enquiries of the dates in the month and year of the latest one, in their
    order; the enquiry of the latest date is among them, and no enquiry has
    a member, a purpose or an amount. *)
Theorem pdf_enquiries_latest (year_text : Z -> str) (text : str) :
  let dates := pdf_enquiry_dates text in
  let result := extract_enquiries_from_pdf year_text text in
  Forall (fun d => valid_datetime d = true) dates /\
  (dates = [] -> result = []) /\
  (dates <> [] ->
   exists latest,
     In latest dates /\
     (forall d, In d dates -> datetime_ltb latest d = false) /\
     (forall d, In d dates ->
        not_after (dt_year d) (dt_month d) (dt_year latest) (dt_month latest)) /\
     result = map (pdf_enquiry year_text)
                  (filter (fun d => (dt_month d =? dt_month latest)%Z
                                    && (dt_year d =? dt_year latest)%Z) dates) /\
     In (pdf_enquiry year_text latest) result) /\
  Forall (fun e => member e = None /\ purpose e = None /\ amount e = None) result.
Proof.
  intros dates result.
  assert (V : Forall (fun d => valid_datetime d = true) dates).
  { apply Forall_forall. intros d I.
    exact (proj1 (PdfEnquiryFacts.enquiry_dates_valid text d I)). }
  split; [exact V|]. subst result. unfold extract_enquiries_from_pdf. fold dates.
  destruct dates as [|first others] eqn:D.
  { split; [reflexivity|]. split; [congruence|constructor]. }
  cbv zeta. split; [discriminate|].
  destruct (PdfEnquiryFacts.max_datetime_spec first others) as [I M].
  set (latest := max_datetime first others) in *.
  split.
  - intros _. exists latest. split; [exact I|]. split; [exact M|]. split.
    + intros d J. exact (PdfEnquiryFacts.not_later_month d latest (M d J)).
    + split; [reflexivity|]. apply in_map. apply filter_In. split; [exact I|].
      rewrite !Z.eqb_refl. reflexivity.
  - apply Forall_forall. intros e J. apply in_map_iff in J.
    destruct J as (d & <- & _). cbn. tauto.
Qed.

(** X15. The two formats select the same month.  When [%Y] prints the
    four digits and the dates of the enquiry section are from the year 1000
    on, what [extract_enquiries_from_pdf] returns is what
    [_filter_latest_month_enquiries] selects among the enquiries of all the
    dates: the month of the latest date is the month with the greatest
    key. *)
Theorem pdf_enquiries_are_latest_month (year_text : Z -> str) (text : str)
    (HY : forall y, (1000 <= y <= 9999)%Z -> year_text y = Py.of_Z y)
    (HD : Forall (fun d => (1000 <= dt_year d)%Z) (pdf_enquiry_dates text)) :
  extract_enquiries_from_pdf year_text text
  = _filter_latest_month_enquiries (map (pdf_enquiry year_text) (pdf_enquiry_dates text)).
Proof.
  assert (V : forall d, In d (pdf_enquiry_dates text) -> valid_datetime d = true).
  { intros d I. exact (proj1 (PdfEnquiryFacts.enquiry_dates_valid text d I)). }
  rewrite Forall_forall in HD.
  unfold extract_enquiries_from_pdf.
  destruct (pdf_enquiry_dates text) as [|first others] eqn:D; [reflexivity|].
  cbv zeta.
  destruct (PdfEnquiryFacts.max_datetime_spec first others) as [I M].
  set (latest := max_datetime first others) in *.
  set (dates := first :: others) in *.
  set (k := firstn 7 (strftime_Ymd year_text latest)).
  rewrite EnquiryFacts.filter_result.
  assert (S : selected_month (map (pdf_enquiry year_text) dates) = Some k).
  { apply EnquiryFacts.selected_spec. split.
    - exists (pdf_enquiry year_text latest). split; [apply in_map; exact I|].
      apply PdfEnquiryFacts.pdf_enquiry_key.
    - intros e k' J K. apply in_map_iff in J. destruct J as (d & <- & J).
      rewrite PdfEnquiryFacts.pdf_enquiry_key in K. injection K as <-.
      destruct (PdfEnquiryFacts.key_form year_text HY d (V d J) (HD d J)) as [_ Kd].
      destruct (PdfEnquiryFacts.key_form year_text HY latest (V _ I) (HD _ I)) as [_ Kl].
      apply (EnquiryFacts.iso_order _ _ _ _ _ _ Kd Kl).
      exact (PdfEnquiryFacts.not_later_month d latest (M d J)). }
  rewrite S.
  assert (F : forall l, (forall d, In d l -> In d dates) ->
            map (pdf_enquiry year_text)
                (filter (fun d => (dt_month d =? dt_month latest)%Z
                                  && (dt_year d =? dt_year latest)%Z) l)
            = filter (in_month k) (map (pdf_enquiry year_text) l)).
  { induction l as [|d l IH]; intros Sub; [reflexivity|]. cbn [filter map].
    rewrite <- (PdfEnquiryFacts.same_key year_text HY d latest
                  (V d (Sub d (or_introl eq_refl))) (HD d (Sub d (or_introl eq_refl)))
                  (V _ I) (HD _ I)).
    fold k. rewrite <- IH by (intros z J; apply Sub; right; exact J).
    destruct (in_month k (pdf_enquiry year_text d)); reflexivity. }
  apply F. tauto.
Qed.

Lemma pdf_enquiries_are_latest_month_witness :
  let text := Py.lit "ENQUIRIES: 05-03-2024 17-02-2024 31-02-2025 28-03-2024" in
  extract_enquiries_from_pdf year_text_glibc text
  = [pdf_enquiry year_text_glibc (Datetime 2024 3 5 0 0 0);
     pdf_enquiry year_text_glibc (Datetime 2024 3 28 0 0 0)] /\
  extract_enquiries_from_pdf year_text_glibc text
  = _filter_latest_month_enquiries
      (map (pdf_enquiry year_text_glibc) (pdf_enquiry_dates text)).
Proof.
  split; [vm_compute; reflexivity|].
  apply (pdf_enquiries_are_latest_month year_text_glibc).
  - intros y _. reflexivity.
  - vm_compute. repeat constructor; discriminate.
Defined.

Module OverdueFacts.
Import Re ReSem ReFacts PyFacts TokenFacts.

Lemma digit_not_int_space (c : char) : Py.is_digit c = true -> Py.is_int_space c = false.
Proof.
  intros D. unfold Py.is_int_space. rewrite (digit_not_space c D). reflexivity.
Qed.

Lemma int_lstrip_digit (c : char) (t : str) :
  Py.is_digit c = true -> Py.int_lstrip (c :: t) = c :: t.
Proof. intros D. cbn. rewrite (digit_not_int_space c D). reflexivity. Qed.

Lemma int_strip_digits (g : str) :
  forallb Py.is_digit g = true -> Py.int_strip g = g.
Proof.
  intros D. unfold Py.int_strip. destruct g as [|c t]; [reflexivity|].
  cbn [forallb] in D. apply andb_true_iff in D. destruct D as [Dc Dt].
  rewrite (int_lstrip_digit c t Dc).
  destruct (rev (c :: t)) as [|z r] eqn:R.
  - apply (f_equal (@rev char)) in R. rewrite rev_involutive in R. discriminate.
  - assert (Dz : Py.is_digit z = true).
    { assert (I : In z (c :: t)) by (apply in_rev; rewrite R; left; reflexivity).
      assert (F : forallb Py.is_digit (c :: t) = true) by (cbn; rewrite Dc, Dt; reflexivity).
      rewrite forallb_forall in F. exact (F z I). }
    rewrite (int_lstrip_digit z r Dz), <- R. apply rev_involutive.
Qed.

Lemma int_digits_ok (t : str) : forall acc,
  forallb Py.is_digit t = true -> (0 <= acc)%Z ->
  exists n, Py.int_digits acc false t = Some n /\ (0 <= n)%Z.
Proof.
  induction t as [|c t IH]; intros acc D A; cbn [Py.int_digits]; [eauto|].
  cbn [forallb] in D. apply andb_true_iff in D. destruct D as [Dc Dt].
  rewrite Dc. apply IH; [exact Dt|].
  pose proof (EnquiryFacts.digit_val_bounds c Dc). lia.
Qed.

(** [int] of a non-empty digit string is a natural number. *)
Lemma digits_int (g : str) :
  Py.isdigit g = true -> exists n, Py.int g = Some n /\ (0 <= n)%Z.
Proof.
  unfold Py.isdigit. intros D. apply andb_true_iff in D. destruct D as [T D].
  unfold Py.int. rewrite (int_strip_digits g D).
  destruct g as [|c t]; [discriminate|].
  cbn [forallb] in D. apply andb_true_iff in D. destruct D as [Dc Dt].
  assert (U : exists n, Py.int_unsigned (c :: t) = Some n /\ (0 <= n)%Z).
  { cbn [Py.int_unsigned]. rewrite Dc. apply int_digits_ok; [exact Dt|].
    pose proof (EnquiryFacts.digit_val_bounds c Dc). lia. }
  each_digit Dc; exact U.
Qed.

Lemma int_value_ok (g : str) :
  Py.isdigit g = true -> (length g <= int_max_str_digits)%nat ->
  exists n, int_value g = Ok n /\ (0 <= n)%Z.
Proof.
  intros D L. unfold int_value, int_str.
  replace (int_max_str_digits <? length (filter Py.is_digit g))%nat with false.
  - destruct (digits_int g D) as (n & -> & N). eauto.
  - symmetry. apply Nat.ltb_ge.
    pose proof (filter_length_le Py.is_digit g). lia.
Qed.

Lemma int_value_empty : exists msg, int_value [] = Raise (ValueError msg).
Proof. eexists. reflexivity. Qed.


(** Group 1 around a non-empty run of a class, at the end of a pattern. *)
Lemma run_group (p : char -> bool) st w out :
  matches (Seq (Grp 1 (plus_g p)) Eps) st w out ->
  exists g, cap_lookup 1 (m_caps out) = Some g /\ g <> [] /\ forallb p g = true.
Proof.
  unfold plus_g. intros M. inv_matches.
  match goal with H : matches (StarG _) _ _ _ |- _ => inversion H; subst; clear H end.
  cbn. eexists. split; [reflexivity|]. split; [discriminate|].
  cbn. rewrite andb_true_iff. split; assumption.
Qed.

Lemma labelled_run (label : str) (p : char -> bool) st w out :
  matches (seqs [lit_ci label; StarG colon_or_space; Grp 1 (plus_g p)]) st w out ->
  exists g, cap_lookup 1 (m_caps out) = Some g /\ g <> [] /\ forallb p g = true.
Proof.
  unfold seqs. cbn [fold_right]. intros M. ScoreFacts.drop_prefix M.
  exact (run_group p _ _ _ M).
Qed.

Lemma search_run (label : str) (p : char -> bool) (text g : str) :
  search_group1 (seqs [lit_ci label; StarG colon_or_space; Grp 1 (plus_g p)]) text = Some g ->
  g <> [] /\ forallb p g = true.
Proof.
  unfold search_group1, search.
  destruct (search_from _ None text) as [m|] eqn:S; [|discriminate].
  destruct (search_from_sound _ _ _ _ S) as (prev & s' & out & M & C).
  destruct (labelled_run _ _ _ _ _ M) as (g' & G & N & F).
  unfold group. rewrite C, G. intros E. injection E as <-. tauto.
Qed.

Lemma findall_run (label : str) (p : char -> bool) (text g : str) :
  In g (findall1 (seqs [lit_ci label; StarG colon_or_space; Grp 1 (plus_g p)]) text) ->
  g <> [] /\ forallb p g = true.
Proof.
  unfold findall1, finditer. rewrite in_map_iff. intros (m & <- & I).
  destruct (scan_sound _ _ _ _ _ I) as (prev & s' & out & M & C).
  destruct (labelled_run _ _ _ _ _ M) as (g' & G & N & F).
  unfold group. rewrite C, G. tauto.
Qed.

Lemma remove_commas_digits (g : str) :
  forallb digit_or_comma g = true -> forallb Py.is_digit (remove_commas g) = true.
Proof.
  unfold remove_commas. induction g as [|c g IH]; [reflexivity|].
  cbn [forallb filter]. intros D. apply andb_true_iff in D. destruct D as [Dc Dg].
  destruct (c =? 44) eqn:E; cbn [negb]; [exact (IH Dg)|].
  cbn [forallb]. rewrite (IH Dg), andb_true_r.
  unfold digit_or_comma, cls_or, one in Dc. rewrite E, orb_false_r in Dc. exact Dc.
Qed.

Lemma remove_commas_length (g : str) : (length (remove_commas g) <= length g)%nat.
Proof. apply filter_length_le. Qed.

Lemma current_loop_ok (groups : list str) :
  Forall (fun g => (length g <= int_max_str_digits)%nat) groups ->
  exists r, current_loop groups = Ok r /\
            (r = None \/ exists n, r = Some n /\ (0 <= n)%Z).
Proof.
  induction 1 as [|g groups L _ IH]; cbn [current_loop];
    [exists None; split; [reflexivity|left; reflexivity]|]. cbv zeta.
  destruct (Py.isdigit (remove_commas g)) eqn:D; [|exact IH].
  destruct (int_value_ok _ D) as (n & -> & N).
  { pose proof (remove_commas_length g). lia. }
  cbn [bind]. exists (Some n). split; [reflexivity|]. right. exists n. tauto.
Qed.

End OverdueFacts.

(** X16. When [extract_overdue_summary] raises.  The count is read from
    the first [OVERDUE] followed by digits, the overdue amount from the
    second [OVERDUE] followed by digits or commas.  The texts handed to
    [int] being of at most 4300 characters: if that second match holds commas
    only, [int('')] raises [ValueError] and the call raises; in every other
    case the call returns, and the numbers of the summary are natural
    numbers, the overdue amount being absent exactly when there is no second
    match. *)
Theorem pdf_overdue_summary_raises (text : str)
    (H : Forall (fun g => (length g <= int_max_str_digits)%nat) (overdue_numbers text)) :
  let second := nth_error (findall1 OVERDUE_AMOUNT_RE text) 1 in
  let natural := fun r : option Z => r = None \/ exists n, r = Some n /\ (0 <= n)%Z in
  ((exists g, second = Some g /\ remove_commas g = []) ->
   exists msg, extract_overdue_summary text = Raise (ValueError msg)) /\
  ((forall g, second = Some g -> remove_commas g <> []) ->
   exists s,
     extract_overdue_summary text = Ok s /\
     natural (total_overdue_accounts s) /\
     natural (total_overdue_amount s) /\
     natural (total_current_amount s) /\
     (total_overdue_amount s = None <-> second = None)).
Proof.
  intros second natural. unfold overdue_numbers in H. fold second in H.
  apply Forall_app in H. destruct H as [Hc H].
  apply Forall_app in H. destruct H as [Ha Hk].
  unfold extract_overdue_summary.
  assert (C : exists c,
            match search_group1 OVERDUE_COUNT_RE text with
            | Some g => n <- int_value g ;; Ok (Some n)
            | None => Ok None
            end = Ok c /\ natural c).
  { destruct (search_group1 OVERDUE_COUNT_RE text) as [g|] eqn:S;
      [|exists None; split; [reflexivity|left; reflexivity]].
    destruct (OverdueFacts.search_run _ _ _ _ S) as [N D].
    destruct (OverdueFacts.int_value_ok g) as (n & -> & P).
    - unfold Py.isdigit. rewrite D. destruct g; [congruence|reflexivity].
    - inversion Hc; assumption.
    - cbn [bind]. exists (Some n). split; [reflexivity|]. right. exists n. tauto. }
  destruct C as (c & -> & Nc). cbn [bind].
  destruct (OverdueFacts.current_loop_ok _ Hk) as (k & K & Nk).
  assert (G : second = match findall1 OVERDUE_AMOUNT_RE text with
                       | _ :: g :: _ => Some g
                       | _ => None
                       end).
  { subst second. destruct (findall1 OVERDUE_AMOUNT_RE text) as [|g0 [|g1 l]]; reflexivity. }
  clearbody second. subst natural. split.
  - intros (g & S & E). rewrite G in S.
    destruct (findall1 OVERDUE_AMOUNT_RE text) as [|g0 [|g1 l]]; try discriminate.
    injection S as ->. rewrite E. eexists. reflexivity.
  - intros NE.
    destruct (findall1 OVERDUE_AMOUNT_RE text) as [|g0 [|g1 l]] eqn:F.
    + rewrite K. cbn [bind]. eexists. split; [reflexivity|]. cbn.
      split; [exact Nc|]. split; [left; reflexivity|]. split; [exact Nk|]. tauto.
    + rewrite K. cbn [bind]. eexists. split; [reflexivity|]. cbn.
      split; [exact Nc|]. split; [left; reflexivity|]. split; [exact Nk|]. tauto.
    + assert (I : In g1 (findall1 OVERDUE_AMOUNT_RE text)) by (rewrite F; cbn; tauto).
      destruct (OverdueFacts.findall_run _ _ _ _ I) as [_ D].
      destruct (OverdueFacts.int_value_ok (remove_commas g1)) as (n & -> & P).
      * unfold Py.isdigit. rewrite (OverdueFacts.remove_commas_digits g1 D).
        specialize (NE g1 G). destruct (remove_commas g1); [congruence|reflexivity].
      * rewrite G in Ha. inversion Ha; subst.
        pose proof (OverdueFacts.remove_commas_length g1). lia.
      * cbn [bind]. rewrite K. cbn [bind]. eexists. split; [reflexivity|]. cbn.
        split; [exact Nc|]. split; [right; exists n; tauto|]. split; [exact Nk|].
        rewrite G. split; discriminate.
Qed.

Lemma pdf_overdue_summary_raises_witness :
  (exists msg,
     extract_overdue_summary (Py.lit "OVERDUE: 2 ACCOUNTS OVERDUE: ,") = Raise (ValueError msg)) /\
  extract_overdue_summary (Py.lit "OVERDUE: 2 ACCOUNTS OVERDUE: 1,500 CURRENT: 2,00,000")
  = Ok (OverdueSummary (Some 2%Z) (Some 1500%Z) (Some 200000%Z)).
Proof.
  split; [|vm_compute; reflexivity].
  refine (proj1 (pdf_overdue_summary_raises
                   (Py.lit "OVERDUE: 2 ACCOUNTS OVERDUE: ,") _) _).
  - replace (overdue_numbers (Py.lit "OVERDUE: 2 ACCOUNTS OVERDUE: ,"))
      with [Py.lit "2"; Py.lit ","] by (vm_compute; reflexivity).
    unfold int_max_str_digits.
    constructor; [cbn; lia|]. constructor; [cbn; lia|constructor].
  - exists [44]. split; vm_compute; reflexivity.
Defined.
Module HtmlOverdueFacts.
Import Re ReSem ReFacts PyFacts TokenFacts.

(** Group 1 around a non-empty run of a class, before a tail without
    groups. *)
Lemma run_group_then (p : char -> bool) (tail : re) st w out :
  matches (Seq (Grp 1 (plus_g p)) tail) st w out ->
  no_groups tail = true ->
  exists g, cap_lookup 1 (m_caps out) = Some g /\ g <> [] /\ forallb p g = true.
Proof.
  unfold plus_g. intros M G.
  inversion M as [| |? ? ? w1 mid w2 ? M1 M2| | | | | | |]; subst.
  rewrite (ScoreFacts.caps_preserved _ _ _ _ M2 G). clear M M2.
  inv_matches.
  match goal with H : matches (StarG _) _ _ _ |- _ => inversion H; subst; clear H end.
  cbn. eexists. split; [reflexivity|]. split; [discriminate|].
  cbn. rewrite andb_true_iff. split; assumption.
Qed.

Lemma count_group (normalized g : str) :
  search_group1 HTML_OVERDUE_COUNT_RE normalized = Some g -> Py.isdigit g = true.
Proof.
  unfold search_group1, search.
  destruct (search_from _ None normalized) as [m|] eqn:S; [|discriminate].
  destruct (search_from_sound _ _ _ _ S) as (prev & s' & out & M & C).
  unfold HTML_OVERDUE_COUNT_RE, seqs in M. cbn [fold_right] in M.
  ScoreFacts.drop_prefix M.
  destruct (run_group_then _ _ _ _ _ M eq_refl) as (g' & G & N & F).
  unfold group. rewrite C, G. intros E. injection E as <-.
  unfold Py.isdigit. rewrite F. destruct g'; [congruence|reflexivity].
Qed.

Lemma clean_length (g : str) :
  (length (_clean_amount (Some g)) <= Nat.max 1 (length g))%nat.
Proof.
  rewrite AmountFacts.clean_unfold.
  destruct (Py.isdigit (amount_remainder g));
    [|change (length (Py.lit "0")) with 1%nat; lia].
  unfold amount_remainder. pose proof (filter_length_le (fun c => negb (is_amount_noise c)) g).
  lia.
Qed.

Lemma cleaned_amount_ok (g : str) :
  (length g <= int_max_str_digits)%nat ->
  exists n, cleaned_amount g = Ok (Some n) /\ (0 <= n)%Z.
Proof.
  intros L. unfold cleaned_amount. cbv zeta.
  rewrite (AmountFacts.clean_is_digits (Some g)).
  destruct (OverdueFacts.int_value_ok (_clean_amount (Some g))) as (n & -> & N).
  - apply AmountFacts.clean_is_digits.
  - pose proof (clean_length g). unfold int_max_str_digits in *. lia.
  - cbn [bind]. exists n. tauto.
Qed.

(** Commas only are cleaned to zero. *)
Lemma cleaned_commas (g : str) :
  remove_commas g = [] -> cleaned_amount g = Ok (Some 0%Z).
Proof.
  intros E. unfold cleaned_amount. cbv zeta.
  assert (R : amount_remainder g = []).
  { unfold remove_commas in E. unfold amount_remainder.
    apply PairingFacts.filter_none. intros c I. apply negb_false_iff.
    destruct (c =? 44) eqn:C.
    - unfold is_amount_noise. rewrite C. reflexivity.
    - exfalso. assert (J : In c (filter (fun c => negb (c =? 44)) g)).
      { apply filter_In. split; [exact I|]. rewrite C. reflexivity. }
      rewrite E in J. destruct J. }
  rewrite AmountFacts.clean_unfold, R. reflexivity.
Qed.

End HtmlOverdueFacts.

(** X17. [_extract_overdue_summary_from_html_text].  An empty text gives
    the empty summary.  The texts handed to [int] outside the [try] being of
    at most 4300 characters, the call returns and the numbers of the summary
    are natural numbers; an amount is present whenever its pattern matches:
    the branch for a cleaned text that is not digits is never taken.  An
    amount of commas only is 0 here, where the page-text format raises. *)
Theorem html_overdue_summary_total (full_text : str)
    (H : Forall (fun g => (length g <= int_max_str_digits)%nat)
                (html_overdue_numbers full_text)) :
  let natural := fun r : option Z => r = None \/ exists n, r = Some n /\ (0 <= n)%Z in
  (exists s,
     _extract_overdue_summary_from_html_text full_text = Ok s /\
     natural (total_overdue_accounts s) /\
     natural (total_overdue_amount s) /\
     natural (total_current_amount s)) /\
  _extract_overdue_summary_from_html_text [] = Ok (OverdueSummary None None None) /\
  (forall g, (length g <= int_max_str_digits)%nat ->
             exists n, cleaned_amount g = Ok (Some n) /\ (0 <= n)%Z) /\
  (forall g, remove_commas g = [] -> cleaned_amount g = Ok (Some 0%Z)).
Proof.
  intros natural.
  split; [|split; [reflexivity|split;
    [exact HtmlOverdueFacts.cleaned_amount_ok|exact HtmlOverdueFacts.cleaned_commas]]].
  unfold _extract_overdue_summary_from_html_text, html_overdue_numbers in *.
  destruct (Py.truthy full_text); cbn [negb].
  2:{ eexists. split; [reflexivity|]. cbn. subst natural. cbn. tauto. }
  cbv zeta in *.
  set (normalized := Py.strip (collapse_ws _)) in *.
  apply Forall_app in H. destruct H as [Hk Ho].
  assert (C : natural match search_group1 HTML_OVERDUE_COUNT_RE normalized with
                      | Some g => int_str g
                      | None => None
                      end).
  { destruct (search_group1 HTML_OVERDUE_COUNT_RE normalized) as [g|] eqn:S;
      [|left; reflexivity].
    unfold int_str. destruct (_ <? _)%nat; [left; reflexivity|].
    destruct (OverdueFacts.digits_int g (HtmlOverdueFacts.count_group _ _ S)) as (n & -> & N).
    right. exists n. tauto. }
  assert (A : forall o : option str,
            Forall (fun g => (length g <= int_max_str_digits)%nat) (option_list o) ->
            exists r, match o with Some g => cleaned_amount g | None => Ok None end = Ok r
                      /\ natural r).
  { intros [g|] F; [|exists None; split; [reflexivity|left; reflexivity]].
    inversion F as [|? ? L _]; subst.
    destruct (HtmlOverdueFacts.cleaned_amount_ok g L) as (n & -> & N).
    exists (Some n). split; [reflexivity|]. right. exists n. tauto. }
  destruct (A _ Hk) as (k & -> & Nk). destruct (A _ Ho) as (o & -> & No).
  cbn [bind]. eexists. split; [reflexivity|]. cbn. tauto.
Qed.

Lemma html_overdue_summary_total_witness :
  _extract_overdue_summary_from_html_text
    (Py.lit "CONSUMER ACCOUNT SUMMARY Overdue: 2 Current: 1,500 Overdue: , CONSUMER DETAILS")
  = Ok (OverdueSummary (Some 2%Z) (Some 2%Z) (Some 1500%Z)) /\
  exists s,
    _extract_overdue_summary_from_html_text (Py.lit "Current: ,, Overdue , x") = Ok s /\
    total_current_amount s = None /\ total_overdue_amount s = Some 0%Z.
Proof.
  split; [vm_compute; reflexivity|].
  assert (F : Forall (fun g => (length g <= int_max_str_digits)%nat)
                     (html_overdue_numbers (Py.lit "Current: ,, Overdue , x"))).
  { replace (html_overdue_numbers (Py.lit "Current: ,, Overdue , x"))
      with [Py.lit ","] by (vm_compute; reflexivity).
    unfold int_max_str_digits.
    constructor; [cbn; lia|constructor]. }
  destruct (proj1 (html_overdue_summary_total _ F)) as (s & E & _).
  exists s. split; [exact E|].
  assert (E' : _extract_overdue_summary_from_html_text (Py.lit "Current: ,, Overdue , x")
               = Ok (OverdueSummary None (Some 0%Z) None))
    by (vm_compute; reflexivity).
  rewrite E' in E. injection E as <-. split; reflexivity.
Defined.

Module SplitFacts.
Import Re ReSem ReFacts PyFacts.

(** A literal is read exactly when the text starts with it. *)
Lemma lit_ci_fails (label : str) : forall k prev s caps,
  starts_ci label s = false -> rmatch (lit_ci label) k (MState prev s caps) = None.
Proof.
  unfold lit_ci, seqs.
  induction label as [|x label IH]; intros k prev s caps; cbn [starts_ci]; [discriminate|].
  cbn [map fold_right rmatch m_rest m_caps].
  destruct s as [|c s]; [reflexivity|].
  destruct (one_i x c); cbn [andb]; [apply IH|reflexivity].
Qed.

Lemma lit_ci_reads (label : str) : forall k prev s caps,
  starts_ci label s = true ->
  exists prev', rmatch (lit_ci label) k (MState prev s caps)
                = k (MState prev' (skipn (length label) s) caps).
Proof.
  unfold lit_ci, seqs.
  induction label as [|x label IH]; intros k prev s caps; cbn [starts_ci].
  - intros _. exists prev. reflexivity.
  - destruct s as [|c s]; [discriminate|]. intros E.
    apply andb_true_iff in E. destruct E as [E1 E2].
    cbn [map fold_right rmatch m_rest m_caps length skipn]. rewrite E1.
    exact (IH k (Some c) s caps E2).
Qed.

(** No label is read where none starts. *)
Lemma label_at_none (prev : option char) (s : str) :
  label_at prev s = None <-> label_starts s = false.
Proof.
  unfold label_at, DELIMITER_LABELS_RE, label_starts, delimiter_labels.
  cbn [rmatch existsb]. rewrite orb_false_r.
  destruct (starts_ci (Py.lit "MEMBER NAME") s) eqn:A.
  { destruct (lit_ci_reads _ Some prev s [] A) as [p ->]. cbn. split; discriminate. }
  rewrite (lit_ci_fails _ Some prev s [] A). cbn [orelse orb].
  destruct (starts_ci (Py.lit "ACCOUNT TYPE") s) eqn:B.
  { destruct (lit_ci_reads _ Some prev s [] B) as [p ->]. cbn. split; discriminate. }
  rewrite (lit_ci_fails _ Some prev s [] B). cbn [orelse orb].
  destruct (starts_ci (Py.lit "DATE OPENED") s) eqn:C.
  { destruct (lit_ci_reads _ Some prev s [] C) as [p ->]. cbn. split; discriminate. }
  rewrite (lit_ci_fails _ Some prev s [] C). tauto.
Qed.

Lemma starts_ci_app (label s more : str) :
  starts_ci label s = true -> starts_ci label (s ++ more) = true.
Proof.
  revert s. induction label as [|x label IH]; intros s; cbn [starts_ci]; [tauto|].
  destruct s as [|c s]; [discriminate|]. cbn [app].
  intros E. apply andb_true_iff in E. destruct E as [-> E]. exact (IH s E).
Qed.

Lemma label_starts_app (s more : str) :
  label_starts (s ++ more) = false -> label_starts s = false.
Proof.
  unfold label_starts. intros E. apply not_true_is_false. intros T.
  apply existsb_exists in T. destruct T as (l & I & S).
  assert (X : existsb (fun label => starts_ci label (s ++ more)) delimiter_labels = true).
  { apply existsb_exists. exists l. split; [exact I|exact (starts_ci_app l s more S)]. }
  congruence.
Qed.

Lemma label_starts_nil : label_starts [] = false.
Proof. reflexivity. Qed.

(** No label starts at any position of [w], read together with what
    follows it. *)
Local Abbreviation label_free w s :=
  (forall n : nat, Nat.lt n (length w) -> label_starts (skipn n w ++ s) = false).

Lemma label_free_occurs (w : str) :
  label_free w [] -> label_occurs w = false.
Proof.
  induction w as [|c w IH]; intros F; [reflexivity|].
  cbn [label_occurs]. apply orb_false_iff. split.
  - specialize (F 0%nat). cbn [skipn length] in F. rewrite app_nil_r in F.
    apply F. lia.
  - apply IH. intros n L. specialize (F (S n)). cbn [skipn length] in F. apply F. lia.
Qed.

Lemma label_free_weaken (w s : str) :
  label_free w s -> label_free w [].
Proof.
  intros F n L. rewrite app_nil_r. apply (label_starts_app _ s). exact (F n L).
Qed.

Lemma label_free_snoc (w : str) (c : char) (t : str) :
  label_free w (c :: t) -> label_starts (c :: t) = false ->
  label_free (w ++ [c]) t.
Proof.
  intros F S n L. rewrite length_app in L. cbn [length] in L.
  destruct (Nat.lt_ge_cases n (length w)) as [Lt|Ge].
  - rewrite skipn_app. replace (n - length w)%nat with 0%nat by lia.
    cbn [skipn]. rewrite <- app_assoc. cbn [app]. exact (F n Lt).
  - assert (n = length w) by lia. subst n.
    rewrite skipn_app, skipn_all, Nat.sub_diag. cbn [skipn app]. exact S.
Qed.


Lemma delimiter_nil (must_advance : bool) (prev : option char) :
  delimiter_at must_advance prev [] = None.
Proof. destruct must_advance; reflexivity. Qed.

Lemma delimiter_none (must_advance : bool) (prev : option char) (s : str) :
  delimiter_at must_advance prev s = None -> label_starts s = false.
Proof.
  unfold delimiter_at. destruct (date_ahead prev s), must_advance;
    try discriminate; apply label_at_none.
Qed.

Lemma delimiter_refused (prev : option char) (s after : str) :
  delimiter_at false prev s = Some after -> delimiter_at true prev s = None ->
  label_starts s = false.
Proof.
  unfold delimiter_at. destruct (date_ahead prev s).
  - intros _. apply label_at_none.
  - congruence.
Qed.

(** No piece of the split holds a label. *)
Lemma split_scan_free (s : str) : forall prev skip piece,
  ((0 < skip)%nat -> piece = []) ->
  label_free (rev piece) s ->
  Forall (fun block => label_occurs block = false) (split_scan s prev skip piece).
Proof.
  induction s as [|c t IH]; intros prev skip piece P F; destruct skip as [|k];
    cbn [split_scan].
  - rewrite delimiter_nil. constructor; [|constructor].
    exact (label_free_occurs _ F).
  - rewrite P by lia. repeat constructor.
  - destruct (delimiter_at false prev (c :: t)) as [after|] eqn:D.
    + constructor; [exact (label_free_occurs _ (label_free_weaken _ _ F))|].
      destruct (length (c :: t) - length after)%nat as [|n] eqn:Ln.
      * destruct (delimiter_at true prev (c :: t)) as [after'|] eqn:D2.
        -- constructor; [reflexivity|].
           apply IH; [reflexivity|]. intros n L. cbn in L. lia.
        -- apply IH; [lia|]. intros n L. cbn [rev app length] in L.
           assert (n = 0)%nat by lia. subst n. cbn [rev app skipn].
           exact (delimiter_refused _ _ _ D D2).
      * apply IH; [reflexivity|]. intros m L. cbn in L. lia.
    + apply IH; [lia|]. cbn [rev].
      apply label_free_snoc; [exact F|exact (delimiter_none _ _ _ D)].
  - rewrite P by lia. apply IH; [reflexivity|]. intros n L. cbn in L. lia.
Qed.

(** A text without a label has none in what [strip] leaves. *)
Lemma label_occurs_tail (c : char) (s : str) :
  label_occurs (c :: s) = false -> label_occurs s = false.
Proof. cbn [label_occurs]. intros E. apply orb_false_iff in E. tauto. Qed.

Lemma label_occurs_lstrip (s : str) :
  label_occurs s = false -> label_occurs (Py.lstrip s) = false.
Proof.
  induction s as [|c s IH]; [tauto|]. cbn [Py.lstrip].
  destruct (Py.is_space c); [|tauto]. intros E. exact (IH (label_occurs_tail c s E)).
Qed.

Lemma label_occurs_prefix (p q : str) :
  label_occurs (p ++ q) = false -> label_occurs p = false.
Proof.
  induction p as [|c p IH]; intros E.
  - cbn [label_occurs]. rewrite label_starts_nil. reflexivity.
  - cbn [app label_occurs] in *. apply orb_false_iff in E. destruct E as [S E].
    apply orb_false_iff. split; [|exact (IH E)].
    exact (label_starts_app (c :: p) q S).
Qed.

Lemma lstrip_suffix (s : str) : exists p, s = p ++ Py.lstrip s.
Proof.
  induction s as [|c s (p & IH)]; [exists []; reflexivity|]. cbn [Py.lstrip].
  destruct (Py.is_space c); [|exists []; reflexivity].
  exists (c :: p). cbn [app]. rewrite <- IH. reflexivity.
Qed.

Lemma rstrip_prefix (s : str) : exists q, s = Py.rstrip s ++ q.
Proof.
  unfold Py.rstrip. destruct (lstrip_suffix (rev s)) as (p & E).
  exists (rev p). rewrite <- rev_app_distr, <- E. symmetry. apply rev_involutive.
Qed.

Lemma label_occurs_strip (s : str) :
  label_occurs s = false -> label_occurs (Py.strip s) = false.
Proof.
  intros E. unfold Py.strip. apply label_occurs_lstrip in E.
  destruct (rstrip_prefix (Py.lstrip s)) as (q & R). rewrite R in E.
  exact (label_occurs_prefix _ q E).
Qed.

(** A pattern that begins with a label finds nothing in a text without
    one. *)
Lemma search_label_none (label : str) (r : re) : forall s prev,
  (forall t, starts_ci label t = true -> label_starts t = true) ->
  label_occurs s = false ->
  search_from (Seq (lit_ci label) r) prev s = None.
Proof.
  intros s prev L. revert prev.
  induction s as [|c s IH]; intros prev E; cbn [search_from]; unfold match_at;
    cbn [rmatch].
  - rewrite lit_ci_fails; [reflexivity|].
    apply not_true_is_false. intros T. apply L in T. rewrite label_starts_nil in T.
    discriminate.
  - cbn [label_occurs] in E. apply orb_false_iff in E. destruct E as [S E].
    rewrite lit_ci_fails; [exact (IH (Some c) E)|].
    apply not_true_is_false. intros T. apply L in T. congruence.
Qed.


Lemma field_label_none (label : str) (r : re) (block : str) :
  In label delimiter_labels ->
  label_occurs block = false ->
  search_group1 (Seq (lit_ci label) r) block = None.
Proof.
  intros I E. unfold search_group1, search.
  rewrite (search_label_none label r block None); [reflexivity| |exact E].
  intros t T. unfold label_starts. apply existsb_exists. exists label. tauto.
Qed.

Lemma blocks_free (full_text : str) :
  Forall (fun block => label_occurs block = false) (html_account_blocks full_text).
Proof.
  unfold html_account_blocks. apply split_scan_free; [reflexivity|].
  intros n L. cbn in L. lia.
Qed.

(** The accounts of blocks without a label have no opening date, no
    account type and no member name. *)
Lemma accounts_unlabelled (account_blocks : list str) : forall i,
  Forall (fun block => label_occurs block = false) account_blocks ->
  Forall (fun a => date_opened a = None /\ account_type a = None /\
                   member_name a = None)
         (html_accounts_loop account_blocks i).
Proof.
  induction account_blocks as [|block rest IH]; intros i F; cbn [html_accounts_loop];
    [constructor|].
  inversion F as [|? ? E F']; subst.
  destruct (negb (Py.truthy (Py.strip block)) || _); [exact (IH _ F')|].
  constructor; [|exact (IH _ F')].
  apply label_occurs_strip in E.
  unfold html_account_of_block. cbn [date_opened account_type member_name].
  unfold HTML_DATE_OPENED, html_labelled. cbn [seqs fold_right].
  change (lit_ci (Py.lit "DATE Opened")) with (lit_ci (Py.lit "DATE OPENED")).
  rewrite !field_label_none by (exact E || (cbn; tauto)).
  tauto.
Qed.

End SplitFacts.

(** X18. The split of the account section consumes the labels MEMBER NAME,
    ACCOUNT TYPE and DATE OPENED, in any letter case, so no block holds one
    of them and the field patterns that begin with these labels never
    match: every account of the HTML path has no opening date, no account
    type and no member name, and the unified accounts carry N/A there. *)
Theorem html_split_consumes_labels (full_text : str) :
  let account_blocks := html_account_blocks full_text in
  Forall (fun block => label_occurs block = false) account_blocks /\
  Forall (fun a => date_opened a = None /\ account_type a = None /\
                   member_name a = None)
         (_extract_accounts_from_html account_blocks) /\
  Forall (fun u => u_date_opened u = Some NA /\ u_account_type u = Some NA /\
                   u_member_name u = Some NA)
         (html_accounts_list account_blocks).
Proof.
  intros account_blocks.
  pose proof (SplitFacts.blocks_free full_text) as F. fold account_blocks in F.
  pose proof (SplitFacts.accounts_unlabelled account_blocks 0 F) as A.
  split; [exact F|]. split; [exact A|].
  unfold html_accounts_list, _convert_html_accounts_to_unified.
  fold (_extract_accounts_from_html account_blocks) in A.
  revert A. generalize (_extract_accounts_from_html account_blocks).
  generalize 1%nat. intros idx accounts. revert idx.
  induction accounts as [|acc rest IH]; intros idx A; cbn [convert_html_loop];
    [constructor|].
  inversion A as [|? ? (O & T & M) A']; subst.
  constructor; [|exact (IH _ A')].
  cbn [u_date_opened u_account_type u_member_name]. rewrite O, T, M.
  repeat split.
Qed.

Module ReportDateFacts.
Import Re ReSem ReFacts PyFacts TokenFacts DateFacts StrptimeFacts.

Lemma orelse_none_r {A} (x : option A) : orelse x None = x.
Proof. destruct x; reflexivity. Qed.

Lemma some_inj {A} (x y : A) : Some x = Some y -> x = y.
Proof. intros E. congruence. Qed.

(** A class without digits, on the ten digits. *)
Ltac digit_free P :=
  pose proof (P 48 eq_refl); pose proof (P 49 eq_refl); pose proof (P 50 eq_refl);
  pose proof (P 51 eq_refl); pose proof (P 52 eq_refl); pose proof (P 53 eq_refl);
  pose proof (P 54 eq_refl); pose proof (P 55 eq_refl); pose proof (P 56 eq_refl);
  pose proof (P 57 eq_refl).

Ltac field_then p y :=
  cbn -[consumed orelse];
  rewrite ?(consumed_app _ _ [_; _]) by reflexivity;
  rewrite ?(consumed_app _ _ [_]) by reflexivity;
  repeat match goal with
         | H : p _ = false |- _ => rewrite !H
         end;
  cbn -[consumed orelse];
  destruct (p y); cbn [orelse]; rewrite ?orelse_none_r; reflexivity.

(** The day of a format, followed by a character that is no digit: two
    digits are read as a day from 1 to 31, and only before that
    character. *)
Lemma day_then (p : char -> bool) (n : Z) r k prev y rest caps :
  (0 <= n <= 99)%Z ->
  (forall c, Py.is_digit c = true -> p c = false) ->
  rmatch (Seq STRP_d (Seq (Chr p) r)) k (MState prev (pad2 n ++ y :: rest) caps)
  = if p y && (1 <=? n)%Z && (n <=? 31)%Z
    then rmatch r k (MState (Some y) rest ((1%nat, pad2 n) :: caps)) else None.
Proof.
  intros B P. digit_free P. unfold STRP_d.
  enum_Z n 7%nat; norm_pad; field_then p y.
Qed.

Lemma month_then (p : char -> bool) (n : Z) r k prev y rest caps :
  (0 <= n <= 99)%Z ->
  (forall c, Py.is_digit c = true -> p c = false) ->
  rmatch (Seq STRP_m (Seq (Chr p) r)) k (MState prev (pad2 n ++ y :: rest) caps)
  = if p y && (1 <=? n)%Z && (n <=? 12)%Z
    then rmatch r k (MState (Some y) rest ((2%nat, pad2 n) :: caps)) else None.
Proof.
  intros B P. digit_free P. unfold STRP_m.
  enum_Z n 7%nat; norm_pad; field_then p y.
Qed.


(** A match adds captures of the groups of the pattern, before the ones it
    found. *)
Lemma matches_new_caps r st w out :
  matches r st w out ->
  exists new, m_caps out = new ++ m_caps st /\
              Forall (fun c => In (fst c) (group_ids r)) new.
Proof.
  induction 1; cbn [group_ids m_caps]; try (exists []; split; [reflexivity|constructor]).
  - destruct IHmatches1 as (n1 & E1 & F1), IHmatches2 as (n2 & E2 & F2).
    exists (n2 ++ n1). rewrite E2, E1, app_assoc. split; [reflexivity|].
    apply Forall_app. split; eapply Forall_impl; try eassumption;
      intros c I; apply in_or_app; tauto.
  - destruct IHmatches as (n & E & F). exists n. split; [exact E|].
    eapply Forall_impl; [|exact F]. intros c I. apply in_or_app. tauto.
  - destruct IHmatches as (n & E & F). exists n. split; [exact E|].
    eapply Forall_impl; [|exact F]. intros c I. apply in_or_app. tauto.
  - destruct IHmatches as (n & E & F). exists ((i, w) :: n). rewrite E.
    split; [reflexivity|]. constructor; [left; reflexivity|].
    eapply Forall_impl; [|exact F]. intros c I. right. exact I.
Qed.

Lemma cap_lookup_new (i : nat) (new caps : list (nat * str)) :
  Forall (fun c => fst c <> i) new ->
  cap_lookup i (new ++ caps) = cap_lookup i caps.
Proof.
  induction 1 as [|[j w] new N F IH]; [reflexivity|]. cbn [app cap_lookup].
  cbn [fst] in N. destruct (Nat.eqb_spec i j); [congruence|exact IH].
Qed.

Lemma valid_at_midnight (dt : datetime) :
  valid_datetime dt = true -> valid_datetime (at_midnight dt) = true.
Proof.
  intros V. apply valid_datetime_bounds in V. unfold valid_datetime, at_midnight.
  cbn [dt_year dt_month dt_day dt_hour dt_minute dt_second].
  rewrite !andb_true_iff, !Z.leb_le. lia.
Qed.

Lemma no_digit_class (x : char) :
  Py.is_digit x = false -> forall c, Py.is_digit c = true -> one x c = false.
Proof.
  intros X c D. unfold one. apply N.eqb_neq. intros ->. congruence.
Qed.

(** What a format that begins with day, month and year reads from a text
    that begins with two digits, a separator, two digits, the separator and
    four digits: the date of these digits, if it reads anything. *)
Lemma date_first_sound (x sep : char) (tail : list re) (d m : Z) (a b c e : char)
    (rest : str) (dt : datetime) :
  Py.is_digit x = false ->
  Forall (fun i => (4 <= i)%nat) (group_ids (seqs tail)) ->
  (0 <= d <= 99)%Z -> (0 <= m <= 99)%Z ->
  forallb Py.is_digit [a; b; c; e] = true ->
  strptime (pad2 d ++ sep :: pad2 m ++ sep :: a :: b :: c :: e :: rest)
           (seqs ([STRP_d; Chr (one x); STRP_m; Chr (one x); STRP_Y] ++ tail))
  = Some dt ->
  exists y, Py.int [a; b; c; e] = Some y /\
            at_midnight dt = Datetime y m d 0 0 0 /\
            valid_datetime (Datetime y m d 0 0 0) = true.
Proof.
  intros X G Bd Bm Dy. pose proof (no_digit_class x X) as P.
  unfold strptime, match_, match_at. cbn [app seqs fold_right].
  rewrite (day_then (one x)) by assumption.
  destruct (one x sep && (1 <=? d)%Z && (d <=? 31)%Z); [|discriminate].
  rewrite (month_then (one x)) by assumption.
  destruct (one x sep && (1 <=? m)%Z && (m <=? 12)%Z); [|discriminate].
  rewrite seq_step, year_step by exact Dy.
  fold (seqs tail).
  destruct (rmatch (seqs tail) Some _) as [out|] eqn:T; [|discriminate].
  destruct (rmatch_sound _ _ _ _ T) as (w & mid & M & E). injection E as <-.
  destruct (matches_new_caps _ _ _ _ M) as (new & C & N). cbn [m_caps] in C.
  destruct (negb _); [discriminate|].
  unfold strp_field, group. cbn [mt_caps]. rewrite C.
  assert (L : forall i, (i < 4)%nat ->
                        cap_lookup i (new ++ [(3%nat, [a; b; c; e]); (2%nat, pad2 m);
                                              (1%nat, pad2 d)])
                        = cap_lookup i [(3%nat, [a; b; c; e]); (2%nat, pad2 m);
                                        (1%nat, pad2 d)]).
  { intros i I. apply cap_lookup_new. rewrite Forall_forall in *.
    intros cp H E'. specialize (G _ (N _ H)). lia. }
  rewrite !L by lia. cbn [cap_lookup Nat.eqb].
  rewrite (four_digits_int _ _ _ _ Dy), !pad2_int by assumption.
  destruct (match cap_lookup 4 _ with Some g => _ | None => _ end) as [H|]; [|discriminate].
  destruct (match cap_lookup 5 _ with Some g => _ | None => _ end) as [M'|]; [|discriminate].
  destruct (match cap_lookup 6 _ with Some g => _ | None => _ end) as [S|]; [|discriminate].
  cbv zeta. destruct (valid_datetime _) eqn:V; [|discriminate].
  intros E. injection E as <-. eexists. split; [reflexivity|].
  split; [reflexivity|]. exact (valid_at_midnight _ V).
Qed.


(** A format of day, month and year reads a possible date that is spelled
    with its separator. *)
Lemma date_only_complete (x : char) (d m y : Z) (a b c e : char) :
  Py.is_digit x = false ->
  (0 <= d <= 99)%Z -> (0 <= m <= 99)%Z ->
  forallb Py.is_digit [a; b; c; e] = true ->
  Py.int [a; b; c; e] = Some y ->
  valid_datetime (Datetime y m d 0 0 0) = true ->
  strptime (pad2 d ++ x :: pad2 m ++ x :: [a; b; c; e])
           (seqs [STRP_d; Chr (one x); STRP_m; Chr (one x); STRP_Y])
  = Some (Datetime y m d 0 0 0).
Proof.
  intros X Bd Bm Dy Iy V. pose proof (no_digit_class x X) as P.
  pose proof (four_digits_int _ _ _ _ Dy) as Iy'. rewrite Iy' in Iy.
  apply some_inj in Iy.
  pose proof (valid_datetime_bounds _ V) as B.
  cbn [dt_year dt_month dt_day dt_hour dt_minute dt_second] in B.
  pose proof (days_in_month_bound y m) as B'.
  rewrite (strptime_full _ _ (Some e)
             [(3%nat, [a; b; c; e]); (2%nat, pad2 m); (1%nat, pad2 d)]).
  - unfold strp_field, group. cbn [mt_caps cap_lookup Nat.eqb].
    rewrite Iy', Iy, !pad2_int by assumption. cbv zeta. rewrite V. reflexivity.
  - cbn [seqs fold_right].
    rewrite (day_then (one x)) by assumption.
    unfold one at 1. rewrite N.eqb_refl.
    replace ((1 <=? d)%Z) with true by (symmetry; apply Z.leb_le; lia).
    replace ((d <=? 31)%Z) with true by (symmetry; apply Z.leb_le; lia).
    cbn [andb].
    rewrite (month_then (one x)) by assumption.
    unfold one at 1. rewrite N.eqb_refl.
    replace ((1 <=? m)%Z) with true by (symmetry; apply Z.leb_le; lia).
    replace ((m <=? 12)%Z) with true by (symmetry; apply Z.leb_le; lia).
    cbn [andb].
    rewrite seq_step, year_step by exact Dy. reflexivity.
Qed.

(** A format that begins with the year reads no text that begins with two
    digits and a separator. *)
Lemma year_first_none (r : re) (d : Z) (sep : char) (rest : str) :
  (0 <= d <= 99)%Z -> Py.is_digit sep = false ->
  strptime (pad2 d ++ sep :: rest) (Seq STRP_Y r) = None.
Proof.
  intros Bd S. apply strptime_no_match.
  destruct (pad2_digits d Bd) as (a & b & -> & Da & Db & _).
  unfold STRP_Y, digits_n, seqs. cbn -[consumed]. rewrite Da, Db, S. reflexivity.
Qed.

(** Day and month before a separator of another format. *)
Lemma other_separator (x sep : char) (r : re) (d : Z) (rest : str) :
  (0 <= d <= 99)%Z -> Py.is_digit x = false -> one x sep = false ->
  strptime (pad2 d ++ sep :: rest) (Seq STRP_d (Seq (Chr (one x)) r)) = None.
Proof.
  intros Bd X S. apply strptime_no_match.
  rewrite (day_then (one x)) by (try apply no_digit_class; assumption).
  rewrite S. reflexivity.
Qed.

(** Two digits are the text of a number below 100. *)
Lemma digits_pad2 (a b : char) :
  Py.is_digit a = true -> Py.is_digit b = true ->
  exists n, (0 <= n <= 99)%Z /\ pad2 n = [a; b].
Proof.
  intros Da Db. exists (10 * Py.digit_val a + Py.digit_val b)%Z.
  each_digit Da; each_digit Db; (split; [vm_compute; split; discriminate|reflexivity]).
Qed.


(** The first pattern finds the ten characters of a date at the start of
    the text. *)
Lemma first_pattern_reads (d m : Z) (sep a b c e : char) (rest : str) :
  (0 <= d <= 99)%Z -> (0 <= m <= 99)%Z -> sep = 45 \/ sep = 47 ->
  forallb Py.is_digit [a; b; c; e] = true ->
  let date_part := pad2 d ++ sep :: pad2 m ++ sep :: [a; b; c; e] in
  search (nth 0 DATE_PATTERNS Eps)
         (pad2 d ++ sep :: pad2 m ++ sep :: a :: b :: c :: e :: rest)
  = Some (Match date_part [(1%nat, date_part)]).
Proof.
  intros Bd Bm S Dy.
  destruct (pad2_digits d Bd) as (d1 & d2 & -> & D1 & D2 & _).
  destruct (pad2_digits m Bm) as (m1 & m2 & -> & M1 & M2 & _).
  cbn [forallb] in Dy. rewrite !andb_true_iff in Dy.
  destruct Dy as (Da & Db & Dc & De & _).
  assert (Sep : slash_or_dash sep = true) by (destruct S as [-> | ->]; reflexivity).
  cbn [app nth DATE_PATTERNS]. unfold search. cbn [search_from]. unfold match_at.
  unfold digits_n, opt_g, seqs. cbn -[consumed orelse Py.is_digit slash_or_dash].
  rewrite D1, D2, Sep, M1, M2, Da, Db, Dc, De. cbn [orelse].
  rewrite (consumed_app _ _ [d1; d2; sep; m1; m2; sep; a; b; c; e]) by reflexivity.
  rewrite (consumed_app _ _ [d1; d2; sep; m1; m2; sep; a; b; c; e]) by reflexivity.
  reflexivity.
Qed.

Lemma replace_dash_digits (s : str) :
  forallb Py.is_digit s = true -> replace_dash s = s.
Proof.
  induction s as [|c s IH]; [reflexivity|]. cbn [forallb replace_dash map].
  intros E. apply andb_true_iff in E. destruct E as [D E].
  rewrite (PairingFacts.digit_not_dash c D). f_equal. exact (IH E).
Qed.

(** A match of the second pattern begins with four digits, and is no date
    of day, month and year. *)
Lemma second_pattern_dead (cleaned : str) (found : rmatch_obj) :
  search (nth 1 DATE_PATTERNS Eps) cleaned = Some found ->
  exists g, group 1 found = Some g /\
            strptime (replace_dash g)
                     (seqs [STRP_d; Chr (one 47); STRP_m; Chr (one 47); STRP_Y])
            = None.
Proof.
  intros S. unfold search in S.
  destruct (search_from_sound _ _ _ _ S) as (prev & s' & out & M & C).
  cbn [nth DATE_PATTERNS] in M. unfold digits_n, seqs in M.
  cbn [repeat fold_right] in M.
  inversion M as [| | | | | | | | |i r st w out' M']; subst. cbn [m_caps] in C.
  unfold group. rewrite C. cbn [cap_lookup Nat.eqb].
  eexists. split; [reflexivity|].
  inversion M' as [| |? ? ? w1 mid w2 ? M1 M2| | | | | | |]; subst.
  inv_matches. cbn [app replace_dash map].
  repeat match goal with
         | H : Py.is_digit ?c = true |- _ =>
             rewrite (PairingFacts.digit_not_dash c H)
         end.
  match goal with
  | Ha : Py.is_digit ?a = true, Hb : Py.is_digit ?b = true, Hc : Py.is_digit ?c = true
    |- strptime (?a :: ?b :: ?c :: ?t) _ = None =>
      destruct (digits_pad2 a b Ha Hb) as (n & Bn & En);
      change (a :: b :: c :: t) with ([a; b] ++ c :: t); rewrite <- En;
      apply strptime_no_match; cbn [seqs fold_right];
      rewrite (day_then (one 47)) by (try apply no_digit_class; trivial);
      rewrite (no_digit_class 47 eq_refl c Hc); reflexivity
  end.
Qed.


(** A part of a pattern without groups, before the rest. *)
Lemma prefix_caps (pre r : re) st w out :
  matches (Seq pre r) st w out -> no_groups pre = true ->
  exists st' w', matches r st' w' out /\ m_caps st' = m_caps st.
Proof.
  intros M G. inversion M as [| |? ? ? w1 mid w2 ? M1 M2| | | | | | |]; subst.
  exists mid, w2. split; [exact M2|]. exact (ScoreFacts.caps_preserved _ _ _ _ M1 G).
Qed.

Lemma group_caps (i : nat) (body : re) st w out :
  matches (Grp i body) st w out -> no_groups body = true ->
  exists mid, matches body st w mid /\ m_caps out = (i, w) :: m_caps st.
Proof.
  intros M G. inversion M as [| | | | | | | | |? ? ? ? mid M']; subst.
  exists mid. split; [exact M'|]. cbn [m_caps].
  rewrite (ScoreFacts.caps_preserved _ _ _ _ M' G). reflexivity.
Qed.

Ltac peel M :=
  repeat match type of M with
         | matches (Seq (Grp _ _) _) _ _ _ => fail 1
         | matches (Seq _ _) ?st _ _ =>
             let st' := fresh "st" in
             let w' := fresh "w" in
             let C := fresh "C" in
             apply prefix_caps in M; [|reflexivity];
             destruct M as (st' & w' & M & C);
             match goal with
             | C' : m_caps st = _ |- _ => rewrite C' in C; clear C'
             | _ => idtac
             end
         end.

(** What the pattern of a date matches: two digits, the separator, two
    digits, the separator, four digits. *)
Lemma date_digits_shape (sep : char) st w out :
  matches (seqs [digits_n 2; Chr (one sep); digits_n 2; Chr (one sep); digits_n 4])
          st w out ->
  exists d m a b c e,
    (0 <= d <= 99)%Z /\ (0 <= m <= 99)%Z /\
    forallb Py.is_digit [a; b; c; e] = true /\
    w = pad2 d ++ sep :: pad2 m ++ sep :: [a; b; c; e].
Proof.
  unfold digits_n, seqs. cbn [repeat fold_right]. intros M. inv_matches.
  repeat match goal with
         | H : one _ _ = true |- _ => apply N.eqb_eq in H; subst
         end.
  cbn [app].
  match goal with
  | |- exists d m a b c e, _ /\ _ /\ _ /\ ?d1 :: ?d2 :: _ :: ?m1 :: ?m2 :: _ = _ =>
      destruct (digits_pad2 d1 d2) as (d & Bd & Ed); [assumption..|];
      destruct (digits_pad2 m1 m2) as (m & Bm & Em); [assumption..|];
      exists d, m
  end.
  do 4 eexists. rewrite Ed, Em. cbn [app forallb].
  split; [exact Bd|]. split; [exact Bm|]. split; [|reflexivity].
  repeat match goal with H : Py.is_digit _ = true |- _ => rewrite H; clear H end.
  reflexivity.
Qed.

Lemma first_group_of (i : nat) (t w : str) :
  In i [1; 2; 3]%nat -> Py.truthy w = true ->
  first_truthy_group (Match t [(i, w)]) 1 3 = Some (Py.strip w).
Proof.
  intros I T. unfold first_truthy_group, group. cbn [mt_caps cap_lookup].
  destruct I as [<-|[<-|[<-|[]]]]; cbn [Nat.eqb]; rewrite T; reflexivity.
Qed.

(** The text of a date, and what may follow it, has nothing to strip. *)
Lemma date_text_strip (d m : Z) (sep a b c e : char) (rest : str) :
  (0 <= d <= 99)%Z -> Py.is_digit e = true ->
  rest = [] \/ (exists z t, rev rest = z :: t /\ Py.is_space z = false) ->
  let g := pad2 d ++ sep :: pad2 m ++ sep :: a :: b :: c :: e :: rest in
  Py.strip g = g /\ Py.truthy g = true.
Proof.
  intros Bd De R g. subst g.
  destruct (pad2_digits d Bd) as (d1 & d2 & -> & D1 & D2 & _).
  split; [|reflexivity]. cbn [app]. apply strip_fixed.
  - exists d1. eexists. split; [reflexivity|]. exact (digit_not_space _ D1).
  - destruct R as [->|(z & t & R & Z)].
    + exists e. eexists. split; [|exact (digit_not_space _ De)].
      change (d1 :: d2 :: sep :: pad2 m ++ sep :: [a; b; c; e])
        with ([d1; d2; sep] ++ pad2 m ++ [sep; a; b; c] ++ [e]).
      rewrite !app_assoc. rewrite rev_unit. reflexivity.
    + exists z. eexists. split; [|exact Z].
      change (d1 :: d2 :: sep :: pad2 m ++ sep :: a :: b :: c :: e :: rest)
        with ([d1; d2; sep] ++ pad2 m ++ [sep; a; b; c; e] ++ rest).
      rewrite !rev_app_distr, R. reflexivity.
Qed.

Lemma ends_app (w1 w2 : str) :
  (exists z t, rev w2 = z :: t /\ Py.is_space z = false) ->
  exists z t, rev (w1 ++ w2) = z :: t /\ Py.is_space z = false.
Proof.
  intros (z & t & R & Z). exists z, (t ++ rev w1).
  rewrite rev_app_distr, R. split; [reflexivity|exact Z].
Qed.

(** A comma and a clock end with a digit. *)
Lemma clock_end st w out :
  matches (seqs [Chr (one 44); StarG Py.is_space; digits_n 2; Chr (one 58); digits_n 2])
          st w out ->
  exists z t, rev w = z :: t /\ Py.is_space z = false.
Proof.
  unfold digits_n, seqs. cbn [repeat fold_right]. intros M.
  do 4 (let M1 := fresh "M" in
        let M2 := fresh "M" in
        inversion M as [| |? ? ? ? ? ? ? M1 M2| | | | | | |]; subst; clear M M1;
        rename M2 into M; apply ends_app).
  inv_matches. cbn [app rev].
  match goal with
  | H : Py.is_digit ?z = true |- exists _ _, [?z; _] = _ /\ _ =>
      exists z; eexists; split; [reflexivity|exact (digit_not_space _ H)]
  end.
Qed.

(** The report date of a document: a date in digits, with dashes or with
    slashes, then nothing or a comma and a clock. *)
Lemma report_date_shape (text g : str) :
  report_date text = Some g ->
  exists d m sep a b c e rest,
    (0 <= d <= 99)%Z /\ (0 <= m <= 99)%Z /\ (sep = 45 \/ sep = 47) /\
    forallb Py.is_digit [a; b; c; e] = true /\
    g = pad2 d ++ sep :: pad2 m ++ sep :: a :: b :: c :: e :: rest /\
    Py.strip g = g /\ Py.truthy g = true.
Proof.
  unfold report_date, _first_match, search.
  destruct (search_from _ _ _) as [[t caps]|] eqn:S; [|discriminate].
  destruct (search_from_sound _ _ _ _ S) as (prev & s' & out & M & C).
  cbn [mt_caps mt_text] in *. subst caps.
  assert (C0 : m_caps (MState prev s' []) = []) by reflexivity.
  revert M C0. generalize (MState prev s' []). intros st M C0.
  assert (G : exists i w d m sep a b c e rest,
             m_caps out = [(i, w)] /\ In i [1; 2; 3]%nat /\
             (0 <= d <= 99)%Z /\ (0 <= m <= 99)%Z /\ (sep = 45 \/ sep = 47) /\
             forallb Py.is_digit [a; b; c; e] = true /\
             w = pad2 d ++ sep :: pad2 m ++ sep :: a :: b :: c :: e :: rest /\
             (rest = [] \/ exists z t', rev rest = z :: t' /\ Py.is_space z = false)).
  { unfold REPORT_DATE_RE in M.
    inversion M as [| | |? ? ? ? ? M1|? ? ? ? ? M1| | | | |]; subst; clear M.
    - cbn [seqs fold_right] in M1. peel M1.
      inversion M1 as [| |? ? ? v1 mid v2 ? G E| | | | | | |]; subst.
      inversion E; subst.
      apply group_caps in G; [|reflexivity]. destruct G as (mid' & D & C').
      destruct (date_digits_shape 45 _ _ _ D)
        as (d & m & a & b & c & e & Bd & Bm & Dy & ->).
      exists 1%nat, (pad2 d ++ 45 :: pad2 m ++ 45 :: [a; b; c; e]), d, m, 45, a, b, c, e, [].
      rewrite C'. split; [f_equal; assumption|]. cbn [In]. tauto.
    - inversion M1 as [| | |? ? ? ? ? M2|? ? ? ? ? M2| | | | |]; subst; clear M1.
      + cbn [seqs fold_right] in M2. peel M2.
        inversion M2 as [| |? ? ? v1 mid v2 ? G E| | | | | | |]; subst.
        inversion E; subst.
        apply group_caps in G; [|reflexivity]. destruct G as (mid' & D & C').
        destruct (date_digits_shape 47 _ _ _ D)
          as (d & m & a & b & c & e & Bd & Bm & Dy & ->).
        exists 2%nat, (pad2 d ++ 47 :: pad2 m ++ 47 :: [a; b; c; e]), d, m, 47, a, b, c, e, [].
        rewrite C'. split; [f_equal; assumption|]. cbn [In]. tauto.
      + apply group_caps in M2; [|reflexivity]. destruct M2 as (mid' & D & C').
        cbn [seqs fold_right] in D.
        inversion D as [| |? ? ? v1 mid v2 ? D1 D2| | | | | | |]; subst.
        destruct (date_digits_shape 47 _ _ _ D1)
          as (d & m & a & b & c & e & Bd & Bm & Dy & ->).
        exists 3%nat, ((pad2 d ++ 47 :: pad2 m ++ 47 :: [a; b; c; e]) ++ v2),
          d, m, 47, a, b, c, e, v2.
        rewrite C', C0. split; [reflexivity|]. split; [cbn [In]; tauto|].
        split; [exact Bd|]. split; [exact Bm|]. split; [tauto|]. split; [exact Dy|].
        split; [rewrite <- app_assoc; cbn [app]; rewrite <- app_assoc; reflexivity|].
        right.
        exact (clock_end _ _ _ D2). }
  destruct G as (i & w & d & m & sep & a & b & c & e & rest & Cw & I & Bd & Bm & Sp & Dy & W & R).
  rewrite Cw.
  assert (De : Py.is_digit e = true).
  { cbn [forallb] in Dy. rewrite !andb_true_iff in Dy. tauto. }
  destruct (date_text_strip d m sep a b c e rest Bd De R) as (St & Tr).
  subst w. intros E.
  pose proof (eq_trans (eq_sym (first_group_of i t _ I Tr)) E) as E'.
  injection E' as <-.
  exists d, m, sep, a, b, c, e, rest. rewrite St.
  split; [exact Bd|]. split; [exact Bm|]. split; [exact Sp|]. split; [exact Dy|].
  split; [reflexivity|]. split; [exact St|exact Tr].
Qed.

Section Shaped.

Variables (d m : Z) (sep a b c e : char) (rest : str).
Hypothesis Bd : (0 <= d <= 99)%Z.
Hypothesis Bm : (0 <= m <= 99)%Z.
Hypothesis Sp : sep = 45 \/ sep = 47.
Hypothesis Dy : forallb Py.is_digit [a; b; c; e] = true.

Local Abbreviation shaped := (pad2 d ++ sep :: pad2 m ++ sep :: a :: b :: c :: e :: rest).

Lemma separator_no_digit : Py.is_digit sep = false.
Proof. destruct Sp as [-> | ->]; reflexivity. Qed.

(** Whatever format reads the text reads the date of its first ten
    characters. *)
Lemma formats_sound (dt : datetime) :
  report_formats_loop DATE_FORMATS shaped = Some dt ->
  exists y, Py.int [a; b; c; e] = Some y /\
            at_midnight dt = Datetime y m d 0 0 0 /\
            valid_datetime (Datetime y m d 0 0 0) = true.
Proof.
  pose proof separator_no_digit as S.
  cbn [report_formats_loop DATE_FORMATS].
  match goal with
  | |- context [strptime ?t ?f] => destruct (strptime t f) eqn:E1
  end.
  { intros E. injection E as <-.
    refine (date_first_sound 47 sep
              [Chr (one 44); plus_g Py.is_space; STRP_H; Chr (one 58); STRP_M]
              d m a b c e rest _ eq_refl _ Bd Bm Dy E1).
    cbn. repeat constructor. }
  clear E1. match goal with
  | |- context [strptime ?t ?f] => destruct (strptime t f) eqn:E2
  end.
  { intros E. injection E as <-.
    refine (date_first_sound 47 sep [] d m a b c e rest _ eq_refl _ Bd Bm Dy E2).
    constructor. }
  clear E2. match goal with
  | |- context [strptime ?t ?f] => destruct (strptime t f) eqn:E3
  end.
  { intros E. injection E as <-.
    refine (date_first_sound 45 sep [] d m a b c e rest _ eq_refl _ Bd Bm Dy E3).
    constructor. }
  clear E3. cbn [seqs fold_right].
  rewrite !(year_first_none _ d sep _ Bd S).
  match goal with
  | |- context [strptime ?t ?f] => destruct (strptime t f) eqn:E6
  end; [|discriminate].
  intros E. injection E as <-.
  refine (date_first_sound 46 sep [] d m a b c e rest _ eq_refl _ Bd Bm Dy E6).
  constructor.
Qed.

Lemma replace_dash_date :
  replace_dash (pad2 d ++ sep :: pad2 m ++ sep :: [a; b; c; e])
  = pad2 d ++ 47 :: pad2 m ++ 47 :: [a; b; c; e].
Proof.
  destruct (pad2_digits d Bd) as (d1 & d2 & -> & D1 & D2 & _).
  destruct (pad2_digits m Bm) as (m1 & m2 & -> & M1 & M2 & _).
  cbn [forallb] in Dy. rewrite !andb_true_iff in Dy.
  destruct Dy as (Da & Db & Dc & De & _).
  cbn [app replace_dash map].
  repeat match goal with
         | H : Py.is_digit ?x = true |- _ =>
             rewrite (PairingFacts.digit_not_dash x H); clear H
         end.
  destruct Sp as [-> | ->]; reflexivity.
Qed.

(** The patterns find the first ten characters, and nothing else. *)
Lemma patterns_exact :
  report_patterns_loop DATE_PATTERNS shaped
  = strptime (pad2 d ++ 47 :: pad2 m ++ 47 :: [a; b; c; e])
             (seqs [STRP_d; Chr (one 47); STRP_m; Chr (one 47); STRP_Y]).
Proof.
  pose proof (first_pattern_reads d m sep a b c e rest Bd Bm Sp Dy) as F.
  cbv zeta in F. cbn [nth DATE_PATTERNS] in F.
  cbn [report_patterns_loop DATE_PATTERNS].
  rewrite F. clear F.
  unfold group at 1. cbn [mt_caps cap_lookup Nat.eqb].
  cbv zeta. rewrite replace_dash_date.
  destruct (strptime _ _); [reflexivity|].
  match goal with
  | |- context [search ?r ?t] => destruct (search r t) as [found|] eqn:S2
  end; [|reflexivity].
  destruct (second_pattern_dead _ _ S2) as (g & -> & ->). reflexivity.
Qed.

End Shaped.

Lemma formats_loop_valid (cleaned : str) : forall formats dt,
  report_formats_loop formats cleaned = Some dt -> valid_datetime dt = true.
Proof.
  induction formats as [|fmt formats IH]; intros dt; cbn [report_formats_loop];
    [discriminate|].
  destruct (strptime cleaned fmt) as [dt'|] eqn:E; [|apply IH].
  intros E'. injection E' as <-. exact (strptime_valid _ _ _ E).
Qed.

Lemma patterns_loop_valid (cleaned : str) : forall patterns dt,
  report_patterns_loop patterns cleaned = Some dt -> valid_datetime dt = true.
Proof.
  induction patterns as [|p patterns IH]; intros dt; cbn [report_patterns_loop];
    [discriminate|].
  destruct (search p cleaned) as [found|]; [|apply IH].
  destruct (group 1 found) as [g|]; [|apply IH].
  cbv zeta. destruct (strptime _ _) as [dt'|] eqn:E; [|apply IH].
  intros E'. injection E' as <-. exact (strptime_valid _ _ _ E).
Qed.

(** Every path ends in the stamp of a date, which is a date of the
    calendar when today's is. *)
Lemma parse_is_stamp (year_text : Z -> str) (now : datetime) (s : option str) :
  exists dt, _parse_report_date year_text now s = report_stamp year_text dt /\
             (valid_datetime now = true -> valid_datetime dt = true).
Proof.
  unfold _parse_report_date. destruct s as [s|]; [|exists now; tauto].
  destruct (negb (Py.truthy s) || _); [exists now; tauto|]. cbv zeta.
  destruct (report_formats_loop _ _) as [dt|] eqn:F.
  { exists dt. split; [reflexivity|]. intros _. exact (formats_loop_valid _ _ _ F). }
  destruct (report_patterns_loop _ _) as [dt|] eqn:P; [|exists now; tauto].
  exists dt. split; [reflexivity|]. intros _. exact (patterns_loop_valid _ _ _ P).
Qed.

End ReportDateFacts.

(** X19. The report date, from the document to the record, for a document
    text of ASCII characters.  Whatever text the report date pattern of the
    extractor captures, the processor reads the date from its first ten
    characters, two digits of the day, two of the month and four of the year:
    if they are a date of the calendar, the record gets that date at
    midnight, and the clock after the date, if any, is dropped; if not, the
    record gets today's date. *)
Theorem report_date_parsed (year_text : Z -> str) (now : datetime) (text g : str) :
  Forall (fun c => c < 128) text ->
  report_date text = Some g ->
  exists d m y,
    Py.int (firstn 2 g) = Some d /\
    Py.int (firstn 2 (skipn 3 g)) = Some m /\
    Py.int (firstn 4 (skipn 6 g)) = Some y /\
    _parse_report_date year_text now (Some g)
    = report_stamp year_text
        (if valid_datetime (Datetime y m d 0 0 0) then Datetime y m d 0 0 0 else now).
Proof.
  intros _ R.
  destruct (ReportDateFacts.report_date_shape text g R)
    as (d & m & sep & a & b & c & e & rest & Bd & Bm & Sp & Dy & -> & St & Tr).
  pose proof (DateFacts.four_digits_int _ _ _ _ Dy) as Iy.
  exists d, m. eexists.
  assert (Fd : forall n t, (0 <= n <= 99)%Z ->
               firstn 2 (pad2 n ++ t) = pad2 n /\ skipn 3 (pad2 n ++ sep :: t) = t).
  { intros n t Bn. destruct (DateFacts.pad2_digits n Bn) as (n1 & n2 & -> & _).
    split; reflexivity. }
  assert (Fy : skipn 6 (pad2 d ++ sep :: pad2 m ++ sep :: a :: b :: c :: e :: rest)
               = a :: b :: c :: e :: rest).
  { destruct (DateFacts.pad2_digits d Bd) as (d1 & d2 & -> & _).
    destruct (DateFacts.pad2_digits m Bm) as (m1 & m2 & -> & _). reflexivity. }
  split; [|split; [|split; [rewrite Fy; exact Iy|]]].
  - rewrite (proj1 (Fd d _ Bd)). exact (StrptimeFacts.pad2_int d Bd).
  - rewrite (proj2 (Fd d _ Bd)), (proj1 (Fd m _ Bm)).
    exact (StrptimeFacts.pad2_int m Bm).
  - unfold _parse_report_date. rewrite Tr, St, Tr. cbn [negb orb]. cbv zeta.
    destruct (report_formats_loop _ _) as [dt|] eqn:F.
    + destruct (ReportDateFacts.formats_sound d m sep a b c e rest Bd Bm Sp Dy dt F)
        as (y & Iy' & Mid & V).
      pose proof (ReportDateFacts.some_inj _ _ (eq_trans (eq_sym Iy') Iy)) as ->.
      rewrite V.
      unfold report_stamp. rewrite Mid. reflexivity.
    + pose proof (ReportDateFacts.patterns_exact d m sep a b c e rest Bd Bm Sp Dy) as P.
      pose proof (ReportDateFacts.date_only_complete 47 d m _ a b c e eq_refl
                    Bd Bm Dy Iy) as Complete.
      pose proof (fun dt => ReportDateFacts.date_first_sound 47 47 [] d m a b c e [] dt
                              eq_refl (Forall_nil _) Bd Bm Dy) as Sound.
      unfold Py.str, Py.char in *. rewrite P.
      destruct (valid_datetime (Datetime _ m d 0 0 0)) eqn:V.
      * rewrite (Complete eq_refl). reflexivity.
      * destruct (strptime _ _) as [dt|] eqn:E; [|reflexivity].
        destruct (Sound dt eq_refl) as (y & Iy' & _ & V').
        pose proof (ReportDateFacts.some_inj _ _ (eq_trans (eq_sym Iy') Iy)) as ->.
        congruence.
Qed.

Lemma report_date_parsed_witness :
  Forall (fun c => c < 128) (Py.lit "DATE: 15-08-2023") /\
  report_date (Py.lit "DATE: 15-08-2023") = Some (Py.lit "15-08-2023") /\
  exists d m y,
    Py.int (firstn 2 (Py.lit "15-08-2023")) = Some d /\
    Py.int (firstn 2 (skipn 3 (Py.lit "15-08-2023"))) = Some m /\
    Py.int (firstn 4 (skipn 6 (Py.lit "15-08-2023"))) = Some y /\
    _parse_report_date year_text_glibc (Datetime 2026 1 2 3 4 5)
      (Some (Py.lit "15-08-2023"))
    = report_stamp year_text_glibc
        (if valid_datetime (Datetime y m d 0 0 0) then Datetime y m d 0 0 0
         else Datetime 2026 1 2 3 4 5).
Proof.
  assert (A : Forall (fun c => c < 128) (Py.lit "DATE: 15-08-2023")).
  { repeat (constructor; [reflexivity|]). constructor. }
  split; [exact A|]. split; [vm_compute; reflexivity|].
  apply (report_date_parsed year_text_glibc (Datetime 2026 1 2 3 4 5)
           (Py.lit "DATE: 15-08-2023")); [exact A|].
  vm_compute. reflexivity.
Defined.

(** X20. The fallbacks of [_parse_report_date].  A match of the second
    pattern, year first, begins with four digits, and the format of day,
    month and year never reads it: the loop over the patterns does what the
    first pattern does alone.  On every path the result is a date at
    midnight with its stamp, and a date of the calendar when today's is. *)
Theorem report_date_fallbacks (year_text : Z -> str) (now : datetime)
    (report_date_str : option str) :
  let result := _parse_report_date year_text now report_date_str in
  (forall cleaned found,
     search (nth 1 DATE_PATTERNS Eps) cleaned = Some found ->
     exists g, group 1 found = Some g /\
               strptime (replace_dash g)
                        (seqs [STRP_d; Chr (one 47); STRP_m; Chr (one 47); STRP_Y])
               = None) /\
  (forall cleaned,
     report_patterns_loop DATE_PATTERNS cleaned
     = report_patterns_loop (firstn 1 DATE_PATTERNS) cleaned) /\
  at_midnight (snd result) = snd result /\
  fst result = strftime_Ymd year_text (snd result) ++ Py.lit " 00:00:00" /\
  (valid_datetime now = true -> valid_datetime (snd result) = true).
Proof.
  intros result.
  split; [exact ReportDateFacts.second_pattern_dead|]. split.
  - intros cleaned. cbn [report_patterns_loop DATE_PATTERNS firstn].
    destruct (search _ cleaned) as [found|].
    + destruct (group 1 found) as [g|].
      * cbv zeta. destruct (strptime _ _); [reflexivity|].
        destruct (search _ cleaned) as [found'|] eqn:S; [|reflexivity].
        destruct (ReportDateFacts.second_pattern_dead _ _ S) as (g' & -> & ->).
        reflexivity.
      * destruct (search _ cleaned) as [found'|] eqn:S; [|reflexivity].
        destruct (ReportDateFacts.second_pattern_dead _ _ S) as (g' & -> & ->).
        reflexivity.
    + destruct (search _ cleaned) as [found'|] eqn:S; [|reflexivity].
      destruct (ReportDateFacts.second_pattern_dead _ _ S) as (g' & -> & ->).
      reflexivity.
  - destruct (ReportDateFacts.parse_is_stamp year_text now report_date_str)
      as (dt & E & V).
    subst result. rewrite E. unfold report_stamp. cbn [fst snd].
    split; [reflexivity|]. split; [reflexivity|].
    intros Vn. exact (ReportDateFacts.valid_at_midnight _ (V Vn)).
Qed.
